(** * DBT source methods of the ingestion framework: a shallow embedding

    The development embeds [metadata/ingestion/source/database/dbt_source.py]
    (class [DBTMixin]).  The manifest, the catalog and the run results are
    decoded JSON documents, so they are modelled as values of a JSON type
    with Python's operations on them ([v[k]], [v.get(k, d)], [k in v],
    iteration, truthiness), every one of which may raise.  Methods of the
    mixin are computations in a state-and-exception monad over the object
    ([self]), the module logger, the requests a generator has yielded, and
    the calls made to the metadata client.

    What the runtime knows of Unicode is a parameter of the development
    (class [Unicode]): [str.lower], and the decimal digits of other scripts
    that [\d] matches besides [0] to [9].

    The file has three parts: the embedding of the source, with a small
    metadata server to run it on; the notions the statements use; the
    properties and their proofs. *)

From Stdlib Require Import List String Ascii ZArith Bool Lia.
From Stdlib Require Import SpecFloat.
Import ListNotations.
Local Open Scope string_scope.
Local Open Scope Z_scope.

(** ** Python values decoded from JSON *)

#[local] Set Warnings "-register-all".

Inductive json : Type :=
| JNull
| JBool (b : bool)
| JInt (z : Z)
| JFloat (f : spec_float)
| JStr (s : string)
| JList (l : list json)
| JDict (d : list (string * json)).

(** The exceptions the code can meet.  Every handler of the source is
    [except Exception], so the constructor never decides a branch. *)
Inductive exn : Type :=
| KeyError (k : json)
| IndexError
| TypeError
| AttributeError
| ValueError
| OverflowError
| ValidationError
| ClientError (what : string).

Inductive result (A : Type) : Type :=
| Ok (a : A)
| Raise (e : exn).
Arguments Ok {A} a.
Arguments Raise {A} e.

Definition rbind {A B} (r : result A) (f : A -> result B) : result B :=
  match r with
  | Ok a => f a
  | Raise e => Raise e
  end.

(** ** Dictionaries

    A Python dict keeps its keys in insertion order and holds each key
    once: an association list that [dict_set] updates in place when the
    key is there and extends at the end when it is not. *)
Section Dict.
Context {K V : Type} (eqb : K -> K -> bool).

Fixpoint dict_get (d : list (K * V)) (k : K) : option V :=
  match d with
  | [] => None
  | (k', v) :: d' => if eqb k' k then Some v else dict_get d' k
  end.

Fixpoint dict_set (d : list (K * V)) (k : K) (v : V) : list (K * V) :=
  match d with
  | [] => [(k, v)]
  | (k', v') :: d' =>
      if eqb k' k then (k', v) :: d' else (k', v') :: dict_set d' k v
  end.

(** [d.update(d')], the effect of unpacking [**d'] into a dict display. *)
Definition dict_update (d d' : list (K * V)) : list (K * V) :=
  fold_left (fun acc kv => dict_set acc (fst kv) (snd kv)) d' d.

Definition dict_mem (d : list (K * V)) (k : K) : bool :=
  match dict_get d k with
  | Some _ => true
  | None => false
  end.

(** How many entries a list of pairs holds under key [k]. *)
Definition count_key (d : list (K * V)) (k : K) : nat :=
  List.length (filter (fun kv => eqb (fst kv) k) d).

End Dict.

(** [{**a, **b}] *)
Definition dict_display2 (a b : list (string * json)) : list (string * json) :=
  dict_update String.eqb (dict_update String.eqb [] a) b.

Definition fqn_eqb (a b : option string) : bool :=
  match a, b with
  | Some x, Some y => String.eqb x y
  | None, None => true
  | _, _ => false
  end.

(** ** Python operations on JSON values *)

Definition SFis_zero (f : spec_float) : bool :=
  match f with
  | S754_zero _ => true
  | _ => false
  end.

(** [bool(v)] *)
Definition py_truthy (v : json) : bool :=
  match v with
  | JNull => false
  | JBool b => b
  | JInt z => negb (z =? 0)
  | JFloat f => negb (SFis_zero f)
  | JStr s => negb (String.eqb s "")
  | JList l => match l with [] => false | _ => true end
  | JDict d => match d with [] => false | _ => true end
  end.

Definition is_None (v : json) : bool :=
  match v with
  | JNull => true
  | _ => false
  end.

(** [v == s] for a string literal [s] *)
Definition py_eq_str (v : json) (s : string) : bool :=
  match v with
  | JStr s' => String.eqb s' s
  | _ => false
  end.

(** Index normalisation of a sequence of length [n]: negative indices
    count from the end. *)
Definition seq_index (n : nat) (i : Z) : option nat :=
  let i' := if i <? 0 then i + Z.of_nat n else i in
  if (0 <=? i') && (i' <? Z.of_nat n) then Some (Z.to_nat i') else None.

Definition py_as_index (k : json) : option Z :=
  match k with
  | JInt i => Some i
  | JBool b => Some (if b then 1 else 0)
  | _ => None
  end.

(** [v[k]] *)
Definition py_subscript (v k : json) : result json :=
  match v with
  | JDict d =>
      match k with
      | JStr s =>
          match dict_get String.eqb d s with
          | Some x => Ok x
          | None => Raise (KeyError k)
          end
      | JList _ | JDict _ => Raise TypeError
      | _ => Raise (KeyError k)
      end
  | JList l =>
      match py_as_index k with
      | Some i =>
          match seq_index (List.length l) i with
          | Some n =>
              match nth_error l n with
              | Some x => Ok x
              | None => Raise IndexError
              end
          | None => Raise IndexError
          end
      | None => Raise TypeError
      end
  | JStr s =>
      match py_as_index k with
      | Some i =>
          match seq_index (String.length s) i with
          | Some n =>
              match String.get n s with
              | Some c => Ok (JStr (String c EmptyString))
              | None => Raise IndexError
              end
          | None => Raise IndexError
          end
      | None => Raise TypeError
      end
  | _ => Raise TypeError
  end.

(** [v.get(k, default)] *)
Definition py_get (v : json) (k : string) (default : json) : result json :=
  match v with
  | JDict d =>
      match dict_get String.eqb d k with
      | Some x => Ok x
      | None => Ok default
      end
  | _ => Raise AttributeError
  end.

(** [k in v.keys()] *)
Definition py_keys_contains (v : json) (k : string) : result bool :=
  match v with
  | JDict d => Ok (dict_mem String.eqb d k)
  | _ => Raise AttributeError
  end.

Fixpoint is_substring (needle hay : string) : bool :=
  if String.prefix needle hay then true
  else match hay with
       | EmptyString => false
       | String _ hay' => is_substring needle hay'
       end.

(** [k in v] for a string [k] *)
Definition py_contains (k : string) (v : json) : result bool :=
  match v with
  | JDict d => Ok (dict_mem String.eqb d k)
  | JList l => Ok (existsb (fun x => py_eq_str x k) l)
  | JStr s => Ok (is_substring k s)
  | _ => Raise TypeError
  end.

Fixpoint chars_of (s : string) : list json :=
  match s with
  | EmptyString => []
  | String c s' => JStr (String c EmptyString) :: chars_of s'
  end.

(** The items a [for x in v] loop visits. *)
Definition py_iter (v : json) : result (list json) :=
  match v with
  | JList l => Ok l
  | JDict d => Ok (map (fun kv => JStr (fst kv)) d)
  | JStr s => Ok (chars_of s)
  | _ => Raise TypeError
  end.

(** *** The Unicode database of the runtime

    Python's strings are Unicode: [s.lower()] follows the case mappings of
    the Unicode database, and [\d] in a regular expression matches the
    decimal digits of every script.  Neither is spelled out here. *)
Class Unicode : Type := {
  str_lower : string -> string;
  decimal_digit : list ascii -> option (Z * nat)
}.

(** [v.lower()] *)
Definition py_lower {U : Unicode} (v : json) : result string :=
  match v with
  | JStr s => Ok (str_lower s)
  | _ => Raise AttributeError
  end.

(** [d.get(k)] on a dict of the object, for a key that is a JSON value:
    an unhashable key raises, a key of another type than [str] is absent. *)
Definition dict_get_json (d : list (string * json)) (k : json) : result (option json) :=
  match k with
  | JStr s => Ok (dict_get String.eqb d s)
  | JList _ | JDict _ => Raise TypeError
  | _ => Ok None
  end.

Definition or_None (o : option json) : json :=
  match o with
  | Some v => v
  | None => JNull
  end.

Fixpoint join_strs (sep : string) (l : list json) : result string :=
  match l with
  | [] => Ok ""
  | [JStr s] => Ok s
  | JStr s :: l' => rbind (join_strs sep l') (fun r => Ok (s ++ sep ++ r))
  | _ :: _ => Raise TypeError
  end.

(** [sep.join(v)] *)
Definition py_join (sep : string) (v : json) : result string :=
  rbind (py_iter v) (join_strs sep).

(** ** Floating point: Python's [float] is IEEE 754 binary64 *)

Definition prec64 : Z := 53.
Definition emax64 : Z := 1024.

(** [float(z)] for an integer within the range of a float, rounded to
    nearest even. *)
Definition float_of_int (z : Z) : spec_float :=
  binary_normalize prec64 emax64 z 0 false.

(** An integer as an exact, not normalised, dyadic number. *)
Definition exact_of_int (z : Z) : spec_float :=
  match z with
  | Z0 => S754_zero false
  | Zpos p => S754_finite false p 0
  | Zneg p => S754_finite true p 0
  end.

(** [n / d] on integers, for a divisor that is not zero: the quotient of
    the two integers, rounded once. *)
Definition py_truediv_int (n d : Z) : spec_float :=
  SFdiv prec64 emax64 (exact_of_int n) (exact_of_int d).

(** [x * k] for a float [x] and an integer [k] *)
Definition py_mul_float_int (x : spec_float) (k : Z) : spec_float :=
  SFmul prec64 emax64 x (float_of_int k).

(** [int(x)]: truncation towards zero. *)
Definition py_int_of_float (x : spec_float) : result Z :=
  match x with
  | S754_zero _ => Ok 0
  | S754_finite s m e =>
      let a := match e with
               | Zneg p => Z.shiftr (Zpos m) (Zpos p)
               | _ => Z.shiftl (Zpos m) e
               end in
      Ok (if s then - a else a)
  | S754_infinity _ => Raise OverflowError
  | S754_nan => Raise ValueError
  end.

(** ** The [datetime] module, as far as the source uses it *)

Record datetime : Type := mk_datetime {
  year : Z; month : Z; day : Z;
  hour : Z; minute : Z; second : Z; microsecond : Z
}.

Record timedelta : Type := mk_timedelta {
  days : Z; seconds : Z; microseconds : Z
}.

Definition is_leap (y : Z) : bool :=
  (y mod 4 =? 0) && (negb (y mod 100 =? 0) || (y mod 400 =? 0)).

Definition days_in_month (y m : Z) : Z :=
  if m =? 2 then (if is_leap y then 29 else 28)
  else if (m =? 4) || (m =? 6) || (m =? 9) || (m =? 11) then 30
  else 31.

Definition days_before_year (y : Z) : Z :=
  let y' := y - 1 in y' * 365 + y' / 4 - y' / 100 + y' / 400.

Fixpoint days_before_month_from (y : Z) (m : nat) : Z :=
  match m with
  | O => 0
  | S m' => days_before_month_from y m' + days_in_month y (Z.of_nat m)
  end.

(** Days of the year before the first day of month [m]. *)
Definition days_before_month (y m : Z) : Z :=
  days_before_month_from y (Z.to_nat (m - 1)).

(** [date.toordinal]: day 1 is 0001-01-01. *)
Definition toordinal (dt : datetime) : Z :=
  days_before_year (year dt) + days_before_month (year dt) (month dt) + day dt.

(** The checks of the [datetime] constructor. *)
Definition datetime_ok (dt : datetime) : bool :=
  (1 <=? year dt) && (year dt <=? 9999) &&
  (1 <=? month dt) && (month dt <=? 12) &&
  (1 <=? day dt) && (day dt <=? days_in_month (year dt) (month dt)) &&
  (0 <=? hour dt) && (hour dt <=? 23) &&
  (0 <=? minute dt) && (minute dt <=? 59) &&
  (0 <=? second dt) && (second dt <=? 59) &&
  (0 <=? microsecond dt) && (microsecond dt <=? 999999).

(** [timedelta(days, seconds, microseconds)] normalises its fields. *)
Definition normal_timedelta (d s us : Z) : timedelta :=
  let s1 := s + us / 1000000 in
  mk_timedelta (d + s1 / 86400) (s1 mod 86400) (us mod 1000000).

(** [a - b] on naive datetimes *)
Definition datetime_sub (a b : datetime) : timedelta :=
  normal_timedelta
    (toordinal a - toordinal b)
    ((second a + minute a * 60 + hour a * 3600) -
     (second b + minute b * 60 + hour b * 3600))
    (microsecond a - microsecond b).

(** [delta.total_seconds()] *)
Definition total_seconds (delta : timedelta) : spec_float :=
  py_truediv_int
    ((days delta * 86400 + seconds delta) * 1000000 + microseconds delta)
    1000000.

(** [datetime.utcfromtimestamp(0)] *)
Definition epoch : datetime := mk_datetime 1970 1 1 0 0 0 0.

(** *** [datetime.strptime(s, "%Y-%m-%dT%H:%M:%S.%fZ")]

    The format compiles to the regular expression
    [(\d\d\d\d)-(1[0-2]|0[1-9]|[1-9])-(3[0-1]|[1-2]\d|0[1-9]|[1-9]| [1-9])T(2[0-3]|[0-1]\d|\d):([0-5]\d|\d):(6[0-1]|[0-5]\d|\d)\.([0-9]{1,6})Z],
    matched ignoring case from the start of the text, and nothing may
    remain after the match.  The alternatives of a group are tried in their
    order, each against all of what follows the group. *)

(** The class [[0-9]]. *)
Definition ascii_digit (c : ascii) : option Z :=
  let n := nat_of_ascii c in
  if (Nat.leb 48 n && Nat.leb n 57)%bool then Some (Z.of_nat (n - 48)) else None.

Definition obind {A B} (o : option A) (f : A -> option B) : option B :=
  match o with
  | Some a => f a
  | None => None
  end.

(** What one piece of the expression makes of a text: the number it read
    and the rest of the text. *)
Definition matcher : Type := list ascii -> option (Z * list ascii).

(** [[lo-hi]] *)
Definition re_class (lo hi : Z) : matcher := fun l =>
  match l with
  | c :: l' =>
      match ascii_digit c with
      | Some d => if (lo <=? d) && (d <=? hi) then Some (d, l') else None
      | None => None
      end
  | [] => None
  end.

(** [\d]: a digit of [[0-9]], or a decimal digit of another script. *)
Definition re_d {U : Unicode} : matcher := fun l =>
  match l with
  | c :: l' =>
      match ascii_digit c with
      | Some d => Some (d, l')
      | None =>
          if Nat.ltb (nat_of_ascii c) 128 then None
          else match decimal_digit l with
               | Some (d, n) => Some (d, skipn n l)
               | None => None
               end
      end
  | [] => None
  end.

(** Two digits, read as [int] reads them. *)
Definition re_two (p q : matcher) : matcher := fun l =>
  obind (p l) (fun '(a, l1) =>
  obind (q l1) (fun '(b, l2) => Some (10 * a + b, l2))).

(** A space before a digit. *)
Definition re_space (p : matcher) : matcher := fun l =>
  match l with
  | " "%char :: l' => p l'
  | _ => None
  end.

(** [p1|p2|...] followed by [k]: the first alternative after which [k]
    matches. *)
Fixpoint re_alt {A} (alts : list matcher) (l : list ascii)
    (k : Z -> list ascii -> option A) : option A :=
  match alts with
  | [] => None
  | p :: alts' =>
      match obind (p l) (fun '(n, l') => k n l') with
      | Some r => Some r
      | None => re_alt alts' l k
      end
  end.

(** The groups of the directives. *)
Definition re_Y {U : Unicode} : matcher := fun l =>
  obind (re_two re_d re_d l) (fun '(a, l1) =>
  obind (re_two re_d re_d l1) (fun '(b, l2) => Some (100 * a + b, l2))).

Definition re_m : list matcher :=
  [re_two (re_class 1 1) (re_class 0 2); re_two (re_class 0 0) (re_class 1 9);
   re_class 1 9].

Definition re_day {U : Unicode} : list matcher :=
  [re_two (re_class 3 3) (re_class 0 1); re_two (re_class 1 2) re_d;
   re_two (re_class 0 0) (re_class 1 9); re_class 1 9; re_space (re_class 1 9)].

Definition re_H {U : Unicode} : list matcher :=
  [re_two (re_class 2 2) (re_class 0 3); re_two (re_class 0 1) re_d; re_d].

Definition re_M {U : Unicode} : list matcher :=
  [re_two (re_class 0 5) re_d; re_d].

Definition re_S {U : Unicode} : list matcher :=
  [re_two (re_class 6 6) (re_class 0 1); re_two (re_class 0 5) re_d; re_d].

(** The digits of [[0-9]] at the head of a text. *)
Fixpoint span_digits (l : list ascii) : list Z * list ascii :=
  match l with
  | [] => ([], [])
  | c :: l' =>
      match ascii_digit c with
      | Some d => let '(ds, r) := span_digits l' in (d :: ds, r)
      | None => ([], l)
      end
  end.

Definition number_of (ds : list Z) : Z :=
  fold_left (fun a d => 10 * a + d) ds 0.

(** [[0-9]{1,6}] before a literal that is no digit: the whole run of
    digits, when it has one to six of them; the number read and the count
    of the digits. *)
Definition re_f (l : list ascii) : option (Z * nat * list ascii) :=
  let '(ds, r) := span_digits l in
  if (Nat.leb 1 (List.length ds) && Nat.leb (List.length ds) 6)%bool
  then Some (number_of ds, List.length ds, r) else None.

(** The other case of a letter of ASCII. *)
Definition other_case (c : ascii) : ascii :=
  let n := nat_of_ascii c in
  if (Nat.leb 65 n && Nat.leb n 90)%bool then ascii_of_nat (n + 32)
  else if (Nat.leb 97 n && Nat.leb n 122)%bool then ascii_of_nat (n - 32)
  else c.

(** A literal character of the format, matched ignoring case. The letters
    of the format are [T] and [Z], which no character outside ASCII equals
    when case is ignored. *)
Definition re_lit (c : ascii) (l : list ascii) : option (list ascii) :=
  match l with
  | c' :: l' =>
      if (Ascii.eqb c' c || Ascii.eqb c' (other_case c))%bool then Some l' else None
  | [] => None
  end.

Definition strptime_fields {U : Unicode} (s : string) : option datetime :=
  obind (re_Y (list_ascii_of_string s)) (fun '(yy, l) =>
  obind (re_lit "-" l) (fun l =>
  re_alt re_m l (fun mo l =>
  obind (re_lit "-" l) (fun l =>
  re_alt re_day l (fun dd l =>
  obind (re_lit "T" l) (fun l =>
  re_alt re_H l (fun hh l =>
  obind (re_lit ":" l) (fun l =>
  re_alt re_M l (fun mi l =>
  obind (re_lit ":" l) (fun l =>
  re_alt re_S l (fun ss l =>
  obind (re_lit "." l) (fun l =>
  obind (re_f l) (fun '(us, n, l) =>
  obind (re_lit "Z" l) (fun l =>
  match l with
  | [] => Some (mk_datetime yy mo dd hh mi ss (us * 10 ^ Z.of_nat (6 - n)))
  | _ => None
  end)))))))))))))).

(** [datetime.strptime(v, "%Y-%m-%dT%H:%M:%S.%fZ")]: the fields the
    expression reads, handed to the [datetime] constructor. *)
Definition strptime {U : Unicode} (v : json) : result datetime :=
  match v with
  | JStr s =>
      match strptime_fields s with
      | Some dt => if datetime_ok dt then Ok dt else Raise ValueError
      | None => Raise ValueError
      end
  | _ => Raise TypeError
  end.

(** [DBTMixin.unix_time] *)
Definition unix_time (dt : datetime) : spec_float :=
  let delta := datetime_sub dt epoch in
  total_seconds delta.

(** [DBTMixin.unix_time_millis] *)
Definition unix_time_millis (dt : datetime) : result Z :=
  py_int_of_float (py_mul_float_int (unix_time dt) 1000).

(** ** The generated schema classes

    The classes under [metadata.generated.schema] are pydantic models: a
    constructor call validates its arguments and raises when they do not
    fit.  The records keep the arguments as the source passes them; the
    validation itself belongs to the schema and is a parameter of the
    development ([OpenMetadata] below). *)

Inductive EntityKind : Type :=
| Table | User | Team | DataModelKind | TestSuite | TestDefinition | TestCase.

Record Entity : Type := mk_Entity {
  entity_id : string
}.

Record EntityReference : Type := mk_EntityReference {
  ref_id : string;
  ref_type : string
}.

Inductive DataType : Type :=
| data_type (code : string).

Record Column : Type := mk_Column {
  col_name : string;
  col_description : option json;
  dataType : DataType;
  dataLength : Z;
  ordinalPosition : json
}.

Inductive ModelType : Type := DBT.

Record DataModel : Type := mk_DataModel {
  modelType : ModelType;
  description : option json;
  path : string;
  rawSql : json;
  sql : json;
  columns : list Column;
  upstream : list string;
  owner : option EntityReference
}.

Inductive TestCaseStatus : Type := Success | Failed | Aborted.

Record TestResultValue : Type := mk_TestResultValue {
  trv_name : json;
  trv_value : string
}.

Record TestCaseResult : Type := mk_TestCaseResult {
  timestamp : option Z;
  testCaseStatus : TestCaseStatus;
  testResultValue : list TestResultValue
}.

Inductive EntityType : Type := COLUMN | TABLE.

Inductive TestPlatform : Type := PlatformDBT.

Record EntitiesEdge : Type := mk_EntitiesEdge {
  fromEntity : EntityReference;
  toEntity : EntityReference
}.

(** The dict [create_test_case_parameter_definitions] builds. *)
Record ParameterDefinition : Type := mk_ParameterDefinition {
  pd_name : json;
  pd_displayName : json;
  pd_required : bool
}.

(** The dict [create_test_case_parameter_values] builds. *)
Record ParameterValue : Type := mk_ParameterValue {
  pv_name : json;
  pv_value : string
}.

(** What the generators of the mixin yield. *)
Inductive Request : Type :=
| AddLineageRequest (edge : EntitiesEdge)
| CreateTestSuiteRequest (name description : json)
| CreateTestDefinitionRequest (name description : json)
    (entityType : EntityType) (testPlatforms : list TestPlatform)
    (parameterDefinition : list ParameterDefinition)
| CreateTestCaseRequest (name description : json)
    (testDefinition : EntityReference) (entityLink : string)
    (testSuite : EntityReference) (parameterValues : list ParameterValue).

(** The keyword arguments of the calls to [fqn.build], by entity type. *)
Inductive FqnArgs : Type :=
| fqn_User (user_name : string)
| fqn_Team (team_name : string)
| fqn_DataModel (service_name : string) (database_name schema_name model_name : json)
| fqn_Table (service_name : string) (database_name schema_name table_name : json)
| fqn_TestCase (service_name : string)
    (database_name schema_name table_name column_name test_case_name : json).

(** ** The collaborators

    The metadata server, [fqn.build], the column type parser and the
    schema validation are not part of the mixin.  [Catalog] is the state of
    the metadata server.  A generator of the mixin is suspended at each
    [yield] while its caller handles the request: [consume] is what that
    does to the server before the generator resumes.  [runtime] is the
    Unicode database of the interpreter the mixin runs in. *)
Class OpenMetadata (Catalog : Type) : Type := {
  runtime :: Unicode;
  get_by_name : Catalog -> EntityKind -> json -> result (option Entity);
  get_entity_reference : Catalog -> EntityKind -> string -> result (option EntityReference);
  add_test_case_results : Catalog -> TestCaseResult -> option string -> Catalog * option exn;
  fqn_build : Catalog -> FqnArgs -> result (option string);
  get_column_type : json -> result DataType;
  consume : Request -> Catalog -> Catalog;
  valid_Column : Column -> bool;
  valid_DataModel : DataModel -> bool;
  valid_TestCaseResult : TestCaseResult -> bool;
  valid_Request : Request -> bool;
  py_str : json -> string
}.

(** ** The module logger *)

Inductive Level : Type := DEBUG | INFO | WARNING | ERROR.

(** A record of the logger: the message with its interpolated values kept
    apart, and the exception it reports. *)
Record LogRecord : Type := mk_LogRecord {
  levelname : Level;
  msg : string;
  args : list json;
  exc_info : option exn
}.

(** ** The object and its surroundings *)

(** The attributes of the mixin's object that the methods use.
    [dbtConfigSource] is the truth value of
    [self.source_config.dbtConfigSource], [serviceName] is
    [self.config.serviceName], [metadata] the state of the server behind
    the client [self.metadata].  The three documents are [JNull] when they
    were not loaded. *)
Record DBTMixin (Catalog : Type) : Type := mk_DBTMixin {
  dbtConfigSource : bool;
  serviceName : string;
  dbt_manifest : json;
  dbt_catalog : json;
  dbt_run_results : json;
  manifest_entities : list (string * json);
  catalog_entities : list (string * json);
  data_models : list (option string * DataModel);
  dbt_tests : list (string * json);
  metadata : Catalog
}.
Arguments mk_DBTMixin {Catalog}.
Arguments dbtConfigSource {Catalog}.
Arguments serviceName {Catalog}.
Arguments dbt_manifest {Catalog}.
Arguments dbt_catalog {Catalog}.
Arguments dbt_run_results {Catalog}.
Arguments manifest_entities {Catalog}.
Arguments catalog_entities {Catalog}.
Arguments data_models {Catalog}.
Arguments dbt_tests {Catalog}.
Arguments metadata {Catalog}.

(** The object, the records logged so far, the requests the running
    generator has yielded, and the results handed to
    [add_test_case_results] with the test case name of each call. *)
Record World (Catalog : Type) : Type := mk_World {
  self : DBTMixin Catalog;
  logged : list LogRecord;
  yielded : list Request;
  submitted : list (option string * TestCaseResult)
}.
Arguments mk_World {Catalog}.
Arguments self {Catalog}.
Arguments logged {Catalog}.
Arguments yielded {Catalog}.
Arguments submitted {Catalog}.

(** The monad of the methods: state and exceptions. *)
Definition M (Catalog : Type) (A : Type) : Type :=
  World Catalog -> result A * World Catalog.

Section Mixin.
Context {Catalog : Type} {OM : OpenMetadata Catalog}.

Definition set_manifest_entities (d : list (string * json)) (s : DBTMixin Catalog) :=
  mk_DBTMixin (dbtConfigSource s) (serviceName s) (dbt_manifest s) (dbt_catalog s)
    (dbt_run_results s) d (catalog_entities s) (data_models s) (dbt_tests s)
    (metadata s).

Definition set_catalog_entities (d : list (string * json)) (s : DBTMixin Catalog) :=
  mk_DBTMixin (dbtConfigSource s) (serviceName s) (dbt_manifest s) (dbt_catalog s)
    (dbt_run_results s) (manifest_entities s) d (data_models s) (dbt_tests s)
    (metadata s).

Definition set_data_models (d : list (option string * DataModel)) (s : DBTMixin Catalog) :=
  mk_DBTMixin (dbtConfigSource s) (serviceName s) (dbt_manifest s) (dbt_catalog s)
    (dbt_run_results s) (manifest_entities s) (catalog_entities s) d (dbt_tests s)
    (metadata s).

Definition set_dbt_tests (d : list (string * json)) (s : DBTMixin Catalog) :=
  mk_DBTMixin (dbtConfigSource s) (serviceName s) (dbt_manifest s) (dbt_catalog s)
    (dbt_run_results s) (manifest_entities s) (catalog_entities s) (data_models s) d
    (metadata s).

Definition set_metadata (c : Catalog) (s : DBTMixin Catalog) :=
  mk_DBTMixin (dbtConfigSource s) (serviceName s) (dbt_manifest s) (dbt_catalog s)
    (dbt_run_results s) (manifest_entities s) (catalog_entities s) (data_models s)
    (dbt_tests s) c.

(** ** The operations of the monad *)

Definition ret {A} (a : A) : M Catalog A := fun w => (Ok a, w).

Definition raise {A} (e : exn) : M Catalog A := fun w => (Raise e, w).

Definition bind {A B} (m : M Catalog A) (f : A -> M Catalog B) : M Catalog B :=
  fun w =>
    match m w with
    | (Ok a, w') => f a w'
    | (Raise e, w') => (Raise e, w')
    end.

(** An expression that only computes on values. *)
Definition lift {A} (r : result A) : M Catalog A := fun w => (r, w).

(** [try: m  except Exception as exc: h exc] *)
Definition try_except {A} (m : M Catalog A) (h : exn -> M Catalog A) : M Catalog A :=
  fun w =>
    match m w with
    | (Ok a, w') => (Ok a, w')
    | (Raise e, w') => h e w'
    end.

Definition get_self : M Catalog (DBTMixin Catalog) := fun w => (Ok (self w), w).

Definition modify_self (f : DBTMixin Catalog -> DBTMixin Catalog) : M Catalog unit :=
  fun w => (Ok tt, mk_World (f (self w)) (logged w) (yielded w) (submitted w)).

Definition log (r : LogRecord) : M Catalog unit :=
  fun w => (Ok tt, mk_World (self w) (logged w ++ [r]) (yielded w) (submitted w)).

(** [yield r]: the request goes to the caller, who handles it before the
    generator runs on. *)
Definition yield (r : Request) : M Catalog unit :=
  fun w =>
    (Ok tt,
     mk_World (set_metadata (consume r (metadata (self w))) (self w))
       (logged w) (yielded w ++ [r]) (submitted w)).

(** A constructor call of a schema class. *)
Definition construct {A} (valid : A -> bool) (a : A) : M Catalog A :=
  if valid a then ret a else raise ValidationError.

End Mixin.

Declare Scope monad_scope.
Delimit Scope monad_scope with monad.
Notation "x <- m ;; k" := (bind m (fun x => k))
  (at level 61, m at next level, right associativity) : monad_scope.
Notation "m ;; k" := (bind m (fun _ => k))
  (at level 61, right associativity) : monad_scope.
Local Open Scope monad_scope.

Section Methods.
Context {Catalog : Type} {OM : OpenMetadata Catalog}.

(** A [for] loop whose body updates the local variable [acc]. *)
Fixpoint for_each {X A} (xs : list X) (body : A -> X -> M Catalog A) (acc : A) : M Catalog A :=
  match xs with
  | [] => ret acc
  | x :: xs' => acc' <- body acc x ;; for_each xs' body acc'
  end.

(** A [for] loop without local variables. *)
Definition for_ {X} (xs : list X) (body : X -> M Catalog unit) : M Catalog unit :=
  for_each xs (fun _ x => body x) tt.

(** *** Calls of the client and of [fqn.build] *)

Definition m_get_by_name (entity : EntityKind) (fqn : json) : M Catalog (option Entity) :=
  fun w => (get_by_name (metadata (self w)) entity fqn, w).

Definition m_get_entity_reference (entity : EntityKind) (fqn : string)
  : M Catalog (option EntityReference) :=
  fun w => (get_entity_reference (metadata (self w)) entity fqn, w).

Definition m_fqn_build (a : FqnArgs) : M Catalog (option string) :=
  fun w => (fqn_build (metadata (self w)) a, w).

Definition m_add_test_case_results (test_results : TestCaseResult)
    (test_case_name : option string) : M Catalog unit :=
  fun w =>
    let '(c, err) := add_test_case_results (metadata (self w)) test_results test_case_name in
    let w' := mk_World (set_metadata c (self w)) (logged w) (yielded w)
                (submitted w ++ [(test_case_name, test_results)]) in
    match err with
    | None => (Ok tt, w')
    | Some e => (Raise e, w')
    end.

(** *** Calls of the logger *)

Definition logger_info (m : string) : M Catalog unit :=
  log (mk_LogRecord INFO m [] None).

(** [logger.debug(traceback.format_exc())] inside a handler of [exc] *)
Definition logger_debug_traceback (exc : exn) : M Catalog unit :=
  log (mk_LogRecord DEBUG "traceback" [] (Some exc)).

Definition logger_warning (m : string) (a : list json) (exc : option exn) : M Catalog unit :=
  log (mk_LogRecord WARNING m a exc).

Definition logger_error (m : string) (a : list json) (exc : option exn) : M Catalog unit :=
  log (mk_LogRecord ERROR m a exc).

(** *** Expressions the methods repeat *)

(** [self.source_config.dbtConfigSource and self.dbt_manifest and self.dbt_catalog] *)
Definition dbt_configured (s : DBTMixin Catalog) : bool :=
  dbtConfigSource s && py_truthy (dbt_manifest s) && py_truthy (dbt_catalog s).

(** [mnode["alias"] if "alias" in mnode.keys() else mnode["name"]] *)
Definition alias_or_name (mnode : json) : result json :=
  rbind (py_keys_contains mnode "alias") (fun b =>
  if b then py_subscript mnode (JStr "alias") else py_subscript mnode (JStr "name")).

(** [v[k] if v[k] else "default"] *)
Definition or_default (v : json) (k : string) : result json :=
  rbind (py_subscript v (JStr k)) (fun x =>
  if py_truthy x then py_subscript v (JStr k) else Ok (JStr "default")).

(** The operand of [**]: a mapping. *)
Definition py_mapping (v : json) : result (list (string * json)) :=
  match v with
  | JDict d => Ok d
  | _ => Raise TypeError
  end.

(** [{**doc["nodes"], **doc["sources"]}] *)
Definition nodes_and_sources (doc : json) : result (list (string * json)) :=
  rbind (py_subscript doc (JStr "nodes")) (fun ns =>
  rbind (py_mapping ns) (fun a =>
  rbind (py_subscript doc (JStr "sources")) (fun ss =>
  rbind (py_mapping ss) (fun b =>
  Ok (dict_display2 a b))))).

(** The truth value of an [Optional[str]]. *)
Definition fqn_truthy (f : option string) : bool :=
  match f with
  | Some s => negb (String.eqb s "")
  | None => false
  end.

(** [f] when [if f:] takes the branch. *)
Definition nonempty_fqn (f : option string) : option string :=
  if fqn_truthy f then f else None.

Definition json_of_fqn (f : option string) : json :=
  match f with
  | Some s => JStr s
  | None => JNull
  end.

(** [str(f)] of an [Optional[str]] in an f-string. *)
Definition str_of_fqn (f : option string) : string :=
  match f with
  | Some s => s
  | None => "None"
  end.

(** ** [_parse_data_model_upstream] *)

(** The body of the loop over [mnode["depends_on"]["nodes"]]. *)
Definition upstream_of (upstream_nodes : list string) (node : json) : M Catalog (list string) :=
  try_except
    (s <- get_self ;;
     parent_node <- lift (py_subscript (JDict (manifest_entities s)) node) ;;
     database_name <- lift (or_default parent_node "database") ;;
     schema_name <- lift (or_default parent_node "schema") ;;
     table_name <- lift (py_subscript parent_node (JStr "name")) ;;
     parent_fqn <- m_fqn_build
       (fqn_Table (serviceName s) database_name schema_name table_name) ;;
     match nonempty_fqn parent_fqn with
     | Some f => ret (upstream_nodes ++ [f])%list
     | None => ret upstream_nodes
     end)
    (fun exc =>
     logger_debug_traceback exc ;;
     logger_warning "Failed to parse the node {node} to capture lineage: {exc}"
       [node] (Some exc) ;;
     ret upstream_nodes).

(** ["depends_on" in mnode and "nodes" in mnode["depends_on"]] *)
Definition has_depends_on_nodes (mnode : json) : result bool :=
  rbind (py_contains "depends_on" mnode) (fun b =>
  if b then rbind (py_subscript mnode (JStr "depends_on")) (py_contains "nodes")
  else Ok false).

Definition _parse_data_model_upstream (mnode : json) : M Catalog (list string) :=
  b <- lift (has_depends_on_nodes mnode) ;;
  if b then
    depends_on <- lift (py_subscript mnode (JStr "depends_on")) ;;
    nodes <- lift (py_subscript depends_on (JStr "nodes")) ;;
    items <- lift (py_iter nodes) ;;
    for_each items upstream_of []
  else ret [].

(** ** [_parse_data_model_columns] *)

(** The body of the loop over the catalog columns. *)
Definition parse_column (manifest_columns ccolumns : json)
    (columns : list Column) (key : json) : M Catalog (list Column) :=
  ccolumn <- lift (py_subscript ccolumns key) ;;
  name <- lift (py_subscript ccolumn (JStr "name")) ;;
  col_name <- lift (py_lower name) ;;
  try_except
    (ctype <- lift (py_subscript ccolumn (JStr "type")) ;;
     col_type <- lift (get_column_type ctype) ;;
     lkey <- lift (py_lower key) ;;
     mcolumn <- lift (py_get manifest_columns lkey (JDict [])) ;;
     description <- lift (py_get mcolumn "description" JNull) ;;
     description <- (if is_None description
                     then lift (py_get ccolumn "comment" JNull)
                     else ret description) ;;
     index <- lift (py_subscript ccolumn (JStr "index")) ;;
     col <- construct valid_Column
       (mk_Column col_name
          (if py_truthy description then Some description else None)
          col_type 1 index) ;;
     ret (columns ++ [col])%list)
    (fun exc =>
     logger_debug_traceback exc ;;
     logger_warning "Failed to parse column {col_name}: {exc}"
       [JStr col_name] (Some exc) ;;
     ret columns).

Definition _parse_data_model_columns (model_name mnode cnode : json) : M Catalog (list Column) :=
  ccolumns <- lift (py_get cnode "columns" JNull) ;;
  manifest_columns <- lift (py_get mnode "columns" (JDict [])) ;;
  keys <- lift (py_iter ccolumns) ;;
  for_each keys (parse_column manifest_columns ccolumns) [].

(** ** [_parse_data_model] *)

(** The owner of a model: a user of that name, else a team. *)
Definition resolve_owner (dbt_owner : json) : M Catalog (option EntityReference) :=
  if py_truthy dbt_owner then
    let owner_name := "*" ++ py_str dbt_owner ++ "*" in
    user_owner_fqn <- m_fqn_build (fqn_User owner_name) ;;
    match nonempty_fqn user_owner_fqn with
    | Some f => m_get_entity_reference User f
    | None =>
        team_owner_fqn <- m_fqn_build (fqn_Team owner_name) ;;
        match nonempty_fqn team_owner_fqn with
        | Some f => m_get_entity_reference Team f
        | None =>
            logger_warning
              "Unable to ingest owner from DBT since no user or team was found with name {dbt_owner}"
              [dbt_owner] None ;;
            ret None
        end
    end
  else ret None.

(** The body of the [try] in the loop over the manifest entities. *)
Definition parse_node (key : string) (mnode : json) : M Catalog unit :=
  name <- lift (alias_or_name mnode) ;;
  s <- get_self ;;
  let cnode := or_None (dict_get String.eqb (catalog_entities s) key) in
  columns <- (if py_truthy cnode
              then _parse_data_model_columns name mnode cnode
              else ret []) ;;
  resource_type <- lift (py_subscript mnode (JStr "resource_type")) ;;
  if py_eq_str resource_type "test" then
    modify_self (fun s => set_dbt_tests (dict_set String.eqb (dbt_tests s) key mnode) s)
  else
    upstream_nodes <- _parse_data_model_upstream mnode ;;
    model_name <- lift (alias_or_name mnode) ;;
    database <- lift (or_default mnode "database") ;;
    schema <- lift (or_default mnode "schema") ;;
    raw_sql <- lift (py_get mnode "raw_sql" (JStr "")) ;;
    description <- lift (py_get mnode "description" JNull) ;;
    cmetadata <- lift (py_subscript cnode (JStr "metadata")) ;;
    dbt_owner <- lift (py_get cmetadata "owner" JNull) ;;
    owner <- resolve_owner dbt_owner ;;
    root_path <- lift (py_subscript mnode (JStr "root_path")) ;;
    original_file_path <- lift (py_subscript mnode (JStr "original_file_path")) ;;
    compiled_sql <- lift (py_get mnode "compiled_sql" raw_sql) ;;
    model <- construct valid_DataModel
      (mk_DataModel DBT
         (if py_truthy description then Some description else None)
         (py_str root_path ++ "/" ++ py_str original_file_path)
         raw_sql compiled_sql columns upstream_nodes owner) ;;
    model_fqn <- m_fqn_build
      (fqn_DataModel (serviceName s) database schema model_name) ;;
    modify_self (fun s =>
      set_data_models (dict_set fqn_eqb (data_models s) model_fqn model) s).

(** One turn of the loop: the [try] with its handler. *)
Definition parse_entity (entry : string * json) : M Catalog unit :=
  let '(key, mnode) := entry in
  try_except (parse_node key mnode)
    (fun exc =>
     logger_debug_traceback exc ;;
     logger_warning "Unexpected exception parsing data model: {exc}" [] (Some exc)).

Definition _parse_data_model : M Catalog unit :=
  s <- get_self ;;
  if dbt_configured s then
    logger_info "Parsing Data Models" ;;
    m <- lift (nodes_and_sources (dbt_manifest s)) ;;
    modify_self (set_manifest_entities m) ;;
    c <- lift (nodes_and_sources (dbt_catalog s)) ;;
    modify_self (set_catalog_entities c) ;;
    s <- get_self ;;
    for_ (manifest_entities s) parse_entity
  else ret tt.

(** [get_data_model] *)
Definition get_data_model (table_fqn : option string) : M Catalog (option DataModel) :=
  s <- get_self ;;
  ret (dict_get fqn_eqb (data_models s) table_fqn).

(** ** [create_dbt_lineage] *)

(** The body of the inner loop: one data model and one of its upstream
    names. *)
Definition lineage_of (data_model_name : option string) (upstream_node : string) : M Catalog unit :=
  try_except
    (from_entity <- m_get_by_name Table (JStr upstream_node) ;;
     to_entity <- m_get_by_name Table (json_of_fqn data_model_name) ;;
     match from_entity, to_entity with
     | Some from_entity, Some to_entity =>
         request <- construct valid_Request
           (AddLineageRequest
              (mk_EntitiesEdge
                 (mk_EntityReference (entity_id from_entity) "table")
                 (mk_EntityReference (entity_id to_entity) "table"))) ;;
         yield request
     | _, _ => ret tt
     end)
    (fun exc =>
     logger_debug_traceback exc ;;
     logger_warning "Failed to parse the node {upstream_node} to capture lineage: {exc}"
       [JStr upstream_node] (Some exc)).

Definition create_dbt_lineage : M Catalog unit :=
  logger_info "Processing DBT lineage" ;;
  s <- get_self ;;
  for_ (data_models s) (fun '(data_model_name, data_model) =>
    for_ (upstream data_model) (lineage_of data_model_name)).

(** ** The test suites, definitions, cases and results *)

Definition create_test_case_parameter_definitions (dbt_test : json)
  : result (list ParameterDefinition) :=
  rbind (py_subscript dbt_test (JStr "test_metadata")) (fun tm =>
  rbind (py_subscript tm (JStr "name")) (fun name =>
  rbind (py_subscript dbt_test (JStr "test_metadata")) (fun tm' =>
  rbind (py_subscript tm' (JStr "name")) (fun displayName =>
  Ok [mk_ParameterDefinition name displayName false])))).

Definition create_test_case_parameter_values (dbt_test : json)
  : result (list ParameterValue) :=
  rbind (py_subscript dbt_test (JStr "test_metadata")) (fun tm =>
  rbind (py_subscript tm (JStr "kwargs")) (fun kwargs =>
  rbind (py_get kwargs "values" JNull) (fun values =>
  rbind (if py_truthy values then py_join "," values else Ok "") (fun dbt_test_values =>
  rbind (py_subscript dbt_test (JStr "test_metadata")) (fun tm' =>
  rbind (py_subscript tm' (JStr "name")) (fun name =>
  Ok [mk_ParameterValue name dbt_test_values])))))).

(** [dbt_test["meta"].get(k, default)] *)
Definition meta_get (dbt_test : json) (k : string) (default : json) : result json :=
  rbind (py_subscript dbt_test (JStr "meta")) (fun meta => py_get meta k default).

(** The body of the loop of [create_dbt_tests_suite_definition]. *)
Definition suite_definition_of (entry : string * json) : M Catalog unit :=
  let '(key, dbt_test) := entry in
  test_suite_name <- lift (meta_get dbt_test "test_suite_name" (JStr "DBT_TEST_SUITE")) ;;
  test_suite_desciption <- lift (meta_get dbt_test "test_suite_desciption" (JStr "")) ;;
  check_test_suite_exists <- m_get_by_name TestSuite test_suite_name ;;
  match check_test_suite_exists with
  | None =>
      test_suite <- construct valid_Request
        (CreateTestSuiteRequest test_suite_name test_suite_desciption) ;;
      yield test_suite
  | Some _ => ret tt
  end ;;
  name <- lift (py_subscript dbt_test (JStr "name")) ;;
  check_test_definition_exists <- m_get_by_name TestDefinition name ;;
  match check_test_definition_exists with
  | None =>
      column_name <- lift (py_get dbt_test "column_name" JNull) ;;
      let entity_type := if py_truthy column_name then COLUMN else TABLE in
      name <- lift (py_subscript dbt_test (JStr "name")) ;;
      description <- lift (py_subscript dbt_test (JStr "description")) ;;
      parameterDefinition <- lift (create_test_case_parameter_definitions dbt_test) ;;
      test_definition <- construct valid_Request
        (CreateTestDefinitionRequest name description entity_type [PlatformDBT]
           parameterDefinition) ;;
      yield test_definition
  | Some _ => ret tt
  end.

Definition create_dbt_tests_suite_definition : M Catalog unit :=
  try_except
    (s <- get_self ;;
     if dbt_configured s then
       logger_info "Processing DBT Tests Suites and Test Definitions" ;;
       for_ (dbt_tests s) suite_definition_of
     else ret tt)
    (fun err =>
     logger_error "Failed to parse the node to capture tests {err}" [] (Some err)).

(** The body of the loop of [generate_entity_link]. *)
Definition entity_link_of (dbt_test : json) (entity_link_list : list string)
    (node : json) : M Catalog (list string) :=
  s <- get_self ;;
  found <- lift (dict_get_json (manifest_entities s) node) ;;
  let model := or_None found in
  database_name <- lift (py_get model "database" JNull) ;;
  schema_name <- lift (py_get model "schema" JNull) ;;
  table_name <- lift (py_get model "name" JNull) ;;
  table_fqn <- m_fqn_build
    (fqn_Table (serviceName s) database_name schema_name table_name) ;;
  column_name <- lift (py_get dbt_test "column_name" JNull) ;;
  let entity_link :=
    if py_truthy column_name
    then "<#E::table::" ++ str_of_fqn table_fqn ++ "::columns::" ++ py_str column_name ++ ">"
    else "<#E::table::" ++ str_of_fqn table_fqn ++ ">" in
  ret (entity_link_list ++ [entity_link])%list.

Definition generate_entity_link (dbt_test : json) : M Catalog (list string) :=
  depends_on <- lift (py_subscript dbt_test (JStr "depends_on")) ;;
  nodes <- lift (py_subscript depends_on (JStr "nodes")) ;;
  items <- lift (py_iter nodes) ;;
  for_each items (entity_link_of dbt_test) [].

(** [entity.id.__root__] of the result of a lookup: [None] has no [id]. *)
Definition id_of (e : option Entity) : result string :=
  match e with
  | Some e => Ok (entity_id e)
  | None => Raise AttributeError
  end.

(** The body of the inner loop of [create_dbt_test_cases]. *)
Definition test_case_of (dbt_test : json) (entity_link : string) : M Catalog unit :=
  test_suite_name <- lift (meta_get dbt_test "test_suite_name" (JStr "DBT_TEST_SUITE")) ;;
  name <- lift (py_subscript dbt_test (JStr "name")) ;;
  description <- lift (py_subscript dbt_test (JStr "description")) ;;
  definition_name <- lift (py_subscript dbt_test (JStr "name")) ;;
  test_definition <- m_get_by_name TestDefinition definition_name ;;
  definition_id <- lift (id_of test_definition) ;;
  test_suite <- m_get_by_name TestSuite test_suite_name ;;
  suite_id <- lift (id_of test_suite) ;;
  parameterValues <- lift (create_test_case_parameter_values dbt_test) ;;
  test_case <- construct valid_Request
    (CreateTestCaseRequest name description
       (mk_EntityReference definition_id "testDefinition") entity_link
       (mk_EntityReference suite_id "testSuite") parameterValues) ;;
  yield test_case.

(** One turn of the loop of [create_dbt_test_cases]: the [try] with its
    handler. *)
Definition test_cases_of (entry : string * json) : M Catalog unit :=
  let '(key, dbt_test) := entry in
  try_except
    (entity_link_list <- generate_entity_link dbt_test ;;
     for_ entity_link_list (test_case_of dbt_test))
    (fun err =>
     logger_error "Failed to parse the node {key} to capture tests {err}"
       [JStr key] (Some err)).
(** *** [update_dbt_test_result] *)

(** "Process the Test Status" *)
Definition test_status_of (dbt_test_result : json) : result (TestCaseStatus * Z) :=
  rbind (py_get dbt_test_result "status" JNull) (fun status =>
  if py_eq_str status "success" then Ok (Success, 1)
  else
    rbind (py_get dbt_test_result "status" JNull) (fun status' =>
    if py_eq_str status' "failure" then Ok (Failed, 0)
    else Ok (Aborted, -1))).

(** The body of the loop over the timings: the completion time found so
    far, and one timing. *)
Definition completed_at_of (dbt_test_completed_at dbt_test_timing : json) : result json :=
  rbind (py_get dbt_test_timing "name" (JStr "")) (fun name =>
  if py_eq_str name "execute" then py_get dbt_test_timing "completed_at" JNull
  else Ok dbt_test_completed_at).

Fixpoint completed_at_loop (timings : list json) (dbt_test_completed_at : json)
  : result json :=
  match timings with
  | [] => Ok dbt_test_completed_at
  | t :: timings' =>
      rbind (completed_at_of dbt_test_completed_at t) (completed_at_loop timings')
  end.

(** The conversion of a completion time to epoch milliseconds. *)
Definition dbt_timestamp_of (dbt_test_completed_at : json) : result (option Z) :=
  if py_truthy dbt_test_completed_at then
    rbind (strptime dbt_test_completed_at) (fun dbt_timestamp =>
    rbind (unix_time_millis dbt_timestamp) (fun millis => Ok (Some millis)))
  else Ok None.

(** [str(z)] for the three result values. *)
Definition str_of_result_value (z : Z) : string :=
  if z =? 1 then "1" else if z =? 0 then "0" else "-1".

(** "Process the Test Timings", up to the construction of the result. *)
Definition test_case_result_of (dbt_test_result : json) : M Catalog TestCaseResult :=
  status <- lift (test_status_of dbt_test_result) ;;
  let '(test_case_status, test_result_value) := status in
  dbt_test_timings <- lift (py_subscript dbt_test_result (JStr "timing")) ;;
  timings <- lift (py_iter dbt_test_timings) ;;
  dbt_test_completed_at <- lift (completed_at_loop timings JNull) ;;
  dbt_timestamp <- lift (dbt_timestamp_of dbt_test_completed_at) ;;
  unique_id <- lift (py_get dbt_test_result "unique_id" JNull) ;;
  construct valid_TestCaseResult
    (mk_TestCaseResult dbt_timestamp test_case_status
       [mk_TestResultValue unique_id (str_of_result_value test_result_value)]).

(** The body of the loop over the dependencies of the test node. *)
Definition attach_result (dbt_test_result dbt_test_node : json)
    (test_case_result : TestCaseResult) (node : json) : M Catalog unit :=
  s <- get_self ;;
  found <- lift (dict_get_json (manifest_entities s) node) ;;
  let model := or_None found in
  database_name <- lift (py_get model "database" JNull) ;;
  schema_name <- lift (py_get model "schema" JNull) ;;
  table_name <- lift (py_get model "name" JNull) ;;
  column_name <- lift (py_get dbt_test_node "column_name" JNull) ;;
  unique_id <- lift (py_subscript dbt_test_result (JStr "unique_id")) ;;
  test <- lift (dict_get_json (dbt_tests s) unique_id) ;;
  test_case_name <- lift (py_subscript (or_None test) (JStr "name")) ;;
  test_case_fqn <- m_fqn_build
    (fqn_TestCase (serviceName s) database_name schema_name table_name
       column_name test_case_name) ;;
  m_add_test_case_results test_case_result test_case_fqn.

(** One turn of the loop over the run results: the [try] with its handler. *)
Definition update_result_of (dbt_test_result : json) : M Catalog unit :=
  try_except
    (test_case_result <- test_case_result_of dbt_test_result ;;
     s <- get_self ;;
     unique_id <- lift (py_subscript dbt_test_result (JStr "unique_id")) ;;
     found <- lift (dict_get_json (dbt_tests s) unique_id) ;;
     let dbt_test_node := or_None found in
     if py_truthy dbt_test_node then
       depends_on <- lift (py_subscript dbt_test_node (JStr "depends_on")) ;;
       nodes <- lift (py_subscript depends_on (JStr "nodes")) ;;
       items <- lift (py_iter nodes) ;;
       for_ items (attach_result dbt_test_result dbt_test_node test_case_result)
     else ret tt)
    (fun err =>
     logger_error "Failed capture tests results {err}" [] (Some err)).

Definition update_dbt_test_result : M Catalog unit :=
  s <- get_self ;;
  if py_truthy (dbt_run_results s) then
    logger_info "Processing DBT Tests Results" ;;
    results <- lift (py_get (dbt_run_results s) "results" JNull) ;;
    items <- lift (py_iter results) ;;
    for_ items update_result_of
  else ret tt.

(** *** [create_dbt_test_cases] *)

Definition create_dbt_test_cases : M Catalog unit :=
  s <- get_self ;;
  if dbt_configured s then
    logger_info "Processing DBT Tests Cases" ;;
    for_ (dbt_tests s) test_cases_of ;;
    update_dbt_test_result
  else ret tt.

(** A generator of the mixin run to its end by a caller who handles each
    request as it comes: the requests it yielded, and the world after. *)
Definition drain (generator : M Catalog unit) (w : World Catalog) : list Request * World Catalog :=
  let w' := snd (generator (mk_World (self w) (logged w) [] (submitted w))) in
  (yielded w', mk_World (self w') (logged w') (yielded w) (submitted w')).

End Methods.

(** ** A small metadata server to run the methods on

    The server keeps the entities it holds as (kind, name) pairs and
    gives each the identifier [kind-marker ++ name].  Names are built by
    joining the parts with dots.  [registering] is a caller who creates
    what a generator yields before resuming it; behind [lossy] no request
    reaches the server. *)
Module Demo.

Definition kind_eqb (a b : EntityKind) : bool :=
  match a, b with
  | Table, Table | User, User | Team, Team | DataModelKind, DataModelKind
  | TestSuite, TestSuite | TestDefinition, TestDefinition | TestCase, TestCase => true
  | _, _ => false
  end.

Definition float_same (a b : spec_float) : bool :=
  match a, b with
  | S754_zero s, S754_zero s' => Bool.eqb s s'
  | S754_infinity s, S754_infinity s' => Bool.eqb s s'
  | S754_nan, S754_nan => true
  | S754_finite s m e, S754_finite s' m' e' => Bool.eqb s s' && Pos.eqb m m' && (e =? e')
  | _, _ => false
  end.

(** Structural identity of two JSON values. *)
Fixpoint same_json (a b : json) {struct a} : bool :=
  match a, b with
  | JNull, JNull => true
  | JBool x, JBool y => Bool.eqb x y
  | JInt x, JInt y => x =? y
  | JFloat x, JFloat y => float_same x y
  | JStr x, JStr y => String.eqb x y
  | JList x, JList y =>
      (fix go (x y : list json) {struct x} : bool :=
         match x, y with
         | [], [] => true
         | a :: x', b :: y' => same_json a b && go x' y'
         | _, _ => false
         end) x y
  | JDict x, JDict y =>
      (fix go (x y : list (string * json)) {struct x} : bool :=
         match x, y with
         | [], [] => true
         | (k, a) :: x', (k', b) :: y' => String.eqb k k' && same_json a b && go x' y'
         | _, _ => false
         end) x y
  | _, _ => false
  end.

Definition Store : Type := list (EntityKind * json).

Definition holds (c : Store) (entity : EntityKind) (fqn : json) : bool :=
  existsb (fun e => kind_eqb (fst e) entity && same_json (snd e) fqn) c.

Definition name_text (v : json) : string :=
  match v with
  | JStr s => s
  | _ => "?"
  end.

Definition store_get_by_name (c : Store) (entity : EntityKind) (fqn : json)
  : result (option Entity) :=
  if holds c entity fqn then Ok (Some (mk_Entity ("id:" ++ name_text fqn))) else Ok None.

Definition store_get_entity_reference (c : Store) (entity : EntityKind) (fqn : string)
  : result (option EntityReference) :=
  if holds c entity (JStr fqn)
  then Ok (Some (mk_EntityReference ("id:" ++ fqn) "user")) else Ok None.

Definition dotted (service_name : string) (parts : list json) : string :=
  fold_left (fun acc p => acc ++ "." ++ name_text p) parts service_name.

Definition store_fqn_build (c : Store) (a : FqnArgs) : result (option string) :=
  match a with
  | fqn_User n => Ok (if holds c User (JStr n) then Some n else None)
  | fqn_Team n => Ok (if holds c Team (JStr n) then Some n else None)
  | fqn_DataModel s d sc m => Ok (Some (dotted s [d; sc; m]))
  | fqn_Table s d sc t => Ok (Some (dotted s [d; sc; t]))
  | fqn_TestCase s d sc t col n =>
      Ok (Some (dotted s (if py_truthy col then [d; sc; t; col; n] else [d; sc; t; n])))
  end.

Definition store_column_type (ctype : json) : result DataType :=
  match ctype with
  | JStr s => Ok (data_type s)
  | _ => Raise AttributeError
  end.

Definition store_create (r : Request) (c : Store) : Store :=
  match r with
  | CreateTestSuiteRequest n _ => (TestSuite, n) :: c
  | CreateTestDefinitionRequest n _ _ _ _ => (TestDefinition, n) :: c
  | _ => c
  end.

(** A runtime for the sample documents, which are ASCII: [lower] turns
    the letters [A] to [Z] into [a] to [z], as [str.lower] does on such a
    text, and no digit is known besides [0] to [9]. *)
Definition lower_letter (c : ascii) : ascii :=
  let n := nat_of_ascii c in
  if (Nat.leb 65 n && Nat.leb n 90)%bool then ascii_of_nat (n + 32) else c.

Fixpoint lower_text (s : string) : string :=
  match s with
  | EmptyString => EmptyString
  | String c s' => String (lower_letter c) (lower_text s')
  end.

Definition ascii_runtime : Unicode :=
  {| str_lower := lower_text; decimal_digit := fun _ => None |}.

Definition server (handle : Request -> Store -> Store) : OpenMetadata Store :=
  {| runtime := ascii_runtime;
     get_by_name := store_get_by_name;
     get_entity_reference := store_get_entity_reference;
     add_test_case_results := fun c _ _ => (c, None);
     fqn_build := store_fqn_build;
     get_column_type := store_column_type;
     consume := handle;
     valid_Column := fun _ => true;
     valid_DataModel := fun _ => true;
     valid_TestCaseResult := fun _ => true;
     valid_Request := fun _ => true;
     py_str := name_text |}.

Definition registering : OpenMetadata Store := server store_create.

Definition lossy : OpenMetadata Store := server (fun _ c => c).

Definition object (manifest catalog run_results : json) (tests : list (string * json))
    (c : Store) : World Store :=
  mk_World
    (mk_DBTMixin true "svc" manifest catalog run_results [] [] [] tests c)
    [] [] [].

(** A source [t1] and a model [t2] that depends on it. *)
Definition node_t1 : json :=
  JDict [("name", JStr "t1"); ("resource_type", JStr "source");
         ("database", JStr "db"); ("schema", JStr "schema");
         ("description", JStr ""); ("root_path", JStr "/p");
         ("original_file_path", JStr "models/src.yml");
         ("columns", JDict [("id", JDict [("name", JStr "id"); ("description", JStr "")])])].

Definition node_t2 : json :=
  JDict [("name", JStr "t2"); ("resource_type", JStr "model");
         ("database", JStr "db"); ("schema", JStr "schema");
         ("description", JStr "second"); ("raw_sql", JStr "select 1");
         ("root_path", JStr "/p"); ("original_file_path", JStr "models/t2.sql");
         ("depends_on", JDict [("nodes", JList [JStr "source.p.t1"])]);
         ("columns", JDict [])].

Definition cnode_of (columns : list (string * json)) : json :=
  JDict [("metadata", JDict [("owner", JNull)]); ("columns", JDict columns)].

Definition ccolumn_id (comment : json) : json :=
  JDict [("name", JStr "ID"); ("type", JStr "INT"); ("index", JInt 1); ("comment", comment)].

Definition manifest_two : json :=
  JDict [("nodes", JDict [("model.p.t2", node_t2)]);
         ("sources", JDict [("source.p.t1", node_t1)])].

Definition catalog_two : json :=
  JDict [("nodes", JDict [("model.p.t2", cnode_of [("ID", ccolumn_id (JStr "the id"))])]);
         ("sources", JDict [("source.p.t1", cnode_of [("ID", ccolumn_id (JStr "the id"))])])].

(** The same manifest against a catalog that has no entry for the model. *)
Definition catalog_without_model : json :=
  JDict [("nodes", JDict []);
         ("sources", JDict [("source.p.t1", cnode_of [("ID", ccolumn_id (JStr "the id"))])])].

(** Two generic tests of the default suite, and a singular test, which
    carries no [test_metadata]. *)
Definition generic_test (name : string) : json :=
  JDict [("name", JStr name); ("resource_type", JStr "test");
         ("description", JStr ""); ("meta", JDict []);
         ("column_name", JStr "id");
         ("depends_on", JDict [("nodes", JList [JStr "source.p.t1"])]);
         ("test_metadata", JDict [("name", JStr "not_null"); ("kwargs", JDict [])])].

Definition singular_test (name : string) : json :=
  JDict [("name", JStr name); ("resource_type", JStr "test");
         ("description", JStr ""); ("meta", JDict []);
         ("depends_on", JDict [("nodes", JList [JStr "source.p.t1"])])].

Definition cnode_t1 : json := cnode_of [("ID", ccolumn_id (JStr "the id"))].

(** The object before anything was parsed. *)
Definition fresh_two : World Store := object manifest_two catalog_two JNull [] [].

(** What column resolution makes of [node_t1] and [cnode_t1]. *)
Definition column_id : Column :=
  mk_Column "id" None (data_type "INT") 1 (JInt 1).

(** A model that depends on the source and on an id the manifest does not
    hold. *)
Definition node_t3 : json :=
  JDict [("name", JStr "t3"); ("resource_type", JStr "model");
         ("database", JStr "db"); ("schema", JStr "schema");
         ("depends_on",
          JDict [("nodes", JList [JStr "source.p.t1"; JStr "source.p.gone"])])].

(** The object after [_parse_data_model] on the two-node manifest. *)
Definition parsed_two : World Store :=
  snd (_parse_data_model (OM := registering)
         (object manifest_two catalog_two JNull [] [])).

(** Run results: a test that ran, with its timings, and one that was
    skipped, with none. *)
Definition timing_compile : json :=
  JDict [("name", JStr "compile"); ("completed_at", JStr "2023-01-01T00:00:00.000000Z")].

Definition timing_execute : json :=
  JDict [("name", JStr "execute"); ("completed_at", JStr "2023-01-01T00:00:00.000000Z")].

Definition result_ran : json :=
  JDict [("unique_id", JStr "test.p.tb"); ("status", JStr "success");
         ("timing", JList [timing_compile; timing_execute])].

Definition result_skipped : json :=
  JDict [("unique_id", JStr "test.p.tb"); ("status", JStr "skipped");
         ("timing", JList [])].

(** A run result without [timing]. *)
Definition result_untimed : json :=
  JDict [("unique_id", JStr "test.p.tb"); ("status", JStr "success")].

(** The object after [_parse_data_model], holding the test [tb] on the
    source; the server holds the suite and the definition of the test. *)
Definition tested_two : World Store :=
  mk_World
    (set_dbt_tests [("test.p.tb", generic_test "tb")]
       (set_metadata [(TestSuite, JStr "DBT_TEST_SUITE"); (TestDefinition, JStr "tb")]
          (self parsed_two)))
    [] [] [].

(** The object after [_parse_data_model], on a server that holds both
    tables, and on one that holds the table of the model only. *)
Definition both_tables : World Store :=
  mk_World
    (set_metadata [(Table, JStr "svc.db.schema.t1"); (Table, JStr "svc.db.schema.t2")]
       (self parsed_two))
    [] [] [].

Definition model_table_only : World Store :=
  mk_World (set_metadata [(Table, JStr "svc.db.schema.t2")] (self parsed_two))
    [] [] [].

Definition edge_t1_t2 : Request :=
  AddLineageRequest
    (mk_EntitiesEdge
       (mk_EntityReference "id:svc.db.schema.t1" "table")
       (mk_EntityReference "id:svc.db.schema.t2" "table")).

(** The two-node manifest with a test among its nodes. *)
Definition manifest_tested : json :=
  JDict [("nodes", JDict [("model.p.t2", node_t2); ("test.p.tb", generic_test "tb")]);
         ("sources", JDict [("source.p.t1", node_t1)])].

Definition fresh_tested : World Store := object manifest_tested catalog_two JNull [] [].

Definition entities_tested : list (string * json) :=
  [("model.p.t2", node_t2); ("test.p.tb", generic_test "tb"); ("source.p.t1", node_t1)].

Definition centities_two : list (string * json) :=
  [("model.p.t2", cnode_of [("ID", ccolumn_id (JStr "the id"))]);
   ("source.p.t1", cnode_of [("ID", ccolumn_id (JStr "the id"))])].

(** Two sources that declare the same table [db.schema.users]. *)
Definition source_users (description : string) : json :=
  JDict [("name", JStr "users"); ("resource_type", JStr "source");
         ("database", JStr "db"); ("schema", JStr "schema");
         ("description", JStr description); ("root_path", JStr "/p");
         ("original_file_path", JStr "models/src.yml")].

Definition entities_users : list (string * json) :=
  [("source.p.a.users", source_users "first"); ("source.p.b.users", source_users "second")].

Definition manifest_users : json :=
  JDict [("nodes", JDict []); ("sources", JDict entities_users)].

Definition centities_users : list (string * json) :=
  [("source.p.a.users", cnode_of []); ("source.p.b.users", cnode_of [])].

Definition catalog_users : json :=
  JDict [("nodes", JDict []); ("sources", JDict centities_users)].

Definition fresh_users : World Store := object manifest_users catalog_users JNull [] [].

Definition model_users (description : string) : DataModel :=
  mk_DataModel DBT (Some (JStr description)) "/p/models/src.yml" (JStr "") (JStr "")
    [] [] None.

(** Two tests that raise before they are routed: one has neither alias
    nor name, the other has a catalog entry with a column that has no
    name. *)
Definition test_anonymous : json := JDict [("resource_type", JStr "test")].

Definition manifest_unrouted : json :=
  JDict [("nodes", JDict [("test.p.anon", test_anonymous);
                          ("test.p.tc", generic_test "tc")]);
         ("sources", JDict [])].

Definition catalog_unrouted : json :=
  JDict [("nodes", JDict [("test.p.tc", cnode_of [("ID", JDict [("type", JStr "INT")])])]);
         ("sources", JDict [])].

Definition fresh_unrouted : World Store :=
  object manifest_unrouted catalog_unrouted JNull [] [].

(** Two generic tests of the default suite, on a server that holds
    neither the suite nor a definition. *)
Definition two_tests : World Store :=
  mk_World
    (set_dbt_tests
       [("test.p.ta", generic_test "ta"); ("test.p.tb", generic_test "tb")]
       (self parsed_two))
    [] [] [].

(** A singular test before a generic one. *)
Definition singular_first : World Store :=
  mk_World
    (set_dbt_tests
       [("test.p.ts", singular_test "ts"); ("test.p.tb", generic_test "tb")]
       (self parsed_two))
    [] [] [].

Definition not_null_definition (name : string) : Request :=
  CreateTestDefinitionRequest (JStr name) (JStr "") COLUMN [PlatformDBT]
    [mk_ParameterDefinition (JStr "not_null") (JStr "not_null") false].

Definition default_suite : Request :=
  CreateTestSuiteRequest (JStr "DBT_TEST_SUITE") (JStr "").

End Demo.

(** * The notions of the statements *)

(** The world after the records [l] were logged. *)
Definition add_log {Catalog : Type} (w : World Catalog) (l : list LogRecord) : World Catalog :=
  mk_World (self w) (logged w ++ l) (yielded w) (submitted w).

(** A computation that leaves the world as it is, but for the records it
    logs. *)
Definition quiet {Catalog : Type} {A} (m : M Catalog A) : Prop :=
  forall w, exists l, snd (m w) = add_log w l.

(** The record the handler of [upstream_of] writes for [node]. *)
Definition upstream_warning (node : json) (exc : exn) : LogRecord :=
  mk_LogRecord WARNING "Failed to parse the node {node} to capture lineage: {exc}"
    [node] (Some exc).

(** The text [parse_column] settles on before it builds the column: the
    manifest description unless it is [None], else the catalog comment. *)
Definition chosen_description (manifest_description catalog_comment : json) : json :=
  if is_None manifest_description then catalog_comment else manifest_description.

(** The description of the built column: the chosen text when it is true
    in a condition, else none. *)
Definition resolved_description (manifest_description catalog_comment : json)
  : option json :=
  let d := chosen_description manifest_description catalog_comment in
  if py_truthy d then Some d else None.

(** The precedence as the specification words it: the manifest description
    when present, otherwise the catalog comment, otherwise none. *)
Definition claimed_description (manifest_description catalog_comment : json)
  : option json :=
  if is_None manifest_description
  then (if is_None catalog_comment then None else Some catalog_comment)
  else Some manifest_description.

(** [col] is what [parse_column] builds for the catalog column under [key]:
    [ccolumn] is that column, [mcolumn] the manifest entry under the
    lower-cased key (the empty dict when there is none). *)
Definition resolved_from {U : Unicode} (manifest_columns ccolumns key : json)
    (col : Column) : Prop :=
  exists ccolumn name lkey mcolumn manifest_description catalog_comment index,
    py_subscript ccolumns key = Ok ccolumn /\
    py_subscript ccolumn (JStr "name") = Ok name /\
    py_lower name = Ok (col_name col) /\
    py_lower key = Ok lkey /\
    py_get manifest_columns lkey (JDict []) = Ok mcolumn /\
    py_get mcolumn "description" JNull = Ok manifest_description /\
    py_get ccolumn "comment" JNull = Ok catalog_comment /\
    py_subscript ccolumn (JStr "index") = Ok index /\
    ordinalPosition col = index /\
    dataLength col = 1 /\
    col_description col = resolved_description manifest_description catalog_comment.

(** [l'] holds, in the order of [l], one element for some of the elements
    of [l], each related by [P] to the element it stands for. *)
Inductive picked {A B : Type} (P : A -> B -> Prop) : list A -> list B -> Prop :=
| picked_nil : picked P [] []
| picked_skip a l l' : picked P l l' -> picked P (a :: l) l'
| picked_take a b l l' : P a b -> picked P l l' -> picked P (a :: l) (b :: l').

(** The warning the handler of [parse_column] writes. *)
Definition column_warning (col_name : string) (exc : exn) : LogRecord :=
  mk_LogRecord WARNING "Failed to parse column {col_name}: {exc}"
    [JStr col_name] (Some exc).

Definition is_warning (r : LogRecord) : bool :=
  match levelname r with
  | WARNING => true
  | _ => false
  end.

(** A relation between the world before and the world after that holds
    across no step, across two steps when it holds across each, and across
    logging. *)
Class Frame {Catalog : Type} (R : World Catalog -> World Catalog -> Prop) : Prop := {
  frame_refl : forall w, R w w;
  frame_trans : forall w1 w2 w3, R w1 w2 -> R w2 w3 -> R w1 w3;
  frame_add_log : forall w l, R w (add_log w l)
}.

(** Whatever the world [m] starts in, [R] relates it to the world [m]
    leaves, whether [m] returns or raises. *)
Definition respects {Catalog : Type} (R : World Catalog -> World Catalog -> Prop)
    {A} (m : M Catalog A) : Prop :=
  forall w, R w (snd (m w)).

(** A JSON object. *)
Definition is_dict (v : json) : Prop := exists d, v = JDict d.

(** A timing whose name is ["execute"], and one whose name is not. *)
Definition named_execute (t : json) : Prop :=
  exists n, py_get t "name" (JStr "") = Ok n /\ py_eq_str n "execute" = true.

Definition not_execute (t : json) : Prop :=
  exists n, py_get t "name" (JStr "") = Ok n /\ py_eq_str n "execute" = false.

(** The completion time the timings give: [None] when no timing is named
    ["execute"], else the [completed_at] of the last one that is. *)
Inductive execute_completed_at : list json -> json -> Prop :=
| no_execute_timing timings :
    Forall not_execute timings ->
    execute_completed_at timings JNull
| last_execute_timing pre t post c :
    Forall is_dict pre ->
    named_execute t ->
    py_get t "completed_at" JNull = Ok c ->
    Forall not_execute post ->
    execute_completed_at (pre ++ t :: post) c.

(** The timestamp of a completion time: none when the time is absent,
    else the time parsed and converted to epoch milliseconds. *)
Inductive epoch_millis_of {U : Unicode} : json -> option Z -> Prop :=
| millis_absent c :
    py_truthy c = false ->
    epoch_millis_of c None
| millis_converted c dt millis :
    py_truthy c = true ->
    strptime c = Ok dt ->
    unix_time_millis dt = Ok millis ->
    epoch_millis_of c (Some millis).

(** The world after differs from the world before by calls of
    [add_test_case_results] that all hand over [r]. *)
Definition submits_only {Catalog : Type} (r : TestCaseResult)
    (w w' : World Catalog) : Prop :=
  exists subs,
    submitted w' = (submitted w ++ subs)%list /\
    Forall (fun s => snd s = r) subs.

(** [sub] is the call of [add_test_case_results] made for the dependency
    [node] of the test [dbt_test_node]: it hands over [r] under the name
    that [fqn.build] gives for a test case of the database, schema and name
    of the manifest entity of [node], the [column_name] of the test and the
    name of the test. *)
Definition attached_to {Catalog : Type} {OM : OpenMetadata Catalog}
    (s : DBTMixin Catalog) (dbt_test_node : json) (r : TestCaseResult)
    (node : json) (sub : option string * TestCaseResult) : Prop :=
  snd sub = r /\
  exists c model database_name schema_name table_name column_name test_case_name,
    dict_get_json (manifest_entities s) node = Ok (Some model) /\
    py_get model "database" JNull = Ok database_name /\
    py_get model "schema" JNull = Ok schema_name /\
    py_get model "name" JNull = Ok table_name /\
    py_get dbt_test_node "column_name" JNull = Ok column_name /\
    py_subscript dbt_test_node (JStr "name") = Ok test_case_name /\
    fqn_build c (fqn_TestCase (serviceName s) database_name schema_name table_name
                   column_name test_case_name) = Ok (fst sub).

(** The world [w] after further calls of [add_test_case_results]: the
    server holds [c] and the calls [subs] were made. *)
Definition after_results {Catalog : Type} (w : World Catalog) (c : Catalog)
    (subs : list (option string * TestCaseResult)) : World Catalog :=
  mk_World (set_metadata c (self w)) (logged w) (yielded w) (submitted w ++ subs)%list.

(** The client builds a name for every test case and accepts every result. *)
Definition accepts_results {Catalog : Type} (OM : OpenMetadata Catalog) : Prop :=
  (forall c service_name database_name schema_name table_name column_name test_case_name,
     exists f,
       fqn_build c (fqn_TestCase service_name database_name schema_name table_name
                      column_name test_case_name) = Ok f) /\
  (forall c r n, snd (add_test_case_results c r n) = None).

(** [request] is the edge of a data model of the map and one of its
    upstream names: both tables were found by name on the server, in one
    state [c] of it, and the edge goes from the upstream table to the table
    of the model, both ends of type ["table"]. *)
Definition lineage_edge_of {Catalog : Type} {OM : OpenMetadata Catalog}
    (models : list (option string * DataModel)) (request : Request) : Prop :=
  exists data_model_name data_model upstream_node (c : Catalog) from_entity to_entity,
    In (data_model_name, data_model) models /\
    In upstream_node (upstream data_model) /\
    get_by_name c Table (JStr upstream_node) = Ok (Some from_entity) /\
    get_by_name c Table (json_of_fqn data_model_name) = Ok (Some to_entity) /\
    request =
      AddLineageRequest
        (mk_EntitiesEdge
           (mk_EntityReference (entity_id from_entity) "table")
           (mk_EntityReference (entity_id to_entity) "table")).

(** What was yielded stays within [P]. *)
Definition yields_only {Catalog : Type} (P : Request -> Prop)
    (w w' : World Catalog) : Prop :=
  Forall P (yielded w) -> Forall P (yielded w').

(** The entity a request creates on the server: a suite or a definition,
    with its name. *)
Definition created_entity (r : Request) : option (EntityKind * json) :=
  match r with
  | CreateTestSuiteRequest n _ => Some (TestSuite, n)
  | CreateTestDefinitionRequest n _ _ _ _ => Some (TestDefinition, n)
  | _ => None
  end.

(** No two requests of the list create the same suite, or the same
    definition. *)
Definition created_once (requests : list Request) : Prop :=
  forall i j ri rj kind name,
    nth_error requests i = Some ri ->
    nth_error requests j = Some rj ->
    created_entity ri = Some (kind, name) ->
    created_entity rj = Some (kind, name) ->
    i = j.

(** The caller creates the suite or the definition of a request before the
    generator resumes: the lookup by name finds it from then on. *)
Definition caller_creates {Catalog : Type} (OM : OpenMetadata Catalog) : Prop :=
  forall (c : Catalog) r kind name,
    created_entity r = Some (kind, name) ->
    exists e, get_by_name (consume r c) kind name = Ok (Some e).

(** What a lookup finds, it still finds after the caller handled a
    request. *)
Definition server_keeps {Catalog : Type} (OM : OpenMetadata Catalog) : Prop :=
  forall (c : Catalog) r kind name e,
    get_by_name c kind name = Ok (Some e) ->
    exists e', get_by_name (consume r c) kind name = Ok (Some e').

(** The server holds what the yielded requests create, and none was
    yielded twice. *)
Definition created_on_server {Catalog : Type} {OM : OpenMetadata Catalog}
    (w : World Catalog) : Prop :=
  created_once (yielded w) /\
  forall r kind name,
    In r (yielded w) ->
    created_entity r = Some (kind, name) ->
    exists e, get_by_name (metadata (self w)) kind name = Ok (Some e).

(** A step after which the server still holds what was yielded. *)
Definition keeps_created {Catalog : Type} {OM : OpenMetadata Catalog}
    (w w' : World Catalog) : Prop :=
  created_on_server w -> created_on_server w'.

(** [mnode["resource_type"] == "test"], false when the node has no
    [resource_type]. *)
Definition resource_type_is_test (mnode : json) : bool :=
  match py_subscript mnode (JStr "resource_type") with
  | Ok resource_type => py_eq_str resource_type "test"
  | Raise _ => false
  end.

(** The world with the object changed by [f]. *)
Definition with_self {Catalog : Type} (f : DBTMixin Catalog -> DBTMixin Catalog)
    (w : World Catalog) : World Catalog :=
  mk_World (f (self w)) (logged w) (yielded w) (submitted w).

(** The three ways one manifest entity leaves the world: skipped after an
    exception, with only records logged; routed to the tests; or given a
    data model under its fully-qualified name. *)
Inductive node_outcome {Catalog : Type} (key : string) (mnode : json)
    (w : World Catalog) : result unit -> World Catalog -> Prop :=
| node_raised e l :
    node_outcome key mnode w (Raise e) (add_log w l)
| node_routed l :
    resource_type_is_test mnode = true ->
    node_outcome key mnode w (Ok tt)
      (with_self
         (fun s => set_dbt_tests (dict_set String.eqb (dbt_tests s) key mnode) s)
         (add_log w l))
| node_resolved l cnode model_fqn model :
    resource_type_is_test mnode = false ->
    dict_get String.eqb (catalog_entities (self w)) key = Some cnode ->
    node_outcome key mnode w (Ok tt)
      (with_self
         (fun s => set_data_models (dict_set fqn_eqb (data_models s) model_fqn model) s)
         (add_log w l)).

(** [model] under the name [model_fqn] is the data model of the node
    [mnode] of key [key], resolved in the world [w]: the name is what
    [fqn.build] gives for the service, the database and the schema of the
    node, each ["default"] when empty, and the alias of the node, or its
    name when it has no alias; the model is of type DBT, its description
    is that of the node, none when empty, its path joins [root_path] and
    [original_file_path], its raw SQL is [raw_sql], [""] when the node has
    none, its SQL is [compiled_sql], the raw SQL when the node has no such
    key, its columns are those resolved from the catalog entry of the
    node, its upstream names those of the node, and its owner the one
    resolved from the [owner] of the metadata of the catalog entry. *)
Definition model_of_node {Catalog : Type} {OM : OpenMetadata Catalog}
    (w : World Catalog) (key : string) (mnode : json)
    (model_fqn : option string) (model : DataModel) : Prop :=
  exists model_name database schema raw_sql descr root_path original_file_path
         cnode cmetadata dbt_owner,
    alias_or_name mnode = Ok model_name /\
    or_default mnode "database" = Ok database /\
    or_default mnode "schema" = Ok schema /\
    fqn_build (metadata (self w))
      (fqn_DataModel (serviceName (self w)) database schema model_name) = Ok model_fqn /\
    modelType model = DBT /\
    py_get mnode "description" JNull = Ok descr /\
    description model = (if py_truthy descr then Some descr else None) /\
    py_subscript mnode (JStr "root_path") = Ok root_path /\
    py_subscript mnode (JStr "original_file_path") = Ok original_file_path /\
    path model = py_str root_path ++ "/" ++ py_str original_file_path /\
    py_get mnode "raw_sql" (JStr "") = Ok raw_sql /\
    rawSql model = raw_sql /\
    py_get mnode "compiled_sql" raw_sql = Ok (sql model) /\
    dict_get String.eqb (catalog_entities (self w)) key = Some cnode /\
    fst (_parse_data_model_columns model_name mnode cnode w) = Ok (columns model) /\
    (exists l0, fst (_parse_data_model_upstream mnode (add_log w l0))
                = Ok (upstream model)) /\
    py_subscript cnode (JStr "metadata") = Ok cmetadata /\
    py_get cmetadata "owner" JNull = Ok dbt_owner /\
    (exists l0, fst (resolve_owner dbt_owner (add_log w l0)) = Ok (owner model)).

(** The turn of the node [mnode] of key [key] gets as far as the test of
    its [resource_type]: the node has an alias or a name, and the columns
    of its catalog entry, when it has one, are resolved without an
    exception. *)
Definition reaches_routing {Catalog : Type} {OM : OpenMetadata Catalog}
    (w : World Catalog) (key : string) (mnode : json) : Prop :=
  exists name,
    alias_or_name mnode = Ok name /\
    forall cnode,
      dict_get String.eqb (catalog_entities (self w)) key = Some cnode ->
      py_truthy cnode = true ->
      exists columns, fst (_parse_data_model_columns name mnode cnode w) = Ok columns.

(** The records the handler of [parse_entity] writes. *)
Definition parse_entity_records (exc : exn) : list LogRecord :=
  [mk_LogRecord DEBUG "traceback" [] (Some exc);
   mk_LogRecord WARNING "Unexpected exception parsing data model: {exc}" []
     (Some exc)].

(** The world after the handler, if it ran. *)
Definition after_handler {Catalog : Type} (r : result unit) (w : World Catalog)
  : World Catalog :=
  match r with
  | Ok _ => w
  | Raise exc => add_log w (parse_entity_records exc)
  end.

(** The world in which the loop of [_parse_data_model] starts. *)
Definition merged {Catalog : Type} (w : World Catalog)
    (m c : list (string * json)) : World Catalog :=
  with_self (fun s => set_catalog_entities c (set_manifest_entities m s))
    (add_log w [mk_LogRecord INFO "Parsing Data Models" [] None]).

(** The world in which the loop takes up its entity number [i]. *)
Definition at_turn {Catalog : Type} {OM : OpenMetadata Catalog}
    (entities : list (string * json)) (w0 : World Catalog) (i : nat) : World Catalog :=
  snd (for_ (firstn i entities) parse_entity w0).

(** The keys of the data models stay, and stay distinct. *)
Definition models_kept {Catalog : Type} (w w' : World Catalog) : Prop :=
  (forall k, In k (map fst (data_models (self w))) ->
             In k (map fst (data_models (self w')))) /\
  (NoDup (map fst (data_models (self w))) ->
   NoDup (map fst (data_models (self w')))).

(** The test under [key] stays. *)
Definition test_kept {Catalog : Type} (key : string) (w w' : World Catalog) : Prop :=
  dict_get String.eqb (dbt_tests (self w')) key =
  dict_get String.eqb (dbt_tests (self w)) key.

(** At turn [k] of the loop over the entities [m], started in [w0], a node
    that is no test was resolved without an exception, and its data model
    [model] was put into the map under the name [model_fqn]. *)
Definition put_model {Catalog : Type} {OM : OpenMetadata Catalog}
    (m : list (string * json)) (w0 : World Catalog) (k : nat)
    (model_fqn : option string) (model : DataModel) : Prop :=
  exists key mnode,
    nth_error m k = Some (key, mnode) /\
    resource_type_is_test mnode = false /\
    fst (parse_node key mnode (at_turn m w0 k)) = Ok tt /\
    data_models (self (snd (parse_entity (key, mnode) (at_turn m w0 k)))) =
      dict_set fqn_eqb (data_models (self (at_turn m w0 k))) model_fqn model.

(** At turn [k] of the loop over the entities [m], started in [w0], the
    node of that turn, which is no test, was resolved without an
    exception, and [model], the data model of that node, was put into the
    map under the name [model_fqn] of the node. *)
Definition resolved_at {Catalog : Type} {OM : OpenMetadata Catalog}
    (m : list (string * json)) (w0 : World Catalog) (k : nat)
    (model_fqn : option string) (model : DataModel) : Prop :=
  put_model m w0 k model_fqn model /\
  exists key mnode,
    nth_error m k = Some (key, mnode) /\
    model_of_node (at_turn m w0 k) key mnode model_fqn model.

(** What the merge of the nodes and sources of a document [d] misses
    first: its [nodes], or, when its nodes are a dict, its [sources]. *)
Inductive lacks (d : list (string * json)) : string -> Prop :=
| lacks_nodes :
    dict_get String.eqb d "nodes" = None ->
    lacks d "nodes"
| lacks_sources a :
    dict_get String.eqb d "nodes" = Some (JDict a) ->
    dict_get String.eqb d "sources" = None ->
    lacks d "sources".

(** Everything of the world but the two maps a run of [_parse_data_model]
    fills, and the log, is as before. *)
Definition static_kept {Catalog : Type} (w w' : World Catalog) : Prop :=
  dbtConfigSource (self w') = dbtConfigSource (self w) /\
  serviceName (self w') = serviceName (self w) /\
  dbt_manifest (self w') = dbt_manifest (self w) /\
  dbt_catalog (self w') = dbt_catalog (self w) /\
  dbt_run_results (self w') = dbt_run_results (self w) /\
  manifest_entities (self w') = manifest_entities (self w) /\
  catalog_entities (self w') = catalog_entities (self w) /\
  metadata (self w') = metadata (self w) /\
  yielded w' = yielded w /\
  submitted w' = submitted w.

(** The object is as before but for the state of the server, and no
    result was submitted. *)
Definition object_kept {Catalog : Type} (w w' : World Catalog) : Prop :=
  dbtConfigSource (self w') = dbtConfigSource (self w) /\
  serviceName (self w') = serviceName (self w) /\
  dbt_manifest (self w') = dbt_manifest (self w) /\
  dbt_catalog (self w') = dbt_catalog (self w) /\
  dbt_run_results (self w') = dbt_run_results (self w) /\
  manifest_entities (self w') = manifest_entities (self w) /\
  catalog_entities (self w') = catalog_entities (self w) /\
  data_models (self w') = data_models (self w) /\
  dbt_tests (self w') = dbt_tests (self w) /\
  submitted w' = submitted w.

(** The server finds the same tables as before, what was yielded before
    is still among the yielded requests, and the data models are the
    same. *)
Definition tables_kept {Catalog : Type} {OM : OpenMetadata Catalog}
    (w w' : World Catalog) : Prop :=
  (forall n, get_by_name (metadata (self w')) Table n =
             get_by_name (metadata (self w)) Table n) /\
  (forall r, In r (yielded w) -> In r (yielded w')).

(** The caller's handling of a lineage request does not change which
    tables the server finds. *)
Definition lineage_keeps_tables {Catalog : Type} (OM : OpenMetadata Catalog) : Prop :=
  forall (edge : EntitiesEdge) (c : Catalog) (n : json),
    get_by_name (consume (AddLineageRequest edge) c) Table n = get_by_name c Table n.

(** [request] asks for the suite of a test of [tests], under the name and
    with the description of the [meta] of the test, or for the definition
    of a test of [tests], under the name of the test; in either case a
    lookup by that name had found nothing on the server, in one state [c]
    of it. *)
Definition suite_or_definition_of {Catalog : Type} {OM : OpenMetadata Catalog}
    (tests : list (string * json)) (request : Request) : Prop :=
  exists key dbt_test (c : Catalog),
    In (key, dbt_test) tests /\
    ((exists name description,
        meta_get dbt_test "test_suite_name" (JStr "DBT_TEST_SUITE") = Ok name /\
        meta_get dbt_test "test_suite_desciption" (JStr "") = Ok description /\
        get_by_name c TestSuite name = Ok None /\
        request = CreateTestSuiteRequest name description) \/
     (exists name description column_name parameterDefinition,
        py_subscript dbt_test (JStr "name") = Ok name /\
        py_subscript dbt_test (JStr "description") = Ok description /\
        py_get dbt_test "column_name" JNull = Ok column_name /\
        create_test_case_parameter_definitions dbt_test = Ok parameterDefinition /\
        get_by_name c TestDefinition name = Ok None /\
        request =
          CreateTestDefinitionRequest name description
            (if py_truthy column_name then COLUMN else TABLE) [PlatformDBT]
            parameterDefinition)).

(** On a server in state [c], nothing is yielded and the server stays in
    that state. *)
Definition silent_on {Catalog : Type} (c : Catalog) (w w' : World Catalog) : Prop :=
  metadata (self w) = c ->
  metadata (self w') = c /\ yielded w' = yielded w.

(** A computation that leaves the world as it is. *)
Definition idle {Catalog : Type} {A} (m : M Catalog A) : Prop :=
  forall w, snd (m w) = w.

(** The link to the table [table_fqn], or to its column [column_name]. *)
Definition entity_link_text {Catalog : Type} {OM : OpenMetadata Catalog}
    (table_fqn : option string) (column_name : json) : string :=
  if py_truthy column_name
  then "<#E::table::" ++ str_of_fqn table_fqn ++ "::columns::" ++ py_str column_name ++ ">"
  else "<#E::table::" ++ str_of_fqn table_fqn ++ ">".

(** [link] is the link of the test with column [column_name] to the table
    of the manifest entity [node], as the world [w] has them. *)
Definition entity_link_to {Catalog : Type} {OM : OpenMetadata Catalog}
    (w : World Catalog) (column_name node : json) (link : string) : Prop :=
  exists model database_name schema_name table_name table_fqn,
    dict_get_json (manifest_entities (self w)) node = Ok (Some model) /\
    py_get model "database" JNull = Ok database_name /\
    py_get model "schema" JNull = Ok schema_name /\
    py_get model "name" JNull = Ok table_name /\
    fqn_build (metadata (self w))
      (fqn_Table (serviceName (self w)) database_name schema_name table_name)
      = Ok table_fqn /\
    link = entity_link_text table_fqn column_name.


(** A piece of the expression that leaves a rest of the text it read. *)
Definition keeps (p : matcher) : Prop :=
  forall l n r, p l = Some (n, r) -> incl r l.

(** [parent_fqn] is the name of the table of the manifest entity [node],
    as [fqn.build] gives it for its database and its schema, each
    ["default"] when empty, and its name; and it is not empty. *)
Definition upstream_name_of {Catalog : Type} {OM : OpenMetadata Catalog}
    (w : World Catalog) (node : json) (parent_fqn : string) : Prop :=
  exists parent_node database_name schema_name table_name,
    py_subscript (JDict (manifest_entities (self w))) node = Ok parent_node /\
    or_default parent_node "database" = Ok database_name /\
    or_default parent_node "schema" = Ok schema_name /\
    py_subscript parent_node (JStr "name") = Ok table_name /\
    fqn_build (metadata (self w))
      (fqn_Table (serviceName (self w)) database_name schema_name table_name)
      = Ok (Some parent_fqn) /\
    parent_fqn <> "".

(** The value the assignments [u] leave under [k]: that of the last one
    to [k]. *)
Fixpoint last_put {K V : Type} (eqb : K -> K -> bool) (u : list (K * V)) (k : K)
  : option V :=
  match u with
  | [] => None
  | (k1, v1) :: u' =>
      match last_put eqb u' k with
      | Some v => Some v
      | None => if eqb k1 k then Some v1 else None
      end
  end.

(** The two objects differ at most in their maps of data models and of
    tests. *)
Definition same_setting {Catalog : Type} (s1 s2 : DBTMixin Catalog) : Prop :=
  dbtConfigSource s1 = dbtConfigSource s2 /\
  serviceName s1 = serviceName s2 /\
  dbt_manifest s1 = dbt_manifest s2 /\
  dbt_catalog s1 = dbt_catalog s2 /\
  dbt_run_results s1 = dbt_run_results s2 /\
  manifest_entities s1 = manifest_entities s2 /\
  catalog_entities s1 = catalog_entities s2 /\
  metadata s1 = metadata s2.

(** What one turn of the loop of [_parse_data_model] assigns. *)
Inductive Put : Type :=
| put_nothing
| put_test (key : string) (mnode : json)
| put_data_model (model_fqn : option string) (model : DataModel).

Definition models_put (d : list (option string * DataModel)) (u : Put)
  : list (option string * DataModel) :=
  match u with
  | put_data_model model_fqn model => dict_set fqn_eqb d model_fqn model
  | _ => d
  end.

Definition tests_put (d : list (string * json)) (u : Put) : list (string * json) :=
  match u with
  | put_test key mnode => dict_set String.eqb d key mnode
  | _ => d
  end.

Definition apply_put {Catalog : Type} (u : Put) (w : World Catalog) : World Catalog :=
  with_self
    (fun s => set_data_models (models_put (data_models s) u)
                (set_dbt_tests (tests_put (dbt_tests s) u) s)) w.

(** Run in two worlds of the same setting, the two computations return
    the same, log the same and assign the same. *)
Definition alike {Catalog : Type} {A} (m1 m2 : M Catalog A) : Prop :=
  forall w1 w2,
    same_setting (self w1) (self w2) ->
    exists r u l,
      m1 w1 = (r, apply_put u (add_log w1 l)) /\
      m2 w2 = (r, apply_put u (add_log w2 l)).

(** The same, for computations that assign nothing. *)
Definition alike_quiet {Catalog : Type} {A} (m1 m2 : M Catalog A) : Prop :=
  forall w1 w2,
    same_setting (self w1) (self w2) ->
    exists r l, m1 w1 = (r, add_log w1 l) /\ m2 w2 = (r, add_log w2 l).

Definition apply_puts {Catalog : Type} (us : list Put) (w : World Catalog)
  : World Catalog :=
  fold_left (fun w u => apply_put u w) us w.

(** The data models among the assignments. *)
Definition model_puts (us : list Put) : list (option string * DataModel) :=
  flat_map (fun u => match u with
                     | put_data_model model_fqn model => [(model_fqn, model)]
                     | _ => []
                     end) us.

(** The tests among the assignments. *)
Definition test_puts (us : list Put) : list (string * json) :=
  flat_map (fun u => match u with
                     | put_test key mnode => [(key, mnode)]
                     | _ => []
                     end) us.



(** The seconds from the epoch to [dt], fractions apart. *)
Definition posix_seconds (dt : datetime) : Z :=
  (toordinal dt - toordinal epoch) * 86400 +
  (hour dt * 3600 + minute dt * 60 + second dt).

(** The float that is the integer [n], for [n] of at most 53 bits. *)
Definition float_of_positive (s : bool) (n : positive) : spec_float :=
  S754_finite s
    (Z.to_pos (Zpos n * 2 ^ (53 - Zpos (digits2_pos n))))
    (Zpos (digits2_pos n) - 53).

(** The record [mrs] is what a right shift by [j] bits leaves of the
    integer [V]: the bits that remain, and where the bits shifted out lie
    against the half of the last place. *)
Definition shifted_out (V j : Z) (mrs : shr_record) : Prop :=
  0 <= shr_m mrs /\
  0 <= V - shr_m mrs * 2 ^ j < 2 ^ j /\
  match shr_r mrs, shr_s mrs with
  | false, false => V - shr_m mrs * 2 ^ j = 0
  | false, true => 0 < 2 * (V - shr_m mrs * 2 ^ j) < 2 ^ j
  | true, false => 2 * (V - shr_m mrs * 2 ^ j) = 2 ^ j
  | true, true => 2 ^ j < 2 * (V - shr_m mrs * 2 ^ j)
  end.

(** ** Further sample documents *)

(** A test on the source [t1] and on an entity the manifest does not
    hold. *)
Definition test_on_gone : json :=
  JDict [("name", JStr "tg"); ("resource_type", JStr "test");
         ("description", JStr ""); ("meta", JDict []);
         ("column_name", JStr "id");
         ("depends_on",
          JDict [("nodes", JList [JStr "source.p.t1"; JStr "source.p.gone"])]);
         ("test_metadata", JDict [("name", JStr "not_null"); ("kwargs", JDict [])])].

(** A test of the accepted values of a column of the source [t1]. *)
Definition accepted_values_test (values : json) : json :=
  JDict [("name", JStr "av"); ("resource_type", JStr "test");
         ("description", JStr ""); ("meta", JDict []);
         ("column_name", JStr "id");
         ("depends_on", JDict [("nodes", JList [JStr "source.p.t1"])]);
         ("test_metadata",
          JDict [("name", JStr "accepted_values");
                 ("kwargs", JDict [("values", values)])])].


(** The run result of the model [t2]. *)
Definition result_of_model : json :=
  JDict [("unique_id", JStr "model.p.t2"); ("status", JStr "success");
         ("timing", JList [Demo.timing_compile; Demo.timing_execute])].

(** A run result whose test was timed to the whole second. *)
Definition result_on_the_second : json :=
  JDict [("unique_id", JStr "test.p.tb"); ("status", JStr "success");
         ("timing",
          JList [JDict [("name", JStr "execute");
                        ("completed_at", JStr "2023-01-01T00:00:00Z")]])].

(** The source [t1] with its column declared in upper case, with a
    description. *)
Definition node_upper : json :=
  JDict [("name", JStr "t1"); ("resource_type", JStr "source");
         ("database", JStr "db"); ("schema", JStr "schema");
         ("columns",
          JDict [("ID", JDict [("name", JStr "ID"); ("description", JStr "identifier")])])].

(** A catalog entry with a column that has no name, after one that has. *)
Definition cnode_nameless : json :=
  Demo.cnode_of [("ID", Demo.ccolumn_id (JStr "the id"));
            ("X", JDict [("type", JStr "INT"); ("index", JInt 2)])].

(** The run result of the test [tg], and the object that holds the test. *)
Definition result_of_gone : json :=
  JDict [("unique_id", JStr "test.p.tg"); ("status", JStr "failure");
         ("timing", JList [Demo.timing_execute])].

Definition tested_gone : World Demo.Store :=
  mk_World (set_dbt_tests [("test.p.tg", test_on_gone)] (self Demo.tested_two)) [] [] [].

(** * Properties *)


(** ** Dictionaries *)
Section DictFacts.
Context {K V : Type} (eqb : K -> K -> bool).
Hypothesis eqb_eq : forall a b, eqb a b = true <-> a = b.

Lemma eqb_refl_of (k : K) : eqb k k = true.
Proof. apply eqb_eq. reflexivity. Qed.

Lemma eqb_neq_of (a b : K) : a <> b -> eqb a b = false.
Proof.
  intros Hne. destruct (eqb a b) eqn:E; [|reflexivity].
  apply eqb_eq in E. contradiction.
Qed.

Lemma dict_get_set_same (d : list (K * V)) k v :
  dict_get eqb (dict_set eqb d k v) k = Some v.
Proof.
  induction d as [|[k' v'] d IH]; simpl.
  - rewrite eqb_refl_of. reflexivity.
  - destruct (eqb k' k) eqn:E; simpl; rewrite E; [reflexivity | exact IH].
Qed.

Lemma dict_get_set_other (d : list (K * V)) k v k' :
  k <> k' -> dict_get eqb (dict_set eqb d k v) k' = dict_get eqb d k'.
Proof.
  intros Hne. induction d as [|[k0 v0] d IH]; simpl.
  - rewrite (eqb_neq_of _ _ Hne). reflexivity.
  - destruct (eqb k0 k) eqn:E; simpl.
    + apply eqb_eq in E. subst k0. rewrite (eqb_neq_of _ _ Hne). reflexivity.
    + destruct (eqb k0 k'); [reflexivity | exact IH].
Qed.

Lemma keys_dict_set (d : list (K * V)) k v :
  map fst (dict_set eqb d k v) =
  if dict_mem eqb d k then map fst d else (map fst d ++ [k])%list.
Proof.
  unfold dict_mem.
  induction d as [|[k' v'] d IH]; simpl; [reflexivity|].
  destruct (eqb k' k) eqn:E; simpl; [reflexivity|].
  rewrite IH. destruct (dict_get eqb d k); reflexivity.
Qed.

Lemma dict_mem_In (d : list (K * V)) k :
  dict_mem eqb d k = true <-> In k (map fst d).
Proof.
  unfold dict_mem. induction d as [|[k' v'] d IH]; simpl.
  - split; [discriminate | tauto].
  - destruct (eqb k' k) eqn:E.
    + apply eqb_eq in E. split; auto.
    + split.
      * intros H. right. apply IH, H.
      * intros [H|H]; [subst; rewrite eqb_refl_of in E; discriminate | apply IH, H].
Qed.

Lemma dict_get_In (d : list (K * V)) k v :
  dict_get eqb d k = Some v -> In (k, v) d.
Proof.
  induction d as [|[k' v'] d IH]; simpl; [discriminate|].
  destruct (eqb k' k) eqn:E.
  - intros H. injection H as ->. apply eqb_eq in E. subst. now left.
  - intros H. right. auto.
Qed.

Lemma dict_get_None_not_In (d : list (K * V)) k :
  dict_get eqb d k = None <-> ~ In k (map fst d).
Proof.
  rewrite <- dict_mem_In. unfold dict_mem.
  destruct (dict_get eqb d k); split; intros; try discriminate; try reflexivity.
  exfalso. auto.
Qed.

Lemma NoDup_keys_dict_set (d : list (K * V)) k v :
  NoDup (map fst d) -> NoDup (map fst (dict_set eqb d k v)).
Proof.
  intros Hnd. rewrite keys_dict_set.
  destruct (dict_mem eqb d k) eqn:E; [exact Hnd|].
  apply NoDup_app; [exact Hnd | repeat constructor; simpl; tauto |].
  intros x Hx [<-|[]].
  apply dict_mem_In in Hx. congruence.
Qed.

Lemma In_keys_dict_set (d : list (K * V)) k v k' :
  In k' (map fst d) -> In k' (map fst (dict_set eqb d k v)).
Proof.
  intros H. rewrite keys_dict_set.
  destruct (dict_mem eqb d k); [exact H | apply in_or_app; now left].
Qed.

Lemma In_key_dict_set_same (d : list (K * V)) k v :
  In k (map fst (dict_set eqb d k v)).
Proof.
  apply dict_mem_In. unfold dict_mem. rewrite dict_get_set_same. reflexivity.
Qed.

Lemma NoDup_keys_dict_update (d d' : list (K * V)) :
  NoDup (map fst d) -> NoDup (map fst (dict_update eqb d d')).
Proof.
  unfold dict_update. revert d.
  induction d' as [|[k v] d' IH]; simpl; intros d Hnd; [exact Hnd|].
  apply IH, NoDup_keys_dict_set, Hnd.
Qed.

Lemma count_key_NoDup (d : list (K * V)) k :
  NoDup (map fst d) -> In k (map fst d) -> count_key eqb d k = 1%nat.
Proof.
  unfold count_key.
  induction d as [|[k' v'] d IH]; simpl; intros Hnd Hin; [contradiction|].
  inversion Hnd as [|? ? Hni Hnd']; subst.
  destruct (eqb k' k) eqn:E; simpl.
  - apply eqb_eq in E. subst k'. f_equal.
    clear IH Hin Hnd Hnd'. induction d as [|[k2 v2] d IH]; simpl; [reflexivity|].
    simpl in Hni. destruct (eqb k2 k) eqn:E2.
    + apply eqb_eq in E2. subst. exfalso. apply Hni. now left.
    + apply IH. intros H. apply Hni. now right.
  - destruct Hin as [->|Hin]; [rewrite eqb_refl_of in E; discriminate|].
    apply IH; assumption.
Qed.

End DictFacts.

Lemma fqn_eqb_eq (a b : option string) : fqn_eqb a b = true <-> a = b.
Proof.
  destruct a as [a|], b as [b|]; simpl; split; intros H;
    try discriminate; try reflexivity.
  - apply String.eqb_eq in H. now subst.
  - injection H as ->. apply String.eqb_refl.
Qed.

Lemma Forall_app_one {A} (P : A -> Prop) (l : list A) (x : A) :
  Forall P l -> P x -> Forall P (l ++ [x]).
Proof. intros Hl Hx. apply Forall_app. split; [exact Hl | now constructor]. Qed.

(** ** The monad *)
Section MonadFacts.
Context {Catalog : Type} {OM : OpenMetadata Catalog}.
Implicit Types (w : World Catalog).

Lemma add_log_nil w : add_log w [] = w.
Proof. destruct w. unfold add_log. simpl. rewrite app_nil_r. reflexivity. Qed.

Lemma add_log_app w l1 l2 : add_log (add_log w l1) l2 = add_log w (l1 ++ l2).
Proof. unfold add_log. simpl. rewrite app_assoc. reflexivity. Qed.

Lemma self_add_log w l : self (add_log w l) = self w.
Proof. reflexivity. Qed.

Lemma quiet_run {A} (m : M Catalog A) :
  quiet m -> forall w, exists r l, m w = (r, add_log w l).
Proof.
  intros Hq w. destruct (Hq w) as [l Hl].
  exists (fst (m w)), l. rewrite <- Hl. destruct (m w); reflexivity.
Qed.

Lemma quiet_ret {A} (a : A) : quiet (ret (Catalog := Catalog) a).
Proof. intros w. exists []. simpl. now rewrite add_log_nil. Qed.

Lemma quiet_raise {A} (e : exn) : quiet (raise (Catalog := Catalog) (A := A) e).
Proof. intros w. exists []. simpl. now rewrite add_log_nil. Qed.

Lemma quiet_lift {A} (r : result A) : quiet (lift (Catalog := Catalog) r).
Proof. intros w. exists []. simpl. now rewrite add_log_nil. Qed.

Lemma quiet_get_self : quiet (get_self (Catalog := Catalog)).
Proof. intros w. exists []. simpl. now rewrite add_log_nil. Qed.

Lemma quiet_log (r : LogRecord) : quiet (log (Catalog := Catalog) r).
Proof. intros w. exists [r]. reflexivity. Qed.

Lemma quiet_bind {A B} (m : M Catalog A) (f : A -> M Catalog B) :
  quiet m -> (forall a, quiet (f a)) -> quiet (bind m f).
Proof.
  intros Hm Hf w. unfold bind.
  destruct (quiet_run m Hm w) as (r & l & E). rewrite E.
  destruct r as [a|e].
  - destruct (Hf a (add_log w l)) as [l' E']. exists (l ++ l')%list.
    rewrite E'. apply add_log_app.
  - exists l. reflexivity.
Qed.

Lemma quiet_try_except {A} (m : M Catalog A) (h : exn -> M Catalog A) :
  quiet m -> (forall e, quiet (h e)) -> quiet (try_except m h).
Proof.
  intros Hm Hh w. unfold try_except.
  destruct (quiet_run m Hm w) as (r & l & E). rewrite E.
  destruct r as [a|e].
  - exists l. reflexivity.
  - destruct (Hh e (add_log w l)) as [l' E']. exists (l ++ l')%list.
    rewrite E'. apply add_log_app.
Qed.

Lemma quiet_for_each {X A} (xs : list X) (body : A -> X -> M Catalog A) (acc : A) :
  (forall a x, quiet (body a x)) -> quiet (for_each xs body acc).
Proof.
  intros Hb. revert acc. induction xs as [|x xs IH]; intros acc; simpl.
  - apply quiet_ret.
  - apply quiet_bind; [apply Hb | intros a; apply IH].
Qed.

Lemma quiet_for_ {X} (xs : list X) (body : X -> M Catalog unit) :
  (forall x, quiet (body x)) -> quiet (for_ xs body).
Proof. intros Hb. apply quiet_for_each. intros _ x. apply Hb. Qed.

Lemma quiet_construct {A} (valid : A -> bool) (a : A) :
  quiet (construct (Catalog := Catalog) valid a).
Proof. unfold construct. destruct (valid a); [apply quiet_ret | apply quiet_raise]. Qed.

Lemma quiet_m_fqn_build (a : FqnArgs) : quiet (m_fqn_build a).
Proof. intros w. exists []. simpl. now rewrite add_log_nil. Qed.

Lemma quiet_m_get_by_name (k : EntityKind) (n : json) : quiet (m_get_by_name k n).
Proof. intros w. exists []. simpl. now rewrite add_log_nil. Qed.

Lemma quiet_m_get_entity_reference (k : EntityKind) (n : string) :
  quiet (m_get_entity_reference k n).
Proof. intros w. exists []. simpl. now rewrite add_log_nil. Qed.

End MonadFacts.

Create HintDb quiet.

#[local] Hint Resolve quiet_ret quiet_raise quiet_lift quiet_get_self quiet_log
  quiet_construct quiet_m_fqn_build quiet_m_get_by_name
  quiet_m_get_entity_reference : quiet.

(** Descends into a computation built from binds, handlers, loops,
    conditionals and the quiet operations. *)
Ltac quiet_tac :=
  repeat first
    [ apply quiet_bind; [|intros ?]
    | apply quiet_try_except; [|intros ?]
    | apply quiet_for_each; intros ? ?
    | apply quiet_for_; intros ?
    | progress auto with quiet
    | match goal with
      | |- quiet (if ?b then _ else _) => destruct b
      | |- quiet (match ?x with _ => _ end) => destruct x
      | |- quiet (let '(_, _) := ?x in _) => destruct x
      end ].

Section Steps.
Context {Catalog : Type} {OM : OpenMetadata Catalog}.
Implicit Types (w : World Catalog).

Lemma bind_lift_eq {A B} (r : result A) (f : A -> M Catalog B) w :
  bind (lift r) f w =
  match r with
  | Ok a => f a w
  | Raise e => (Raise e, w)
  end.
Proof. unfold bind, lift. destruct r; reflexivity. Qed.

Lemma bind_ret_eq {A B} (a : A) (f : A -> M Catalog B) w :
  bind (ret a) f w = f a w.
Proof. reflexivity. Qed.

Lemma bind_get_self_eq {B} (f : DBTMixin Catalog -> M Catalog B) w :
  bind get_self f w = f (self w) w.
Proof. reflexivity. Qed.

Lemma bind_log_eq {B} (r : LogRecord) (f : unit -> M Catalog B) w :
  bind (log r) f w = f tt (add_log w [r]).
Proof. reflexivity. Qed.

Lemma bind_fqn_build_eq {B} (a : FqnArgs) (f : option string -> M Catalog B) w :
  bind (m_fqn_build a) f w =
  match fqn_build (metadata (self w)) a with
  | Ok x => f x w
  | Raise e => (Raise e, w)
  end.
Proof. unfold bind, m_fqn_build. destruct (fqn_build _ _); reflexivity. Qed.

Lemma bind_get_by_name_eq {B} k n (f : option Entity -> M Catalog B) w :
  bind (m_get_by_name k n) f w =
  match get_by_name (metadata (self w)) k n with
  | Ok x => f x w
  | Raise e => (Raise e, w)
  end.
Proof. unfold bind, m_get_by_name. destruct (get_by_name _ _ _); reflexivity. Qed.

Lemma bind_get_entity_reference_eq {B} k n
    (f : option EntityReference -> M Catalog B) w :
  bind (m_get_entity_reference k n) f w =
  match get_entity_reference (metadata (self w)) k n with
  | Ok x => f x w
  | Raise e => (Raise e, w)
  end.
Proof.
  unfold bind, m_get_entity_reference.
  destruct (get_entity_reference _ _ _); reflexivity.
Qed.

Lemma bind_construct_eq {A B} (valid : A -> bool) (a : A) (f : A -> M Catalog B) w :
  bind (construct valid a) f w =
  if valid a then f a w else (Raise ValidationError, w).
Proof. unfold bind, construct. destruct (valid a); reflexivity. Qed.

Lemma construct_eq {A} (valid : A -> bool) (a : A) w :
  construct valid a w =
  if valid a then (Ok a, w) else (Raise ValidationError, w).
Proof. unfold construct. destruct (valid a); reflexivity. Qed.

Lemma bind_quiet_eq {A B} (m : M Catalog A) (f : A -> M Catalog B) w :
  quiet m ->
  exists r l,
    m w = (r, add_log w l) /\
    bind m f w =
    match r with
    | Ok a => f a (add_log w l)
    | Raise e => (Raise e, add_log w l)
    end.
Proof.
  intros Hq. destruct (quiet_run m Hq w) as (r & l & E).
  exists r, l. split; [exact E|]. unfold bind. rewrite E. destruct r; reflexivity.
Qed.

Lemma try_except_eq {A} (m : M Catalog A) (h : exn -> M Catalog A) w :
  try_except m h w =
  match fst (m w) with
  | Ok a => (Ok a, snd (m w))
  | Raise e => h e (snd (m w))
  end.
Proof. unfold try_except. destruct (m w) as [[a|e] w1]; reflexivity. Qed.

End Steps.

(** One step of the symbolic run recorded in hypothesis [H]: the first
    operation of the computation is run, and the run splits on its result. *)
Ltac run_split H :=
  match type of H with
  | (match ?x with Ok _ => _ | Raise _ => _ end) = _ =>
      let E := fresh "E" in destruct x eqn:E
  | (match ?x with Some _ => _ | None => _ end) = _ =>
      let E := fresh "E" in destruct x eqn:E
  | (match ?x with Some _ => _ | None => _ end) _ = _ =>
      let E := fresh "E" in destruct x eqn:E
  | (if ?b then _ else _) = _ =>
      let E := fresh "E" in destruct b eqn:E
  | (if ?b then _ else _) _ = _ =>
      let E := fresh "E" in destruct b eqn:E
  end.

Ltac run_split_as H x E :=
  match type of H with
  | (match ?r with Ok _ => _ | Raise _ => _ end) = _ =>
      destruct r as [x|?e] eqn:E
  | (match ?r with Some _ => _ | None => _ end) = _ =>
      destruct r as [x|] eqn:E
  | (match ?r with Some _ => _ | None => _ end) _ = _ =>
      destruct r as [x|] eqn:E
  end.

(** The same for an operation that returns a value: the value is named [x]
    and the equation of the operation [E]; the run in which the operation
    raises is closed when it cannot be the run of [H]. *)
Ltac run_as H x E :=
  first
    [ rewrite bind_lift_eq in H
    | rewrite bind_fqn_build_eq in H
    | rewrite bind_get_by_name_eq in H
    | rewrite bind_get_entity_reference_eq in H ];
  run_split_as H x E; cbv beta in H; [|try discriminate].

Ltac run_step H :=
  first
    [ rewrite bind_lift_eq in H; run_split H
    | rewrite bind_fqn_build_eq in H; run_split H
    | rewrite bind_get_by_name_eq in H; run_split H
    | rewrite bind_get_entity_reference_eq in H; run_split H
    | rewrite bind_construct_eq in H; run_split H
    | rewrite construct_eq in H; run_split H
    | rewrite bind_get_self_eq in H
    | rewrite bind_ret_eq in H
    | rewrite bind_log_eq in H
    | run_split H ];
  cbv beta in H.

Section UpstreamFacts.
Context {Catalog : Type} {OM : OpenMetadata Catalog}.
Implicit Types (w : World Catalog).

Lemma quiet_logger_debug_traceback e : quiet (logger_debug_traceback (Catalog := Catalog) e).
Proof. apply quiet_log. Qed.

Lemma quiet_logger_warning m a e : quiet (logger_warning (Catalog := Catalog) m a e).
Proof. apply quiet_log. Qed.

Lemma quiet_logger_error m a e : quiet (logger_error (Catalog := Catalog) m a e).
Proof. apply quiet_log. Qed.

Lemma quiet_logger_info m : quiet (logger_info (Catalog := Catalog) m).
Proof. apply quiet_log. Qed.

End UpstreamFacts.

#[local] Hint Resolve quiet_logger_debug_traceback quiet_logger_warning
  quiet_logger_error quiet_logger_info : quiet.

Section Upstream.
Context {Catalog : Type} {OM : OpenMetadata Catalog}.
Implicit Types (w : World Catalog).

Lemma quiet_upstream_of acc node : quiet (upstream_of acc node).
Proof. unfold upstream_of. quiet_tac. Qed.

Lemma quiet_parse_data_model_upstream mnode : quiet (_parse_data_model_upstream mnode).
Proof. unfold _parse_data_model_upstream. quiet_tac. Qed.

End Upstream.

Section UpstreamLength.
Context {Catalog : Type} {OM : OpenMetadata Catalog}.
Implicit Types (w : World Catalog).

Lemma upstream_of_spec acc node w :
  exists acc' l,
    upstream_of acc node w = (Ok acc', add_log w l) /\
    (acc' = acc \/ exists f, acc' = (acc ++ [f])%list) /\
    (forall id, node = JStr id ->
       dict_get String.eqb (manifest_entities (self w)) id = None ->
       acc' = acc /\ In (upstream_warning node (KeyError node)) l).
Proof.
  unfold upstream_of.
  match goal with |- context [try_except ?m ?h] => set (inner := m); set (handler := h) end.
  assert (Hq : quiet inner) by (unfold inner; quiet_tac).
  destruct (quiet_run inner Hq w) as (r & l & E).
  unfold try_except. rewrite E.
  destruct r as [a|e].
  - exists a, l. split; [reflexivity|]. split.
    + unfold inner in E. clear Hq.
      run_step E.
      run_step E; [|discriminate].
      run_step E; [|discriminate].
      run_step E; [|discriminate].
      run_step E; [|discriminate].
      run_step E; [|discriminate].
      run_step E; injection E as <- _; [right; eauto | now left].
    + intros id -> Habs. exfalso. unfold inner in E.
      run_step E.
      run_step E; [|discriminate].
      simpl in E0. rewrite Habs in E0. discriminate.
  - exists acc, (l ++ [mk_LogRecord DEBUG "traceback" [] (Some e);
                         upstream_warning node e])%list.
    split.
    { unfold handler, logger_debug_traceback, logger_warning, log, bind, ret,
        add_log, upstream_warning. simpl. repeat rewrite <- app_assoc. reflexivity. }
    split; [now left|].
    intros id -> Habs. split; [reflexivity|].
    unfold inner in E. run_step E. run_step E.
    + simpl in E0. rewrite Habs in E0. discriminate.
    + simpl in E0. rewrite Habs in E0. injection E0 as <-. injection E as <- _.
      apply in_or_app. right. right. left. reflexivity.
Qed.

Lemma upstream_loop_spec items : forall acc w,
  exists acc' l,
    for_each items upstream_of acc w = (Ok acc', add_log w l) /\
    (List.length acc' <= List.length acc + List.length items)%nat /\
    (forall id, In (JStr id) items ->
       dict_get String.eqb (manifest_entities (self w)) id = None ->
       (List.length acc' < List.length acc + List.length items)%nat /\
       In (upstream_warning (JStr id) (KeyError (JStr id))) l).
Proof.
  induction items as [|node items IH]; intros acc w; simpl.
  - exists acc, []. rewrite add_log_nil. split; [reflexivity|]. split; [lia|].
    intros id [].
  - destruct (upstream_of_spec acc node w) as (acc1 & l1 & E1 & Hacc1 & Habs1).
    destruct (IH acc1 (add_log w l1)) as (acc2 & l2 & E2 & Hlen2 & Habs2).
    exists acc2, (l1 ++ l2)%list. unfold bind. rewrite E1, E2.
    split; [now rewrite add_log_app|].
    assert (Hlen1 : (List.length acc1 <= List.length acc + 1)%nat).
    { destruct Hacc1 as [->|[f ->]]; [lia | rewrite length_app; simpl; lia]. }
    split; [lia|].
    intros id [Hhd|Htl] Habs.
    + destruct (Habs1 id Hhd Habs) as [-> Hin]. subst node. split; [lia|].
      apply in_or_app. now left.
    + destruct (Habs2 id Htl Habs) as [Hlt Hin]. split; [lia|].
      apply in_or_app. now right.
Qed.

End UpstreamLength.

Lemma py_subscript_str_inv (v : json) (k : string) (x : json) :
  py_subscript v (JStr k) = Ok x ->
  exists d, v = JDict d /\ dict_get String.eqb d k = Some x.
Proof.
  destruct v; simpl; try discriminate.
  intros H. exists d. split; [reflexivity|].
  destruct (dict_get String.eqb d k); [injection H as ->; reflexivity | discriminate].
Qed.

Lemma py_contains_subscript (v : json) (k : string) (x : json) :
  py_subscript v (JStr k) = Ok x -> py_contains k v = Ok true.
Proof.
  intros H. apply py_subscript_str_inv in H. destruct H as (d & -> & Hget).
  simpl. unfold dict_mem. rewrite Hget. reflexivity.
Qed.

Section C5.
Context {Catalog : Type} {OM : OpenMetadata Catalog}.
Implicit Types (w : World Catalog).

(** C5. For a manifest node whose [depends_on.nodes] holds the ids [items],
    [_parse_data_model_upstream] returns normally with a list no longer than
    [items]; when some id of [items] is no key of the merged manifest
    entities the list is strictly shorter, and the handler has logged the
    warning for that id: the missing id is skipped and the node goes on. *)
Theorem C5_upstream_length w (mnode depends_on nodes : json) (items : list json) :
  py_subscript mnode (JStr "depends_on") = Ok depends_on ->
  py_subscript depends_on (JStr "nodes") = Ok nodes ->
  py_iter nodes = Ok items ->
  exists upstream_nodes l,
    _parse_data_model_upstream mnode w = (Ok upstream_nodes, add_log w l) /\
    (List.length upstream_nodes <= List.length items)%nat /\
    (forall id,
       In (JStr id) items ->
       dict_get String.eqb (manifest_entities (self w)) id = None ->
       (List.length upstream_nodes < List.length items)%nat /\
       In (upstream_warning (JStr id) (KeyError (JStr id))) l).
Proof.
  intros Hdep Hnodes Hiter.
  destruct (upstream_loop_spec items [] w) as (acc & l & E & Hlen & Habs).
  exists acc, l. split; [|split; [exact Hlen | exact Habs]].
  unfold _parse_data_model_upstream, has_depends_on_nodes, bind, lift, rbind.
  rewrite (py_contains_subscript _ _ _ Hdep), Hdep,
    (py_contains_subscript _ _ _ Hnodes), Hnodes, Hiter.
  exact E.
Qed.

End C5.

Import Demo.

Lemma C5_upstream_length_witness :
  exists upstream_nodes l,
    _parse_data_model_upstream (OM := registering) node_t3 parsed_two =
      (Ok upstream_nodes, add_log parsed_two l) /\
    (List.length upstream_nodes <=
     List.length [JStr "source.p.t1"; JStr "source.p.gone"])%nat /\
    (forall id,
       In (JStr id) [JStr "source.p.t1"; JStr "source.p.gone"] ->
       dict_get String.eqb (manifest_entities (self parsed_two)) id = None ->
       (List.length upstream_nodes <
        List.length [JStr "source.p.t1"; JStr "source.p.gone"])%nat /\
       In (upstream_warning (JStr id) (KeyError (JStr id))) l).
Proof.
  apply (C5_upstream_length (OM := registering) parsed_two node_t3
           (JDict [("nodes", JList [JStr "source.p.t1"; JStr "source.p.gone"])])
           (JList [JStr "source.p.t1"; JStr "source.p.gone"]));
    reflexivity.
Defined.

(** ** Column resolution *)

Lemma py_get_total_on_subscript (v : json) (k k' : string) (x d : json) :
  py_subscript v (JStr k) = Ok x -> exists y, py_get v k' d = Ok y.
Proof.
  intros H. apply py_subscript_str_inv in H. destruct H as (dd & -> & _).
  simpl. destruct (dict_get String.eqb dd k'); eauto.
Qed.

Lemma picked_length {A B} (P : A -> B -> Prop) l l' :
  picked P l l' -> (List.length l' <= List.length l)%nat.
Proof. induction 1; simpl; lia. Qed.

Lemma picked_impl {A B} (P Q : A -> B -> Prop) l l' :
  (forall a b, P a b -> Q a b) -> picked P l l' -> picked Q l l'.
Proof.
  intros H. induction 1 as [|a l l' _ IH|a b l l' Hab _ IH].
  - constructor.
  - apply picked_skip, IH.
  - apply picked_take; [apply H, Hab | exact IH].
Qed.

Lemma picked_In {A B} (P : A -> B -> Prop) l l' :
  picked P l l' -> forall b, In b l' -> exists a, In a l /\ P a b.
Proof.
  induction 1 as [|a l l' _ IH|a b l l' Hab _ IH]; intros x Hx.
  - contradiction.
  - destruct (IH x Hx) as (a' & Ha' & Hp). exists a'. split; [now right | exact Hp].
  - destruct Hx as [<-|Hx].
    + exists a. split; [now left | exact Hab].
    + destruct (IH x Hx) as (a' & Ha' & Hp). exists a'. split; [now right | exact Hp].
Qed.

Section Columns.
Context {Catalog : Type} {OM : OpenMetadata Catalog}.
Implicit Types (w : World Catalog).

Lemma for_each_invariant {X A} (I : A -> Prop) (body : A -> X -> M Catalog A)
    (xs : list X) :
  (forall a x w a' w', I a -> In x xs -> body a x w = (Ok a', w') -> I a') ->
  forall acc w acc' w',
    I acc -> for_each xs body acc w = (Ok acc', w') -> I acc'.
Proof.
  induction xs as [|x xs IH]; intros Hbody acc w acc' w' Hacc Hrun; simpl in Hrun.
  - injection Hrun as <- _. exact Hacc.
  - unfold bind in Hrun. destruct (body acc x w) as [[a|e] w1] eqn:E; [|discriminate].
    apply (IH (fun a x w a' w' Ha Hx => Hbody a x w a' w' Ha (or_intror Hx))
              a w1 acc' w'); [|exact Hrun].
    apply (Hbody acc x w a w1 Hacc); [now left | exact E].
Qed.

Lemma parse_column_inv manifest_columns ccolumns columns key w columns' w' :
  parse_column manifest_columns ccolumns columns key w = (Ok columns', w') ->
  columns' = columns \/
  exists col, columns' = (columns ++ [col])%list /\
              resolved_from manifest_columns ccolumns key col.
Proof.
  unfold parse_column. intros H.
  run_as H ccolumn Eccolumn.
  run_as H name Ename.
  run_as H cname Ecname.
  rewrite try_except_eq in H.
  match type of H with
  | context [fst (?m w)] => destruct (m w) as [[cols|e] w1] eqn:Einner
  end; simpl in H.
  - injection H as <- <-. right.
    run_as Einner ctype Ectype.
    run_as Einner col_type Ecol_type.
    run_as Einner lkey Elkey.
    run_as Einner mcolumn Emcolumn.
    run_as Einner mdesc Emdesc.
    destruct (py_get_total_on_subscript _ _ "comment" _ JNull Ename)
      as [comment Hcomment].
    assert (Hd : (if is_None mdesc
                  then lift (Catalog := Catalog) (py_get ccolumn "comment" JNull)
                  else ret mdesc)
                 = lift (Ok (chosen_description mdesc comment))).
    { unfold chosen_description. destruct (is_None mdesc);
        [now rewrite Hcomment | reflexivity]. }
    rewrite Hd in Einner.
    rewrite bind_lift_eq in Einner.
    run_as Einner idx Eidx.
    run_step Einner; [|discriminate].
    unfold ret in Einner. injection Einner as <- _.
    eexists. split; [reflexivity|].
    exists ccolumn, name, lkey, mcolumn, mdesc, comment, idx. simpl.
    repeat split; assumption || reflexivity.
  - left.
    unfold bind, logger_debug_traceback, logger_warning, log, ret in H.
    simpl in H. injection H as <- _. reflexivity.
Qed.

Lemma parse_data_model_columns_inv model_name mnode cnode w cols w' :
  _parse_data_model_columns model_name mnode cnode w = (Ok cols, w') ->
  exists ccolumns manifest_columns keys,
    py_get cnode "columns" JNull = Ok ccolumns /\
    py_get mnode "columns" (JDict []) = Ok manifest_columns /\
    py_iter ccolumns = Ok keys /\
    forall col, In col cols ->
      exists key, In key keys /\ resolved_from manifest_columns ccolumns key col.
Proof.
  unfold _parse_data_model_columns. intros H.
  run_as H ccolumns Eccolumns.
  run_as H manifest_columns Emanifest_columns.
  run_as H keys Ekeys.
  exists ccolumns, manifest_columns, keys. repeat split; try assumption.
  revert H.
  apply (for_each_invariant
           (fun cols => forall col, In col cols ->
              exists key, In key keys /\
                          resolved_from manifest_columns ccolumns key col)).
  - intros acc key w0 acc' w0' Hacc Hkey Hstep col Hcol.
    apply parse_column_inv in Hstep.
    destruct Hstep as [->|(c & -> & Hres)]; [auto|].
    apply in_app_or in Hcol. destruct Hcol as [Hcol|[<-|[]]]; [auto|].
    exists key. split; assumption.
  - intros col [].
Qed.

(** One turn of the loop over the catalog columns that returns: the column
    was built and appended, and nothing was logged; or the handler logged
    the exception and the list is as before. *)
Lemma parse_column_run manifest_columns ccolumns columns key w columns' w' :
  parse_column manifest_columns ccolumns columns key w = (Ok columns', w') ->
  (exists col,
     columns' = (columns ++ [col])%list /\
     resolved_from manifest_columns ccolumns key col /\
     w' = w) \/
  (exists name exc,
     columns' = columns /\
     w' = add_log w [mk_LogRecord DEBUG "traceback" [] (Some exc);
                     column_warning name exc]).
Proof.
  unfold parse_column. intros H.
  run_as H ccolumn Eccolumn.
  run_as H name Ename.
  run_as H cname Ecname.
  rewrite try_except_eq in H.
  match type of H with
  | context [fst (?m w)] => destruct (m w) as [[cols|e] w1] eqn:Einner
  end; simpl in H.
  - injection H as <- <-. left.
    run_as Einner ctype Ectype.
    run_as Einner col_type Ecol_type.
    run_as Einner lkey Elkey.
    run_as Einner mcolumn Emcolumn.
    run_as Einner mdesc Emdesc.
    destruct (py_get_total_on_subscript _ _ "comment" _ JNull Ename)
      as [comment Hcomment].
    assert (Hd : (if is_None mdesc
                  then lift (Catalog := Catalog) (py_get ccolumn "comment" JNull)
                  else ret mdesc)
                 = lift (Ok (chosen_description mdesc comment))).
    { unfold chosen_description. destruct (is_None mdesc);
        [now rewrite Hcomment | reflexivity]. }
    rewrite Hd in Einner.
    rewrite bind_lift_eq in Einner.
    run_as Einner idx Eidx.
    run_step Einner; [|discriminate].
    unfold ret in Einner. injection Einner as <- <-.
    eexists. split; [reflexivity|]. split; [|reflexivity].
    exists ccolumn, name, lkey, mcolumn, mdesc, comment, idx. simpl.
    repeat split; assumption || reflexivity.
  - right.
    assert (Hw1 : w1 = w).
    { clear H.
      run_as Einner ctype Ectype; [|now injection Einner].
      run_as Einner col_type Ecol_type; [|now injection Einner].
      run_as Einner lkey Elkey; [|now injection Einner].
      run_as Einner mcolumn Emcolumn; [|now injection Einner].
      run_as Einner mdesc Emdesc; [|now injection Einner].
      destruct (is_None mdesc).
      - run_as Einner comment Ecomment; [|now injection Einner].
        run_as Einner idx Eidx; [|now injection Einner].
        rewrite bind_construct_eq in Einner.
        destruct (valid_Column _); [discriminate | now injection Einner].
      - rewrite bind_ret_eq in Einner.
        run_as Einner idx Eidx; [|now injection Einner].
        rewrite bind_construct_eq in Einner.
        destruct (valid_Column _); [discriminate | now injection Einner]. }
    subst w1.
    unfold bind, logger_debug_traceback, logger_warning, log, ret in H.
    simpl in H. injection H as <- <-.
    exists cname, e. split; [reflexivity|].
    unfold add_log, column_warning. simpl. rewrite <- app_assoc. reflexivity.
Qed.

Lemma parse_columns_loop manifest_columns ccolumns keys : forall acc w cols w',
  for_each keys (parse_column manifest_columns ccolumns) acc w = (Ok cols, w') ->
  exists new l,
    cols = (acc ++ new)%list /\
    picked (resolved_from manifest_columns ccolumns) keys new /\
    w' = add_log w l /\
    (List.length new + List.length (filter is_warning l) = List.length keys)%nat.
Proof.
  induction keys as [|key keys IH]; intros acc w cols w' H; simpl in H.
  - injection H as <- <-. exists [], []. rewrite app_nil_r, add_log_nil.
    repeat split. constructor.
  - unfold bind in H.
    destruct (parse_column manifest_columns ccolumns acc key w) as [[acc1|e] w1] eqn:E;
      [|discriminate].
    destruct (IH _ _ _ _ H) as (new & l & -> & Hpicked & -> & Hcount).
    destruct (parse_column_run _ _ _ _ _ _ _ E)
      as [(col & -> & Hres & ->) | (name & exc & -> & ->)].
    + exists (col :: new), l. rewrite <- app_assoc. split; [reflexivity|].
      split; [apply picked_take; assumption|]. split; [reflexivity|].
      simpl. lia.
    + exists new, ([mk_LogRecord DEBUG "traceback" [] (Some exc);
                    column_warning name exc] ++ l)%list.
      split; [reflexivity|]. split; [apply picked_skip; assumption|].
      split; [now rewrite add_log_app|].
      simpl. lia.
Qed.

End Columns.

Lemma resolved_from_empty_description {U : Unicode}
    manifest_columns ccolumns key col lkey mcolumn :
  resolved_from manifest_columns ccolumns key col ->
  py_lower key = Ok lkey ->
  py_get manifest_columns lkey (JDict []) = Ok mcolumn ->
  py_get mcolumn "description" JNull = Ok (JStr "") ->
  col_description col = None.
Proof.
  intros (ccolumn & name & lkey' & mcolumn' & mdesc & comment & idx &
          _ & _ & _ & Hlkey & Hmcolumn & Hmdesc & _ & _ & _ & _ & Hdesc)
         Hl Hm Hd.
  rewrite Hl in Hlkey. injection Hlkey as <-.
  rewrite Hm in Hmcolumn. injection Hmcolumn as <-.
  rewrite Hd in Hmdesc. injection Hmdesc as <-.
  rewrite Hdesc. reflexivity.
Qed.

Section ColumnsOfEntry.
Context {Catalog : Type} {OM : OpenMetadata Catalog}.
Implicit Types (w : World Catalog).

(** The columns [_parse_data_model_columns] returns, against the keys of
    the columns of the catalog entry. *)
Lemma parse_data_model_columns_picked w (model_name mnode cnode : json)
    (cols : list Column) w' :
  _parse_data_model_columns model_name mnode cnode w = (Ok cols, w') ->
  exists ccolumns manifest_columns keys l,
    py_get cnode "columns" JNull = Ok ccolumns /\
    py_get mnode "columns" (JDict []) = Ok manifest_columns /\
    py_iter ccolumns = Ok keys /\
    picked (resolved_from manifest_columns ccolumns) keys cols /\
    w' = add_log w l /\
    (List.length cols + List.length (filter is_warning l) = List.length keys)%nat.
Proof.
  unfold _parse_data_model_columns. intros H.
  run_as H ccolumns Eccolumns.
  run_as H manifest_columns Emanifest_columns.
  run_as H keys Ekeys.
  destruct (parse_columns_loop _ _ _ _ _ _ _ H) as (new & l & -> & Hpicked & -> & Hcount).
  exists ccolumns, manifest_columns, keys, l. repeat split; assumption.
Qed.

End ColumnsOfEntry.

Section C10.
Context {Catalog : Type} {OM : OpenMetadata Catalog}.
Implicit Types (w : World Catalog).

(** C10. The columns [_parse_data_model_columns] returns stand, in their
    order, for catalog columns of the entry, each built for the column
    under its [key]; when the manifest entry under the lower-cased key
    carries the description [""], the description of the built column is
    none, whatever the comment of the catalog column: the comment is the
    fall-back of a description that is [None], not of an empty one. *)
Theorem C10_empty_manifest_description w (model_name mnode cnode : json)
    (cols : list Column) w' :
  _parse_data_model_columns model_name mnode cnode w = (Ok cols, w') ->
  exists ccolumns manifest_columns keys,
    py_get cnode "columns" JNull = Ok ccolumns /\
    py_get mnode "columns" (JDict []) = Ok manifest_columns /\
    py_iter ccolumns = Ok keys /\
    picked
      (fun key col =>
         resolved_from manifest_columns ccolumns key col /\
         forall lkey mcolumn,
           py_lower key = Ok lkey ->
           py_get manifest_columns lkey (JDict []) = Ok mcolumn ->
           py_get mcolumn "description" JNull = Ok (JStr "") ->
           col_description col = None)
      keys cols.
Proof.
  intros H. apply parse_data_model_columns_picked in H.
  destruct H as (ccolumns & manifest_columns & keys & l & Hc & Hm & Hk & Hcols & _).
  exists ccolumns, manifest_columns, keys. repeat split; try assumption.
  apply (picked_impl (resolved_from manifest_columns ccolumns)); [|exact Hcols].
  intros key col Hres. split; [exact Hres|].
  intros lkey mcolumn. apply resolved_from_empty_description with (1 := Hres).
Qed.

End C10.

Lemma C10_empty_manifest_description_witness :
  _parse_data_model_columns (OM := registering) (JStr "t1") node_t1 cnode_t1 fresh_two
    = (Ok [column_id], fresh_two) /\
  exists ccolumns manifest_columns keys,
    py_get cnode_t1 "columns" JNull = Ok ccolumns /\
    py_get node_t1 "columns" (JDict []) = Ok manifest_columns /\
    py_iter ccolumns = Ok keys /\
    picked
      (fun key col =>
         resolved_from (U := ascii_runtime) manifest_columns ccolumns key col /\
         forall lkey mcolumn,
           py_lower (U := ascii_runtime) key = Ok lkey ->
           py_get manifest_columns lkey (JDict []) = Ok mcolumn ->
           py_get mcolumn "description" JNull = Ok (JStr "") ->
           col_description col = None)
      keys [column_id].
Proof.
  split; [reflexivity|].
  apply (C10_empty_manifest_description (OM := registering)
           fresh_two (JStr "t1") node_t1 cnode_t1 [column_id] fresh_two).
  reflexivity.
Defined.

Section C7.
Context {Catalog : Type} {OM : OpenMetadata Catalog}.
Implicit Types (w : World Catalog).

(** C7, as amended. The columns [_parse_data_model_columns] returns stand,
    in their order, for catalog columns of the entry: each was built for
    the catalog column under its [key], whose lower-cased name it carries,
    and its description is a function of the description of the manifest
    entry under the lower-cased key and of the comment of that catalog
    column: the manifest description when it is not [None], else the
    catalog comment, and of that text none when it is empty.  A manifest
    description that is not [None] decides the result alone. *)
Theorem C7_description_precedence w (model_name mnode cnode : json)
    (cols : list Column) w' :
  _parse_data_model_columns model_name mnode cnode w = (Ok cols, w') ->
  exists ccolumns manifest_columns keys,
    py_get cnode "columns" JNull = Ok ccolumns /\
    py_get mnode "columns" (JDict []) = Ok manifest_columns /\
    py_iter ccolumns = Ok keys /\
    picked
      (fun key col =>
         exists ccolumn name lkey mcolumn manifest_description catalog_comment,
           py_subscript ccolumns key = Ok ccolumn /\
           py_subscript ccolumn (JStr "name") = Ok name /\
           py_lower name = Ok (col_name col) /\
           py_lower key = Ok lkey /\
           py_get manifest_columns lkey (JDict []) = Ok mcolumn /\
           py_get mcolumn "description" JNull = Ok manifest_description /\
           py_get ccolumn "comment" JNull = Ok catalog_comment /\
           col_description col =
             resolved_description manifest_description catalog_comment /\
           (is_None manifest_description = false ->
            col_description col =
              if py_truthy manifest_description then Some manifest_description
              else None))
      keys cols.
Proof.
  intros H. apply parse_data_model_columns_picked in H.
  destruct H as (ccolumns & manifest_columns & keys & l & Hc & Hm & Hk & Hcols & _).
  exists ccolumns, manifest_columns, keys. repeat split; try assumption.
  apply (picked_impl (resolved_from manifest_columns ccolumns)); [|exact Hcols].
  intros key col Hres.
  destruct Hres as (ccolumn & name & lkey & mcolumn & mdesc & comment & idx &
                    H1 & H2 & H3 & H4 & H5 & H6 & H7 & _ & _ & _ & Hdesc).
  exists ccolumn, name, lkey, mcolumn, mdesc, comment.
  repeat split; try assumption.
  intros Hnn. rewrite Hdesc. unfold resolved_description, chosen_description.
  rewrite Hnn. reflexivity.
Qed.

End C7.

Lemma C7_description_precedence_witness :
  _parse_data_model_columns (OM := registering) (JStr "t1") node_t1 cnode_t1 fresh_two
    = (Ok [column_id], fresh_two) /\
  exists ccolumns manifest_columns keys,
    py_get cnode_t1 "columns" JNull = Ok ccolumns /\
    py_get node_t1 "columns" (JDict []) = Ok manifest_columns /\
    py_iter ccolumns = Ok keys /\
    picked
      (fun key col =>
         exists ccolumn name lkey mcolumn manifest_description catalog_comment,
           py_subscript ccolumns key = Ok ccolumn /\
           py_subscript ccolumn (JStr "name") = Ok name /\
           py_lower (U := ascii_runtime) name = Ok (col_name col) /\
           py_lower (U := ascii_runtime) key = Ok lkey /\
           py_get manifest_columns lkey (JDict []) = Ok mcolumn /\
           py_get mcolumn "description" JNull = Ok manifest_description /\
           py_get ccolumn "comment" JNull = Ok catalog_comment /\
           col_description col =
             resolved_description manifest_description catalog_comment /\
           (is_None manifest_description = false ->
            col_description col =
              if py_truthy manifest_description then Some manifest_description
              else None))
      keys [column_id].
Proof.
  split; [reflexivity|].
  apply (C7_description_precedence (OM := registering)
           fresh_two (JStr "t1") node_t1 cnode_t1 [column_id] fresh_two).
  reflexivity.
Defined.

(** C7, as the specification words it, fails: the manifest entry of column
    [id] of [node_t1] carries the description [""] and the catalog column
    the comment ["the id"]; the resolved description is neither of the two
    texts but none. *)
Lemma C7_counterexample :
  fst (_parse_data_model_columns (OM := registering) (JStr "t1") node_t1 cnode_t1
         fresh_two) = Ok [column_id] /\
  resolved_from (U := ascii_runtime)
    (JDict [("id", JDict [("name", JStr "id"); ("description", JStr "")])])
    (JDict [("ID", ccolumn_id (JStr "the id"))]) (JStr "ID") column_id /\
  col_description column_id = None /\
  claimed_description (JStr "") (JStr "the id") = Some (JStr "") /\
  col_description column_id <> claimed_description (JStr "") (JStr "the id").
Proof.
  split; [reflexivity|]. split.
  - exists (ccolumn_id (JStr "the id")), (JStr "ID"), "id",
      (JDict [("name", JStr "id"); ("description", JStr "")]),
      (JStr ""), (JStr "the id"), (JInt 1).
    repeat split; reflexivity.
  - repeat split; try reflexivity. discriminate.
Qed.

(** ** Computations that respect a relation between worlds *)

Section Respects.
Context {Catalog : Type} {OM : OpenMetadata Catalog}.
Implicit Types (w : World Catalog).
Context (R : World Catalog -> World Catalog -> Prop) {F : Frame R}.

Lemma respects_ret {A} (a : A) : respects R (ret a).
Proof. intros w. apply frame_refl. Qed.

Lemma respects_raise {A} (e : exn) : respects R (raise (A := A) e).
Proof. intros w. apply frame_refl. Qed.

Lemma respects_lift {A} (r : result A) : respects R (lift r).
Proof. intros w. apply frame_refl. Qed.

Lemma respects_get_self : respects R get_self.
Proof. intros w. apply frame_refl. Qed.

Lemma respects_quiet {A} (m : M Catalog A) : quiet m -> respects R m.
Proof. intros Hq w. destruct (Hq w) as [l ->]. apply frame_add_log. Qed.

Lemma respects_bind {A B} (m : M Catalog A) (f : A -> M Catalog B) :
  respects R m -> (forall a, respects R (f a)) -> respects R (bind m f).
Proof.
  intros Hm Hf w. unfold bind. specialize (Hm w).
  destruct (m w) as [[a|e] w1]; simpl in *; [|exact Hm].
  apply (frame_trans _ _ _ Hm). apply Hf.
Qed.

(** The continuation of a pure expression needs the relation only for the
    value the expression has. *)
Lemma respects_bind_lift {A B} (r : result A) (f : A -> M Catalog B) :
  (forall a, r = Ok a -> respects R (f a)) -> respects R (bind (lift r) f).
Proof.
  intros Hf w. rewrite bind_lift_eq. destruct r as [a|e]; [|apply frame_refl].
  apply Hf. reflexivity.
Qed.

Lemma respects_try_except {A} (m : M Catalog A) (h : exn -> M Catalog A) :
  respects R m -> (forall e, respects R (h e)) -> respects R (try_except m h).
Proof.
  intros Hm Hh w. unfold try_except. specialize (Hm w).
  destruct (m w) as [[a|e] w1]; simpl in *; [exact Hm|].
  apply (frame_trans _ _ _ Hm). apply Hh.
Qed.

Lemma respects_for_each {X A} (xs : list X) (body : A -> X -> M Catalog A) (acc : A) :
  (forall a x, In x xs -> respects R (body a x)) -> respects R (for_each xs body acc).
Proof.
  revert acc. induction xs as [|x xs IH]; intros acc Hb; simpl.
  - apply respects_ret.
  - apply respects_bind; [apply Hb; now left|].
    intros a. apply IH. intros a' x' Hx'. apply Hb. now right.
Qed.

Lemma respects_for_ {X} (xs : list X) (body : X -> M Catalog unit) :
  (forall x, In x xs -> respects R (body x)) -> respects R (for_ xs body).
Proof. intros Hb. apply respects_for_each. intros _ x Hx. apply Hb, Hx. Qed.

End Respects.

(** Descends into a computation; what is quiet respects every frame. *)
Ltac respects_tac :=
  repeat first
    [ apply respects_quiet; [exact _ | solve [quiet_tac]]
    | apply respects_bind; [exact _ | | intros ?]
    | apply respects_try_except; [exact _ | | intros ?]
    | apply respects_for_each; [exact _ | intros ? ? ?]
    | apply respects_for_; [exact _ | intros ? ?]
    | match goal with
      | |- respects _ (if ?b then _ else _) => destruct b
      | |- respects _ (match ?x with _ => _ end) => destruct x
      end ].

(** ** The results of the tests *)

Lemma completed_at_loop_not_execute timings : forall acc,
  Forall not_execute timings -> completed_at_loop timings acc = Ok acc.
Proof.
  induction timings as [|t timings IH]; intros acc H; simpl; [reflexivity|].
  inversion H as [|? ? (n & Hn & Hne) Hrest]; subst.
  unfold completed_at_of. rewrite Hn. simpl. rewrite Hne. simpl.
  apply IH, Hrest.
Qed.

Lemma completed_at_loop_last pre : forall t post c acc,
  Forall is_dict pre ->
  named_execute t ->
  py_get t "completed_at" JNull = Ok c ->
  Forall not_execute post ->
  completed_at_loop (pre ++ t :: post) acc = Ok c.
Proof.
  induction pre as [|p pre IH]; intros t post c acc Hpre (n & Hn & He) Hc Hpost; simpl.
  - unfold completed_at_of. rewrite Hn. simpl. rewrite He, Hc. simpl.
    apply completed_at_loop_not_execute, Hpost.
  - inversion Hpre as [|? ? [d ->] Hpre']; subst.
    unfold completed_at_of. simpl.
    destruct (dict_get String.eqb d "name") as [nm|]; simpl.
    + destruct (py_eq_str nm "execute").
      * destruct (dict_get String.eqb d "completed_at"); simpl;
          apply IH; try assumption; exists n; auto.
      * simpl. apply IH; try assumption; exists n; auto.
    + apply IH; try assumption; exists n; auto.
Qed.

Lemma completed_at_loop_spec timings c :
  execute_completed_at timings c -> completed_at_loop timings JNull = Ok c.
Proof.
  intros [ts H|pre t post c' Hpre Ht Hc Hpost].
  - apply completed_at_loop_not_execute, H.
  - apply completed_at_loop_last; assumption.
Qed.

Lemma dbt_timestamp_of_spec {Catalog : Type} {OM : OpenMetadata Catalog} c ts :
  epoch_millis_of c ts -> dbt_timestamp_of c = Ok ts.
Proof.
  unfold dbt_timestamp_of.
  intros [c' H|c' dt millis H Hdt Hms]; rewrite H; [reflexivity|].
  rewrite Hdt. simpl. rewrite Hms. reflexivity.
Qed.

#[local] Instance Frame_submits_only {Catalog : Type} (r : TestCaseResult) :
  Frame (submits_only (Catalog := Catalog) r).
Proof.
  split.
  - intros w. exists []. rewrite app_nil_r. split; [reflexivity | constructor].
  - intros w1 w2 w3 (s1 & E1 & F1) (s2 & E2 & F2). exists (s1 ++ s2)%list.
    rewrite E2, E1, app_assoc. split; [reflexivity|].
    apply Forall_app. split; assumption.
  - intros w l. exists []. simpl. rewrite app_nil_r. split; [reflexivity | constructor].
Qed.

Section Results.
Context {Catalog : Type} {OM : OpenMetadata Catalog}.
Implicit Types (w : World Catalog).

Lemma test_status_of_dict (d : list (string * json)) :
  exists st, test_status_of (JDict d) = Ok st.
Proof.
  unfold test_status_of. simpl.
  destruct (dict_get String.eqb d "status") as [s|]; simpl.
  - destruct (py_eq_str s "success"); [eauto|].
    destruct (py_eq_str s "failure"); eauto.
  - eauto.
Qed.

Lemma test_case_result_of_run w (dbt_test_result dbt_test_timings : json)
    (timings : list json) (c : json) (ts : option Z) :
  py_subscript dbt_test_result (JStr "timing") = Ok dbt_test_timings ->
  py_iter dbt_test_timings = Ok timings ->
  completed_at_loop timings JNull = Ok c ->
  dbt_timestamp_of c = Ok ts ->
  (forall r, timestamp r = ts -> valid_TestCaseResult r = true) ->
  exists r, test_case_result_of dbt_test_result w = (Ok r, w) /\ timestamp r = ts.
Proof.
  intros Ht Hi Hc Hts Hvalid.
  destruct (py_subscript_str_inv _ _ _ Ht) as (d & -> & Hd).
  destruct (test_status_of_dict d) as [[st v] Hst].
  unfold test_case_result_of.
  rewrite bind_lift_eq, Hst. cbv beta iota.
  rewrite bind_lift_eq, Ht.
  rewrite bind_lift_eq, Hi.
  rewrite bind_lift_eq, Hc.
  rewrite bind_lift_eq, Hts.
  rewrite bind_lift_eq.
  destruct (py_get (JDict d) "unique_id" JNull) as [uid|e] eqn:Huid.
  2:{ simpl in Huid. destruct (dict_get String.eqb d "unique_id"); discriminate. }
  rewrite construct_eq, Hvalid by reflexivity.
  eexists. split; reflexivity.
Qed.

Lemma respects_add_test_case_results (r : TestCaseResult) (n : option string) :
  respects (submits_only r) (m_add_test_case_results r n).
Proof.
  intros w. unfold m_add_test_case_results.
  destruct (add_test_case_results (metadata (self w)) r n) as [c [e|]]; simpl;
    exists [(n, r)]; (split; [reflexivity | repeat constructor]).
Qed.

Lemma respects_attach_result (dbt_test_result dbt_test_node : json)
    (r : TestCaseResult) (node : json) :
  respects (submits_only r) (attach_result dbt_test_result dbt_test_node r node).
Proof.
  unfold attach_result. respects_tac. apply respects_add_test_case_results.
Qed.

Lemma update_result_of_submits w (dbt_test_result : json) (r : TestCaseResult) w1 :
  test_case_result_of dbt_test_result w = (Ok r, w1) ->
  submits_only r w (snd (update_result_of dbt_test_result w)).
Proof.
  intros Hr. unfold update_result_of.
  assert (Hq : quiet (test_case_result_of dbt_test_result)).
  { unfold test_case_result_of. quiet_tac. }
  destruct (Hq w) as [l Hl]. rewrite Hr in Hl. simpl in Hl. subst w1.
  match goal with
  | |- context [try_except (bind _ ?f) ?h] => set (rest := f); set (handler := h)
  end.
  assert (Hrest : respects (submits_only r) (rest r)).
  { unfold rest. respects_tac. apply respects_add_test_case_results. }
  rewrite try_except_eq. unfold bind. rewrite Hr.
  specialize (Hrest (add_log w l)).
  destruct (rest r (add_log w l)) as [[u|e] w2]; simpl in *.
  - exact Hrest.
  - destruct Hrest as (subs & E & Hall). exists subs. split; [|exact Hall].
    exact E.
Qed.

Lemma after_results_nothing w : after_results w (metadata (self w)) [] = w.
Proof.
  unfold after_results, set_metadata. rewrite app_nil_r.
  destruct w as [[] ? ? ?]; reflexivity.
Qed.

Lemma after_results_again w c subs c' subs' :
  after_results (after_results w c subs) c' subs' = after_results w c' (subs ++ subs').
Proof. unfold after_results. simpl. rewrite app_assoc. reflexivity. Qed.

Lemma py_get_dict (d : list (string * json)) (k : string) (default : json) :
  exists x, py_get (JDict d) k default = Ok x.
Proof. simpl. destruct (dict_get String.eqb d k); eauto. Qed.

(** One turn of the loop over the dependencies. *)
Lemma attach_result_run (dbt_test_result dbt_test_node : json) (r : TestCaseResult)
    (node uid : json) w c subs res w' :
  py_subscript dbt_test_result (JStr "unique_id") = Ok uid ->
  dict_get_json (dbt_tests (self w)) uid = Ok (Some dbt_test_node) ->
  attach_result dbt_test_result dbt_test_node r node (after_results w c subs) = (res, w') ->
  (w' = after_results w c subs /\ exists e, res = Raise e) \/
  (exists sub c',
     attached_to (self w) dbt_test_node r node sub /\
     w' = after_results w c' (subs ++ [sub])).
Proof.
  intros Huid Htest H. unfold attach_result in H.
  rewrite bind_get_self_eq in H. simpl in H.
  run_as H found Efound; [|left; injection H as <- <-; eauto].
  destruct found as [model|].
  2:{ simpl in H. rewrite bind_lift_eq in H. simpl in H.
      left. injection H as <- <-. eauto. }
  simpl in H.
  run_as H database_name Edatabase; [|left; injection H as <- <-; eauto].
  run_as H schema_name Eschema; [|left; injection H as <- <-; eauto].
  run_as H table_name Etable; [|left; injection H as <- <-; eauto].
  run_as H column_name Ecolumn; [|left; injection H as <- <-; eauto].
  rewrite bind_lift_eq, Huid in H. cbv beta iota in H.
  rewrite bind_lift_eq, Htest in H. cbv beta iota in H. simpl or_None in H.
  run_as H test_case_name Ename; [|left; injection H as <- <-; eauto].
  run_as H test_case_fqn Efqn; [|left; injection H as <- <-; eauto].
  right. unfold m_add_test_case_results in H. simpl in H.
  destruct (add_test_case_results c r test_case_fqn) as [c' err] eqn:Eadd.
  exists (test_case_fqn, r), c'. split.
  - split; [reflexivity|].
    exists c, model, database_name, schema_name, table_name, column_name, test_case_name.
    repeat split; assumption.
  - unfold after_results. simpl. rewrite app_assoc.
    destruct err; injection H as <- <-; reflexivity.
Qed.

(** The loop over the dependencies: the calls made are those for the
    dependencies up to the place where the loop ended, in their order. *)
Lemma attach_loop (dbt_test_result dbt_test_node : json) (r : TestCaseResult)
    (uid : json) w (items : list json) :
  py_subscript dbt_test_result (JStr "unique_id") = Ok uid ->
  dict_get_json (dbt_tests (self w)) uid = Ok (Some dbt_test_node) ->
  forall c subs res w',
  for_ items (attach_result dbt_test_result dbt_test_node r) (after_results w c subs)
    = (res, w') ->
  exists n subs' c',
    w' = after_results w c' (subs ++ subs') /\
    Forall2 (attached_to (self w) dbt_test_node r) (firstn n items) subs' /\
    (res = Ok tt -> n = List.length items).
Proof.
  intros Huid Htest. induction items as [|item items IH]; intros c subs res w' H.
  - injection H as <- <-. exists 0%nat, [], c. rewrite app_nil_r.
    repeat split. constructor.
  - unfold for_ in H. simpl in H. unfold bind in H.
    destruct (attach_result dbt_test_result dbt_test_node r item (after_results w c subs))
      as [r1 w1] eqn:E1.
    destruct (attach_result_run _ _ _ _ _ _ _ _ _ _ Huid Htest E1)
      as [[-> [e ->]] | (sub & c1 & Hsub & ->)].
    + injection H as <- <-. exists 0%nat, [], c. rewrite app_nil_r.
      split; [reflexivity|]. split; [constructor | discriminate].
    + destruct r1 as [[]|e].
      * destruct (IH c1 (subs ++ [sub])%list res w' H) as (n & subs' & c' & -> & Hall & Hn).
        exists (S n), (sub :: subs'), c'. rewrite <- app_assoc. simpl.
        split; [reflexivity|]. split; [constructor; assumption|].
        intros Hres. rewrite (Hn Hres). reflexivity.
      * injection H as <- <-. exists 1%nat, [sub], c1.
        split; [reflexivity|]. split; [|discriminate].
        simpl. constructor; [exact Hsub | constructor].
Qed.

(** With a client that accepts every result, the turn of a dependency
    that is a dict of the manifest entities succeeds. *)
Lemma attach_result_total (dbt_test_result dbt_test_node : json) (r : TestCaseResult)
    (uid test_case_name : json) (node : json) (model : list (string * json)) w c subs :
  accepts_results OM ->
  py_subscript dbt_test_result (JStr "unique_id") = Ok uid ->
  dict_get_json (dbt_tests (self w)) uid = Ok (Some dbt_test_node) ->
  py_subscript dbt_test_node (JStr "name") = Ok test_case_name ->
  dict_get_json (manifest_entities (self w)) node = Ok (Some (JDict model)) ->
  fst (attach_result dbt_test_result dbt_test_node r node (after_results w c subs)) = Ok tt.
Proof.
  intros [Hbuild Hadd] Huid Htest Hname Hmodel.
  destruct (py_subscript_str_inv _ _ _ Hname) as (d & -> & Hd).
  unfold attach_result. rewrite bind_get_self_eq. simpl self.
  simpl manifest_entities. rewrite bind_lift_eq, Hmodel. simpl or_None.
  rewrite bind_lift_eq.
  destruct (py_get_dict model "database" JNull) as [database_name Edatabase]. rewrite Edatabase.
  rewrite bind_lift_eq.
  destruct (py_get_dict model "schema" JNull) as [schema_name Eschema]. rewrite Eschema.
  rewrite bind_lift_eq.
  destruct (py_get_dict model "name" JNull) as [table_name Etable]. rewrite Etable.
  rewrite bind_lift_eq.
  destruct (py_get_dict d "column_name" JNull) as [column_name Ecolumn]. rewrite Ecolumn.
  rewrite bind_lift_eq, Huid. simpl dbt_tests.
  rewrite bind_lift_eq, Htest. simpl or_None.
  rewrite bind_lift_eq, Hname.
  rewrite bind_fqn_build_eq.
  destruct (Hbuild (metadata (self (after_results w c subs))) (serviceName (self w))
              database_name schema_name table_name column_name test_case_name)
    as [f Hf].
  simpl serviceName. rewrite Hf.
  unfold m_add_test_case_results.
  specialize (Hadd (metadata (self (after_results w c subs))) r f).
  destruct (add_test_case_results _ r f) as [c' err]. simpl in Hadd. subst err.
  reflexivity.
Qed.

Lemma attach_loop_total (dbt_test_result dbt_test_node : json) (r : TestCaseResult)
    (uid test_case_name : json) w (items : list json) :
  accepts_results OM ->
  py_subscript dbt_test_result (JStr "unique_id") = Ok uid ->
  dict_get_json (dbt_tests (self w)) uid = Ok (Some dbt_test_node) ->
  py_subscript dbt_test_node (JStr "name") = Ok test_case_name ->
  Forall (fun node => exists model,
            dict_get_json (manifest_entities (self w)) node = Ok (Some (JDict model)))
    items ->
  forall c subs,
  fst (for_ items (attach_result dbt_test_result dbt_test_node r) (after_results w c subs))
    = Ok tt.
Proof.
  intros Hclient Huid Htest Hname Hall. induction Hall as [|item items [model Hmodel] _ IH];
    intros c subs; [reflexivity|].
  unfold for_. simpl. unfold bind.
  pose proof (attach_result_total dbt_test_result dbt_test_node r uid test_case_name
                item model w c subs Hclient Huid Htest Hname Hmodel) as Hok.
  destruct (attach_result dbt_test_result dbt_test_node r item (after_results w c subs))
    as [r1 w1] eqn:E1.
  simpl in Hok. subst r1.
  destruct (attach_result_run _ _ _ _ _ _ _ _ _ _ Huid Htest E1)
    as [[_ [e He]] | (sub & c1 & _ & ->)]; [discriminate|].
  apply IH.
Qed.

(** The turn of a run result whose test is found and has dependencies. *)
Lemma update_result_of_run w (dbt_test_result : json)
    (r : TestCaseResult) (uid dbt_test_node depends_on nodes : json) (items : list json) :
  test_case_result_of dbt_test_result w = (Ok r, w) ->
  py_subscript dbt_test_result (JStr "unique_id") = Ok uid ->
  dict_get_json (dbt_tests (self w)) uid = Ok (Some dbt_test_node) ->
  py_truthy dbt_test_node = true ->
  py_subscript dbt_test_node (JStr "depends_on") = Ok depends_on ->
  py_subscript depends_on (JStr "nodes") = Ok nodes ->
  py_iter nodes = Ok items ->
  update_result_of dbt_test_result w =
  try_except (for_ items (attach_result dbt_test_result dbt_test_node r))
    (fun err => logger_error "Failed capture tests results {err}" [] (Some err)) w.
Proof.
  intros Hr Huid Htest Htruthy Hdep Hnodes Hitems.
  unfold update_result_of, try_except. unfold bind at 1. rewrite Hr.
  rewrite bind_get_self_eq, bind_lift_eq, Huid. cbv beta iota.
  rewrite bind_lift_eq, Htest. cbv beta iota. unfold or_None. rewrite Htruthy.
  rewrite bind_lift_eq, Hdep. cbv beta iota.
  rewrite bind_lift_eq, Hnodes. cbv beta iota.
  rewrite bind_lift_eq, Hitems. reflexivity.
Qed.

(** C8. For a run result whose [timing] holds [timings]: the result that
    [update_dbt_test_result] builds for it carries the timestamp of the
    completion time of the last timing named ["execute"], converted to
    epoch milliseconds; when there is no such timing, or it has no
    completion time, the result is built all the same with no timestamp.
    The calls of [add_test_case_results] made for the run result all hand
    over that result; when the test of the run result is known, they are
    the calls for the first [n] dependencies of the test, one each and in
    their order, and either every dependency has its call or an error is
    logged; with a client that accepts every result, a test that has a
    name and dependencies that are dicts of the manifest entities, every
    dependency has its call. *)
Theorem C8_result_timestamp w (dbt_test_result dbt_test_timings : json)
    (timings : list json) (c : json) (ts : option Z) :
  py_subscript dbt_test_result (JStr "timing") = Ok dbt_test_timings ->
  py_iter dbt_test_timings = Ok timings ->
  execute_completed_at timings c ->
  epoch_millis_of c ts ->
  (forall r, timestamp r = ts -> valid_TestCaseResult r = true) ->
  exists r subs,
    test_case_result_of dbt_test_result w = (Ok r, w) /\
    timestamp r = ts /\
    submitted (snd (update_result_of dbt_test_result w)) = (submitted w ++ subs)%list /\
    Forall (fun s => snd s = r) subs /\
    forall uid dbt_test_node depends_on nodes items,
      py_subscript dbt_test_result (JStr "unique_id") = Ok uid ->
      dict_get_json (dbt_tests (self w)) uid = Ok (Some dbt_test_node) ->
      py_truthy dbt_test_node = true ->
      py_subscript dbt_test_node (JStr "depends_on") = Ok depends_on ->
      py_subscript depends_on (JStr "nodes") = Ok nodes ->
      py_iter nodes = Ok items ->
      exists n,
        Forall2 (attached_to (self w) dbt_test_node r) (firstn n items) subs /\
        (n = List.length items \/
         exists err,
           logged (snd (update_result_of dbt_test_result w)) =
           (logged w ++ [mk_LogRecord ERROR "Failed capture tests results {err}" []
                           (Some err)])%list) /\
        (accepts_results OM ->
         (exists test_case_name,
            py_subscript dbt_test_node (JStr "name") = Ok test_case_name) ->
         Forall (fun node => exists model,
                   dict_get_json (manifest_entities (self w)) node =
                   Ok (Some (JDict model))) items ->
         n = List.length items).
Proof.
  intros Ht Hi Hc Hts Hvalid.
  destruct (test_case_result_of_run w _ _ _ _ _ Ht Hi
              (completed_at_loop_spec _ _ Hc) (dbt_timestamp_of_spec _ _ Hts) Hvalid)
    as (r & Hr & Hstamp).
  destruct (update_result_of_submits w dbt_test_result r w Hr) as (subs & Hsubs & Hall).
  exists r, subs. split; [exact Hr|]. split; [exact Hstamp|].
  split; [exact Hsubs|]. split; [exact Hall|].
  intros uid dbt_test_node depends_on nodes items Huid Htest Htruthy Hdep Hnodes Hitems.
  revert Hsubs.
  rewrite (update_result_of_run w _ _ _ _ _ _ _ Hr Huid Htest Htruthy Hdep Hnodes Hitems).
  unfold try_except.
  destruct (for_ items (attach_result dbt_test_result dbt_test_node r) w)
    as [res w'] eqn:E.
  pose proof E as E'.
  rewrite <- (after_results_nothing w) in E'.
  destruct (attach_loop _ _ _ _ w items Huid Htest _ _ _ _ E')
    as (n & subs' & c' & -> & Hatt & Hn).
  intros Hsubs.
  assert (subs = subs') as ->.
  { destruct res as [[]|e]; simpl in Hsubs; apply app_inv_head in Hsubs;
      symmetry; exact Hsubs. }
  exists n. split; [exact Hatt|]. split.
  - destruct res as [[]|e]; [left; apply Hn; reflexivity|].
    right. exists e. reflexivity.
  - intros Hclient [test_case_name Hname] Hmodels.
    pose proof (attach_loop_total dbt_test_result dbt_test_node r uid test_case_name w
                  items Hclient Huid Htest Hname Hmodels (metadata (self w)) []) as Hok.
    rewrite after_results_nothing, E in Hok. simpl in Hok. apply Hn, Hok.
Qed.

End Results.

(** C9. The conversion of the source maps the completion time
    [2023-01-01T00:00:00.000000Z] to the epoch millisecond 1672531200000:
    [strptime] reads the first of January 2023 at midnight, and
    [unix_time_millis] of that is the integer. *)
Theorem C9_timestamp_conversion {Catalog : Type} {OM : OpenMetadata Catalog} :
  strptime (JStr "2023-01-01T00:00:00.000000Z") = Ok (mk_datetime 2023 1 1 0 0 0 0) /\
  unix_time_millis (mk_datetime 2023 1 1 0 0 0 0) = Ok 1672531200000 /\
  dbt_timestamp_of (JStr "2023-01-01T00:00:00.000000Z") = Ok (Some 1672531200000).
Proof. repeat split; vm_compute; reflexivity. Qed.

Lemma C8_result_timestamp_witness :
  py_subscript result_ran (JStr "timing") = Ok (JList [timing_compile; timing_execute]) /\
  py_iter (JList [timing_compile; timing_execute]) = Ok [timing_compile; timing_execute] /\
  execute_completed_at [timing_compile; timing_execute]
    (JStr "2023-01-01T00:00:00.000000Z") /\
  epoch_millis_of (U := ascii_runtime) (JStr "2023-01-01T00:00:00.000000Z")
    (Some 1672531200000) /\
  exists r subs,
    test_case_result_of (OM := registering) result_ran tested_two = (Ok r, tested_two) /\
    timestamp r = Some 1672531200000 /\
    submitted (snd (update_result_of (OM := registering) result_ran tested_two)) =
      (submitted tested_two ++ subs)%list /\
    Forall (fun s => snd s = r) subs /\
    forall uid dbt_test_node depends_on nodes items,
      py_subscript result_ran (JStr "unique_id") = Ok uid ->
      dict_get_json (dbt_tests (self tested_two)) uid = Ok (Some dbt_test_node) ->
      py_truthy dbt_test_node = true ->
      py_subscript dbt_test_node (JStr "depends_on") = Ok depends_on ->
      py_subscript depends_on (JStr "nodes") = Ok nodes ->
      py_iter nodes = Ok items ->
      exists n,
        Forall2 (attached_to (OM := registering) (self tested_two) dbt_test_node r)
          (firstn n items) subs /\
        (n = List.length items \/
         exists err,
           logged (snd (update_result_of (OM := registering) result_ran tested_two)) =
           (logged tested_two ++
            [mk_LogRecord ERROR "Failed capture tests results {err}" [] (Some err)])%list) /\
        (accepts_results registering ->
         (exists test_case_name,
            py_subscript dbt_test_node (JStr "name") = Ok test_case_name) ->
         Forall (fun node => exists model,
                   dict_get_json (manifest_entities (self tested_two)) node =
                   Ok (Some (JDict model))) items ->
         n = List.length items).
Proof.
  assert (Hc : execute_completed_at [timing_compile; timing_execute]
                 (JStr "2023-01-01T00:00:00.000000Z")).
  { apply (last_execute_timing [timing_compile] timing_execute []).
    - repeat constructor. eexists. reflexivity.
    - exists (JStr "execute"). split; reflexivity.
    - reflexivity.
    - constructor. }
  assert (Hts : epoch_millis_of (U := ascii_runtime) (JStr "2023-01-01T00:00:00.000000Z")
                  (Some 1672531200000)).
  { apply (millis_converted _ (mk_datetime 2023 1 1 0 0 0 0)); vm_compute; reflexivity. }
  split; [reflexivity|]. split; [reflexivity|]. split; [exact Hc|]. split; [exact Hts|].
  apply (C8_result_timestamp (OM := registering) tested_two result_ran
           (JList [timing_compile; timing_execute]) [timing_compile; timing_execute]
           (JStr "2023-01-01T00:00:00.000000Z") (Some 1672531200000));
    try reflexivity; assumption.
Defined.

(** C8, as the specification words it, fails for a run result that has no
    [timing] at all: the test [tb] of the run result is known and has the
    dependency [source.p.t1], yet no result is built for it, with or
    without a timestamp: the subscript raises [KeyError], the error is
    logged, and [add_test_case_results] is not called. *)
Lemma C8_counterexample :
  py_subscript result_untimed (JStr "timing") = Raise (KeyError (JStr "timing")) /\
  py_subscript result_untimed (JStr "unique_id") = Ok (JStr "test.p.tb") /\
  dict_get_json (dbt_tests (self tested_two)) (JStr "test.p.tb") =
    Ok (Some (generic_test "tb")) /\
  py_subscript (generic_test "tb") (JStr "depends_on") =
    Ok (JDict [("nodes", JList [JStr "source.p.t1"])]) /\
  test_case_result_of (OM := registering) result_untimed tested_two =
    (Raise (KeyError (JStr "timing")), tested_two) /\
  update_result_of (OM := registering) result_untimed tested_two =
    (Ok tt,
     add_log tested_two
       [mk_LogRecord ERROR "Failed capture tests results {err}" []
          (Some (KeyError (JStr "timing")))]) /\
  submitted (snd (update_result_of (OM := registering) result_untimed tested_two)) = [].
Proof. repeat split; vm_compute; reflexivity. Qed.

(** The two run results on the demo server: the result of the test that
    ran is handed over with its timestamp, the result of the skipped test
    without one. *)
Example results_attached :
  submitted
    (snd (for_ [result_ran; result_skipped]
            (update_result_of (OM := registering)) tested_two)) =
  [(Some "svc.db.schema.t1.id.tb",
    mk_TestCaseResult (Some 1672531200000) Success
      [mk_TestResultValue (JStr "test.p.tb") "1"]);
   (Some "svc.db.schema.t1.id.tb",
    mk_TestCaseResult None Aborted
      [mk_TestResultValue (JStr "test.p.tb") "-1"])].
Proof. vm_compute. reflexivity. Qed.

(** ** Lineage *)

#[local] Instance Frame_yields_only {Catalog : Type} (P : Request -> Prop) :
  Frame (yields_only (Catalog := Catalog) P).
Proof.
  split.
  - intros w H. exact H.
  - intros w1 w2 w3 H12 H23 H. apply H23, H12, H.
  - intros w l H. exact H.
Qed.

Section Lineage.
Context {Catalog : Type} {OM : OpenMetadata Catalog}.
Implicit Types (w : World Catalog).

Lemma respects_lineage_of (models : list (option string * DataModel))
    data_model_name data_model upstream_node :
  In (data_model_name, data_model) models ->
  In upstream_node (upstream data_model) ->
  respects (yields_only (lineage_edge_of models))
    (lineage_of data_model_name upstream_node).
Proof.
  intros Hmodel Hup. unfold lineage_of.
  apply respects_try_except; [exact _ | | intros e; respects_tac].
  intros w. rewrite bind_get_by_name_eq.
  destruct (get_by_name (metadata (self w)) Table (JStr upstream_node))
    as [from_entity|e] eqn:Efrom; [|apply frame_refl].
  rewrite bind_get_by_name_eq.
  destruct (get_by_name (metadata (self w)) Table (json_of_fqn data_model_name))
    as [to_entity|e] eqn:Eto; [|apply frame_refl].
  destruct from_entity as [from_entity|]; [|apply frame_refl].
  destruct to_entity as [to_entity|]; [|apply frame_refl].
  rewrite bind_construct_eq.
  destruct (valid_Request _); [|apply frame_refl].
  intros Hall. unfold yield. simpl. apply Forall_app_one; [exact Hall|].
  exists data_model_name, data_model, upstream_node, (metadata (self w)),
    from_entity, to_entity.
  repeat split; assumption.
Qed.

(** C6. Every request [create_dbt_lineage] yields is the edge of a data
    model and one of its upstream names for which both lookups by name
    returned an entity: the upstream table and the table of the model; the
    edge goes from the first to the second, and both ends have the type
    ["table"]. *)
Theorem C6_lineage_edges w (request : Request) :
  In request (fst (drain create_dbt_lineage w)) ->
  lineage_edge_of (data_models (self w)) request.
Proof.
  unfold drain. simpl.
  set (w0 := mk_World (self w) (logged w) [] (submitted w)).
  intros Hin.
  assert (Hall : Forall (lineage_edge_of (data_models (self w)))
                   (yielded (snd (create_dbt_lineage w0)))).
  { unfold create_dbt_lineage, logger_info.
    rewrite bind_log_eq, bind_get_self_eq.
    assert (Hloop : respects (yields_only (lineage_edge_of (data_models (self w))))
                      (for_ (data_models (self w))
                         (fun '(data_model_name, data_model) =>
                            for_ (upstream data_model) (lineage_of data_model_name)))).
    { apply respects_for_; [exact _|]. intros [name model] Hmodel.
      apply respects_for_; [exact _|]. intros up Hup.
      apply respects_lineage_of with (data_model := model); assumption. }
    apply Hloop. constructor. }
  rewrite Forall_forall in Hall. apply Hall, Hin.
Qed.

End Lineage.

(** ** Test suites and test definitions *)

#[local] Instance Frame_keeps_created {Catalog : Type} {OM : OpenMetadata Catalog} :
  Frame (keeps_created (Catalog := Catalog)).
Proof.
  split.
  - intros w H. exact H.
  - intros w1 w2 w3 H12 H23 H. apply H23, H12, H.
  - intros w l H. exact H.
Qed.

Lemma nth_error_app_one {A} (l : list A) (x y : A) (i : nat) :
  nth_error (l ++ [x]) i = Some y ->
  (nth_error l i = Some y /\ In y l) \/ (i = List.length l /\ y = x).
Proof.
  intros H. destruct (Nat.lt_ge_cases i (List.length l)) as [Hlt|Hge].
  - rewrite nth_error_app1 in H by exact Hlt. left. split; [exact H|].
    eapply nth_error_In, H.
  - rewrite nth_error_app2 in H by exact Hge.
    destruct (i - List.length l)%nat as [|k] eqn:Ek; simpl in H.
    + injection H as <-. right. split; [lia | reflexivity].
    + destruct k; discriminate.
Qed.

Section Suites.
Context {Catalog : Type} {OM : OpenMetadata Catalog}.
Implicit Types (w : World Catalog).
Hypothesis creates : caller_creates OM.
Hypothesis keeps : server_keeps OM.

Lemma yield_created w (r : Request) kind name :
  created_entity r = Some (kind, name) ->
  get_by_name (metadata (self w)) kind name = Ok None ->
  keeps_created w (snd (yield r w)).
Proof.
  intros Hkey Hnone [Honce Hheld]. unfold yield. simpl. split; simpl.
  - intros i j ri rj kind' name' Hi Hj Hki Hkj.
    apply nth_error_app_one in Hi. apply nth_error_app_one in Hj.
    destruct Hi as [[Hi Hini]|[-> ->]], Hj as [[Hj Hinj]|[-> ->]].
    + exact (Honce i j ri rj kind' name' Hi Hj Hki Hkj).
    + exfalso. rewrite Hkey in Hkj. injection Hkj as <- <-.
      destruct (Hheld ri kind name Hini Hki) as [e He]. congruence.
    + exfalso. rewrite Hkey in Hki. injection Hki as <- <-.
      destruct (Hheld rj kind name Hinj Hkj) as [e He]. congruence.
    + reflexivity.
  - intros r' kind' name' Hin Hk.
    apply in_app_or in Hin. destruct Hin as [Hin|[<-|[]]].
    + destruct (Hheld r' kind' name' Hin Hk) as [e He].
      exact (keeps _ r _ _ _ He).
    + exact (creates _ _ _ _ Hk).
Qed.

Lemma yield_uncreated w (r : Request) :
  created_entity r = None -> keeps_created w (snd (yield r w)).
Proof.
  intros Hkey [Honce Hheld]. unfold yield. simpl. split; simpl.
  - intros i j ri rj kind' name' Hi Hj Hki Hkj.
    apply nth_error_app_one in Hi. apply nth_error_app_one in Hj.
    destruct Hi as [[Hi Hini]|[-> ->]], Hj as [[Hj Hinj]|[-> ->]]; try congruence.
    exact (Honce i j ri rj kind' name' Hi Hj Hki Hkj).
  - intros r' kind' name' Hin Hk.
    apply in_app_or in Hin. destruct Hin as [Hin|[<-|[]]]; [|congruence].
    destruct (Hheld r' kind' name' Hin Hk) as [e He].
    exact (keeps _ r _ _ _ He).
Qed.

(** A lookup, and the request yielded when it found nothing. *)
Lemma respects_create_if_absent {B} kind name
    (request : M Catalog Request) (rest : unit -> M Catalog B) :
  (forall w r w', request w = (Ok r, w') ->
                  w' = w /\ created_entity r = Some (kind, name)) ->
  (forall w e w', request w = (Raise e, w') -> w' = w) ->
  respects keeps_created (rest tt) ->
  respects keeps_created
    (bind (m_get_by_name kind name) (fun found =>
     bind (match found with
           | None => bind request yield
           | Some _ => ret tt
           end) rest)).
Proof.
  intros Hreq Hraise Hrest w. rewrite bind_get_by_name_eq.
  destruct (get_by_name (metadata (self w)) kind name) as [[e|]|e] eqn:Efound;
    [| |apply frame_refl].
  - rewrite bind_ret_eq. apply Hrest.
  - unfold bind at 1. unfold bind at 1.
    destruct (request w) as [[r|e] w1] eqn:Er.
    + destruct (Hreq w r w1 Er) as [-> Hkey].
      apply (frame_trans w (snd (yield r w))).
      * apply (yield_created w r kind name Hkey Efound).
      * destruct (yield r w) as [[[]|e] w2] eqn:Ey; simpl.
        -- destruct (yield r w) eqn:Ey'. apply Hrest.
        -- unfold yield in Ey. discriminate.
    + rewrite (Hraise w e w1 Er). apply frame_refl.
Qed.

End Suites.

Section SuitesRun.
Context {Catalog : Type} {OM : OpenMetadata Catalog}.
Implicit Types (w : World Catalog).
Hypothesis creates : caller_creates OM.
Hypothesis keeps : server_keeps OM.

Lemma respects_definition_part (dbt_test : json) :
  respects keeps_created
    (bind (lift (py_subscript dbt_test (JStr "name"))) (fun name =>
     bind (m_get_by_name TestDefinition name) (fun check_test_definition_exists =>
     match check_test_definition_exists with
     | None =>
         bind (lift (py_get dbt_test "column_name" JNull)) (fun column_name =>
         let entity_type := if py_truthy column_name then COLUMN else TABLE in
         bind (lift (py_subscript dbt_test (JStr "name"))) (fun name =>
         bind (lift (py_subscript dbt_test (JStr "description"))) (fun description =>
         bind (lift (create_test_case_parameter_definitions dbt_test))
           (fun parameterDefinition =>
         bind (construct valid_Request
                 (CreateTestDefinitionRequest name description entity_type
                    [PlatformDBT] parameterDefinition))
           (fun test_definition => yield test_definition)))))
     | Some _ => ret tt
     end))).
Proof.
  intros w. rewrite bind_lift_eq.
  destruct (py_subscript dbt_test (JStr "name")) as [name|e]; [|apply frame_refl].
  rewrite bind_get_by_name_eq.
  destruct (get_by_name (metadata (self w)) TestDefinition name) as [[e|]|e] eqn:Efound;
    try apply frame_refl.
  rewrite bind_lift_eq.
  destruct (py_get dbt_test "column_name" JNull) as [column_name|e]; [|apply frame_refl].
  cbv zeta. rewrite bind_lift_eq, bind_lift_eq.
  destruct (py_subscript dbt_test (JStr "description")) as [descr|e]; [|apply frame_refl].
  rewrite bind_lift_eq.
  destruct (create_test_case_parameter_definitions dbt_test) as [pd|e]; [|apply frame_refl].
  rewrite bind_construct_eq.
  destruct (valid_Request _); [|apply frame_refl].
  apply (yield_created creates keeps w _ TestDefinition name); [reflexivity | exact Efound].
Qed.

Lemma respects_suite_definition_of (entry : string * json) :
  respects keeps_created (suite_definition_of entry).
Proof.
  destruct entry as [key dbt_test]. unfold suite_definition_of.
  apply respects_bind_lift; [exact _|]. intros test_suite_name _.
  apply respects_bind_lift; [exact _|]. intros test_suite_desciption _.
  apply (respects_create_if_absent creates keeps TestSuite test_suite_name
           (construct valid_Request
              (CreateTestSuiteRequest test_suite_name test_suite_desciption))).
  - intros w r w' H. rewrite construct_eq in H.
    destruct (valid_Request _); [|discriminate].
    injection H as <- <-. split; reflexivity.
  - intros w e w' H. rewrite construct_eq in H.
    destruct (valid_Request _); [discriminate|].
    injection H as _ <-. reflexivity.
  - apply respects_definition_part.
Qed.

Lemma respects_create_dbt_tests_suite_definition :
  respects keeps_created create_dbt_tests_suite_definition.
Proof.
  unfold create_dbt_tests_suite_definition.
  apply respects_try_except; [exact _ | | intros e; respects_tac].
  apply respects_bind; [exact _ | apply respects_get_self; exact _ |].
  intros s. destruct (dbt_configured s); [|apply respects_ret; exact _].
  apply respects_bind; [exact _ | respects_tac |]. intros _.
  apply respects_for_; [exact _|]. intros entry _.
  apply respects_suite_definition_of.
Qed.

End SuitesRun.

Section C4.
Context {Catalog : Type} {OM : OpenMetadata Catalog}.
Implicit Types (w : World Catalog).

(** C4, as amended. When the caller creates the suite or the definition of
    each request before the generator resumes, and the server keeps what it
    holds, no two requests that one run of
    [create_dbt_tests_suite_definition] yields create the same suite, and
    no two the same definition, however many test nodes share the name. *)
Theorem C4_created_once w :
  caller_creates OM ->
  server_keeps OM ->
  created_once (fst (drain create_dbt_tests_suite_definition w)).
Proof.
  intros creates keeps. unfold drain. simpl.
  set (w0 := mk_World (self w) (logged w) [] (submitted w)).
  destruct (respects_create_dbt_tests_suite_definition creates keeps w0) as [Honce _].
  - split.
    + intros [|i] j ri rj kind name Hi; discriminate.
    + intros r kind name [].
  - exact Honce.
Qed.

End C4.

(** ** The demo server *)

Lemma float_same_refl (f : spec_float) : float_same f f = true.
Proof.
  destruct f; simpl; try reflexivity; try (destruct s; reflexivity).
  rewrite Pos.eqb_refl, Z.eqb_refl. destruct s; reflexivity.
Qed.

Lemma same_json_refl : forall v, same_json v v = true.
Proof.
  fix IH 1. intros [| b | z | f | s | l | d]; simpl.
  - reflexivity.
  - destruct b; reflexivity.
  - apply Z.eqb_refl.
  - apply float_same_refl.
  - apply String.eqb_refl.
  - induction l as [|x l IHl]; [reflexivity|]. rewrite IH. exact IHl.
  - induction d as [|[k x] d IHd]; [reflexivity|].
    rewrite String.eqb_refl, IH. exact IHd.
Qed.

Lemma kind_eqb_refl (k : EntityKind) : kind_eqb k k = true.
Proof. destruct k; reflexivity. Qed.

Lemma registering_creates : caller_creates registering.
Proof.
  intros c r kind name Hkey. simpl. unfold store_get_by_name.
  assert (H : holds (store_create r c) kind name = true).
  { destruct r; simpl in Hkey; try discriminate; injection Hkey as <- <-;
      unfold holds; simpl; rewrite same_json_refl; reflexivity. }
  rewrite H. eauto.
Qed.

Lemma registering_keeps : server_keeps registering.
Proof.
  intros c r kind name e. simpl. unfold store_get_by_name.
  destruct (holds c kind name) eqn:H; [|discriminate]. intros _.
  assert (H' : holds (store_create r c) kind name = true).
  { destruct r; simpl; try exact H; unfold holds in *; simpl; rewrite H;
      apply orb_true_r. }
  rewrite H'. eauto.
Qed.

Lemma C4_created_once_witness :
  caller_creates registering /\
  server_keeps registering /\
  created_once
    (fst (drain (create_dbt_tests_suite_definition (OM := registering)) two_tests)).
Proof.
  split; [exact registering_creates|]. split; [exact registering_keeps|].
  apply (C4_created_once (OM := registering) two_tests
           registering_creates registering_keeps).
Defined.

(** The run of the witness: one suite for the two tests. *)
Example created_once_run :
  fst (drain (create_dbt_tests_suite_definition (OM := registering)) two_tests) =
  [default_suite; not_null_definition "ta"; not_null_definition "tb"].
Proof. vm_compute. reflexivity. Qed.

(** C4, as the specification words it, fails: when the requests do not
    reach the server between two turns of the loop, the two tests of the
    default suite yield the request for that suite twice, as the first and
    as the third request of the run. *)
Lemma C4_counterexample :
  fst (drain (create_dbt_tests_suite_definition (OM := lossy)) two_tests) =
    [default_suite; not_null_definition "ta";
     default_suite; not_null_definition "tb"] /\
  ~ created_once
      (fst (drain (create_dbt_tests_suite_definition (OM := lossy)) two_tests)).
Proof.
  assert (E : fst (drain (create_dbt_tests_suite_definition (OM := lossy)) two_tests) =
              [default_suite; not_null_definition "ta";
               default_suite; not_null_definition "tb"])
    by (vm_compute; reflexivity).
  split; [exact E|]. rewrite E. intros H.
  specialize (H 0%nat 2%nat default_suite default_suite TestSuite
                (JStr "DBT_TEST_SUITE") eq_refl eq_refl eq_refl eq_refl).
  discriminate.
Qed.

Lemma C6_lineage_edges_witness :
  In edge_t1_t2 (fst (drain (create_dbt_lineage (OM := registering)) both_tables)) /\
  lineage_edge_of (OM := registering) (data_models (self both_tables)) edge_t1_t2.
Proof.
  assert (H : In edge_t1_t2
                (fst (drain (create_dbt_lineage (OM := registering)) both_tables)))
    by (vm_compute; left; reflexivity).
  split; [exact H|].
  apply (C6_lineage_edges (OM := registering) both_tables edge_t1_t2 H).
Defined.

(** The scenario of the two tables: one edge when the server holds both,
    none when it does not hold the upstream table. *)
Example lineage_runs :
  fst (drain (create_dbt_lineage (OM := registering)) both_tables) = [edge_t1_t2] /\
  fst (drain (create_dbt_lineage (OM := registering)) model_table_only) = [].
Proof. split; vm_compute; reflexivity. Qed.

(** ** Where one bad item ends a loop *)

(** C3, at the input on which the code departs from it. The singular test
    [ts] has no [test_metadata]; the generic test [tb] comes after it in the
    map of tests.  [create_dbt_tests_suite_definition] yields the suite,
    raises on the definition of [ts], and its one handler, around the whole
    loop, logs the error: the loop has ended, and the definition of [tb] is
    never requested.  [create_dbt_test_cases], whose handler sits inside the
    loop, fails on [ts] as well, logs it under its key, and goes on to
    yield the test case of [tb]; so does the loop over the run results,
    which skips a result without [timing] and attaches the next. *)
Theorem C3_suite_definition_loop_aborts :
  fst (drain (create_dbt_tests_suite_definition (OM := registering)) singular_first)
    = [default_suite] /\
  ~ In (not_null_definition "tb")
      (fst (drain (create_dbt_tests_suite_definition (OM := registering))
              singular_first)) /\
  logged (snd (drain (create_dbt_tests_suite_definition (OM := registering))
                 singular_first))
    = [mk_LogRecord INFO "Processing DBT Tests Suites and Test Definitions" [] None;
       mk_LogRecord ERROR "Failed to parse the node to capture tests {err}" []
         (Some (KeyError (JStr "test_metadata")))] /\
  fst (drain (create_dbt_tests_suite_definition (OM := registering))
         (mk_World (set_dbt_tests [("test.p.tb", generic_test "tb")]
                      (self singular_first)) [] [] []))
    = [default_suite; not_null_definition "tb"] /\
  fst (drain (create_dbt_test_cases (OM := registering))
         (mk_World (set_metadata
                      [(TestSuite, JStr "DBT_TEST_SUITE");
                       (TestDefinition, JStr "ts"); (TestDefinition, JStr "tb")]
                      (self singular_first)) [] [] []))
    = [CreateTestCaseRequest (JStr "tb") (JStr "")
         (mk_EntityReference "id:tb" "testDefinition")
         "<#E::table::svc.db.schema.t1::columns::id>"
         (mk_EntityReference "id:DBT_TEST_SUITE" "testSuite")
         [mk_ParameterValue (JStr "not_null") ""]] /\
  submitted
    (snd (for_ [result_untimed; result_ran] (update_result_of (OM := registering))
            tested_two))
    = [(Some "svc.db.schema.t1.id.tb",
        mk_TestCaseResult (Some 1672531200000) Success
          [mk_TestResultValue (JStr "test.p.tb") "1"])].
Proof.
  assert (E : fst (drain (create_dbt_tests_suite_definition (OM := registering))
                     singular_first) = [default_suite])
    by (vm_compute; reflexivity).
  split; [exact E|]. split.
  - rewrite E. intros [H|[]]. discriminate.
  - repeat split; vm_compute; reflexivity.
Qed.

(** ** A node without a catalog entry *)

(** C2, at the input on which the code departs from it. The manifest holds
    the model [t2] and the source [t1]; the catalog has an entry for the
    source only.  Column resolution gives the model the empty list, but the
    owner is then read from the catalog entry, which is [None]: the handler
    logs the [TypeError] and the model gets no [DataModel]. *)
Theorem C2_node_without_catalog_entry_skipped :
  dict_get String.eqb
    (catalog_entities
       (self (snd (_parse_data_model (OM := registering)
                     (object manifest_two catalog_without_model JNull [] [])))))
    "model.p.t2" = None /\
  map fst
    (data_models
       (self (snd (_parse_data_model (OM := registering)
                     (object manifest_two catalog_without_model JNull [] [])))))
    = [Some "svc.db.schema.t1"] /\
  logged (snd (_parse_data_model (OM := registering)
                 (object manifest_two catalog_without_model JNull [] [])))
    = [mk_LogRecord INFO "Parsing Data Models" [] None;
       mk_LogRecord DEBUG "traceback" [] (Some TypeError);
       mk_LogRecord WARNING "Unexpected exception parsing data model: {exc}" []
         (Some TypeError)] /\
  map fst (data_models (self parsed_two))
    = [Some "svc.db.schema.t2"; Some "svc.db.schema.t1"].
Proof. repeat split; vm_compute; reflexivity. Qed.

(** ** The data models *)

Section ParseNode.
Context {Catalog : Type} {OM : OpenMetadata Catalog}.
Implicit Types (w : World Catalog).

Lemma quiet_parse_data_model_columns model_name mnode cnode :
  quiet (_parse_data_model_columns model_name mnode cnode).
Proof. unfold _parse_data_model_columns. quiet_tac. Qed.

Lemma quiet_resolve_owner dbt_owner : quiet (resolve_owner dbt_owner).
Proof. unfold resolve_owner. quiet_tac. Qed.

Lemma or_None_subscript_Some (o : option json) (k x : json) :
  py_subscript (or_None o) k = Ok x -> exists cnode, o = Some cnode.
Proof. destruct o as [c|]; [eauto | discriminate]. Qed.

Lemma parse_node_outcome_from key mnode w l0 r w' :
  parse_node key mnode (add_log w l0) = (r, w') ->
  node_outcome key mnode w r w'.
Proof.
  unfold parse_node. intros H.
  run_as H name Ename; [|injection H as <- <-; constructor].
  rewrite bind_get_self_eq in H. cbv beta zeta in H. rewrite self_add_log in H.
  match type of H with
  | bind ?m ?f _ = _ =>
      assert (Hq : quiet m)
        by (destruct (py_truthy _);
            [apply quiet_parse_data_model_columns | apply quiet_ret]);
      destruct (bind_quiet_eq m f (add_log w l0) Hq) as (rc & l1 & _ & Eb);
      rewrite Eb in H; clear Eb Hq
  end.
  rewrite add_log_app in H.
  destruct rc as [cols|e]; [|injection H as <- <-; constructor].
  run_as H resource_type Ert; [|injection H as <- <-; constructor].
  assert (Htest : resource_type_is_test mnode = py_eq_str resource_type "test").
  { unfold resource_type_is_test. rewrite Ert. reflexivity. }
  destruct (py_eq_str resource_type "test") eqn:Eq.
  - unfold modify_self in H. injection H as <- <-.
    apply (node_routed key mnode w _ Htest).
  - match type of H with
    | bind ?m ?f _ = _ =>
        destruct (bind_quiet_eq m f (add_log w (l0 ++ l1))
                    (quiet_parse_data_model_upstream mnode)) as (ru & l2 & _ & Eb);
        rewrite Eb in H; clear Eb
    end.
    rewrite add_log_app in H.
    destruct ru as [ups|e]; [|injection H as <- <-; constructor].
    rewrite bind_lift_eq in H.
    run_as H database Edatabase; [|injection H as <- <-; constructor].
    run_as H schema Eschema; [|injection H as <- <-; constructor].
    run_as H raw_sql Eraw_sql; [|injection H as <- <-; constructor].
    run_as H descr Edescr; [|injection H as <- <-; constructor].
    run_as H cmetadata Ecmetadata; [|injection H as <- <-; constructor].
    run_as H dbt_owner Edbt_owner; [|injection H as <- <-; constructor].
    match type of H with
    | bind ?m ?f _ = _ =>
        destruct (bind_quiet_eq m f (add_log w ((l0 ++ l1) ++ l2))
                    (quiet_resolve_owner dbt_owner)) as (ro & l3 & _ & Eb);
        rewrite Eb in H; clear Eb
    end.
    rewrite add_log_app in H.
    destruct ro as [own|e]; [|injection H as <- <-; constructor].
    run_as H root_path Eroot_path; [|injection H as <- <-; constructor].
    run_as H original_file_path Eofp; [|injection H as <- <-; constructor].
    run_as H compiled_sql Ecompiled; [|injection H as <- <-; constructor].
    rewrite bind_construct_eq in H.
    destruct (valid_DataModel _); [|injection H as <- <-; constructor].
    run_as H model_fqn Emodel_fqn; [|injection H as <- <-; constructor].
    unfold modify_self in H. injection H as <- <-.
    destruct (or_None_subscript_Some _ _ _ Ecmetadata) as [cnode Hcnode].
    exact (node_resolved key mnode w _ cnode _ _ Htest Hcnode).
Qed.

Lemma parse_node_outcome key mnode w r w' :
  parse_node key mnode w = (r, w') -> node_outcome key mnode w r w'.
Proof.
  intros H. apply (parse_node_outcome_from key mnode w []).
  rewrite add_log_nil. exact H.
Qed.

End ParseNode.

Section ModelOfNode.
Context {Catalog : Type} {OM : OpenMetadata Catalog}.
Implicit Types (w : World Catalog).

(** The turn of a node that is no test and is resolved without an
    exception: the map of data models gets the model of the node under
    its name, and records are logged. *)
Lemma parse_node_model key mnode w w' :
  resource_type_is_test mnode = false ->
  parse_node key mnode w = (Ok tt, w') ->
  exists model_fqn model l,
    model_of_node w key mnode model_fqn model /\
    w' = with_self
           (fun s => set_data_models (dict_set fqn_eqb (data_models s) model_fqn model) s)
           (add_log w l).
Proof.
  intros Htest H. unfold parse_node in H.
  run_as H name Ename.
  rewrite bind_get_self_eq in H. cbv beta zeta in H.
  match type of H with
  | bind ?m ?f _ = _ =>
      assert (Hq : quiet m)
        by (destruct (py_truthy _);
            [apply quiet_parse_data_model_columns | apply quiet_ret]);
      destruct (bind_quiet_eq m f w Hq) as (rc & l1 & Ecols & Eb);
      rewrite Eb in H; clear Eb Hq
  end.
  destruct rc as [cols|e]; [|discriminate].
  run_as H resource_type Ert.
  unfold resource_type_is_test in Htest. rewrite Ert in Htest. rewrite Htest in H.
  match type of H with
  | bind ?m ?f _ = _ =>
      destruct (bind_quiet_eq m f (add_log w l1)
                  (quiet_parse_data_model_upstream mnode)) as (ru & l2 & Eups & Eb);
      rewrite Eb in H; clear Eb
  end.
  rewrite add_log_app in H.
  destruct ru as [ups|e]; [|discriminate].
  rewrite bind_lift_eq in H.
  run_as H database Edatabase.
  run_as H schema Eschema.
  run_as H raw_sql Eraw_sql.
  run_as H descr Edescr.
  run_as H cmetadata Ecmetadata.
  run_as H dbt_owner Edbt_owner.
  match type of H with
  | bind ?m ?f _ = _ =>
      destruct (bind_quiet_eq m f (add_log w (l1 ++ l2))
                  (quiet_resolve_owner dbt_owner)) as (ro & l3 & Eowner & Eb);
      rewrite Eb in H; clear Eb
  end.
  rewrite add_log_app in H.
  destruct ro as [own|e]; [|discriminate].
  run_as H root_path Eroot_path.
  run_as H original_file_path Eofp.
  run_as H compiled_sql Ecompiled.
  rewrite bind_construct_eq in H.
  destruct (valid_DataModel _); [|discriminate].
  run_as H model_fqn Emodel_fqn.
  unfold modify_self in H. injection H as <-.
  destruct (or_None_subscript_Some _ _ _ Ecmetadata) as [cnode Hcnode].
  rewrite Hcnode in Ecols, Ecmetadata. unfold or_None in Ecols, Ecmetadata.
  assert (Htruthy : py_truthy cnode = true).
  { destruct (py_subscript_str_inv _ _ _ Ecmetadata) as (dc & -> & Hdc).
    destruct dc; [discriminate | reflexivity]. }
  rewrite Htruthy in Ecols.
  eexists model_fqn, _, _. split; [|reflexivity].
  exists name, database, schema, raw_sql, descr, root_path, original_file_path,
    cnode, cmetadata, dbt_owner.
  repeat match goal with
         | |- _ /\ _ => split
         end;
    try eassumption; try reflexivity.
  - rewrite Ecols. reflexivity.
  - exists l1. rewrite Eups. reflexivity.
  - exists (l1 ++ l2)%list. rewrite Eowner. reflexivity.
Qed.

(** The name of the model of a node is determined by the node. *)
Lemma model_of_node_fqn key mnode w model_fqn model model_fqn' model' :
  model_of_node w key mnode model_fqn model ->
  model_of_node w key mnode model_fqn' model' ->
  model_fqn = model_fqn'.
Proof.
  intros (n1 & d1 & s1 & ? & ? & ? & ? & ? & ? & ? & Hn1 & Hd1 & Hs1 & Hf1 & _)
         (n2 & d2 & s2 & ? & ? & ? & ? & ? & ? & ? & Hn2 & Hd2 & Hs2 & Hf2 & _).
  congruence.
Qed.

(** A test node is routed exactly when its turn reaches the routing. *)
Lemma test_node_reaches key mnode w :
  resource_type_is_test mnode = true ->
  fst (parse_node key mnode w) = Ok tt <-> reaches_routing w key mnode.
Proof.
  intros Htest. split.
  - intros H. destruct (parse_node key mnode w) as [r w'] eqn:E. simpl in H. subst r.
    unfold parse_node in E. run_as E name Ename.
    exists name. split; [exact Ename|]. intros cnode Hc Ht.
    rewrite bind_get_self_eq in E. cbv beta zeta in E.
    rewrite Hc in E. simpl or_None in E. rewrite Ht in E.
    unfold bind at 1 in E.
    destruct (_parse_data_model_columns name mnode cnode w) as [rc w1]. simpl.
    destruct rc as [cols|e]; [eauto | discriminate].
  - intros (name & Hname & Hcols). unfold parse_node.
    rewrite bind_lift_eq, Hname, bind_get_self_eq. cbv beta zeta.
    unfold resource_type_is_test in Htest.
    destruct (py_subscript mnode (JStr "resource_type")) as [rt|e] eqn:Ert;
      [|discriminate].
    destruct (dict_get String.eqb (catalog_entities (self w)) key) as [cnode|] eqn:Hc;
      simpl or_None.
    + destruct (py_truthy cnode) eqn:Ht.
      * destruct (Hcols cnode eq_refl Ht) as [cols Hcs].
        unfold bind at 1.
        destruct (_parse_data_model_columns name mnode cnode w) as [rc w1].
        simpl in Hcs. subst rc.
        rewrite bind_lift_eq. cbv beta iota. rewrite Htest. reflexivity.
      * rewrite bind_ret_eq, bind_lift_eq. cbv beta iota. rewrite Htest. reflexivity.
    + simpl py_truthy. cbv iota. rewrite bind_ret_eq, bind_lift_eq. cbv beta iota.
      rewrite Htest. reflexivity.
Qed.

End ModelOfNode.

Section Loop.
Context {Catalog : Type} {OM : OpenMetadata Catalog}.
Implicit Types (w : World Catalog).

Lemma for_total {X} (body : X -> M Catalog unit) (xs : list X) :
  (forall x w, fst (body x w) = Ok tt) ->
  forall w, fst (for_ xs body w) = Ok tt.
Proof.
  intros Hb. unfold for_. induction xs as [|x xs IH]; intros w; simpl; [reflexivity|].
  unfold bind. specialize (Hb x w). destruct (body x w) as [[[]|e] w1]; simpl in *.
  - apply IH.
  - discriminate.
Qed.

Lemma for_app {X} (body : X -> M Catalog unit) (xs ys : list X) :
  (forall x w, fst (body x w) = Ok tt) ->
  forall w, for_ (xs ++ ys) body w = for_ ys body (snd (for_ xs body w)).
Proof.
  intros Hb. unfold for_. induction xs as [|x xs IH]; intros w; simpl; [reflexivity|].
  unfold bind. specialize (Hb x w). destruct (body x w) as [[[]|e] w1]; simpl in *.
  - apply IH.
  - discriminate.
Qed.

Lemma for_one {X} (body : X -> M Catalog unit) (x : X) w :
  fst (body x w) = Ok tt -> for_ [x] body w = body x w.
Proof.
  intros Hb. unfold for_. simpl. unfold bind.
  destruct (body x w) as [[[]|e] w1]; simpl in *; [reflexivity | discriminate].
Qed.

Lemma parse_entity_run key mnode w :
  parse_entity (key, mnode) w =
  (Ok tt, after_handler (fst (parse_node key mnode w)) (snd (parse_node key mnode w))).
Proof.
  unfold parse_entity. rewrite try_except_eq.
  destruct (parse_node key mnode w) as [[[]|e] w1]; [reflexivity|].
  unfold bind, logger_debug_traceback, logger_warning, log, after_handler, add_log,
    parse_entity_records. simpl. rewrite <- app_assoc. reflexivity.
Qed.

Lemma parse_entity_total entry w : fst (parse_entity entry w) = Ok tt.
Proof. destruct entry as [key mnode]. rewrite parse_entity_run. reflexivity. Qed.

Lemma parse_node_outcome_run key mnode w :
  node_outcome key mnode w (fst (parse_node key mnode w)) (snd (parse_node key mnode w)).
Proof.
  apply parse_node_outcome. destruct (parse_node key mnode w); reflexivity.
Qed.

Lemma at_turn_succ entities w0 i entry :
  nth_error entities i = Some entry ->
  at_turn entities w0 (S i) = snd (parse_entity entry (at_turn entities w0 i)).
Proof.
  intros Hnth. unfold at_turn.
  assert (Hfirst : firstn (S i) entities = (firstn i entities ++ [entry])%list).
  { revert i Hnth. induction entities as [|x xs IH]; intros [|i] Hnth; simpl in *;
      try discriminate.
    - injection Hnth as ->. reflexivity.
    - f_equal. apply IH, Hnth. }
  rewrite Hfirst, for_app by apply parse_entity_total.
  rewrite for_one by apply parse_entity_total. reflexivity.
Qed.

Lemma at_turn_end entities w0 :
  at_turn entities w0 (List.length entities) = snd (for_ entities parse_entity w0).
Proof. unfold at_turn. rewrite firstn_all. reflexivity. Qed.

Lemma for_from_turn entities w0 i entry :
  nth_error entities i = Some entry ->
  snd (for_ entities parse_entity w0) =
  snd (for_ (skipn (S i) entities) parse_entity
         (snd (parse_entity entry (at_turn entities w0 i)))).
Proof.
  intros Hnth.
  rewrite <- (at_turn_succ entities w0 i entry Hnth). unfold at_turn.
  rewrite <- for_app by apply parse_entity_total.
  rewrite firstn_skipn. reflexivity.
Qed.

End Loop.

Section Turns.
Context {Catalog : Type} {OM : OpenMetadata Catalog}.
Implicit Types (w : World Catalog).

(** One turn of the loop, by cases. *)
Lemma parse_entity_cases key mnode w :
  (exists e l,
     fst (parse_node key mnode w) = Raise e /\
     snd (parse_entity (key, mnode) w) = add_log w l) \/
  (exists l,
     fst (parse_node key mnode w) = Ok tt /\
     resource_type_is_test mnode = true /\
     snd (parse_entity (key, mnode) w) =
       with_self
         (fun s => set_dbt_tests (dict_set String.eqb (dbt_tests s) key mnode) s)
         (add_log w l)) \/
  (exists l cnode model_fqn model,
     fst (parse_node key mnode w) = Ok tt /\
     resource_type_is_test mnode = false /\
     dict_get String.eqb (catalog_entities (self w)) key = Some cnode /\
     snd (parse_entity (key, mnode) w) =
       with_self
         (fun s => set_data_models (dict_set fqn_eqb (data_models s) model_fqn model) s)
         (add_log w l)).
Proof.
  rewrite parse_entity_run. simpl.
  pose proof (parse_node_outcome_run key mnode w) as Ho.
  destruct Ho as [e l | l Htest | l cnode model_fqn model Htest Hcnode]; simpl.
  - left. exists e, (l ++ parse_entity_records e)%list. split; [reflexivity|].
    apply add_log_app.
  - right. left. exists l. repeat split; assumption.
  - right. right. exists l, cnode, model_fqn, model. repeat split; assumption.
Qed.

Lemma turn_of_test key mnode w :
  resource_type_is_test mnode = true ->
  data_models (self (snd (parse_entity (key, mnode) w))) = data_models (self w).
Proof.
  intros Htest.
  destruct (parse_entity_cases key mnode w)
    as [(e & l & _ & ->) | [(l & _ & _ & ->) | (l & c & f & m & _ & Hn & _)]];
    try reflexivity.
  congruence.
Qed.

Lemma turn_routed key mnode w :
  resource_type_is_test mnode = true ->
  fst (parse_node key mnode w) = Ok tt ->
  dbt_tests (self (snd (parse_entity (key, mnode) w))) =
  dict_set String.eqb (dbt_tests (self w)) key mnode.
Proof.
  intros Htest Hok.
  destruct (parse_entity_cases key mnode w)
    as [(e & l & Hr & _) | [(l & _ & _ & ->) | (l & c & f & m & _ & Hn & _)]];
    try congruence.
  reflexivity.
Qed.

Lemma turn_resolved key mnode w :
  resource_type_is_test mnode = false ->
  fst (parse_node key mnode w) = Ok tt ->
  exists cnode model_fqn model,
    dict_get String.eqb (catalog_entities (self w)) key = Some cnode /\
    data_models (self (snd (parse_entity (key, mnode) w))) =
    dict_set fqn_eqb (data_models (self w)) model_fqn model.
Proof.
  intros Htest Hok.
  destruct (parse_entity_cases key mnode w)
    as [(e & l & Hr & _) | [(l & _ & Ht & _) | (l & c & f & m & _ & _ & Hc & ->)]];
    try congruence.
  exists c, f, m. split; [exact Hc | reflexivity].
Qed.

Lemma turn_models key mnode w :
  data_models (self (snd (parse_entity (key, mnode) w))) = data_models (self w) \/
  (resource_type_is_test mnode = false /\
   fst (parse_node key mnode w) = Ok tt /\
   exists model_fqn model,
     data_models (self (snd (parse_entity (key, mnode) w))) =
     dict_set fqn_eqb (data_models (self w)) model_fqn model).
Proof.
  destruct (parse_entity_cases key mnode w)
    as [(e & l & _ & ->) | [(l & _ & _ & ->) | (l & c & f & m & Hok & Hn & _ & ->)]].
  - now left.
  - now left.
  - right. repeat split; try assumption. exists f, m. reflexivity.
Qed.

Lemma turn_tests_other key mnode w key' :
  key <> key' ->
  dict_get String.eqb (dbt_tests (self (snd (parse_entity (key, mnode) w)))) key' =
  dict_get String.eqb (dbt_tests (self w)) key'.
Proof.
  intros Hne.
  destruct (parse_entity_cases key mnode w)
    as [(e & l & _ & ->) | [(l & _ & _ & ->) | (l & c & f & m & _ & _ & _ & ->)]];
    try reflexivity.
  simpl. apply dict_get_set_other; [apply String.eqb_eq | exact Hne].
Qed.

Lemma turn_static key mnode w :
  manifest_entities (self (snd (parse_entity (key, mnode) w))) =
    manifest_entities (self w) /\
  catalog_entities (self (snd (parse_entity (key, mnode) w))) =
    catalog_entities (self w).
Proof.
  destruct (parse_entity_cases key mnode w)
    as [(e & l & _ & ->) | [(l & _ & _ & ->) | (l & c & f & m & _ & _ & _ & ->)]];
    split; reflexivity.
Qed.

(** A test node that has a name and no catalog entry is routed without an
    exception. *)
Lemma test_node_routed key mnode name w :
  alias_or_name mnode = Ok name ->
  dict_get String.eqb (catalog_entities (self w)) key = None ->
  resource_type_is_test mnode = true ->
  parse_node key mnode w =
  (Ok tt,
   with_self (fun s => set_dbt_tests (dict_set String.eqb (dbt_tests s) key mnode) s) w).
Proof.
  intros Hname Hnone Htest. unfold parse_node.
  rewrite bind_lift_eq, Hname, bind_get_self_eq, Hnone. simpl.
  rewrite bind_ret_eq, bind_lift_eq.
  unfold resource_type_is_test in Htest.
  destruct (py_subscript mnode (JStr "resource_type")) as [rt|e]; [|discriminate].
  rewrite Htest. reflexivity.
Qed.

End Turns.

#[local] Instance Frame_models_kept {Catalog : Type} :
  Frame (models_kept (Catalog := Catalog)).
Proof.
  split.
  - intros w. split; auto.
  - intros w1 w2 w3 [H12 N12] [H23 N23]. split; auto.
  - intros w l. split; auto.
Qed.

#[local] Instance Frame_test_kept {Catalog : Type} (key : string) :
  Frame (test_kept (Catalog := Catalog) key).
Proof.
  split.
  - intros w. reflexivity.
  - intros w1 w2 w3 H12 H23. unfold test_kept in *. congruence.
  - intros w l. reflexivity.
Qed.

Section Kept.
Context {Catalog : Type} {OM : OpenMetadata Catalog}.
Implicit Types (w : World Catalog).

Lemma respects_models_kept entry : respects models_kept (parse_entity entry).
Proof.
  destruct entry as [key mnode]. intros w.
  destruct (turn_models key mnode w) as [E | (_ & _ & f & m & E)];
    unfold models_kept; rewrite E.
  - split; auto.
  - split.
    + intros k. apply In_keys_dict_set.
    + apply NoDup_keys_dict_set. exact fqn_eqb_eq.
Qed.

Lemma respects_test_kept key entry :
  fst entry <> key -> respects (test_kept key) (parse_entity entry).
Proof.
  destruct entry as [key' mnode]. simpl. intros Hne w.
  apply turn_tests_other, Hne.
Qed.

End Kept.

Lemma upto_induction (P : nat -> Prop) (i n : nat) :
  (i <= n)%nat ->
  P i ->
  (forall j, (i <= j < n)%nat -> P j -> P (S j)) ->
  P n.
Proof.
  intros Hle Hi Hstep.
  induction n as [|n IH].
  - assert (i = 0%nat) by lia. subst. exact Hi.
  - destruct (Nat.eq_dec i (S n)) as [->|Hne]; [exact Hi|].
    apply Hstep; [lia|]. apply IH; [lia|].
    intros j Hj. apply Hstep. lia.
Qed.

Lemma nth_error_Some_entry {A} (l : list A) (j : nat) :
  (j < List.length l)%nat -> exists x, nth_error l j = Some x.
Proof.
  intros H. destruct (nth_error l j) eqn:E; [eauto|].
  apply nth_error_None in E. lia.
Qed.

Lemma NoDup_keys_nth_error {V} (l : list (string * V)) i j ki vi kj vj :
  NoDup (map fst l) ->
  nth_error l i = Some (ki, vi) ->
  nth_error l j = Some (kj, vj) ->
  i <> j -> ki <> kj.
Proof.
  intros Hnd Hi Hj Hne Heq. apply Hne.
  apply (proj1 (NoDup_nth_error (map fst l)) Hnd).
  - rewrite length_map. apply nth_error_Some. congruence.
  - rewrite !nth_error_map, Hi, Hj. simpl. congruence.
Qed.

Lemma nodes_and_sources_NoDup (doc : json) (m : list (string * json)) :
  nodes_and_sources doc = Ok m -> NoDup (map fst m).
Proof.
  unfold nodes_and_sources, rbind. intros H.
  destruct (py_subscript doc (JStr "nodes")) as [ns|]; [|discriminate].
  destruct (py_mapping ns) as [a|]; [|discriminate].
  destruct (py_subscript doc (JStr "sources")) as [ss|]; [|discriminate].
  destruct (py_mapping ss) as [b|]; [|discriminate].
  injection H as <-. unfold dict_display2.
  apply NoDup_keys_dict_update; [exact String.eqb_eq|].
  apply NoDup_keys_dict_update; [exact String.eqb_eq | constructor].
Qed.

Section C1.
Context {Catalog : Type} {OM : OpenMetadata Catalog}.
Implicit Types (w : World Catalog).

Lemma parse_data_model_run w (m c : list (string * json)) :
  dbt_configured (self w) = true ->
  nodes_and_sources (dbt_manifest (self w)) = Ok m ->
  nodes_and_sources (dbt_catalog (self w)) = Ok c ->
  _parse_data_model w = for_ m parse_entity (merged w m c).
Proof.
  intros Hgate Hm Hc. unfold _parse_data_model.
  rewrite bind_get_self_eq, Hgate. unfold logger_info.
  rewrite bind_log_eq. simpl. rewrite bind_lift_eq, Hm.
  unfold bind at 1. simpl. rewrite bind_lift_eq, Hc.
  unfold bind at 1. simpl. rewrite bind_get_self_eq. reflexivity.
Qed.

Lemma models_kept_between (m : list (string * json)) w0 (i j : nat) :
  (i <= j <= List.length m)%nat ->
  models_kept (at_turn m w0 i) (at_turn m w0 j).
Proof.
  intros [Hij Hj].
  apply (upto_induction (fun j => (j <= List.length m)%nat ->
                                  models_kept (at_turn m w0 i) (at_turn m w0 j))
           i j Hij); [intros _; apply frame_refl | | exact Hj].
  intros k Hk IH Hlen.
  destruct (nth_error_Some_entry m k) as [entry Hentry]; [lia|].
  rewrite (at_turn_succ m w0 k entry Hentry).
  apply (frame_trans _ (at_turn m w0 k)); [apply IH; lia|].
  apply respects_models_kept.
Qed.

Lemma test_kept_after (m : list (string * json)) w0 (i j : nat) key mnode :
  NoDup (map fst m) ->
  nth_error m i = Some (key, mnode) ->
  (i < j <= List.length m)%nat ->
  test_kept key (at_turn m w0 (S i)) (at_turn m w0 j).
Proof.
  intros Hnd Hi [Hij Hj].
  apply (upto_induction (fun j => (j <= List.length m)%nat ->
                                  test_kept key (at_turn m w0 (S i)) (at_turn m w0 j))
           (S i) j Hij); [intros _; apply frame_refl | | exact Hj].
  intros k Hk IH Hlen.
  destruct (nth_error_Some_entry m k) as [[key' mnode'] Hentry]; [lia|].
  rewrite (at_turn_succ m w0 k _ Hentry).
  apply (frame_trans _ (at_turn m w0 k)); [apply IH; lia|].
  apply respects_test_kept. simpl.
  apply (NoDup_keys_nth_error m k i key' mnode' key mnode Hnd Hentry Hi). lia.
Qed.

Lemma catalog_entities_at_turn (m : list (string * json)) w0 (i : nat) :
  (i <= List.length m)%nat ->
  catalog_entities (self (at_turn m w0 i)) = catalog_entities (self w0).
Proof.
  intros Hi.
  apply (upto_induction
           (fun i => (i <= List.length m)%nat ->
              catalog_entities (self (at_turn m w0 i)) = catalog_entities (self w0))
           0%nat i); [lia | intros _; reflexivity | | exact Hi].
  intros k Hk IH Hlen.
  destruct (nth_error_Some_entry m k) as [[key mnode] Hentry]; [lia|].
  rewrite (at_turn_succ m w0 k _ Hentry).
  rewrite (proj2 (turn_static key mnode (at_turn m w0 k))). apply IH. lia.
Qed.

(** The model a node put under [model_fqn] at turn [i] is still there at
    turn [j], unless a node in between put its own under the same name. *)
Lemma model_kept_or_replaced (m : list (string * json)) w0 (i j : nat)
    model_fqn model :
  dict_get fqn_eqb (data_models (self (at_turn m w0 (S i)))) model_fqn = Some model ->
  (i < j <= List.length m)%nat ->
  dict_get fqn_eqb (data_models (self (at_turn m w0 j))) model_fqn = Some model \/
  exists k key' mnode' model',
    (i < k < j)%nat /\
    nth_error m k = Some (key', mnode') /\
    resource_type_is_test mnode' = false /\
    fst (parse_node key' mnode' (at_turn m w0 k)) = Ok tt /\
    data_models (self (snd (parse_entity (key', mnode') (at_turn m w0 k)))) =
      dict_set fqn_eqb (data_models (self (at_turn m w0 k))) model_fqn model'.
Proof.
  intros Hset [Hij Hj].
  apply (upto_induction
           (fun j => (j <= List.length m)%nat ->
              dict_get fqn_eqb (data_models (self (at_turn m w0 j))) model_fqn
                = Some model \/
              exists k key' mnode' model',
                (i < k < j)%nat /\
                nth_error m k = Some (key', mnode') /\
                resource_type_is_test mnode' = false /\
                fst (parse_node key' mnode' (at_turn m w0 k)) = Ok tt /\
                data_models (self (snd (parse_entity (key', mnode') (at_turn m w0 k)))) =
                  dict_set fqn_eqb (data_models (self (at_turn m w0 k))) model_fqn model')
           (S i) j Hij); [intros _; now left | | exact Hj].
  intros k Hk IH Hlen.
  destruct (IH ltac:(lia)) as [Hkept | (k0 & key0 & mnode0 & model0 & Hk0 & Hrest)].
  2:{ right. exists k0, key0, mnode0, model0. split; [lia | exact Hrest]. }
  destruct (nth_error_Some_entry m k) as [[key' mnode'] Hentry]; [lia|].
  rewrite (at_turn_succ m w0 k _ Hentry).
  destruct (turn_models key' mnode' (at_turn m w0 k))
    as [E | (Hnt & Hok & f & model' & E)].
  - left. rewrite E. exact Hkept.
  - destruct (fqn_eqb f model_fqn) eqn:Ef.
    + apply fqn_eqb_eq in Ef. subst f. right.
      exists k, key', mnode', model'. repeat split; try assumption; lia.
    + left. rewrite E. rewrite dict_get_set_other; [exact Hkept | exact fqn_eqb_eq |].
      intros ->. rewrite (proj2 (fqn_eqb_eq _ _) eq_refl) in Ef. discriminate.
Qed.

(** Every name of the map was there from the start or was put there at the
    turn of a node that is no test. *)
Lemma models_from_nodes (m : list (string * json)) w0 (j : nat) k :
  (j <= List.length m)%nat ->
  In k (map fst (data_models (self (at_turn m w0 j)))) ->
  In k (map fst (data_models (self w0))) \/
  exists i key mnode model,
    nth_error m i = Some (key, mnode) /\
    resource_type_is_test mnode = false /\
    fst (parse_node key mnode (at_turn m w0 i)) = Ok tt /\
    data_models (self (snd (parse_entity (key, mnode) (at_turn m w0 i)))) =
      dict_set fqn_eqb (data_models (self (at_turn m w0 i))) k model.
Proof.
  intros Hj.
  apply (upto_induction
           (fun j => (j <= List.length m)%nat ->
              In k (map fst (data_models (self (at_turn m w0 j)))) ->
              In k (map fst (data_models (self w0))) \/
              exists i key mnode model,
                nth_error m i = Some (key, mnode) /\
                resource_type_is_test mnode = false /\
                fst (parse_node key mnode (at_turn m w0 i)) = Ok tt /\
                data_models (self (snd (parse_entity (key, mnode) (at_turn m w0 i)))) =
                  dict_set fqn_eqb (data_models (self (at_turn m w0 i))) k model)
           0%nat j); [lia | intros _ H; now left | | exact Hj].
  intros i Hi IH Hlen Hin.
  destruct (nth_error_Some_entry m i) as [[key mnode] Hentry]; [lia|].
  rewrite (at_turn_succ m w0 i _ Hentry) in Hin.
  destruct (turn_models key mnode (at_turn m w0 i))
    as [E | (Hnt & Hok & f & model & E)].
  - rewrite E in Hin. apply IH; [lia | exact Hin].
  - rewrite E in Hin. rewrite keys_dict_set in Hin by exact fqn_eqb_eq.
    destruct (dict_mem fqn_eqb (data_models (self (at_turn m w0 i))) f).
    + apply IH; [lia | exact Hin].
    + apply in_app_or in Hin. destruct Hin as [Hin|[<-|[]]].
      * apply IH; [lia | exact Hin].
      * right. exists i, key, mnode, model. repeat split; assumption.
Qed.

End C1.

Section Resolved.
Context {Catalog : Type} {OM : OpenMetadata Catalog}.
Implicit Types (w : World Catalog).

(** One turn of the loop and the map of data models: the turn of a test,
    or one that ends with an exception, leaves the map as it is; any other
    turn puts the model of its node under the name of the node. *)
Lemma turn_tight key mnode w :
  (data_models (self (snd (parse_entity (key, mnode) w))) = data_models (self w) /\
   (resource_type_is_test mnode = true \/
    exists e, fst (parse_node key mnode w) = Raise e)) \/
  (resource_type_is_test mnode = false /\
   fst (parse_node key mnode w) = Ok tt /\
   exists model_fqn model,
     model_of_node w key mnode model_fqn model /\
     data_models (self (snd (parse_entity (key, mnode) w))) =
       dict_set fqn_eqb (data_models (self w)) model_fqn model).
Proof.
  destruct (resource_type_is_test mnode) eqn:Htest.
  - left. split; [apply turn_of_test, Htest | now left].
  - destruct (parse_node key mnode w) as [[[]|e] w'] eqn:E.
    + right. split; [reflexivity|]. split; [reflexivity|].
      destruct (parse_node_model key mnode w w' Htest E) as (f & model & l & Hmodel & ->).
      exists f, model. split; [exact Hmodel|].
      rewrite parse_entity_run, E. reflexivity.
    + left. split; [|right; exists e; reflexivity].
      rewrite parse_entity_run, E. simpl.
      pose proof (parse_node_outcome key mnode w _ _ E) as Ho.
      inversion Ho; subst. reflexivity.
Qed.

(** A turn that ends with an exception leaves the tests as they are. *)
Lemma turn_raised_tests key mnode w e :
  fst (parse_node key mnode w) = Raise e ->
  dbt_tests (self (snd (parse_entity (key, mnode) w))) = dbt_tests (self w).
Proof.
  intros Hr.
  destruct (parse_entity_cases key mnode w)
    as [(e' & l & _ & ->) | [(l & Hok & _) | (l & c & f & m & Hok & _)]];
    try congruence.
  reflexivity.
Qed.

Lemma test_kept_before (m : list (string * json)) w0 (i : nat) key mnode :
  NoDup (map fst m) ->
  nth_error m i = Some (key, mnode) ->
  test_kept key w0 (at_turn m w0 i).
Proof.
  intros Hnd Hi.
  assert (Hlt : (i < List.length m)%nat) by (apply nth_error_Some; congruence).
  apply (upto_induction (fun j => test_kept key w0 (at_turn m w0 j)) 0%nat i);
    [lia | apply frame_refl |].
  intros k Hk IH.
  destruct (nth_error_Some_entry m k) as [[key' mnode'] Hentry]; [lia|].
  rewrite (at_turn_succ m w0 k _ Hentry).
  apply (frame_trans _ (at_turn m w0 k)); [exact IH|].
  apply respects_test_kept. simpl.
  apply (NoDup_keys_nth_error m k i key' mnode' key mnode Hnd Hentry Hi). lia.
Qed.

(** The model put under [model_fqn] at turn [i] is still there at turn
    [j] when no node in between was resolved to that name; else there is
    such a node. *)
Lemma resolved_kept_or_replaced (m : list (string * json)) w0 (i j : nat)
    model_fqn model :
  dict_get fqn_eqb (data_models (self (at_turn m w0 (S i)))) model_fqn = Some model ->
  (i < j <= List.length m)%nat ->
  (dict_get fqn_eqb (data_models (self (at_turn m w0 j))) model_fqn = Some model /\
   forall k model', (i < k < j)%nat -> ~ resolved_at m w0 k model_fqn model') \/
  exists k model', (i < k < j)%nat /\ resolved_at m w0 k model_fqn model'.
Proof.
  intros Hset [Hij Hj].
  apply (upto_induction
           (fun j => (j <= List.length m)%nat ->
              (dict_get fqn_eqb (data_models (self (at_turn m w0 j))) model_fqn
                 = Some model /\
               forall k model', (i < k < j)%nat -> ~ resolved_at m w0 k model_fqn model') \/
              exists k model', (i < k < j)%nat /\ resolved_at m w0 k model_fqn model')
           (S i) j Hij); [intros _; left; split; [exact Hset | intros; lia] | | exact Hj].
  intros k Hk IH Hlen.
  destruct (IH ltac:(lia)) as [[Hkept Hnone] | (k0 & model0 & Hk0 & Hrest)].
  2:{ right. exists k0, model0. split; [lia | exact Hrest]. }
  destruct (nth_error_Some_entry m k) as [[key' mnode'] Hentry]; [lia|].
  assert (Hother : forall model',
            (forall f model'', model_of_node (at_turn m w0 k) key' mnode' f model'' ->
                               f <> model_fqn) \/
            resource_type_is_test mnode' = true \/
            (exists e, fst (parse_node key' mnode' (at_turn m w0 k)) = Raise e) ->
            ~ resolved_at m w0 k model_fqn model').
  { intros model' Hcase [(key1 & mnode1 & Hn1 & Ht1 & Hok1 & _) (key2 & mnode2 & Hn2 & Hm2)].
    rewrite Hentry in Hn1, Hn2. injection Hn1 as <- <-. injection Hn2 as <- <-.
    destruct Hcase as [Hne | [Ht | [e He]]].
    - exact (Hne _ _ Hm2 eq_refl).
    - congruence.
    - congruence. }
  destruct (turn_tight key' mnode' (at_turn m w0 k))
    as [[E Hcase] | (Hnt & Hok & f & model' & Hmodel & E)].
  - left. rewrite (at_turn_succ m w0 k _ Hentry), E. split; [exact Hkept|].
    intros k0 model0 Hk0.
    destruct (Nat.eq_dec k0 k) as [->|Hne]; [|apply Hnone; lia].
    apply Hother. right. exact Hcase.
  - destruct (fqn_eqb f model_fqn) eqn:Ef.
    + apply fqn_eqb_eq in Ef. subst f. right.
      exists k, model'. split; [lia|]. split.
      * exists key', mnode'. rewrite <- (at_turn_succ m w0 k _ Hentry) in E.
        rewrite (at_turn_succ m w0 k _ Hentry) in E.
        repeat split; assumption.
      * exists key', mnode'. split; assumption.
    + assert (Hne : f <> model_fqn).
      { intros ->. rewrite (proj2 (fqn_eqb_eq _ _) eq_refl) in Ef. discriminate. }
      left. rewrite (at_turn_succ m w0 k _ Hentry), E. split.
      * rewrite dict_get_set_other; [exact Hkept | exact fqn_eqb_eq | exact Hne].
      * intros k0 model0 Hk0.
        destruct (Nat.eq_dec k0 k) as [->|Hnk]; [|apply Hnone; lia].
        apply Hother. left. intros f' model'' Hm'.
        rewrite (model_of_node_fqn _ _ _ _ _ _ _ Hm' Hmodel). exact Hne.
Qed.

(** The entry the final map holds under the name of a resolved node is
    the model of the last node resolved to that name. *)
Lemma last_resolved (m : list (string * json)) w0 model_fqn :
  forall (n i : nat) model,
  (List.length m - i <= n)%nat ->
  resolved_at m w0 i model_fqn model ->
  exists j model',
    (i <= j)%nat /\
    resolved_at m w0 j model_fqn model' /\
    (forall k model'', (j < k)%nat -> ~ resolved_at m w0 k model_fqn model'') /\
    dict_get fqn_eqb (data_models (self (at_turn m w0 (List.length m)))) model_fqn
      = Some model' /\
    (j = i -> model' = model).
Proof.
  induction n as [|n IH]; intros i model Hn Hres.
  - destruct Hres as [(key & mnode & Hi & _) _].
    assert ((i < List.length m)%nat) by (apply nth_error_Some; congruence). lia.
  - pose proof Hres as [(key & mnode & Hi & Htest & Hok & Eset) _].
    assert (Hlt : (i < List.length m)%nat) by (apply nth_error_Some; congruence).
    assert (Hget : dict_get fqn_eqb (data_models (self (at_turn m w0 (S i))))
                     model_fqn = Some model).
    { rewrite (at_turn_succ m w0 i _ Hi), Eset.
      apply dict_get_set_same. exact fqn_eqb_eq. }
    destruct (resolved_kept_or_replaced m w0 i (List.length m) model_fqn model Hget
                ltac:(lia))
      as [[Hkept Hnone] | (k & model' & Hk & Hres')].
    + exists i, model. split; [lia|]. split; [exact Hres|]. split.
      * intros k model'' Hk Hres''.
        pose proof Hres'' as [(key' & mnode' & Hk' & _) _].
        assert ((k < List.length m)%nat) by (apply nth_error_Some; congruence).
        exact (Hnone k model'' ltac:(lia) Hres'').
      * split; [exact Hkept | reflexivity].
    + destruct (IH k model' ltac:(lia) Hres')
        as (j & model'' & Hj & Hresj & Hlast & Hfinal & _).
      exists j, model''. split; [lia|]. split; [exact Hresj|].
      split; [exact Hlast|]. split; [exact Hfinal|]. intros ->. lia.
Qed.

(** Every name of the map was there from the start or is the name of a
    node that is no test and was resolved. *)
Lemma models_from_resolved (m : list (string * json)) w0 (j : nat) k :
  (j <= List.length m)%nat ->
  In k (map fst (data_models (self (at_turn m w0 j)))) ->
  In k (map fst (data_models (self w0))) \/
  exists i model, resolved_at m w0 i k model.
Proof.
  intros Hj.
  apply (upto_induction
           (fun j => (j <= List.length m)%nat ->
              In k (map fst (data_models (self (at_turn m w0 j)))) ->
              In k (map fst (data_models (self w0))) \/
              exists i model, resolved_at m w0 i k model)
           0%nat j); [lia | intros _ H; now left | | exact Hj].
  intros i Hi IH Hlen Hin.
  destruct (nth_error_Some_entry m i) as [[key mnode] Hentry]; [lia|].
  rewrite (at_turn_succ m w0 i _ Hentry) in Hin.
  destruct (turn_tight key mnode (at_turn m w0 i))
    as [[E _] | (Hnt & Hok & f & model & Hmodel & E)].
  - rewrite E in Hin. apply IH; [lia | exact Hin].
  - rewrite E in Hin. rewrite keys_dict_set in Hin by exact fqn_eqb_eq.
    destruct (dict_mem fqn_eqb (data_models (self (at_turn m w0 i))) f).
    + apply IH; [lia | exact Hin].
    + apply in_app_or in Hin. destruct Hin as [Hin|[<-|[]]].
      * apply IH; [lia | exact Hin].
      * right. exists i, model. split.
        -- exists key, mnode. repeat split; assumption.
        -- exists key, mnode. split; assumption.
Qed.

End Resolved.

Section C1Theorem.
Context {Catalog : Type} {OM : OpenMetadata Catalog}.
Implicit Types (w : World Catalog).

(** C1. When the three documents are there and the merged maps [m] and
    [c] can be built, [_parse_data_model] returns normally, and for the
    entity [(key, mnode)] at position [i] of [m], in the world
    [at_turn m (merged w m c) i] in which the loop takes it up:
    - a node whose [resource_type] is ["test"] leaves the map of data
      models as it is; when its turn reaches the routing (the node has a
      name, and the columns of its catalog entry, if it has one, are
      resolved without an exception), the final map of tests holds the
      node under [key]; when not, the final map of tests holds under
      [key] what it held before the run;
    - any other node, unless an exception occurs while it is resolved,
      puts its data model into the map under its fully-qualified name; the
      final map holds exactly one entry under that name, and that entry is
      the model of the last node resolved to that name: the model of this
      node when no later node is resolved to the same name.
    Every name of the final map was there before the run or is the name of
    a node that is no test and was resolved. *)
Theorem C1_data_model_map w (m c : list (string * json)) :
  dbt_configured (self w) = true ->
  nodes_and_sources (dbt_manifest (self w)) = Ok m ->
  nodes_and_sources (dbt_catalog (self w)) = Ok c ->
  NoDup (map fst (data_models (self w))) ->
  exists w',
    _parse_data_model w = (Ok tt, w') /\
    (forall i key mnode,
       nth_error m i = Some (key, mnode) ->
       (resource_type_is_test mnode = true ->
        data_models (self (snd (parse_entity (key, mnode) (at_turn m (merged w m c) i))))
          = data_models (self (at_turn m (merged w m c) i)) /\
        (reaches_routing (at_turn m (merged w m c) i) key mnode ->
         dict_get String.eqb (dbt_tests (self w')) key = Some mnode) /\
        (~ reaches_routing (at_turn m (merged w m c) i) key mnode ->
         dict_get String.eqb (dbt_tests (self w')) key =
         dict_get String.eqb (dbt_tests (self w)) key)) /\
       (resource_type_is_test mnode = false ->
        fst (parse_node key mnode (at_turn m (merged w m c) i)) = Ok tt ->
        exists model_fqn model,
          resolved_at m (merged w m c) i model_fqn model /\
          count_key fqn_eqb (data_models (self w')) model_fqn = 1%nat /\
          exists j model',
            (i <= j)%nat /\
            resolved_at m (merged w m c) j model_fqn model' /\
            (forall k model'',
               (j < k)%nat -> ~ resolved_at m (merged w m c) k model_fqn model'') /\
            dict_get fqn_eqb (data_models (self w')) model_fqn = Some model' /\
            (j = i -> model' = model))) /\
    (forall model_fqn,
       In model_fqn (map fst (data_models (self w'))) ->
       In model_fqn (map fst (data_models (self w))) \/
       exists k model, resolved_at m (merged w m c) k model_fqn model).
Proof.
  intros Hgate Hm Hc Hnd.
  set (w0 := merged w m c).
  assert (Hrun : _parse_data_model w = (Ok tt, at_turn m w0 (List.length m))).
  { rewrite (parse_data_model_run w m c Hgate Hm Hc), at_turn_end.
    pose proof (for_total parse_entity m parse_entity_total w0) as Hok.
    fold w0. destruct (for_ m parse_entity w0) as [r wf]. simpl in *.
    rewrite Hok. reflexivity. }
  pose proof (nodes_and_sources_NoDup _ _ Hm) as Hkeys.
  exists (at_turn m w0 (List.length m)). split; [exact Hrun|]. split.
  - intros i key mnode Hi.
    assert (Hlt : (i < List.length m)%nat) by (apply nth_error_Some; congruence).
    pose proof (test_kept_after m w0 i (List.length m) key mnode Hkeys Hi
                  ltac:(lia)) as Hafter.
    unfold test_kept in Hafter.
    split.
    + intros Htest.
      split; [apply turn_of_test, Htest|]. split.
      * intros Hreach.
        apply (test_node_reaches key mnode _ Htest) in Hreach.
        rewrite Hafter.
        rewrite (at_turn_succ m w0 i _ Hi), (turn_routed key mnode _ Htest Hreach).
        apply dict_get_set_same. exact String.eqb_eq.
      * intros Hnot.
        destruct (fst (parse_node key mnode (at_turn m w0 i))) as [[]|e] eqn:Hr.
        { exfalso. apply Hnot. apply (test_node_reaches key mnode _ Htest). exact Hr. }
        rewrite Hafter.
        rewrite (at_turn_succ m w0 i _ Hi), (turn_raised_tests key mnode _ e Hr).
        exact (test_kept_before m w0 i key mnode Hkeys Hi).
    + intros Htest Hok.
      destruct (turn_tight key mnode (at_turn m w0 i))
        as [[_ [Ht | [e He]]] | (_ & _ & model_fqn & model & Hmodel & Eset)];
        try congruence.
      exists model_fqn, model.
      assert (Hres : resolved_at m w0 i model_fqn model).
      { split; exists key, mnode; repeat split; assumption. }
      split; [exact Hres|].
      assert (Hnd_i : NoDup (map fst (data_models (self (at_turn m w0 (S i)))))).
      { apply (models_kept_between m w0 0 (S i)); [lia|]. exact Hnd. }
      assert (Hin_i : In model_fqn (map fst (data_models (self (at_turn m w0 (S i)))))).
      { rewrite (at_turn_succ m w0 i _ Hi), Eset.
        apply In_key_dict_set_same. exact fqn_eqb_eq. }
      destruct (models_kept_between m w0 (S i) (List.length m) ltac:(lia))
        as [Hin Hnodup].
      split.
      * apply count_key_NoDup; [exact fqn_eqb_eq | apply Hnodup, Hnd_i | apply Hin, Hin_i].
      * exact (last_resolved m w0 model_fqn (List.length m) i model ltac:(lia) Hres).
  - intros model_fqn Hin.
    exact (models_from_resolved m w0 (List.length m) model_fqn ltac:(lia) Hin).
Qed.

End C1Theorem.

Lemma C1_data_model_map_witness :
  dbt_configured (self fresh_tested) = true /\
  nodes_and_sources (dbt_manifest (self fresh_tested)) = Ok entities_tested /\
  nodes_and_sources (dbt_catalog (self fresh_tested)) = Ok centities_two /\
  NoDup (map fst (data_models (self fresh_tested))) /\
  exists w',
    _parse_data_model (OM := registering) fresh_tested = (Ok tt, w') /\
    (forall i key mnode,
       nth_error entities_tested i = Some (key, mnode) ->
       (resource_type_is_test mnode = true ->
        data_models
          (self (snd (parse_entity (OM := registering) (key, mnode)
                        (at_turn (OM := registering) entities_tested
                           (merged fresh_tested entities_tested centities_two) i))))
          = data_models
              (self (at_turn (OM := registering) entities_tested
                       (merged fresh_tested entities_tested centities_two) i)) /\
        (reaches_routing (OM := registering)
           (at_turn (OM := registering) entities_tested
              (merged fresh_tested entities_tested centities_two) i) key mnode ->
         dict_get String.eqb (dbt_tests (self w')) key = Some mnode) /\
        (~ reaches_routing (OM := registering)
             (at_turn (OM := registering) entities_tested
                (merged fresh_tested entities_tested centities_two) i) key mnode ->
         dict_get String.eqb (dbt_tests (self w')) key =
         dict_get String.eqb (dbt_tests (self fresh_tested)) key)) /\
       (resource_type_is_test mnode = false ->
        fst (parse_node (OM := registering) key mnode
               (at_turn (OM := registering) entities_tested
                  (merged fresh_tested entities_tested centities_two) i)) = Ok tt ->
        exists model_fqn model,
          resolved_at (OM := registering) entities_tested
            (merged fresh_tested entities_tested centities_two) i model_fqn model /\
          count_key fqn_eqb (data_models (self w')) model_fqn = 1%nat /\
          exists j model',
            (i <= j)%nat /\
            resolved_at (OM := registering) entities_tested
              (merged fresh_tested entities_tested centities_two) j model_fqn model' /\
            (forall k model'',
               (j < k)%nat ->
               ~ resolved_at (OM := registering) entities_tested
                   (merged fresh_tested entities_tested centities_two) k model_fqn
                   model'') /\
            dict_get fqn_eqb (data_models (self w')) model_fqn = Some model' /\
            (j = i -> model' = model))) /\
    (forall model_fqn,
       In model_fqn (map fst (data_models (self w'))) ->
       In model_fqn (map fst (data_models (self fresh_tested))) \/
       exists k model,
         resolved_at (OM := registering) entities_tested
           (merged fresh_tested entities_tested centities_two) k model_fqn model).
Proof.
  split; [reflexivity|]. split; [reflexivity|]. split; [reflexivity|].
  split; [constructor|].
  apply (C1_data_model_map (OM := registering) fresh_tested entities_tested
           centities_two); try reflexivity.
  constructor.
Defined.

(** C1, as the specification words it, fails for a test that raises
    before the routing.  Both nodes of [manifest_unrouted] have the
    [resource_type] ["test"]: the first has neither alias nor name, the
    second has a catalog entry with a column that has no name.  The run
    returns normally, and neither node is in the map of tests; nor is it in
    the map of data models. *)
Lemma C1_counterexample :
  nodes_and_sources manifest_unrouted =
    Ok [("test.p.anon", test_anonymous); ("test.p.tc", generic_test "tc")] /\
  resource_type_is_test test_anonymous = true /\
  resource_type_is_test (generic_test "tc") = true /\
  fst (_parse_data_model (OM := registering) fresh_unrouted) = Ok tt /\
  dbt_tests (self (snd (_parse_data_model (OM := registering) fresh_unrouted))) = [] /\
  data_models (self (snd (_parse_data_model (OM := registering) fresh_unrouted))) = [] /\
  map exc_info (logged (snd (_parse_data_model (OM := registering) fresh_unrouted))) =
    [None;
     Some (KeyError (JStr "name")); Some (KeyError (JStr "name"));
     Some (KeyError (JStr "name")); Some (KeyError (JStr "name"))].
Proof. repeat split; vm_compute; reflexivity. Qed.

(** The run of the witness: the test is in the map of tests, the model and
    the source are in the map of data models. *)
Example data_model_map_run :
  map fst (dbt_tests (self (snd (_parse_data_model (OM := registering) fresh_tested))))
    = ["test.p.tb"] /\
  map fst (data_models (self (snd (_parse_data_model (OM := registering) fresh_tested))))
    = [Some "svc.db.schema.t2"; Some "svc.db.schema.t1"].
Proof. split; vm_compute; reflexivity. Qed.

(** Two nodes of one name. The two sources of [manifest_users] declare the
    same table; both are resolved without an exception, the first to the
    model [model_users "first"], the second to [model_users "second"],
    both under the name [svc.db.schema.users]: the map ends with one entry
    under that name, the model of the second. *)
Example same_name_last_wins :
  nodes_and_sources (dbt_manifest (self fresh_users)) = Ok entities_users /\
  nodes_and_sources (dbt_catalog (self fresh_users)) = Ok centities_users /\
  put_model (OM := registering) entities_users
    (merged fresh_users entities_users centities_users) 0
    (Some "svc.db.schema.users") (model_users "first") /\
  put_model (OM := registering) entities_users
    (merged fresh_users entities_users centities_users) 1
    (Some "svc.db.schema.users") (model_users "second") /\
  data_models (self (snd (_parse_data_model (OM := registering) fresh_users)))
    = [(Some "svc.db.schema.users", model_users "second")] /\
  ~ In (model_users "first")
      (map snd
         (data_models (self (snd (_parse_data_model (OM := registering) fresh_users))))).
Proof.
  assert (E : data_models
                (self (snd (_parse_data_model (OM := registering) fresh_users)))
              = [(Some "svc.db.schema.users", model_users "second")])
    by (vm_compute; reflexivity).
  split; [reflexivity|]. split; [reflexivity|]. split.
  { exists "source.p.a.users", (source_users "first").
    repeat split; vm_compute; reflexivity. }
  split.
  { exists "source.p.b.users", (source_users "second").
    repeat split; vm_compute; reflexivity. }
  split; [exact E|].
  rewrite E. intros [H|[]]. discriminate.
Qed.

(** ** What the handlers isolate, and what they do not *)
Section Isolation.
Context {Catalog : Type} {OM : OpenMetadata Catalog}.
Implicit Types (w : World Catalog).

(** A node that is no test and has no catalog entry never gets a data
    model: the owner is read from the entry, which is [None]. *)
Lemma node_without_catalog_entry key mnode w :
  dict_get String.eqb (catalog_entities (self w)) key = None ->
  resource_type_is_test mnode = false ->
  fst (parse_node key mnode w) <> Ok tt /\
  data_models (self (snd (parse_entity (key, mnode) w))) = data_models (self w).
Proof.
  intros Hnone Htest.
  destruct (parse_entity_cases key mnode w)
    as [(e & l & Hr & ->) | [(l & _ & Ht & _) | (l & c & f & m & _ & _ & Hc & _)]];
    try congruence.
  split; [congruence | reflexivity].
Qed.

(** The turns of these four loops return normally whatever happens in
    them: the loop goes on with the next item. *)
Lemma lineage_of_total data_model_name upstream_node w :
  fst (lineage_of data_model_name upstream_node w) = Ok tt.
Proof.
  unfold lineage_of. rewrite try_except_eq.
  match goal with |- context [fst (?m w)] => destruct (m w) as [[[]|e] w1] end;
    reflexivity.
Qed.

Lemma test_cases_of_total entry w : fst (test_cases_of entry w) = Ok tt.
Proof.
  destruct entry as [key dbt_test]. unfold test_cases_of. rewrite try_except_eq.
  match goal with |- context [fst (?m w)] => destruct (m w) as [[[]|e] w1] end;
    reflexivity.
Qed.

Lemma update_result_of_total dbt_test_result w :
  fst (update_result_of dbt_test_result w) = Ok tt.
Proof.
  unfold update_result_of. rewrite try_except_eq.
  match goal with |- context [fst (?m w)] => destruct (m w) as [[[]|e] w1] end;
    reflexivity.
Qed.

(** A loop whose body raises at an item ends there: the items after it are
    not visited. *)
Lemma for_stops_at_raise {X} (body : X -> M Catalog unit) (x : X) (rest : list X)
    w e w1 :
  body x w = (Raise e, w1) ->
  for_ (x :: rest) body w = (Raise e, w1).
Proof. intros H. unfold for_. simpl. unfold bind. rewrite H. reflexivity. Qed.

(** The loop of [create_dbt_tests_suite_definition] has its one handler
    around it: when the first test raises, the run ends with what that
    test yielded before, whatever tests come after it. *)
Lemma suite_definition_loop_stops w entry rest e w1 :
  dbt_configured (self w) = true ->
  dbt_tests (self w) = entry :: rest ->
  suite_definition_of entry
    (add_log w [mk_LogRecord INFO "Processing DBT Tests Suites and Test Definitions"
                  [] None])
    = (Raise e, w1) ->
  create_dbt_tests_suite_definition w =
  (Ok tt,
   add_log w1 [mk_LogRecord ERROR "Failed to parse the node to capture tests {err}" []
                 (Some e)]).
Proof.
  intros Hgate Htests Hraise. unfold create_dbt_tests_suite_definition.
  rewrite try_except_eq, bind_get_self_eq, Hgate. unfold logger_info.
  rewrite bind_log_eq. simpl. rewrite Htests.
  rewrite (for_stops_at_raise suite_definition_of entry rest _ e w1 Hraise).
  reflexivity.
Qed.

End Isolation.

(** ** The edges of the methods *)
Section Edges.
Context {Catalog : Type} {OM : OpenMetadata Catalog}.
Implicit Types (w : World Catalog).

(** The loops with an inner handler go on after any item. *)
Lemma test_cases_loop_continues entry rest w :
  for_ (entry :: rest) test_cases_of w =
  for_ rest test_cases_of (snd (test_cases_of entry w)).
Proof.
  rewrite (for_app test_cases_of [entry] rest test_cases_of_total w).
  rewrite for_one by apply test_cases_of_total. reflexivity.
Qed.

Lemma results_loop_continues dbt_test_result rest w :
  for_ (dbt_test_result :: rest) update_result_of w =
  for_ rest update_result_of (snd (update_result_of dbt_test_result w)).
Proof.
  rewrite (for_app update_result_of [dbt_test_result] rest update_result_of_total w).
  rewrite for_one by apply update_result_of_total. reflexivity.
Qed.


(** A run result that has no [timing] at all is logged and skipped: no
    result is built for it. *)
Lemma result_without_timing_skipped (d : list (string * json)) w :
  dict_get String.eqb d "timing" = None ->
  update_result_of (JDict d) w =
  (Ok tt,
   add_log w [mk_LogRecord ERROR "Failed capture tests results {err}" []
                (Some (KeyError (JStr "timing")))]).
Proof.
  intros H. unfold update_result_of, test_case_result_of.
  rewrite try_except_eq.
  destruct (test_status_of_dict d) as [[st v] Hst].
  unfold bind at 1. rewrite bind_lift_eq, Hst. cbv beta iota.
  rewrite bind_lift_eq. simpl. rewrite H. reflexivity.
Qed.


End Edges.

(** * Further properties *)

(** ** The merged entities *)
Section DictMerge.
Context {K V : Type} (eqb : K -> K -> bool).
Hypothesis eqb_eq : forall a b, eqb a b = true <-> a = b.

Lemma dict_get_update (d d' : list (K * V)) k :
  NoDup (map fst d') ->
  dict_get eqb (dict_update eqb d d') k =
  match dict_get eqb d' k with
  | Some v => Some v
  | None => dict_get eqb d k
  end.
Proof.
  unfold dict_update. revert d.
  induction d' as [|[k1 v1] d' IH]; intros d Hnd; simpl; [reflexivity|].
  inversion Hnd as [|? ? Hni Hnd']; subst.
  rewrite IH by exact Hnd'.
  destruct (eqb k1 k) eqn:E.
  - apply eqb_eq in E. subst k1.
    assert (Hnone : dict_get eqb d' k = None)
      by (apply (dict_get_None_not_In eqb eqb_eq); exact Hni).
    rewrite Hnone. apply dict_get_set_same. exact eqb_eq.
  - destruct (dict_get eqb d' k); [reflexivity|].
    apply dict_get_set_other; [exact eqb_eq|].
    intros ->. rewrite (eqb_refl_of eqb eqb_eq) in E. discriminate.
Qed.

Lemma dict_mem_set_other (d : list (K * V)) k v k' :
  k <> k' -> dict_mem eqb (dict_set eqb d k v) k' = dict_mem eqb d k'.
Proof.
  intros Hne. unfold dict_mem.
  rewrite (dict_get_set_other eqb eqb_eq) by exact Hne. reflexivity.
Qed.

Lemma keys_dict_update (d d' : list (K * V)) :
  NoDup (map fst d') ->
  map fst (dict_update eqb d d') =
  (map fst d ++ filter (fun k => negb (dict_mem eqb d k)) (map fst d'))%list.
Proof.
  unfold dict_update. revert d.
  induction d' as [|[k1 v1] d' IH]; intros d Hnd; simpl.
  - now rewrite app_nil_r.
  - inversion Hnd as [|? ? Hni Hnd']; subst.
    rewrite IH by exact Hnd'. rewrite (keys_dict_set eqb).
    assert (Hfilter :
              filter (fun k => negb (dict_mem eqb (dict_set eqb d k1 v1) k)) (map fst d') =
              filter (fun k => negb (dict_mem eqb d k)) (map fst d')).
    { apply filter_ext_in. intros k Hk. f_equal. apply dict_mem_set_other.
      intros ->. contradiction. }
    rewrite Hfilter.
    destruct (dict_mem eqb d k1); simpl; [reflexivity|].
    now rewrite <- app_assoc.
Qed.

End DictMerge.

Lemma dict_display2_lookup (a b : list (string * json)) (k : string) :
  NoDup (map fst a) -> NoDup (map fst b) ->
  dict_get String.eqb (dict_display2 a b) k =
  match dict_get String.eqb b k with
  | Some v => Some v
  | None => dict_get String.eqb a k
  end.
Proof.
  intros Ha Hb. unfold dict_display2.
  rewrite (dict_get_update String.eqb String.eqb_eq) by exact Hb.
  destruct (dict_get String.eqb b k); [reflexivity|].
  rewrite (dict_get_update String.eqb String.eqb_eq) by exact Ha.
  destruct (dict_get String.eqb a k); reflexivity.
Qed.

Lemma dict_display2_keys (a b : list (string * json)) :
  NoDup (map fst a) -> NoDup (map fst b) ->
  map fst (dict_display2 a b) =
  (map fst a ++ filter (fun k => negb (dict_mem String.eqb a k)) (map fst b))%list.
Proof.
  intros Ha Hb. unfold dict_display2.
  rewrite (keys_dict_update String.eqb String.eqb_eq) by exact Hb.
  assert (Hkeys : map fst (dict_update String.eqb [] a) = map fst a).
  { rewrite (keys_dict_update String.eqb String.eqb_eq) by exact Ha. simpl.
    apply forallb_filter_id. apply forallb_forall. reflexivity. }
  rewrite Hkeys. f_equal. apply filter_ext. intros k. f_equal.
  unfold dict_mem.
  rewrite (dict_get_update String.eqb String.eqb_eq) by exact Ha.
  destruct (dict_get String.eqb a k); reflexivity.
Qed.

#[local] Instance Frame_static_kept {Catalog : Type} :
  Frame (static_kept (Catalog := Catalog)).
Proof.
  split.
  - intros w. repeat split.
  - intros w1 w2 w3 H12 H23. unfold static_kept in *.
    repeat match goal with H : _ /\ _ |- _ => destruct H end.
    repeat split; congruence.
  - intros w l. repeat split.
Qed.

Section Static.
Context {Catalog : Type} {OM : OpenMetadata Catalog}.
Implicit Types (w : World Catalog).

Lemma respects_static_kept entry : respects static_kept (parse_entity entry).
Proof.
  destruct entry as [key mnode]. intros w.
  destruct (parse_entity_cases key mnode w)
    as [(e & l & _ & ->) | [(l & _ & _ & ->) | (l & c & f & m & _ & _ & _ & ->)]];
    repeat split.
Qed.

Lemma static_kept_loop (entities : list (string * json)) w :
  static_kept w (snd (for_ entities parse_entity w)).
Proof.
  apply (respects_for_ static_kept).
  intros entry _. apply respects_static_kept.
Qed.

(** When the manifest holds its nodes [a] and its sources [b], after
    [_parse_data_model] the merged manifest entities map a key to the entry
    of the sources when the sources have the key, else to the entry of the
    nodes; their order, which is the order of the loop, is that of the
    nodes followed by the sources under a key the nodes do not have; and
    the catalog entities are the merged catalog. *)
Theorem sources_shadow_nodes w (a b c : list (string * json)) :
  dbt_configured (self w) = true ->
  py_subscript (dbt_manifest (self w)) (JStr "nodes") = Ok (JDict a) ->
  py_subscript (dbt_manifest (self w)) (JStr "sources") = Ok (JDict b) ->
  NoDup (map fst a) ->
  NoDup (map fst b) ->
  nodes_and_sources (dbt_catalog (self w)) = Ok c ->
  (forall k,
     dict_get String.eqb (manifest_entities (self (snd (_parse_data_model w)))) k =
     match dict_get String.eqb b k with
     | Some v => Some v
     | None => dict_get String.eqb a k
     end) /\
  map fst (manifest_entities (self (snd (_parse_data_model w)))) =
    (map fst a ++ filter (fun k => negb (dict_mem String.eqb a k)) (map fst b))%list /\
  catalog_entities (self (snd (_parse_data_model w))) = c.
Proof.
  intros Hgate Hnodes Hsources Ha Hb Hc.
  assert (Hm : nodes_and_sources (dbt_manifest (self w)) = Ok (dict_display2 a b)).
  { unfold nodes_and_sources. rewrite Hnodes. simpl. rewrite Hsources. reflexivity. }
  rewrite (parse_data_model_run w _ c Hgate Hm Hc).
  destruct (static_kept_loop (dict_display2 a b) (merged w (dict_display2 a b) c))
    as (_ & _ & _ & _ & _ & Hme & Hce & _).
  rewrite Hme, Hce. simpl.
  split; [|split; [|reflexivity]].
  - intros k. apply dict_display2_lookup; assumption.
  - apply dict_display2_keys; assumption.
Qed.

(** A document whose nodes and sources cannot be merged makes
    [_parse_data_model] raise: no handler is around the two merges.  For a
    document [d] that lacks [part]: when [d] is the manifest, [KeyError]
    of [part] is raised and only the first record was logged; when [d] is
    the catalog, and the manifest could be merged into [m], [KeyError] of
    [part] is raised, the manifest entities are [m] already and the
    catalog entities are those of before.  No node was parsed either
    way. *)
Theorem unmergeable_document_raises (wm wc : World Catalog)
    (d m : list (string * json)) (part : string) :
  lacks d part ->
  dbt_configured (self wm) = true ->
  dbt_manifest (self wm) = JDict d ->
  dbt_configured (self wc) = true ->
  nodes_and_sources (dbt_manifest (self wc)) = Ok m ->
  dbt_catalog (self wc) = JDict d ->
  _parse_data_model wm =
    (Raise (KeyError (JStr part)),
     add_log wm [mk_LogRecord INFO "Parsing Data Models" [] None]) /\
  _parse_data_model wc =
    (Raise (KeyError (JStr part)),
     with_self (set_manifest_entities m)
       (add_log wc [mk_LogRecord INFO "Parsing Data Models" [] None])).
Proof.
  intros Hlacks Hgm Hm Hgc Hcm Hc.
  assert (Hd : nodes_and_sources (JDict d) = Raise (KeyError (JStr part))).
  { unfold nodes_and_sources. destruct Hlacks as [Hn | a Hn Hs]; simpl.
    - rewrite Hn. reflexivity.
    - rewrite Hn. simpl. rewrite Hs. reflexivity. }
  split.
  - unfold _parse_data_model.
    rewrite bind_get_self_eq, Hgm. unfold logger_info.
    rewrite bind_log_eq. simpl. rewrite bind_lift_eq, Hm, Hd. reflexivity.
  - unfold _parse_data_model.
    rewrite bind_get_self_eq, Hgc. unfold logger_info.
    rewrite bind_log_eq. simpl. rewrite bind_lift_eq, Hcm.
    unfold bind at 1. simpl. rewrite bind_lift_eq, Hc, Hd. reflexivity.
Qed.

(** Without the dbt configuration, or with an empty manifest or catalog,
    the three methods behind that condition do nothing at all: nothing is
    parsed, nothing yielded, nothing logged, and [create_dbt_test_cases]
    does not go on to the run results. *)
Theorem unconfigured_methods_do_nothing w :
  dbt_configured (self w) = false ->
  _parse_data_model w = (Ok tt, w) /\
  create_dbt_tests_suite_definition w = (Ok tt, w) /\
  create_dbt_test_cases w = (Ok tt, w).
Proof.
  intros Hgate. repeat split.
  - unfold _parse_data_model. rewrite bind_get_self_eq, Hgate. reflexivity.
  - unfold create_dbt_tests_suite_definition.
    rewrite try_except_eq, bind_get_self_eq, Hgate. reflexivity.
  - unfold create_dbt_test_cases. rewrite bind_get_self_eq, Hgate. reflexivity.
Qed.

End Static.

Lemma sources_shadow_nodes_witness :
  (forall k,
     dict_get String.eqb
       (manifest_entities (self (snd (_parse_data_model (OM := registering) fresh_two)))) k =
     match dict_get String.eqb [("source.p.t1", node_t1)] k with
     | Some v => Some v
     | None => dict_get String.eqb [("model.p.t2", node_t2)] k
     end) /\
  map fst (manifest_entities (self (snd (_parse_data_model (OM := registering) fresh_two)))) =
    (map fst [("model.p.t2", node_t2)] ++
     filter (fun k => negb (dict_mem String.eqb [("model.p.t2", node_t2)] k))
       (map fst [("source.p.t1", node_t1)]))%list /\
  catalog_entities (self (snd (_parse_data_model (OM := registering) fresh_two))) =
    centities_two.
Proof.
  apply (sources_shadow_nodes (OM := registering) fresh_two
           [("model.p.t2", node_t2)] [("source.p.t1", node_t1)] centities_two);
    try reflexivity.
  - repeat constructor; simpl; tauto.
  - repeat constructor; simpl; tauto.
Defined.

Lemma unmergeable_document_raises_witness :
  lacks [("nodes", JDict [])] "sources" /\
  nodes_and_sources manifest_two =
    Ok [("model.p.t2", node_t2); ("source.p.t1", node_t1)] /\
  _parse_data_model (OM := registering)
    (object (JDict [("nodes", JDict [])]) catalog_two JNull [] []) =
    (Raise (KeyError (JStr "sources")),
     add_log (object (JDict [("nodes", JDict [])]) catalog_two JNull [] [])
       [mk_LogRecord INFO "Parsing Data Models" [] None]) /\
  _parse_data_model (OM := registering)
    (object manifest_two (JDict [("nodes", JDict [])]) JNull [] []) =
    (Raise (KeyError (JStr "sources")),
     with_self (set_manifest_entities [("model.p.t2", node_t2); ("source.p.t1", node_t1)])
       (add_log (object manifest_two (JDict [("nodes", JDict [])]) JNull [] [])
          [mk_LogRecord INFO "Parsing Data Models" [] None])).
Proof.
  assert (Hl : lacks [("nodes", JDict [])] "sources").
  { apply (lacks_sources _ []); reflexivity. }
  split; [exact Hl|]. split; [reflexivity|].
  apply (unmergeable_document_raises (OM := registering)
           (object (JDict [("nodes", JDict [])]) catalog_two JNull [] [])
           (object manifest_two (JDict [("nodes", JDict [])]) JNull [] [])
           [("nodes", JDict [])] [("model.p.t2", node_t2); ("source.p.t1", node_t1)]
           "sources" Hl);
    reflexivity.
Defined.

Lemma unconfigured_methods_do_nothing_witness :
  _parse_data_model (OM := registering) (object JNull catalog_two JNull [] []) =
    (Ok tt, object JNull catalog_two JNull [] []) /\
  create_dbt_tests_suite_definition (OM := registering)
    (object JNull catalog_two JNull [] []) =
    (Ok tt, object JNull catalog_two JNull [] []) /\
  create_dbt_test_cases (OM := registering) (object JNull catalog_two JNull [] []) =
    (Ok tt, object JNull catalog_two JNull [] []).
Proof.
  apply (unconfigured_methods_do_nothing (OM := registering)
           (object JNull catalog_two JNull [] [])).
  reflexivity.
Defined.

(** ** What the generators leave alone *)

#[local] Instance Frame_object_kept {Catalog : Type} :
  Frame (object_kept (Catalog := Catalog)).
Proof.
  split.
  - intros w. repeat split.
  - intros w1 w2 w3 H12 H23. unfold object_kept in *.
    repeat match goal with H : _ /\ _ |- _ => destruct H end.
    repeat split; congruence.
  - intros w l. repeat split.
Qed.

#[local] Instance Frame_tables_kept {Catalog : Type} {OM : OpenMetadata Catalog} :
  Frame (tables_kept (Catalog := Catalog)).
Proof.
  split.
  - intros w. split; auto.
  - intros w1 w2 w3 [H12 Y12] [H23 Y23]. split.
    + intros n. rewrite H23. apply H12.
    + auto.
  - intros w l. split; auto.
Qed.

Section LineageRun.
Context {Catalog : Type} {OM : OpenMetadata Catalog}.
Implicit Types (w : World Catalog).

Lemma respects_object_kept_yield (r : Request) : respects object_kept (yield r).
Proof. intros w. repeat split. Qed.

Lemma respects_object_kept_lineage_of data_model_name upstream_node :
  respects object_kept (lineage_of data_model_name upstream_node).
Proof. unfold lineage_of. respects_tac. apply respects_object_kept_yield. Qed.

Lemma lineage_turn_total (entry : option string * DataModel) w :
  fst ((let '(data_model_name, data_model) := entry in
        for_ (upstream data_model) (lineage_of data_model_name)) w) = Ok tt.
Proof. destruct entry as [name model]. apply for_total, lineage_of_total. Qed.

(** [create_dbt_lineage] returns normally whatever the lookups on the
    server do, and it leaves the object as it was: only the server has seen
    the requests. *)
Theorem lineage_never_raises w :
  fst (create_dbt_lineage w) = Ok tt /\
  object_kept w (snd (create_dbt_lineage w)).
Proof.
  unfold create_dbt_lineage, logger_info. rewrite bind_log_eq, bind_get_self_eq.
  split.
  - apply for_total. intros entry w1. apply lineage_turn_total.
  - apply (frame_trans _ (add_log w [mk_LogRecord INFO "Processing DBT lineage" [] None]));
      [apply frame_add_log|].
    apply (respects_for_ object_kept). intros [name model] _.
    apply (respects_for_ object_kept). intros up _.
    apply respects_object_kept_lineage_of.
Qed.

Hypothesis stable : lineage_keeps_tables OM.

Lemma respects_tables_kept_lineage_of data_model_name upstream_node :
  respects tables_kept (lineage_of data_model_name upstream_node).
Proof.
  unfold lineage_of.
  apply respects_try_except; [exact _ | | intros e; respects_tac].
  intros w. rewrite bind_get_by_name_eq.
  destruct (get_by_name (metadata (self w)) Table (JStr upstream_node))
    as [[from_entity|]|e]; try apply frame_refl.
  - rewrite bind_get_by_name_eq.
    destruct (get_by_name (metadata (self w)) Table (json_of_fqn data_model_name))
      as [[to_entity|]|e]; try apply frame_refl.
    rewrite bind_construct_eq.
    destruct (valid_Request _); [|apply frame_refl].
    unfold yield. split; simpl.
    + intros n. apply stable.
    + intros r Hr. apply in_or_app. now left.
  - rewrite bind_get_by_name_eq.
    destruct (get_by_name (metadata (self w)) Table (json_of_fqn data_model_name))
      as [[to_entity|]|e]; apply frame_refl.
Qed.

Lemma respects_tables_kept_upstreams data_model_name (ups : list string) :
  respects tables_kept (for_ ups (lineage_of data_model_name)).
Proof.
  apply (respects_for_ tables_kept). intros up _.
  apply respects_tables_kept_lineage_of.
Qed.

Lemma respects_tables_kept_models (models : list (option string * DataModel)) :
  respects tables_kept
    (for_ models (fun '(data_model_name, data_model) =>
       for_ (upstream data_model) (lineage_of data_model_name))).
Proof.
  apply (respects_for_ tables_kept). intros [name model] _.
  apply respects_tables_kept_upstreams.
Qed.

Lemma lineage_of_yields data_model_name upstream_node from_entity to_entity w :
  get_by_name (metadata (self w)) Table (JStr upstream_node) = Ok (Some from_entity) ->
  get_by_name (metadata (self w)) Table (json_of_fqn data_model_name) = Ok (Some to_entity) ->
  valid_Request
    (AddLineageRequest
       (mk_EntitiesEdge
          (mk_EntityReference (entity_id from_entity) "table")
          (mk_EntityReference (entity_id to_entity) "table"))) = true ->
  In (AddLineageRequest
        (mk_EntitiesEdge
           (mk_EntityReference (entity_id from_entity) "table")
           (mk_EntityReference (entity_id to_entity) "table")))
     (yielded (snd (lineage_of data_model_name upstream_node w))).
Proof.
  intros Hfrom Hto Hvalid. unfold lineage_of.
  rewrite try_except_eq, bind_get_by_name_eq, Hfrom, bind_get_by_name_eq, Hto,
    bind_construct_eq, Hvalid.
  simpl. apply in_or_app. right. now left.
Qed.

(** When the handling of a lineage request leaves the tables of the server
    as they are, [create_dbt_lineage] yields the edge of every data model
    and every one of its upstream names for which the server holds both
    tables: no dependency between two tables of the server is left out. *)
Theorem lineage_edge_for_every_dependency w data_model_name data_model upstream_node
    from_entity to_entity :
  In (data_model_name, data_model) (data_models (self w)) ->
  In upstream_node (upstream data_model) ->
  get_by_name (metadata (self w)) Table (JStr upstream_node) = Ok (Some from_entity) ->
  get_by_name (metadata (self w)) Table (json_of_fqn data_model_name) = Ok (Some to_entity) ->
  valid_Request
    (AddLineageRequest
       (mk_EntitiesEdge
          (mk_EntityReference (entity_id from_entity) "table")
          (mk_EntityReference (entity_id to_entity) "table"))) = true ->
  In (AddLineageRequest
        (mk_EntitiesEdge
           (mk_EntityReference (entity_id from_entity) "table")
           (mk_EntityReference (entity_id to_entity) "table")))
     (fst (drain create_dbt_lineage w)).
Proof.
  intros Hmodel Hup Hfrom Hto Hvalid.
  unfold drain. simpl.
  set (w0 := mk_World (self w) (logged w) [] (submitted w)).
  unfold create_dbt_lineage, logger_info. rewrite bind_log_eq, bind_get_self_eq.
  set (w1 := add_log w0 [mk_LogRecord INFO "Processing DBT lineage" [] None]).
  set (turn := fun '(data_model_name, data_model) =>
                 for_ (upstream data_model) (lineage_of data_model_name)).
  change (data_models (self w1)) with (data_models (self w)).
  destruct (in_split _ _ Hmodel) as (pre & post & Hsplit). rewrite Hsplit.
  rewrite (for_app turn pre ((data_model_name, data_model) :: post))
    by (intros entry w'; apply lineage_turn_total).
  set (w2 := snd (for_ pre turn w1)).
  assert (H2 : tables_kept w1 w2) by apply respects_tables_kept_models.
  rewrite (for_app turn [(data_model_name, data_model)] post)
    by (intros entry w'; apply lineage_turn_total).
  rewrite for_one by exact (lineage_turn_total (data_model_name, data_model) w2).
  apply (respects_tables_kept_models post). simpl.
  destruct (in_split _ _ Hup) as (upre & upost & Husplit). rewrite Husplit.
  rewrite (for_app (lineage_of data_model_name) upre (upstream_node :: upost))
    by (intros up w'; apply lineage_of_total).
  set (w3 := snd (for_ upre (lineage_of data_model_name) w2)).
  assert (H3 : tables_kept w2 w3) by apply respects_tables_kept_upstreams.
  rewrite (for_app (lineage_of data_model_name) [upstream_node] upost)
    by (intros up w'; apply lineage_of_total).
  rewrite for_one by apply lineage_of_total.
  apply (respects_tables_kept_upstreams data_model_name upost).
  apply lineage_of_yields; [| | exact Hvalid].
  - rewrite (proj1 H3), (proj1 H2). exact Hfrom.
  - rewrite (proj1 H3), (proj1 H2). exact Hto.
Qed.

End LineageRun.

Lemma registering_keeps_tables : lineage_keeps_tables registering.
Proof. intros edge c n. reflexivity. Qed.

Lemma lineage_edge_for_every_dependency_witness :
  lineage_keeps_tables registering /\
  In edge_t1_t2 (fst (drain (create_dbt_lineage (OM := registering)) both_tables)).
Proof.
  split; [exact registering_keeps_tables|].
  eapply (lineage_edge_for_every_dependency (OM := registering)
            registering_keeps_tables both_tables (Some "svc.db.schema.t2") _
            "svc.db.schema.t1" (mk_Entity "id:svc.db.schema.t1")
            (mk_Entity "id:svc.db.schema.t2")).
  - vm_compute. left. reflexivity.
  - vm_compute. left. reflexivity.
  - reflexivity.
  - reflexivity.
  - reflexivity.
Defined.

(** ** The requests for suites and definitions *)

#[local] Instance Frame_silent_on {Catalog : Type} (c : Catalog) :
  Frame (silent_on c).
Proof.
  split.
  - intros w H. split; [exact H | reflexivity].
  - intros w1 w2 w3 H12 H23 H. destruct (H12 H) as [H2 Y2].
    destruct (H23 H2) as [H3 Y3]. split; congruence.
  - intros w l H. split; [exact H | reflexivity].
Qed.

Section SuitesRequests.
Context {Catalog : Type} {OM : OpenMetadata Catalog}.
Implicit Types (w : World Catalog).

Lemma respects_suite_or_definition (tests : list (string * json)) entry :
  In entry tests ->
  respects (yields_only (suite_or_definition_of tests)) (suite_definition_of entry).
Proof.
  destruct entry as [key dbt_test]. intros Hin. unfold suite_definition_of.
  apply respects_bind_lift; [exact _|]. intros test_suite_name Hname.
  apply respects_bind_lift; [exact _|]. intros test_suite_desciption Hdescr.
  match goal with
  | |- respects _ (bind _ (fun found => bind _ ?rest)) =>
      assert (Hrest : respects (yields_only (suite_or_definition_of tests)) (rest tt))
  end.
  { apply respects_bind_lift; [exact _|]. intros name Hn.
    intros w. rewrite bind_get_by_name_eq.
    destruct (get_by_name (metadata (self w)) TestDefinition name)
      as [[e|]|e] eqn:Efound; try apply frame_refl.
    rewrite bind_lift_eq.
    destruct (py_get dbt_test "column_name" JNull) as [column_name|e] eqn:Ecol;
      [|apply frame_refl].
    cbv zeta. rewrite bind_lift_eq, Hn, bind_lift_eq.
    destruct (py_subscript dbt_test (JStr "description")) as [descr|e] eqn:Edescr;
      [|apply frame_refl].
    rewrite bind_lift_eq.
    destruct (create_test_case_parameter_definitions dbt_test) as [pd|e] eqn:Epd;
      [|apply frame_refl].
    rewrite bind_construct_eq.
    destruct (valid_Request _); [|apply frame_refl].
    intros Hall. unfold yield. simpl. apply Forall_app_one; [exact Hall|].
    exists key, dbt_test, (metadata (self w)). split; [exact Hin|]. right.
    exists name, descr, column_name, pd. repeat split; assumption. }
  intros w. rewrite bind_get_by_name_eq.
  destruct (get_by_name (metadata (self w)) TestSuite test_suite_name)
    as [[e|]|e] eqn:Efound; [| |apply frame_refl].
  - rewrite bind_ret_eq. apply Hrest.
  - unfold bind at 1. rewrite bind_construct_eq.
    destruct (valid_Request _); [|apply frame_refl].
    unfold yield at 1. cbv beta iota.
    match goal with
    | |- yields_only _ w (snd (_ ?w1)) => apply (frame_trans w w1); [|apply Hrest]
    end.
    intros Hall. simpl. apply Forall_app_one; [exact Hall|].
    exists key, dbt_test, (metadata (self w)). split; [exact Hin|]. left.
    exists test_suite_name, test_suite_desciption. repeat split; assumption.
Qed.

(** Every request [create_dbt_tests_suite_definition] yields is the suite
    or the definition of a test of the map of tests that a lookup had not
    found: a suite under the [test_suite_name] of the [meta] of the test,
    [DBT_TEST_SUITE] when it has none; a definition under the name of the
    test, for columns when the test has a [column_name] and for tables when
    not, of the platform DBT, with the parameter definition of the test.
    The method itself returns normally in every case. *)
Theorem suite_and_definition_requests w :
  fst (create_dbt_tests_suite_definition w) = Ok tt /\
  forall request,
    In request (fst (drain create_dbt_tests_suite_definition w)) ->
    suite_or_definition_of (dbt_tests (self w)) request.
Proof.
  split.
  - unfold create_dbt_tests_suite_definition. rewrite try_except_eq.
    match goal with |- context [fst (?m w)] => destruct (m w) as [[[]|e] w1] end;
      reflexivity.
  - unfold drain. simpl.
    set (w0 := mk_World (self w) (logged w) [] (submitted w)).
    assert (Hall : Forall (suite_or_definition_of (dbt_tests (self w)))
                     (yielded (snd (create_dbt_tests_suite_definition w0)))).
    { assert (Hrun : respects (yields_only (suite_or_definition_of (dbt_tests (self w))))
                       (try_except
                          (bind get_self (fun s =>
                             if dbt_configured s
                             then bind (logger_info
                                          "Processing DBT Tests Suites and Test Definitions")
                                    (fun _ => for_ (dbt_tests (self w)) suite_definition_of)
                             else ret tt))
                          (fun err =>
                             logger_error "Failed to parse the node to capture tests {err}"
                               [] (Some err)))).
      { apply respects_try_except; [exact _ | | intros e; respects_tac].
        apply respects_bind; [exact _ | apply respects_get_self; exact _ |].
        intros s. destruct (dbt_configured s); [|apply respects_ret; exact _].
        apply respects_bind; [exact _ | respects_tac |]. intros _.
        apply respects_for_; [exact _|]. intros entry Hentry.
        apply respects_suite_or_definition, Hentry. }
      specialize (Hrun w0 (Forall_nil _)).
      unfold create_dbt_tests_suite_definition.
      rewrite try_except_eq, bind_get_self_eq.
      rewrite try_except_eq, bind_get_self_eq in Hrun. exact Hrun. }
    intros request Hin. rewrite Forall_forall in Hall. apply Hall, Hin.
Qed.

Lemma respects_silent_on_suite_definition (c : Catalog) (key : string) (dbt_test : json) :
  (forall name,
     meta_get dbt_test "test_suite_name" (JStr "DBT_TEST_SUITE") = Ok name ->
     exists e, get_by_name c TestSuite name = Ok (Some e)) ->
  (forall name,
     py_subscript dbt_test (JStr "name") = Ok name ->
     exists e, get_by_name c TestDefinition name = Ok (Some e)) ->
  respects (silent_on c) (suite_definition_of (key, dbt_test)).
Proof.
  intros Hsuite Hdef w Hc.
  destruct (suite_definition_of (key, dbt_test) w) as [r w'] eqn:E. simpl.
  unfold suite_definition_of in E.
  run_as E name Ename; [|injection E as _ <-; now split].
  run_as E descr Edescr; [|injection E as _ <-; now split].
  destruct (Hsuite name eq_refl) as [e He].
  rewrite bind_get_by_name_eq, Hc, He, bind_ret_eq in E.
  run_as E tname Etname; [|injection E as _ <-; now split].
  destruct (Hdef tname eq_refl) as [e' He'].
  rewrite bind_get_by_name_eq, Hc, He' in E.
  injection E as _ <-. now split.
Qed.

(** When the server holds the suite and the definition of every test of
    the map of tests, [create_dbt_tests_suite_definition] yields nothing
    and the server is left as it is: a second run after the requests of a
    first were served asks for nothing again. *)
Theorem held_suites_and_definitions_not_requested w :
  (forall key dbt_test name,
     In (key, dbt_test) (dbt_tests (self w)) ->
     meta_get dbt_test "test_suite_name" (JStr "DBT_TEST_SUITE") = Ok name ->
     exists e, get_by_name (metadata (self w)) TestSuite name = Ok (Some e)) ->
  (forall key dbt_test name,
     In (key, dbt_test) (dbt_tests (self w)) ->
     py_subscript dbt_test (JStr "name") = Ok name ->
     exists e, get_by_name (metadata (self w)) TestDefinition name = Ok (Some e)) ->
  fst (drain create_dbt_tests_suite_definition w) = [] /\
  metadata (self (snd (drain create_dbt_tests_suite_definition w))) = metadata (self w).
Proof.
  intros Hsuite Hdef. unfold drain. simpl.
  set (w0 := mk_World (self w) (logged w) [] (submitted w)).
  assert (Hrun : silent_on (metadata (self w)) w0
                   (snd (create_dbt_tests_suite_definition w0))).
  { unfold create_dbt_tests_suite_definition.
    rewrite try_except_eq, bind_get_self_eq.
    assert (Hbody : respects (silent_on (metadata (self w)))
                      (try_except
                         (if dbt_configured (self w0)
                          then bind (logger_info
                                       "Processing DBT Tests Suites and Test Definitions")
                                 (fun _ => for_ (dbt_tests (self w)) suite_definition_of)
                          else ret tt)
                         (fun err =>
                            logger_error "Failed to parse the node to capture tests {err}"
                              [] (Some err)))).
    { apply respects_try_except; [exact _ | | intros e; respects_tac].
      destruct (dbt_configured (self w0)); [|apply respects_ret; exact _].
      apply respects_bind; [exact _ | respects_tac |]. intros _.
      apply respects_for_; [exact _|]. intros [key dbt_test] Hentry.
      apply respects_silent_on_suite_definition.
      - intros name. apply (Hsuite key dbt_test name Hentry).
      - intros name. apply (Hdef key dbt_test name Hentry). }
    specialize (Hbody w0). rewrite try_except_eq in Hbody. exact Hbody. }
  destruct (Hrun eq_refl) as [Hmeta Hyield]. split; [exact Hyield | exact Hmeta].
Qed.

End SuitesRequests.

Lemma held_suites_and_definitions_not_requested_witness :
  fst (drain (create_dbt_tests_suite_definition (OM := registering)) tested_two) = [] /\
  metadata (self (snd (drain (create_dbt_tests_suite_definition (OM := registering))
                         tested_two))) = metadata (self tested_two).
Proof.
  apply (held_suites_and_definitions_not_requested (OM := registering) tested_two).
  - intros key dbt_test name [H|[]] Hname. injection H as <- <-.
    vm_compute in Hname. injection Hname as <-. eexists. reflexivity.
  - intros key dbt_test name [H|[]] Hname. injection H as <- <-.
    vm_compute in Hname. injection Hname as <-. eexists. reflexivity.
Defined.

(** ** The test cases *)

Section Idle.
Context {Catalog : Type} {OM : OpenMetadata Catalog}.
Implicit Types (w : World Catalog).

Lemma idle_run {A} (m : M Catalog A) w : idle m -> m w = (fst (m w), w).
Proof. intros H. specialize (H w). destruct (m w); simpl in *. now subst. Qed.

Lemma idle_ret {A} (a : A) : idle (ret (Catalog := Catalog) a).
Proof. intros w. reflexivity. Qed.

Lemma idle_raise {A} (e : exn) : idle (raise (Catalog := Catalog) (A := A) e).
Proof. intros w. reflexivity. Qed.

Lemma idle_lift {A} (r : result A) : idle (lift (Catalog := Catalog) r).
Proof. intros w. reflexivity. Qed.

Lemma idle_get_self : idle (get_self (Catalog := Catalog)).
Proof. intros w. reflexivity. Qed.

Lemma idle_m_fqn_build (a : FqnArgs) : idle (m_fqn_build a).
Proof. intros w. reflexivity. Qed.

Lemma idle_m_get_by_name k n : idle (m_get_by_name k n).
Proof. intros w. reflexivity. Qed.

Lemma idle_construct {A} (valid : A -> bool) (a : A) :
  idle (construct (Catalog := Catalog) valid a).
Proof. unfold construct. destruct (valid a); [apply idle_ret | apply idle_raise]. Qed.

Lemma idle_bind {A B} (m : M Catalog A) (f : A -> M Catalog B) :
  idle m -> (forall a, idle (f a)) -> idle (bind m f).
Proof.
  intros Hm Hf w. unfold bind. rewrite (idle_run m w Hm).
  destruct (fst (m w)) as [a|e]; [apply Hf | reflexivity].
Qed.

Lemma idle_for_each {X A} (xs : list X) (body : A -> X -> M Catalog A) (acc : A) :
  (forall a x, idle (body a x)) -> idle (for_each xs body acc).
Proof.
  intros Hb. revert acc. induction xs as [|x xs IH]; intros acc; simpl.
  - apply idle_ret.
  - apply idle_bind; [apply Hb | intros a; apply IH].
Qed.

End Idle.

Create HintDb idle.

#[local] Hint Resolve idle_ret idle_raise idle_lift idle_get_self idle_m_fqn_build
  idle_m_get_by_name idle_construct : idle.

(** Descends into a computation built from binds, loops, conditionals and
    the idle operations. *)
Ltac idle_tac :=
  repeat first
    [ apply idle_bind; [|intros ?]
    | apply idle_for_each; intros ? ?
    | progress auto with idle
    | match goal with
      | |- idle (if ?b then _ else _) => destruct b
      | |- idle (match ?x with _ => _ end) => destruct x
      | |- idle (let '(_, _) := ?x in _) => destruct x
      end ].

Section EntityLinks.
Context {Catalog : Type} {OM : OpenMetadata Catalog}.
Implicit Types (w : World Catalog).

Lemma idle_entity_link_of dbt_test acc node : idle (entity_link_of dbt_test acc node).
Proof. unfold entity_link_of. idle_tac. Qed.

Lemma idle_generate_entity_link dbt_test : idle (generate_entity_link dbt_test).
Proof. unfold generate_entity_link. idle_tac. Qed.

Lemma entity_link_of_inv dbt_test acc node w acc' w' :
  entity_link_of dbt_test acc node w = (Ok acc', w') ->
  exists column_name link,
    py_get dbt_test "column_name" JNull = Ok column_name /\
    entity_link_to w column_name node link /\
    acc' = (acc ++ [link])%list.
Proof.
  unfold entity_link_of. intros H.
  rewrite bind_get_self_eq in H.
  run_as H found Efound.
  run_as H database_name Edatabase.
  run_as H schema_name Eschema.
  run_as H table_name Etable.
  run_as H table_fqn Efqn.
  run_as H column_name Ecolumn.
  unfold ret in H. injection H as <- _.
  destruct found as [model|]; [|discriminate].
  exists column_name, (entity_link_text table_fqn column_name).
  split; [reflexivity|]. split; [|reflexivity].
  exists model, database_name, schema_name, table_name, table_fqn.
  repeat split; assumption.
Qed.

Lemma entity_links_loop dbt_test column_name items : forall acc w links w',
  py_get dbt_test "column_name" JNull = Ok column_name ->
  for_each items (entity_link_of dbt_test) acc w = (Ok links, w') ->
  exists new,
    links = (acc ++ new)%list /\
    Forall2 (entity_link_to w column_name) items new.
Proof.
  induction items as [|node items IH]; intros acc w links w' Hcol H; simpl in H.
  - injection H as <- _. exists []. rewrite app_nil_r. split; [reflexivity | constructor].
  - unfold bind in H.
    pose proof (idle_entity_link_of dbt_test acc node w) as Hidle.
    destruct (entity_link_of dbt_test acc node w) as [[acc1|e] w1] eqn:E; [|discriminate].
    simpl in Hidle. subst w1.
    destruct (entity_link_of_inv _ _ _ _ _ _ E) as (column_name' & link & Hcol' & Hlink & ->).
    rewrite Hcol in Hcol'. injection Hcol' as <-.
    destruct (IH _ _ _ _ Hcol H) as (new & -> & Hnew).
    exists (link :: new). rewrite <- app_assoc. split; [reflexivity|].
    constructor; assumption.
Qed.

(** [generate_entity_link] leaves the world as it is, and when it returns
    it returns one link for every entity the test depends on, in their
    order: the link to the table of that entity, which the manifest
    entities must hold, or to the column of the test in that table when
    the test has a [column_name].  The name of the table is whatever
    [fqn.build] returned for it, [None] included. *)
Theorem one_entity_link_per_dependency w (dbt_test : json) (links : list string) w' :
  generate_entity_link dbt_test w = (Ok links, w') ->
  w' = w /\
  exists depends_on nodes items column_name,
    py_subscript dbt_test (JStr "depends_on") = Ok depends_on /\
    py_subscript depends_on (JStr "nodes") = Ok nodes /\
    py_iter nodes = Ok items /\
    py_get dbt_test "column_name" JNull = Ok column_name /\
    Forall2 (entity_link_to w column_name) items links.
Proof.
  intros H. split.
  { pose proof (idle_generate_entity_link dbt_test w) as Hidle.
    rewrite H in Hidle. exact Hidle. }
  unfold generate_entity_link in H.
  run_as H depends_on Edep.
  run_as H nodes Enodes.
  run_as H items Eitems.
  destruct (py_get_total_on_subscript _ _ "column_name" _ JNull Edep)
    as [column_name Hcol].
  destruct (entity_links_loop dbt_test column_name items [] w links w' Hcol H)
    as (new & -> & Hnew).
  exists depends_on, nodes, items, column_name. repeat split; assumption.
Qed.

Lemma entity_links_raise dbt_test id items : forall acc w,
  In (JStr id) items ->
  dict_get String.eqb (manifest_entities (self w)) id = None ->
  exists e, for_each items (entity_link_of dbt_test) acc w = (Raise e, w).
Proof.
  induction items as [|node items IH]; intros acc w Hin Habs; [contradiction|].
  simpl. unfold bind.
  rewrite (idle_run _ w (idle_entity_link_of dbt_test acc node)).
  destruct (fst (entity_link_of dbt_test acc node w)) as [acc1|e] eqn:E; [|eauto].
  destruct Hin as [->|Hin]; [|apply IH; assumption].
  exfalso. unfold entity_link_of in E.
  rewrite bind_get_self_eq, bind_lift_eq in E. simpl in E. rewrite Habs in E.
  simpl in E. discriminate.
Qed.

(** A test that depends on an entity the manifest entities do not hold
    gets no test case at all, not even for the entities it depends on that
    are there: building the links fails, the error is logged under the key
    of the test, and nothing is yielded. *)
Theorem unknown_dependency_drops_test_cases w (key : string)
    (dbt_test depends_on nodes : json) (items : list json) (id : string) :
  py_subscript dbt_test (JStr "depends_on") = Ok depends_on ->
  py_subscript depends_on (JStr "nodes") = Ok nodes ->
  py_iter nodes = Ok items ->
  In (JStr id) items ->
  dict_get String.eqb (manifest_entities (self w)) id = None ->
  exists err,
    test_cases_of (key, dbt_test) w =
    (Ok tt,
     add_log w [mk_LogRecord ERROR "Failed to parse the node {key} to capture tests {err}"
                  [JStr key] (Some err)]).
Proof.
  intros Hdep Hnodes Hitems Hin Habs.
  destruct (entity_links_raise dbt_test id items [] w Hin Habs) as [e He].
  exists e. unfold test_cases_of. rewrite try_except_eq.
  assert (Hinner : bind (generate_entity_link dbt_test)
                     (fun entity_link_list =>
                        for_ entity_link_list (test_case_of dbt_test)) w
                   = (Raise e, w)).
  { unfold bind at 1. unfold generate_entity_link.
    rewrite bind_lift_eq, Hdep, bind_lift_eq, Hnodes, bind_lift_eq, Hitems, He.
    reflexivity. }
  rewrite Hinner. reflexivity.
Qed.

End EntityLinks.

Lemma one_entity_link_per_dependency_witness :
  generate_entity_link (OM := registering) (generic_test "tb") parsed_two =
    (Ok ["<#E::table::svc.db.schema.t1::columns::id>"], parsed_two) /\
  parsed_two = parsed_two /\
  exists depends_on nodes items column_name,
    py_subscript (generic_test "tb") (JStr "depends_on") = Ok depends_on /\
    py_subscript depends_on (JStr "nodes") = Ok nodes /\
    py_iter nodes = Ok items /\
    py_get (generic_test "tb") "column_name" JNull = Ok column_name /\
    Forall2 (entity_link_to (OM := registering) parsed_two column_name) items
      ["<#E::table::svc.db.schema.t1::columns::id>"].
Proof.
  split; [vm_compute; reflexivity|].
  apply (one_entity_link_per_dependency (OM := registering) parsed_two
           (generic_test "tb") ["<#E::table::svc.db.schema.t1::columns::id>"] parsed_two).
  vm_compute. reflexivity.
Defined.

Lemma unknown_dependency_drops_test_cases_witness :
  exists err,
    test_cases_of (OM := registering) ("test.p.tg", test_on_gone) parsed_two =
    (Ok tt,
     add_log parsed_two
       [mk_LogRecord ERROR "Failed to parse the node {key} to capture tests {err}"
          [JStr "test.p.tg"] (Some err)]).
Proof.
  apply (unknown_dependency_drops_test_cases (OM := registering) parsed_two "test.p.tg"
           test_on_gone
           (JDict [("nodes", JList [JStr "source.p.t1"; JStr "source.p.gone"])])
           (JList [JStr "source.p.t1"; JStr "source.p.gone"])
           [JStr "source.p.t1"; JStr "source.p.gone"] "source.p.gone").
  - reflexivity.
  - reflexivity.
  - reflexivity.
  - simpl. right. left. reflexivity.
  - vm_compute. reflexivity.
Defined.

Lemma join_strs_non_string (sep : string) (l : list json) (v : json) :
  In v l -> (forall s, v <> JStr s) -> join_strs sep l = Raise TypeError.
Proof.
  intros Hin Hv. induction l as [|x l IH]; [contradiction|].
  destruct x as [| b | z | f | s | l0 | d];
    try (destruct l; reflexivity).
  destruct Hin as [<-|Hin]; [exfalso; apply (Hv s); reflexivity|].
  destruct l as [|y l]; [contradiction|].
  change (join_strs sep (JStr s :: y :: l))
    with (rbind (join_strs sep (y :: l)) (fun r => Ok (s ++ sep ++ r))).
  rewrite (IH Hin). reflexivity.
Qed.

Lemma join_strs_strings (sep : string) (l : list string) :
  join_strs sep (map JStr l) = Ok (String.concat sep l).
Proof.
  induction l as [|s l IH]; [reflexivity|].
  destruct l as [|s' l]; [reflexivity|].
  change (join_strs sep (map JStr (s :: s' :: l)))
    with (rbind (join_strs sep (map JStr (s' :: l))) (fun r => Ok (s ++ sep ++ r))).
  rewrite IH. reflexivity.
Qed.

(** The one parameter value of a test case carries the name of the generic
    test and the [values] of its arguments joined with commas, in their
    order; it is the empty text when the test has no [values], or an
    empty list of them. *)
Theorem parameter_values_joined (dbt_test test_metadata name kwargs : json) :
  py_subscript dbt_test (JStr "test_metadata") = Ok test_metadata ->
  py_subscript test_metadata (JStr "name") = Ok name ->
  py_subscript test_metadata (JStr "kwargs") = Ok kwargs ->
  (forall values : list string,
     py_get kwargs "values" JNull = Ok (JList (map JStr values)) ->
     create_test_case_parameter_values dbt_test =
     Ok [mk_ParameterValue name (String.concat "," values)]) /\
  (forall v,
     py_get kwargs "values" JNull = Ok v ->
     py_truthy v = false ->
     create_test_case_parameter_values dbt_test = Ok [mk_ParameterValue name ""]).
Proof.
  intros Htm Hname Hkwargs. split.
  - intros values Hvalues.
    assert (Hjoin : (if py_truthy (JList (map JStr values))
                     then py_join "," (JList (map JStr values))
                     else Ok "") = Ok (String.concat "," values)).
    { destruct values as [|s values]; [reflexivity|].
      change (py_truthy (JList (map JStr (s :: values)))) with true.
      unfold py_join, py_iter, rbind. apply join_strs_strings. }
    unfold create_test_case_parameter_values, rbind.
    rewrite Htm, Hkwargs, Hvalues, Hjoin, Hname. reflexivity.
  - intros v Hv Hfalse.
    unfold create_test_case_parameter_values, rbind.
    rewrite Htm, Hkwargs, Hv, Hfalse, Hname. reflexivity.
Qed.

Lemma parameter_values_joined_witness :
  (forall values : list string,
     py_get (JDict [("values", JList [JStr "a"; JStr "b"])]) "values" JNull =
       Ok (JList (map JStr values)) ->
     create_test_case_parameter_values
       (accepted_values_test (JList [JStr "a"; JStr "b"])) =
     Ok [mk_ParameterValue (JStr "accepted_values") (String.concat "," values)]) /\
  (forall v,
     py_get (JDict [("values", JList [JStr "a"; JStr "b"])]) "values" JNull = Ok v ->
     py_truthy v = false ->
     create_test_case_parameter_values
       (accepted_values_test (JList [JStr "a"; JStr "b"])) =
     Ok [mk_ParameterValue (JStr "accepted_values") ""]).
Proof.
  apply (parameter_values_joined (accepted_values_test (JList [JStr "a"; JStr "b"]))
           (JDict [("name", JStr "accepted_values");
                   ("kwargs", JDict [("values", JList [JStr "a"; JStr "b"])])])
           (JStr "accepted_values")
           (JDict [("values", JList [JStr "a"; JStr "b"])]));
    reflexivity.
Defined.

(** The values of the witness, joined. *)
Example accepted_values_joined :
  create_test_case_parameter_values (accepted_values_test (JList [JStr "a"; JStr "b"])) =
  Ok [mk_ParameterValue (JStr "accepted_values") "a,b"].
Proof. reflexivity. Qed.

Section TestCases.
Context {Catalog : Type} {OM : OpenMetadata Catalog}.
Implicit Types (w : World Catalog).

Lemma test_case_of_raises (dbt_test : json) (entity_link : string) w e0 :
  create_test_case_parameter_values dbt_test = Raise e0 ->
  exists e, test_case_of dbt_test entity_link w = (Raise e, w).
Proof.
  intros Hpv.
  destruct (test_case_of dbt_test entity_link w) as [r w'] eqn:E.
  unfold test_case_of in E.
  run_as E test_suite_name Esuite; [|injection E as <- <-; eauto].
  run_as E name Ename; [|injection E as <- <-; eauto].
  run_as E descr Edescr; [|injection E as <- <-; eauto].
  rewrite bind_lift_eq in E.
  run_as E test_definition Edef; [|injection E as <- <-; eauto].
  run_as E definition_id Edid; [|injection E as <- <-; eauto].
  run_as E test_suite Es; [|injection E as <- <-; eauto].
  run_as E suite_id Esid; [|injection E as <- <-; eauto].
  rewrite bind_lift_eq, Hpv in E. injection E as <- <-. eauto.
Qed.

(** A test whose parameter values cannot be built yields no test case,
    and the server is left as it is. *)
Lemma no_parameter_values_no_test_case w (key : string) (dbt_test : json) e0 :
  create_test_case_parameter_values dbt_test = Raise e0 ->
  fst (test_cases_of (key, dbt_test) w) = Ok tt /\
  yielded (snd (test_cases_of (key, dbt_test) w)) = yielded w /\
  metadata (self (snd (test_cases_of (key, dbt_test) w))) = metadata (self w).
Proof.
  intros Hpv. split; [apply test_cases_of_total|].
  assert (Hinner : exists r,
            bind (generate_entity_link dbt_test)
              (fun entity_link_list =>
                 for_ entity_link_list (test_case_of dbt_test)) w = (r, w)).
  { unfold bind. rewrite (idle_run _ w (idle_generate_entity_link dbt_test)).
    destruct (fst (generate_entity_link dbt_test w)) as [links|e]; [|eauto].
    destruct links as [|link links]; [eexists; reflexivity|].
    destruct (test_case_of_raises dbt_test link w e0 Hpv) as [e He].
    rewrite (for_stops_at_raise (test_case_of dbt_test) link links w e w He). eauto. }
  destruct Hinner as [r Hr].
  unfold test_cases_of. rewrite try_except_eq, Hr.
  destruct r as [[]|e]; split; reflexivity.
Qed.

(** A test whose [values] hold something that is no string, a number for
    one, gets no test case: joining the values raises [TypeError], and
    nothing is yielded for the test; the server is left as it is. *)
Theorem non_string_values_drop_test_cases w (key : string)
    (dbt_test test_metadata kwargs : json) (values : list json) (v : json) :
  py_subscript dbt_test (JStr "test_metadata") = Ok test_metadata ->
  py_subscript test_metadata (JStr "kwargs") = Ok kwargs ->
  py_get kwargs "values" JNull = Ok (JList values) ->
  In v values ->
  (forall s, v <> JStr s) ->
  create_test_case_parameter_values dbt_test = Raise TypeError /\
  fst (test_cases_of (key, dbt_test) w) = Ok tt /\
  yielded (snd (test_cases_of (key, dbt_test) w)) = yielded w /\
  metadata (self (snd (test_cases_of (key, dbt_test) w))) = metadata (self w).
Proof.
  intros Htm Hkwargs Hvalues Hin Hv.
  assert (Hpv : create_test_case_parameter_values dbt_test = Raise TypeError).
  { unfold create_test_case_parameter_values.
    rewrite Htm. simpl. rewrite Hkwargs. simpl. rewrite Hvalues. simpl.
    assert (Htruthy : match values with [] => false | _ :: _ => true end = true)
      by (destruct values; [contradiction | reflexivity]).
    rewrite Htruthy. unfold py_join. simpl.
    rewrite (join_strs_non_string "," values v Hin Hv). reflexivity. }
  split; [exact Hpv|].
  apply (no_parameter_values_no_test_case w key dbt_test TypeError Hpv).
Qed.

(** A singular test, which is a query of its own and carries no
    [test_metadata], gets no test case: the parameter values are read from
    the [test_metadata], which raises [KeyError] inside the handler of the
    test, and nothing is yielded for it; the server is left as it is. *)
Theorem singular_test_gets_no_test_case w (key : string) (d : list (string * json)) :
  dict_get String.eqb d "test_metadata" = None ->
  create_test_case_parameter_values (JDict d) = Raise (KeyError (JStr "test_metadata")) /\
  fst (test_cases_of (key, JDict d) w) = Ok tt /\
  yielded (snd (test_cases_of (key, JDict d) w)) = yielded w /\
  metadata (self (snd (test_cases_of (key, JDict d) w))) = metadata (self w).
Proof.
  intros Hnone.
  assert (Hpv : create_test_case_parameter_values (JDict d)
                = Raise (KeyError (JStr "test_metadata"))).
  { unfold create_test_case_parameter_values. simpl. rewrite Hnone. reflexivity. }
  split; [exact Hpv|].
  apply (no_parameter_values_no_test_case w key (JDict d) _ Hpv).
Qed.

End TestCases.

Lemma non_string_values_drop_test_cases_witness :
  create_test_case_parameter_values (accepted_values_test (JList [JInt 1; JInt 2])) =
    Raise TypeError /\
  fst (test_cases_of (OM := registering)
         ("test.p.av", accepted_values_test (JList [JInt 1; JInt 2])) tested_two) = Ok tt /\
  yielded (snd (test_cases_of (OM := registering)
                  ("test.p.av", accepted_values_test (JList [JInt 1; JInt 2])) tested_two))
    = yielded tested_two /\
  metadata (self (snd (test_cases_of (OM := registering)
                         ("test.p.av", accepted_values_test (JList [JInt 1; JInt 2]))
                         tested_two)))
    = metadata (self tested_two).
Proof.
  apply (non_string_values_drop_test_cases (OM := registering) tested_two "test.p.av"
           (accepted_values_test (JList [JInt 1; JInt 2]))
           (JDict [("name", JStr "accepted_values");
                   ("kwargs", JDict [("values", JList [JInt 1; JInt 2])])])
           (JDict [("values", JList [JInt 1; JInt 2])])
           [JInt 1; JInt 2] (JInt 1)).
  - reflexivity.
  - reflexivity.
  - reflexivity.
  - simpl. left. reflexivity.
  - intros s H. discriminate H.
Defined.

Lemma singular_test_gets_no_test_case_witness :
  create_test_case_parameter_values (singular_test "ts") =
    Raise (KeyError (JStr "test_metadata")) /\
  fst (test_cases_of (OM := registering) ("test.p.ts", singular_test "ts") tested_two)
    = Ok tt /\
  yielded (snd (test_cases_of (OM := registering) ("test.p.ts", singular_test "ts")
                  tested_two)) = yielded tested_two /\
  metadata (self (snd (test_cases_of (OM := registering)
                         ("test.p.ts", singular_test "ts") tested_two)))
    = metadata (self tested_two).
Proof.
  apply (singular_test_gets_no_test_case (OM := registering) tested_two "test.p.ts"
           [("name", JStr "ts"); ("resource_type", JStr "test");
            ("description", JStr ""); ("meta", JDict []);
            ("depends_on", JDict [("nodes", JList [JStr "source.p.t1"])])]).
  reflexivity.
Defined.

Section TestCaseRequests.
Context {Catalog : Type} {OM : OpenMetadata Catalog}.
Implicit Types (w : World Catalog).






Lemma respects_object_kept_test_cases_of entry :
  respects object_kept (test_cases_of entry).
Proof.
  destruct entry as [key dbt_test]. unfold test_cases_of. respects_tac.
  apply respects_object_kept_yield.
Qed.

(** Run results that are there but hold no [results] make
    [update_dbt_test_result] raise [TypeError], and no handler is around
    the loop: [create_dbt_test_cases], which ends with that call, then
    raises it to its caller after the test cases were yielded. *)
Theorem run_results_without_results_raise w (d : list (string * json)) :
  dbt_run_results (self w) = JDict d ->
  d <> [] ->
  dict_get String.eqb d "results" = None ->
  update_dbt_test_result w =
    (Raise TypeError,
     add_log w [mk_LogRecord INFO "Processing DBT Tests Results" [] None]) /\
  (dbt_configured (self w) = true -> fst (create_dbt_test_cases w) = Raise TypeError).
Proof.
  intros Hd Hne Hnone.
  assert (Hupdate : forall w1,
            dbt_run_results (self w1) = JDict d ->
            update_dbt_test_result w1 =
            (Raise TypeError,
             add_log w1 [mk_LogRecord INFO "Processing DBT Tests Results" [] None])).
  { intros w1 H1. unfold update_dbt_test_result.
    rewrite bind_get_self_eq, H1.
    assert (Htruthy : py_truthy (JDict d) = true)
      by (destruct d; [contradiction | reflexivity]).
    rewrite Htruthy. unfold logger_info. rewrite bind_log_eq, bind_lift_eq.
    simpl. rewrite Hnone. reflexivity. }
  split; [apply Hupdate, Hd|].
  intros Hgate. unfold create_dbt_test_cases.
  rewrite bind_get_self_eq, Hgate. unfold logger_info. rewrite bind_log_eq.
  set (w1 := add_log w [mk_LogRecord INFO "Processing DBT Tests Cases" [] None]).
  unfold bind.
  pose proof (for_total test_cases_of (dbt_tests (self w)) test_cases_of_total w1) as Hok.
  assert (Hkept : object_kept w1 (snd (for_ (dbt_tests (self w)) test_cases_of w1))).
  { apply (respects_for_ object_kept). intros entry _.
    apply respects_object_kept_test_cases_of. }
  destruct (for_ (dbt_tests (self w)) test_cases_of w1) as [r w2]. simpl in Hok, Hkept.
  subst r. rewrite Hupdate; [reflexivity|].
  destruct Hkept as (_ & _ & _ & _ & Hrr & _). rewrite Hrr. exact Hd.
Qed.

End TestCaseRequests.


Lemma run_results_without_results_raise_witness :
  update_dbt_test_result (OM := registering)
    (object manifest_two catalog_two (JDict [("metadata", JDict [])]) [] []) =
    (Raise TypeError,
     add_log (object manifest_two catalog_two (JDict [("metadata", JDict [])]) [] [])
       [mk_LogRecord INFO "Processing DBT Tests Results" [] None]) /\
  (dbt_configured
     (self (object manifest_two catalog_two (JDict [("metadata", JDict [])]) [] [])) = true ->
   fst (create_dbt_test_cases (OM := registering)
          (object manifest_two catalog_two (JDict [("metadata", JDict [])]) [] []))
     = Raise TypeError).
Proof.
  apply (run_results_without_results_raise (OM := registering)
           (object manifest_two catalog_two (JDict [("metadata", JDict [])]) [] [])
           [("metadata", JDict [])]).
  - reflexivity.
  - intros H. discriminate H.
  - reflexivity.
Defined.

(** ** The results of the tests, further *)

Section ResultStatus.
Context {Catalog : Type} {OM : OpenMetadata Catalog}.
Implicit Types (w : World Catalog).

(** The result built for a run result has the status [Success] and the
    value ["1"] when the [status] of the run result is ["success"],
    [Failed] and ["0"] when it is ["failure"], and [Aborted] and ["-1"] for
    any other status and for none; the value is named by the [unique_id]
    of the run result. *)
Theorem result_status_of_run_status w (dbt_test_result : json) (r : TestCaseResult) w' :
  test_case_result_of dbt_test_result w = (Ok r, w') ->
  exists status unique_id,
    py_get dbt_test_result "status" JNull = Ok status /\
    py_get dbt_test_result "unique_id" JNull = Ok unique_id /\
    (testCaseStatus r, testResultValue r) =
      if py_eq_str status "success"
      then (Success, [mk_TestResultValue unique_id "1"])
      else if py_eq_str status "failure"
           then (Failed, [mk_TestResultValue unique_id "0"])
           else (Aborted, [mk_TestResultValue unique_id "-1"]).
Proof.
  unfold test_case_result_of. intros H.
  rewrite bind_lift_eq in H.
  destruct (test_status_of dbt_test_result) as [[st v]|e] eqn:Est; [|discriminate].
  cbv beta iota in H.
  run_as H dbt_test_timings Etimings.
  run_as H timings Eiter.
  run_as H completed_at Ecompleted.
  run_as H dbt_timestamp Estamp.
  run_as H unique_id Euid.
  rewrite construct_eq in H. destruct (valid_TestCaseResult _); [|discriminate].
  injection H as <- _. simpl.
  unfold test_status_of, rbind in Est.
  destruct (py_get dbt_test_result "status" JNull) as [status|e] eqn:Estatus;
    [|discriminate].
  exists status, unique_id. split; [reflexivity|]. split; [reflexivity|].
  destruct (py_eq_str status "success"); [injection Est as <- <-; reflexivity|].
  destruct (py_eq_str status "failure"); injection Est as <- <-; reflexivity.
Qed.

Lemma quiet_test_case_result_of dbt_test_result :
  quiet (test_case_result_of dbt_test_result).
Proof. unfold test_case_result_of. quiet_tac. Qed.

(** A run result whose [unique_id] is no test of the map of tests, as
    that of a model is, is passed over: nothing is submitted for it and the
    server is left as it is; at most an error is logged, when no result
    could be built for it. *)
Theorem result_of_unknown_test_not_submitted w (dbt_test_result : json) (id : string) :
  py_subscript dbt_test_result (JStr "unique_id") = Ok (JStr id) ->
  dict_get String.eqb (dbt_tests (self w)) id = None ->
  exists l, update_result_of dbt_test_result w = (Ok tt, add_log w l).
Proof.
  intros Huid Hnone. unfold update_result_of. rewrite try_except_eq.
  match goal with
  | |- context [fst (bind ?m ?f w)] =>
      destruct (bind_quiet_eq m f w (quiet_test_case_result_of dbt_test_result))
        as (r & l & _ & Eb); rewrite Eb; clear Eb
  end.
  destruct r as [test_case_result|e].
  - rewrite bind_get_self_eq, bind_lift_eq, Huid, bind_lift_eq. simpl.
    rewrite Hnone. simpl. exists l. reflexivity.
  - simpl. unfold logger_error, log. simpl.
    exists (l ++ [mk_LogRecord ERROR "Failed capture tests results {err}" [] (Some e)])%list.
    unfold add_log. simpl. rewrite <- app_assoc. reflexivity.
Qed.

End ResultStatus.

Lemma result_status_of_run_status_witness :
  test_case_result_of (OM := registering) result_skipped tested_two =
    (Ok (mk_TestCaseResult None Aborted [mk_TestResultValue (JStr "test.p.tb") "-1"]),
     tested_two) /\
  exists status unique_id,
    py_get result_skipped "status" JNull = Ok status /\
    py_get result_skipped "unique_id" JNull = Ok unique_id /\
    (testCaseStatus
       (mk_TestCaseResult None Aborted [mk_TestResultValue (JStr "test.p.tb") "-1"]),
     testResultValue
       (mk_TestCaseResult None Aborted [mk_TestResultValue (JStr "test.p.tb") "-1"])) =
      if py_eq_str status "success"
      then (Success, [mk_TestResultValue unique_id "1"])
      else if py_eq_str status "failure"
           then (Failed, [mk_TestResultValue unique_id "0"])
           else (Aborted, [mk_TestResultValue unique_id "-1"]).
Proof.
  split; [vm_compute; reflexivity|].
  apply (result_status_of_run_status (OM := registering) tested_two result_skipped
           (mk_TestCaseResult None Aborted [mk_TestResultValue (JStr "test.p.tb") "-1"])
           tested_two).
  vm_compute. reflexivity.
Defined.

Lemma result_of_unknown_test_not_submitted_witness :
  exists l,
    update_result_of (OM := registering) result_of_model tested_two =
    (Ok tt, add_log tested_two l).
Proof.
  apply (result_of_unknown_test_not_submitted (OM := registering) tested_two
           result_of_model "model.p.t2"); reflexivity.
Defined.

(** ** Completion times that are not accepted *)

Lemma keeps_re_class lo hi : keeps (re_class lo hi).
Proof.
  intros [|c l] n r H; simpl in H; [discriminate|].
  destruct (ascii_digit c); [|discriminate].
  destruct (_ && _)%bool; [|discriminate].
  injection H as _ <-. apply incl_tl, incl_refl.
Qed.

Lemma incl_skipn {A} (n : nat) (l : list A) : incl (skipn n l) l.
Proof.
  revert l. induction n as [|n IH]; intros l; [apply incl_refl|].
  destruct l as [|x l]; [apply incl_refl|]. simpl. apply incl_tl, IH.
Qed.

Lemma keeps_re_d {U : Unicode} : keeps re_d.
Proof.
  intros [|c l] n r H; simpl in H; [discriminate|].
  destruct (ascii_digit c).
  - injection H as _ <-. apply incl_tl, incl_refl.
  - destruct (Nat.ltb _ _); [discriminate|].
    destruct (decimal_digit (c :: l)) as [[d k]|]; [|discriminate].
    injection H as _ <-. apply incl_skipn.
Qed.

Lemma keeps_re_two p q : keeps p -> keeps q -> keeps (re_two p q).
Proof.
  intros Hp Hq l n r H. unfold re_two, obind in H.
  destruct (p l) as [[a l1]|] eqn:Ep; [|discriminate].
  destruct (q l1) as [[b l2]|] eqn:Eq; [|discriminate].
  injection H as _ <-.
  apply (incl_tran (Hq _ _ _ Eq) (Hp _ _ _ Ep)).
Qed.

Lemma keeps_re_space p : keeps p -> keeps (re_space p).
Proof.
  intros Hp [|c l] n r H; simpl in H; [discriminate|].
  destruct (Ascii.eqb c " ") eqn:Ec.
  - apply Ascii.eqb_eq in Ec. subst c. apply incl_tl, (Hp _ _ _ H).
  - destruct c as [[] [] [] [] [] [] [] []]; try discriminate H; discriminate Ec.
Qed.

Lemma keeps_re_Y {U : Unicode} : keeps re_Y.
Proof.
  intros l n r H. unfold re_Y, obind in H.
  destruct (re_two re_d re_d l) as [[a l1]|] eqn:Ea; [|discriminate].
  destruct (re_two re_d re_d l1) as [[b l2]|] eqn:Eb; [|discriminate].
  injection H as _ <-.
  pose proof (keeps_re_two _ _ keeps_re_d keeps_re_d) as Hk.
  apply (incl_tran (Hk _ _ _ Eb) (Hk _ _ _ Ea)).
Qed.

(** What follows an alternation read a rest of the text. *)
Lemma re_alt_inv {A} (alts : list matcher) (l : list ascii)
    (k : Z -> list ascii -> option A) (a : A) :
  Forall keeps alts ->
  re_alt alts l k = Some a ->
  exists n l', incl l' l /\ k n l' = Some a.
Proof.
  intros Hall. induction Hall as [|p alts Hp _ IH]; simpl; [discriminate|].
  destruct (p l) as [[n l']|] eqn:Ep; simpl.
  - destruct (k n l') as [r|] eqn:Ek.
    + intros E. injection E as <-. exists n, l'. split; [exact (Hp _ _ _ Ep) | exact Ek].
    + exact IH.
  - exact IH.
Qed.

Lemma keeps_re_m : Forall keeps re_m.
Proof.
  unfold re_m.
  repeat constructor; repeat apply keeps_re_two; apply keeps_re_class.
Qed.

Lemma keeps_re_day {U : Unicode} : Forall keeps re_day.
Proof.
  unfold re_day.
  repeat constructor;
    repeat first [apply keeps_re_two | apply keeps_re_space];
    first [apply keeps_re_class | apply keeps_re_d].
Qed.

Lemma keeps_re_H {U : Unicode} : Forall keeps re_H.
Proof.
  unfold re_H.
  repeat constructor; repeat apply keeps_re_two;
    first [apply keeps_re_class | apply keeps_re_d].
Qed.

Lemma keeps_re_M {U : Unicode} : Forall keeps re_M.
Proof.
  unfold re_M.
  repeat constructor; repeat apply keeps_re_two;
    first [apply keeps_re_class | apply keeps_re_d].
Qed.

Lemma keeps_re_S {U : Unicode} : Forall keeps re_S.
Proof.
  unfold re_S.
  repeat constructor; repeat apply keeps_re_two;
    first [apply keeps_re_class | apply keeps_re_d].
Qed.

Lemma re_lit_incl c l r : re_lit c l = Some r -> incl r l.
Proof.
  unfold re_lit. destruct l as [|c' l']; [discriminate|].
  destruct (_ || _)%bool; [|discriminate].
  intros E. injection E as <-. apply incl_tl, incl_refl.
Qed.

Lemma re_lit_point l r : re_lit "." l = Some r -> In "."%char l.
Proof.
  unfold re_lit. destruct l as [|c' l']; [discriminate|].
  destruct (Ascii.eqb c' "." || Ascii.eqb c' (other_case "."))%bool eqn:E;
    [|discriminate].
  intros _. left.
  destruct c' as [[] [] [] [] [] [] [] []]; try discriminate E; reflexivity.
Qed.

Lemma strptime_fields_point {U : Unicode} (s : string) (dt : datetime) :
  strptime_fields s = Some dt -> In "."%char (list_ascii_of_string s).
Proof.
  unfold strptime_fields. intros H.
  assert (Hgoal : forall l, incl l (list_ascii_of_string s) ->
                            In "."%char l -> In "."%char (list_ascii_of_string s))
    by (intros l Hl Hin; exact (Hl _ Hin)).
  destruct (re_Y (list_ascii_of_string s)) as [[yy l0]|] eqn:EY; [|discriminate H].
  pose proof (keeps_re_Y _ _ _ EY) as I0. simpl obind in H.
  assert (Hstep : forall A l (k : list ascii -> option A) a (c : ascii),
            obind (re_lit c l) k = Some a ->
            exists l', incl l' l /\ k l' = Some a).
  { intros A l k a c E. destruct (re_lit c l) as [l'|] eqn:El; [|discriminate E].
    exists l'. split; [exact (re_lit_incl _ _ _ El) | exact E]. }
  apply Hstep in H. destruct H as (l1 & I1 & H).
  apply (re_alt_inv _ _ _ _ keeps_re_m) in H. destruct H as (mo & l2 & I2 & H).
  apply Hstep in H. destruct H as (l3 & I3 & H).
  apply (re_alt_inv _ _ _ _ keeps_re_day) in H. destruct H as (dd & l4 & I4 & H).
  apply Hstep in H. destruct H as (l5 & I5 & H).
  apply (re_alt_inv _ _ _ _ keeps_re_H) in H. destruct H as (hh & l6 & I6 & H).
  apply Hstep in H. destruct H as (l7 & I7 & H).
  apply (re_alt_inv _ _ _ _ keeps_re_M) in H. destruct H as (mi & l8 & I8 & H).
  apply Hstep in H. destruct H as (l9 & I9 & H).
  apply (re_alt_inv _ _ _ _ keeps_re_S) in H. destruct H as (ss & l10 & I10 & H).
  destruct (re_lit "." l10) as [l11|] eqn:Epoint; [|discriminate H].
  apply re_lit_point in Epoint.
  apply (Hgoal l10); [|exact Epoint].
  repeat (eapply incl_tran; [eassumption|]). apply incl_refl.
Qed.

Section Raised.
Context {Catalog : Type} {OM : OpenMetadata Catalog}.
Implicit Types (w : World Catalog).

Lemma bind_run_raise {A B} (m : M Catalog A) (f : A -> M Catalog B) w e w1 :
  m w = (Raise e, w1) -> bind m f w = (Raise e, w1).
Proof. intros H. unfold bind. rewrite H. reflexivity. Qed.


Lemma try_except_run_raise {A} (m : M Catalog A) (h : exn -> M Catalog A) w e w1 :
  m w = (Raise e, w1) -> try_except m h w = h e w1.
Proof. intros H. unfold try_except. rewrite H. reflexivity. Qed.


End Raised.

Section Unparsed.
Context {Catalog : Type} {OM : OpenMetadata Catalog}.
Implicit Types (w : World Catalog).

(** A completion time without a fractional part, as
    [2023-01-01T00:00:00Z] is, does not match the format of the source:
    [strptime] raises [ValueError].  The run result whose timing named
    ["execute"] carries such a time is logged and passed over: no result is
    built for it, and nothing is submitted. *)
Theorem completion_time_without_fraction_skipped w (dbt_test_result dbt_test_timings : json)
    (timings : list json) (s : string) :
  ~ In "."%char (list_ascii_of_string s) ->
  s <> "" ->
  py_subscript dbt_test_result (JStr "timing") = Ok dbt_test_timings ->
  py_iter dbt_test_timings = Ok timings ->
  execute_completed_at timings (JStr s) ->
  strptime (JStr s) = Raise ValueError /\
  update_result_of dbt_test_result w =
  (Ok tt,
   add_log w [mk_LogRecord ERROR "Failed capture tests results {err}" []
                (Some ValueError)]).
Proof.
  intros Hpoint Hne Ht Hi Hc.
  assert (Hparse : strptime (JStr s) = Raise ValueError).
  { unfold strptime. destruct (strptime_fields s) as [dt|] eqn:E; [|reflexivity].
    exfalso. apply Hpoint. apply (strptime_fields_point s dt E). }
  split; [exact Hparse|].
  destruct (py_subscript_str_inv _ _ _ Ht) as (d & -> & Hd).
  destruct (test_status_of_dict d) as [[st v] Hst].
  assert (Htruthy : py_truthy (JStr s) = true).
  { simpl. destruct (String.eqb s "") eqn:E; [|reflexivity].
    apply String.eqb_eq in E. contradiction. }
  assert (Hinner : test_case_result_of (JDict d) w = (Raise ValueError, w)).
  { unfold test_case_result_of.
    rewrite bind_lift_eq, Hst. cbv beta iota.
    rewrite bind_lift_eq, Ht, bind_lift_eq, Hi, bind_lift_eq,
      (completed_at_loop_spec _ _ Hc), bind_lift_eq.
    unfold dbt_timestamp_of. rewrite Htruthy, Hparse. reflexivity. }
  unfold update_result_of.
  rewrite (try_except_run_raise _ _ w ValueError w); [reflexivity|].
  apply bind_run_raise, Hinner.
Qed.

End Unparsed.

Lemma completion_time_without_fraction_skipped_witness :
  strptime (U := ascii_runtime) (JStr "2023-01-01T00:00:00Z") = Raise ValueError /\
  update_result_of (OM := registering) result_on_the_second tested_two =
  (Ok tt,
   add_log tested_two [mk_LogRecord ERROR "Failed capture tests results {err}" []
                         (Some ValueError)]).
Proof.
  apply (completion_time_without_fraction_skipped (OM := registering) tested_two
           result_on_the_second
           (JList [JDict [("name", JStr "execute");
                          ("completed_at", JStr "2023-01-01T00:00:00Z")]])
           [JDict [("name", JStr "execute");
                   ("completed_at", JStr "2023-01-01T00:00:00Z")]]
           "2023-01-01T00:00:00Z").
  - simpl. intros H.
    repeat match goal with
           | H : _ \/ _ |- _ => destruct H as [H|H]; [discriminate H|]
           end.
    exact H.
  - intros H. discriminate H.
  - reflexivity.
  - reflexivity.
  - apply (last_execute_timing []
             (JDict [("name", JStr "execute");
                     ("completed_at", JStr "2023-01-01T00:00:00Z")]) []).
    + constructor.
    + exists (JStr "execute"). split; reflexivity.
    + reflexivity.
    + constructor.
Defined.

(** ** Column resolution, further *)

Lemma picked_impl_In {A B} (P Q : A -> B -> Prop) l l' :
  (forall a b, In a l -> P a b -> Q a b) -> picked P l l' -> picked Q l l'.
Proof.
  intros H Hp. induction Hp as [|a l l' _ IH|a b l l' Hab _ IH].
  - constructor.
  - apply picked_skip, IH. intros a' b' Hin. apply H. now right.
  - apply picked_take; [apply H; [now left | exact Hab]|].
    apply IH. intros a' b' Hin. apply H. now right.
Qed.

Section ColumnsRun.
Context {Catalog : Type} {OM : OpenMetadata Catalog}.
Implicit Types (w : World Catalog).

(** The columns [_parse_data_model_columns] returns follow the columns of
    the catalog entry: in their order, one column for each catalog column
    that could be resolved, and for each that could not one warning of the
    handler in the log.  No catalog column goes unaccounted for, and
    nothing but the log changes. *)
Theorem columns_follow_catalog w (model_name mnode cnode : json)
    (cols : list Column) w' :
  _parse_data_model_columns model_name mnode cnode w = (Ok cols, w') ->
  exists ccolumns manifest_columns keys l,
    py_get cnode "columns" JNull = Ok ccolumns /\
    py_get mnode "columns" (JDict []) = Ok manifest_columns /\
    py_iter ccolumns = Ok keys /\
    picked (resolved_from manifest_columns ccolumns) keys cols /\
    w' = add_log w l /\
    (List.length cols + List.length (filter is_warning l) = List.length keys)%nat.
Proof. exact (parse_data_model_columns_picked w model_name mnode cnode cols w'). Qed.

(** The description of a manifest column is looked up under the
    lower-cased key of the catalog column, and nowhere else: when the
    manifest node has no column under the lower-cased key of any catalog
    column, as when it declares its columns in upper case, it contributes
    no description, and the column resolved for a catalog column carries
    the lower-cased name of that column and its comment, or no description
    when the comment is empty or absent. *)
Theorem upper_case_manifest_columns_unmatched w (model_name mnode cnode : json)
    (mcols : list (string * json)) (ccolumns : json) (keys : list json)
    (cols : list Column) w' :
  py_get mnode "columns" (JDict []) = Ok (JDict mcols) ->
  py_get cnode "columns" JNull = Ok ccolumns ->
  py_iter ccolumns = Ok keys ->
  (forall key lkey,
     In key keys -> py_lower key = Ok lkey -> dict_get String.eqb mcols lkey = None) ->
  _parse_data_model_columns model_name mnode cnode w = (Ok cols, w') ->
  picked (fun key col =>
            exists ccolumn name catalog_comment,
              py_subscript ccolumns key = Ok ccolumn /\
              py_subscript ccolumn (JStr "name") = Ok name /\
              py_lower name = Ok (col_name col) /\
              py_get ccolumn "comment" JNull = Ok catalog_comment /\
              col_description col =
                if py_truthy catalog_comment then Some catalog_comment else None)
    keys cols.
Proof.
  intros Hm Hc Hkeys Hnone H.
  destruct (parse_data_model_columns_picked w _ _ _ _ _ H)
    as (ccolumns' & manifest_columns & keys' & l & Hc' & Hm' & Hkeys' & Hpicked & _).
  rewrite Hc in Hc'. injection Hc' as <-.
  rewrite Hm in Hm'. injection Hm' as <-.
  rewrite Hkeys in Hkeys'. injection Hkeys' as <-.
  refine (picked_impl_In _ _ _ _ _ Hpicked). intros key col Hin Hres.
  destruct Hres as (ccolumn & name & lkey & mcolumn & mdesc & comment & idx &
                    Hcc & Hname & Hlower & Hlkey & Hmcolumn & Hmdesc & Hcomment &
                    _ & _ & _ & Hdesc).
  exists ccolumn, name, comment.
  split; [exact Hcc|]. split; [exact Hname|]. split; [exact Hlower|].
  split; [exact Hcomment|].
  simpl in Hmcolumn. rewrite (Hnone key lkey Hin Hlkey) in Hmcolumn.
  injection Hmcolumn as <-.
  simpl in Hmdesc. injection Hmdesc as <-.
  rewrite Hdesc. reflexivity.
Qed.

Lemma nameless_column_loop manifest_columns (d : list (string * json)) ckey ccolumn
    (keys : list json) : forall acc w,
  dict_get String.eqb d ckey = Some ccolumn ->
  (forall name, py_subscript ccolumn (JStr "name") <> Ok name) ->
  In (JStr ckey) keys ->
  exists e, fst (for_each keys (parse_column manifest_columns (JDict d)) acc w) = Raise e.
Proof.
  intros acc w Hget Hname.
  revert acc w. induction keys as [|key keys IH]; intros acc w Hin; [contradiction|].
  simpl. unfold bind.
  destruct (parse_column manifest_columns (JDict d) acc key w) as [[acc1|e] w1] eqn:E;
    [|simpl; eauto].
  destruct Hin as [->|Hin]; [|apply IH, Hin].
  exfalso. unfold parse_column in E.
  rewrite bind_lift_eq in E. simpl in E. rewrite Hget in E.
  rewrite bind_lift_eq in E.
  destruct (py_subscript ccolumn (JStr "name")) as [name|e] eqn:En;
    [apply (Hname name); reflexivity | discriminate].
Qed.

(** The name of a catalog column is read before the handler of the column
    is set up: one column without a name, among the columns of the catalog
    entry of a node, makes the whole turn of the node fail.  The node gets
    no data model and, when it is a test, does not reach the map of tests:
    the turn only logs. *)
Theorem nameless_column_fails_node w (key : string) (mnode cnode : json)
    (d : list (string * json)) (ckey : string) (ccolumn : json) :
  dict_get String.eqb (catalog_entities (self w)) key = Some cnode ->
  py_subscript cnode (JStr "columns") = Ok (JDict d) ->
  dict_get String.eqb d ckey = Some ccolumn ->
  (forall name, py_subscript ccolumn (JStr "name") <> Ok name) ->
  exists e l,
    fst (parse_node key mnode w) = Raise e /\
    parse_entity (key, mnode) w = (Ok tt, add_log w l).
Proof.
  intros Hcnode Hcolumns Hget Hname.
  assert (Hraise : exists e, fst (parse_node key mnode w) = Raise e).
  { unfold parse_node. rewrite bind_lift_eq.
    destruct (alias_or_name mnode) as [name|e]; [|simpl; eauto].
    rewrite bind_get_self_eq, Hcnode. cbv zeta.
    destruct (py_subscript_str_inv _ _ _ Hcolumns) as (dc & -> & Hdc).
    assert (Htruthy : py_truthy (or_None (Some (JDict dc))) = true)
      by (destruct dc; [discriminate | reflexivity]).
    rewrite Htruthy.
    assert (Hcols : exists e,
              fst (_parse_data_model_columns name mnode (or_None (Some (JDict dc))) w)
              = Raise e).
    { unfold _parse_data_model_columns. rewrite bind_lift_eq. simpl py_get.
      rewrite Hdc. rewrite bind_lift_eq.
      destruct (py_get mnode "columns" (JDict [])) as [mc|e]; [|simpl; eauto].
      rewrite bind_lift_eq. simpl py_iter.
      apply (nameless_column_loop mc d ckey ccolumn); try assumption.
      apply dict_get_In in Hget; [|exact String.eqb_eq].
      apply (in_map (fun kv => JStr (fst kv))) in Hget. exact Hget. }
    destruct Hcols as [e He]. exists e. unfold bind at 1.
    destruct (_parse_data_model_columns name mnode (or_None (Some (JDict dc))) w)
      as [[cols|e'] w1]; simpl in He; [discriminate|].
    injection He as ->. reflexivity. }
  destruct Hraise as [e He].
  destruct (parse_entity_cases key mnode w)
    as [(e' & l & Hr & Hw) | [(l & Hok & _) | (l & c & f & m & Hok & _)]];
    try congruence.
  exists e, l. split; [exact He|].
  pose proof (parse_entity_total (key, mnode) w) as Htotal.
  destruct (parse_entity (key, mnode) w) as [r w1]. simpl in *. now subst.
Qed.

End ColumnsRun.

Lemma columns_follow_catalog_witness :
  _parse_data_model_columns (OM := registering) (JStr "t1") node_t1 cnode_t1 fresh_two
    = (Ok [column_id], fresh_two) /\
  exists ccolumns manifest_columns keys l,
    py_get cnode_t1 "columns" JNull = Ok ccolumns /\
    py_get node_t1 "columns" (JDict []) = Ok manifest_columns /\
    py_iter ccolumns = Ok keys /\
    picked (resolved_from (U := ascii_runtime) manifest_columns ccolumns) keys
      [column_id] /\
    fresh_two = add_log fresh_two l /\
    (List.length [column_id] + List.length (filter is_warning l) = List.length keys)%nat.
Proof.
  split; [reflexivity|].
  apply (columns_follow_catalog (OM := registering) fresh_two (JStr "t1") node_t1 cnode_t1
           [column_id] fresh_two).
  reflexivity.
Defined.

Lemma upper_case_manifest_columns_unmatched_witness :
  py_get node_upper "columns" (JDict []) =
    Ok (JDict [("ID", JDict [("name", JStr "ID"); ("description", JStr "identifier")])]) /\
  py_get cnode_t1 "columns" JNull = Ok (JDict [("ID", ccolumn_id (JStr "the id"))]) /\
  py_lower (U := ascii_runtime) (JStr "ID") = Ok "id" /\
  _parse_data_model_columns (OM := registering) (JStr "t1") node_upper cnode_t1 fresh_two
    = (Ok [mk_Column "id" (Some (JStr "the id")) (data_type "INT") 1 (JInt 1)],
       fresh_two) /\
  picked (fun key col =>
            exists ccolumn name catalog_comment,
              py_subscript (JDict [("ID", ccolumn_id (JStr "the id"))]) key = Ok ccolumn /\
              py_subscript ccolumn (JStr "name") = Ok name /\
              py_lower (U := ascii_runtime) name = Ok (col_name col) /\
              py_get ccolumn "comment" JNull = Ok catalog_comment /\
              col_description col =
                if py_truthy catalog_comment then Some catalog_comment else None)
    [JStr "ID"]
    [mk_Column "id" (Some (JStr "the id")) (data_type "INT") 1 (JInt 1)].
Proof.
  split; [reflexivity|]. split; [reflexivity|]. split; [reflexivity|].
  split; [reflexivity|].
  apply (upper_case_manifest_columns_unmatched (OM := registering) fresh_two (JStr "t1")
           node_upper cnode_t1
           [("ID", JDict [("name", JStr "ID"); ("description", JStr "identifier")])]
           (JDict [("ID", ccolumn_id (JStr "the id"))]) [JStr "ID"]
           [mk_Column "id" (Some (JStr "the id")) (data_type "INT") 1 (JInt 1)]
           fresh_two).
  - reflexivity.
  - reflexivity.
  - reflexivity.
  - intros key lkey [<-|[]] H. injection H as <-. reflexivity.
  - reflexivity.
Defined.

Lemma nameless_column_fails_node_witness :
  exists e l,
    fst (parse_node (OM := registering) "source.p.t1" node_t1
           (mk_World (set_catalog_entities [("source.p.t1", cnode_nameless)]
                        (self parsed_two)) [] [] [])) = Raise e /\
    parse_entity (OM := registering) ("source.p.t1", node_t1)
      (mk_World (set_catalog_entities [("source.p.t1", cnode_nameless)]
                   (self parsed_two)) [] [] []) =
    (Ok tt,
     add_log (mk_World (set_catalog_entities [("source.p.t1", cnode_nameless)]
                          (self parsed_two)) [] [] []) l).
Proof.
  apply (nameless_column_fails_node (OM := registering)
           (mk_World (set_catalog_entities [("source.p.t1", cnode_nameless)]
                        (self parsed_two)) [] [] [])
           "source.p.t1" node_t1 cnode_nameless
           [("ID", ccolumn_id (JStr "the id"));
            ("X", JDict [("type", JStr "INT"); ("index", JInt 2)])]
           "X" (JDict [("type", JStr "INT"); ("index", JInt 2)])).
  - reflexivity.
  - reflexivity.
  - reflexivity.
  - intros name H. discriminate H.
Defined.

(** ** The upstream names, further *)

Section UpstreamRun.
Context {Catalog : Type} {OM : OpenMetadata Catalog}.
Implicit Types (w : World Catalog).

Lemma nonempty_fqn_inv (f : option string) (s : string) :
  nonempty_fqn f = Some s -> f = Some s /\ s <> "".
Proof.
  unfold nonempty_fqn, fqn_truthy. destruct f as [s'|]; [|discriminate].
  destruct (String.eqb s' "") eqn:E; simpl; [discriminate|].
  intros H. injection H as <-. split; [reflexivity|].
  intros ->. discriminate E.
Qed.

Lemma upstream_of_run acc node w :
  exists acc' l,
    upstream_of acc node w = (Ok acc', add_log w l) /\
    (acc' = acc \/
     exists f, acc' = (acc ++ [f])%list /\ upstream_name_of w node f).
Proof.
  unfold upstream_of.
  match goal with |- context [try_except ?m ?h] => set (inner := m); set (handler := h) end.
  assert (Hq : quiet inner) by (unfold inner; quiet_tac).
  destruct (quiet_run inner Hq w) as (r & l & E).
  unfold try_except. rewrite E.
  destruct r as [a|e].
  - exists a, l. split; [reflexivity|].
    unfold inner in E. clear Hq.
    rewrite bind_get_self_eq in E.
    run_as E parent_node Eparent.
    run_as E database_name Edatabase.
    run_as E schema_name Eschema.
    run_as E table_name Etable.
    run_as E parent_fqn Efqn.
    destruct (nonempty_fqn parent_fqn) as [f|] eqn:Ef.
    + injection E as <- _. right. exists f. split; [reflexivity|].
      destruct (nonempty_fqn_inv _ _ Ef) as [-> Hne].
      exists parent_node, database_name, schema_name, table_name.
      repeat split; assumption.
    + injection E as <- _. now left.
  - exists acc, (l ++ [mk_LogRecord DEBUG "traceback" [] (Some e);
                         upstream_warning node e])%list.
    split; [|now left].
    unfold handler, logger_debug_traceback, logger_warning, log, bind, ret,
      add_log, upstream_warning. simpl. repeat rewrite <- app_assoc. reflexivity.
Qed.

Lemma upstream_loop_run items : forall acc w,
  exists new l,
    for_each items upstream_of acc w = (Ok (acc ++ new)%list, add_log w l) /\
    picked (upstream_name_of w) items new.
Proof.
  induction items as [|node items IH]; intros acc w; simpl.
  - exists [], []. rewrite app_nil_r, add_log_nil. split; [reflexivity | constructor].
  - destruct (upstream_of_run acc node w) as (acc1 & l1 & E1 & Hacc1).
    destruct (IH acc1 (add_log w l1)) as (new & l2 & E2 & Hpicked).
    unfold bind. rewrite E1, E2. rewrite add_log_app.
    destruct Hacc1 as [->|(f & -> & Hf)].
    + exists new, (l1 ++ l2)%list. split; [reflexivity|].
      apply picked_skip. exact Hpicked.
    + exists (f :: new), (l1 ++ l2)%list. rewrite <- app_assoc.
      split; [reflexivity|]. apply picked_take; assumption.
Qed.

(** For a node whose [depends_on.nodes] holds the ids [items], the names
    [_parse_data_model_upstream] returns follow the ids: in their order, the
    name of the table of the manifest entity under an id, for some of the
    ids.  Every name is the table name of an entity the node depends on,
    and none is empty. *)
Theorem upstream_names_follow_dependencies w (mnode depends_on nodes : json)
    (items : list json) :
  py_subscript mnode (JStr "depends_on") = Ok depends_on ->
  py_subscript depends_on (JStr "nodes") = Ok nodes ->
  py_iter nodes = Ok items ->
  exists upstream_nodes l,
    _parse_data_model_upstream mnode w = (Ok upstream_nodes, add_log w l) /\
    picked (upstream_name_of w) items upstream_nodes.
Proof.
  intros Hdep Hnodes Hiter.
  destruct (upstream_loop_run items [] w) as (new & l & E & Hpicked).
  exists new, l. split; [|exact Hpicked].
  unfold _parse_data_model_upstream, has_depends_on_nodes, bind, lift, rbind.
  rewrite (py_contains_subscript _ _ _ Hdep), Hdep,
    (py_contains_subscript _ _ _ Hnodes), Hnodes, Hiter.
  exact E.
Qed.

End UpstreamRun.

Lemma upstream_names_follow_dependencies_witness :
  exists upstream_nodes l,
    _parse_data_model_upstream (OM := registering) node_t3 parsed_two =
      (Ok upstream_nodes, add_log parsed_two l) /\
    picked (upstream_name_of (OM := registering) parsed_two)
      [JStr "source.p.t1"; JStr "source.p.gone"] upstream_nodes.
Proof.
  apply (upstream_names_follow_dependencies (OM := registering) parsed_two node_t3
           (JDict [("nodes", JList [JStr "source.p.t1"; JStr "source.p.gone"])])
           (JList [JStr "source.p.t1"; JStr "source.p.gone"]));
    reflexivity.
Defined.

(** The run of the witness: the name of the source, and nothing for the
    id the manifest does not hold. *)
Example upstream_names_run :
  fst (_parse_data_model_upstream (OM := registering) node_t3 parsed_two) =
  Ok ["svc.db.schema.t1"].
Proof. vm_compute. reflexivity. Qed.

(** ** The data model of a node *)

Section NodeModel.
Context {Catalog : Type} {OM : OpenMetadata Catalog}.
Implicit Types (w : World Catalog).

(** The turn of a node that is no test and is resolved without an
    exception changes the world in one place, besides the log: the map of
    data models gets the model of the node under the name [fqn.build]
    gives for the service, the database and the schema of the node, each
    ["default"] when empty, and the alias of the node, or its name when it
    has no alias.  The model is of type DBT; its description is that of the
    node, none when empty; its path joins [root_path] and
    [original_file_path]; its raw SQL is [raw_sql], [""] when the node has
    none, and its SQL is [compiled_sql], the raw SQL when the node has no
    such key; its columns are those resolved from the catalog entry of the
    node, its upstream names those of the node, and its owner the one
    resolved from the [owner] of the metadata of the catalog entry. *)
Theorem data_model_of_node w (key : string) (mnode : json) w' :
  resource_type_is_test mnode = false ->
  parse_node key mnode w = (Ok tt, w') ->
  exists model_name database schema raw_sql descr root_path original_file_path
         cnode cmetadata dbt_owner model_fqn model l,
    alias_or_name mnode = Ok model_name /\
    or_default mnode "database" = Ok database /\
    or_default mnode "schema" = Ok schema /\
    fqn_build (metadata (self w))
      (fqn_DataModel (serviceName (self w)) database schema model_name) = Ok model_fqn /\
    w' = with_self
           (fun s => set_data_models (dict_set fqn_eqb (data_models s) model_fqn model) s)
           (add_log w l) /\
    modelType model = DBT /\
    py_get mnode "description" JNull = Ok descr /\
    description model = (if py_truthy descr then Some descr else None) /\
    py_subscript mnode (JStr "root_path") = Ok root_path /\
    py_subscript mnode (JStr "original_file_path") = Ok original_file_path /\
    path model = py_str root_path ++ "/" ++ py_str original_file_path /\
    py_get mnode "raw_sql" (JStr "") = Ok raw_sql /\
    rawSql model = raw_sql /\
    py_get mnode "compiled_sql" raw_sql = Ok (sql model) /\
    dict_get String.eqb (catalog_entities (self w)) key = Some cnode /\
    fst (_parse_data_model_columns model_name mnode cnode w) = Ok (columns model) /\
    (exists l0, fst (_parse_data_model_upstream mnode (add_log w l0))
                = Ok (upstream model)) /\
    py_subscript cnode (JStr "metadata") = Ok cmetadata /\
    py_get cmetadata "owner" JNull = Ok dbt_owner /\
    (exists l0, fst (resolve_owner dbt_owner (add_log w l0)) = Ok (owner model)).
Proof.
  intros Htest H.
  destruct (parse_node_model key mnode w w' Htest H)
    as (model_fqn & model & l & Hmodel & ->).
  destruct Hmodel as (model_name & database & schema & raw_sql & descr & root_path &
                      original_file_path & cnode & cmetadata & dbt_owner &
                      Hname & Hdatabase & Hschema & Hfqn & Hrest).
  exists model_name, database, schema, raw_sql, descr, root_path, original_file_path,
    cnode, cmetadata, dbt_owner, model_fqn, model, l.
  split; [exact Hname|]. split; [exact Hdatabase|]. split; [exact Hschema|].
  split; [exact Hfqn|]. split; [reflexivity|]. exact Hrest.
Qed.

End NodeModel.

Lemma data_model_of_node_witness :
  exists model_name database schema raw_sql descr root_path original_file_path
         cnode cmetadata dbt_owner model_fqn model l,
    alias_or_name node_t1 = Ok model_name /\
    or_default node_t1 "database" = Ok database /\
    or_default node_t1 "schema" = Ok schema /\
    fqn_build (OpenMetadata := registering) (metadata (self parsed_two))
      (fqn_DataModel (serviceName (self parsed_two)) database schema model_name)
      = Ok model_fqn /\
    snd (parse_node (OM := registering) "source.p.t1" node_t1 parsed_two) =
      with_self
        (fun s => set_data_models (dict_set fqn_eqb (data_models s) model_fqn model) s)
        (add_log parsed_two l) /\
    modelType model = DBT /\
    py_get node_t1 "description" JNull = Ok descr /\
    description model = (if py_truthy descr then Some descr else None) /\
    py_subscript node_t1 (JStr "root_path") = Ok root_path /\
    py_subscript node_t1 (JStr "original_file_path") = Ok original_file_path /\
    path model =
      py_str (OpenMetadata := registering) root_path ++ "/" ++
      py_str (OpenMetadata := registering) original_file_path /\
    py_get node_t1 "raw_sql" (JStr "") = Ok raw_sql /\
    rawSql model = raw_sql /\
    py_get node_t1 "compiled_sql" raw_sql = Ok (sql model) /\
    dict_get String.eqb (catalog_entities (self parsed_two)) "source.p.t1" = Some cnode /\
    fst (_parse_data_model_columns (OM := registering) model_name node_t1 cnode parsed_two)
      = Ok (columns model) /\
    (exists l0,
       fst (_parse_data_model_upstream (OM := registering) node_t1 (add_log parsed_two l0))
       = Ok (upstream model)) /\
    py_subscript cnode (JStr "metadata") = Ok cmetadata /\
    py_get cmetadata "owner" JNull = Ok dbt_owner /\
    (exists l0,
       fst (resolve_owner (OM := registering) dbt_owner (add_log parsed_two l0))
       = Ok (owner model)).
Proof.
  apply (data_model_of_node (OM := registering) parsed_two "source.p.t1" node_t1
           (snd (parse_node (OM := registering) "source.p.t1" node_t1 parsed_two))).
  - reflexivity.
  - vm_compute. reflexivity.
Defined.

(** ** Looking up a data model *)

Section Lookup.
Context {Catalog : Type} {OM : OpenMetadata Catalog}.
Implicit Types (w : World Catalog).

(** After [_parse_data_model], [get_data_model] returns, for a name, the
    model of the last node that put one under that name, and it returns
    [None] for a name that was not in the map before the run and under
    which no node put a model.  The lookup itself changes nothing. *)
Theorem get_data_model_after_parse w (m c : list (string * json)) :
  dbt_configured (self w) = true ->
  nodes_and_sources (dbt_manifest (self w)) = Ok m ->
  nodes_and_sources (dbt_catalog (self w)) = Ok c ->
  (forall table_fqn k model,
     put_model m (merged w m c) k table_fqn model ->
     (forall k' model', (k < k')%nat -> ~ put_model m (merged w m c) k' table_fqn model') ->
     get_data_model table_fqn (snd (_parse_data_model w)) =
     (Ok (Some model), snd (_parse_data_model w))) /\
  (forall table_fqn,
     ~ In table_fqn (map fst (data_models (self w))) ->
     (forall k model, ~ put_model m (merged w m c) k table_fqn model) ->
     get_data_model table_fqn (snd (_parse_data_model w)) =
     (Ok None, snd (_parse_data_model w))).
Proof.
  intros Hgate Hm Hc.
  set (w0 := merged w m c).
  assert (Hrun : snd (_parse_data_model w) = at_turn m w0 (List.length m)).
  { rewrite (parse_data_model_run w m c Hgate Hm Hc), at_turn_end. reflexivity. }
  rewrite Hrun. unfold get_data_model. split.
  - intros table_fqn k model (key & mnode & Hk & Htest & Hok & Eset) Hlast.
    rewrite bind_get_self_eq. unfold ret. f_equal. f_equal.
    assert (Hlt : (k < List.length m)%nat) by (apply nth_error_Some; congruence).
    assert (Hget : dict_get fqn_eqb (data_models (self (at_turn m w0 (S k)))) table_fqn
                   = Some model).
    { rewrite (at_turn_succ m w0 k _ Hk), Eset.
      apply dict_get_set_same. exact fqn_eqb_eq. }
    destruct (model_kept_or_replaced m w0 k (List.length m) table_fqn model Hget
                ltac:(lia))
      as [Hkept | (k' & key' & mnode' & model' & Hk' & H1 & H2 & H3 & H4)];
      [exact Hkept|].
    exfalso. apply (Hlast k' model'); [lia|].
    exists key', mnode'. repeat split; assumption.
  - intros table_fqn Hnew Hnone.
    rewrite bind_get_self_eq. unfold ret. f_equal. f_equal.
    apply (dict_get_None_not_In fqn_eqb fqn_eqb_eq). intros Hin.
    destruct (models_from_nodes m w0 (List.length m) table_fqn ltac:(lia) Hin)
      as [Hinit | (i & key & mnode & model & H1 & H2 & H3 & H4)].
    + apply Hnew. exact Hinit.
    + apply (Hnone i model). exists key, mnode. repeat split; assumption.
Qed.

End Lookup.

Lemma get_data_model_after_parse_witness :
  (forall table_fqn k model,
     put_model (OM := registering) entities_users
       (merged fresh_users entities_users centities_users) k table_fqn model ->
     (forall k' model',
        (k < k')%nat ->
        ~ put_model (OM := registering) entities_users
            (merged fresh_users entities_users centities_users) k' table_fqn model') ->
     get_data_model table_fqn (snd (_parse_data_model (OM := registering) fresh_users)) =
     (Ok (Some model), snd (_parse_data_model (OM := registering) fresh_users))) /\
  (forall table_fqn,
     ~ In table_fqn (map fst (data_models (self fresh_users))) ->
     (forall k model,
        ~ put_model (OM := registering) entities_users
            (merged fresh_users entities_users centities_users) k table_fqn model) ->
     get_data_model table_fqn (snd (_parse_data_model (OM := registering) fresh_users)) =
     (Ok None, snd (_parse_data_model (OM := registering) fresh_users))).
Proof.
  apply (get_data_model_after_parse (OM := registering) fresh_users entities_users
           centities_users); reflexivity.
Defined.

(** The two sources of one name: the lookup returns the model of the
    second, and nothing under another name. *)
Example get_data_model_run :
  fst (get_data_model (Some "svc.db.schema.users")
         (snd (_parse_data_model (OM := registering) fresh_users)))
    = Ok (Some (model_users "second")) /\
  fst (get_data_model (Some "svc.db.schema.orders")
         (snd (_parse_data_model (OM := registering) fresh_users)))
    = Ok None.
Proof. split; vm_compute; reflexivity. Qed.

(** ** Parsing twice *)

Section DictAgain.
Context {K V : Type} (eqb : K -> K -> bool).
Hypothesis eqb_eq : forall a b, eqb a b = true <-> a = b.

Lemma dict_get_set (d : list (K * V)) k v k' :
  dict_get eqb (dict_set eqb d k v) k' = if eqb k k' then Some v else dict_get eqb d k'.
Proof.
  destruct (eqb k k') eqn:E.
  - apply eqb_eq in E. subst k'. apply dict_get_set_same. exact eqb_eq.
  - apply dict_get_set_other; [exact eqb_eq|].
    intros ->. rewrite (eqb_refl_of eqb eqb_eq) in E. discriminate.
Qed.

Lemma dict_get_puts (u : list (K * V)) : forall d k,
  dict_get eqb (dict_update eqb d u) k =
  match last_put eqb u k with
  | Some v => Some v
  | None => dict_get eqb d k
  end.
Proof.
  unfold dict_update.
  induction u as [|[k1 v1] u IH]; intros d k; simpl; [reflexivity|].
  rewrite IH. destruct (last_put eqb u k); [reflexivity|].
  rewrite dict_get_set. destruct (eqb k1 k); reflexivity.
Qed.

Lemma last_put_In (u : list (K * V)) k :
  In k (map fst u) -> last_put eqb u k <> None.
Proof.
  induction u as [|[k1 v1] u IH]; simpl; [tauto|].
  intros [->|Hin].
  - destruct (last_put eqb u k); [discriminate|].
    rewrite (eqb_refl_of eqb eqb_eq). discriminate.
  - specialize (IH Hin). destruct (last_put eqb u k); [discriminate | contradiction].
Qed.

Lemma keys_puts_held (u : list (K * V)) : forall d,
  (forall k, In k (map fst u) -> In k (map fst d)) ->
  map fst (dict_update eqb d u) = map fst d.
Proof.
  unfold dict_update.
  induction u as [|[k1 v1] u IH]; intros d Hheld; simpl; [reflexivity|].
  assert (Hkeys : map fst (dict_set eqb d k1 v1) = map fst d).
  { rewrite (keys_dict_set eqb).
    assert (Hmem : dict_mem eqb d k1 = true)
      by (apply (dict_mem_In eqb eqb_eq), Hheld; now left).
    now rewrite Hmem. }
  rewrite IH; [exact Hkeys|].
  intros k Hk. rewrite Hkeys. apply Hheld. now right.
Qed.

Lemma assoc_ext (a : list (K * V)) : forall b,
  NoDup (map fst a) ->
  map fst a = map fst b ->
  (forall k, dict_get eqb a k = dict_get eqb b k) ->
  a = b.
Proof.
  induction a as [|[k v] a IH]; intros [|[k' v'] b] Hnd Hkeys Hget;
    try discriminate; [reflexivity|].
  simpl in Hkeys. injection Hkeys as <- Hkeys.
  inversion Hnd as [|? ? Hni Hnd']; subst.
  pose proof (Hget k) as Hk. simpl in Hk.
  rewrite (eqb_refl_of eqb eqb_eq) in Hk. injection Hk as <-.
  f_equal. apply IH; [exact Hnd' | exact Hkeys |].
  intros k0. destruct (eqb k k0) eqn:E.
  - apply eqb_eq in E. subst k0.
    rewrite (proj2 (dict_get_None_not_In eqb eqb_eq a k) Hni).
    rewrite Hkeys in Hni.
    rewrite (proj2 (dict_get_None_not_In eqb eqb_eq b k) Hni). reflexivity.
  - specialize (Hget k0). simpl in Hget. rewrite E in Hget. exact Hget.
Qed.

(** Assignments made a second time leave the dict as the first time left
    it. *)
Lemma dict_update_again (d u : list (K * V)) :
  NoDup (map fst d) ->
  dict_update eqb (dict_update eqb d u) u = dict_update eqb d u.
Proof.
  intros Hnd.
  assert (Hheld : forall k, In k (map fst u) -> In k (map fst (dict_update eqb d u))).
  { intros k Hk. apply (dict_mem_In eqb eqb_eq). unfold dict_mem.
    rewrite dict_get_puts. pose proof (last_put_In u k Hk) as Hlast.
    destruct (last_put eqb u k); [reflexivity | contradiction]. }
  apply assoc_ext.
  - apply (NoDup_keys_dict_update eqb eqb_eq), (NoDup_keys_dict_update eqb eqb_eq), Hnd.
  - apply keys_puts_held, Hheld.
  - intros k. rewrite !dict_get_puts. destruct (last_put eqb u k); reflexivity.
Qed.

End DictAgain.

Section Alike.
Context {Catalog : Type} {OM : OpenMetadata Catalog}.
Implicit Types (w : World Catalog).

Lemma apply_put_nothing w : apply_put put_nothing w = w.
Proof. destruct w as [[] ? ? ?]. reflexivity. Qed.

Lemma same_setting_apply_put u w1 w2 :
  same_setting (self w1) (self w2) ->
  same_setting (self (apply_put u w1)) (self (apply_put u w2)).
Proof. intros H. exact H. Qed.

Lemma aq_ret {A} (a : A) : alike_quiet (ret (Catalog := Catalog) a) (ret a).
Proof. intros w1 w2 _. exists (Ok a), []. rewrite !add_log_nil. split; reflexivity. Qed.

Lemma aq_raise {A} (e : exn) :
  alike_quiet (raise (Catalog := Catalog) (A := A) e) (raise e).
Proof. intros w1 w2 _. exists (Raise e), []. rewrite !add_log_nil. split; reflexivity. Qed.

Lemma aq_lift {A} (r : result A) : alike_quiet (lift (Catalog := Catalog) r) (lift r).
Proof. intros w1 w2 _. exists r, []. rewrite !add_log_nil. split; reflexivity. Qed.

Lemma aq_log (r : LogRecord) : alike_quiet (log (Catalog := Catalog) r) (log r).
Proof. intros w1 w2 _. exists (Ok tt), [r]. split; reflexivity. Qed.

Lemma aq_construct {A} (valid : A -> bool) (a : A) :
  alike_quiet (construct (Catalog := Catalog) valid a) (construct valid a).
Proof. unfold construct. destruct (valid a); [apply aq_ret | apply aq_raise]. Qed.

Lemma aq_fqn_build (a : FqnArgs) : alike_quiet (m_fqn_build a) (m_fqn_build a).
Proof.
  intros w1 w2 (_ & _ & _ & _ & _ & _ & _ & Hmeta).
  exists (fqn_build (metadata (self w1)) a), []. rewrite !add_log_nil.
  unfold m_fqn_build. rewrite Hmeta. split; reflexivity.
Qed.

Lemma aq_get_entity_reference k n :
  alike_quiet (m_get_entity_reference k n) (m_get_entity_reference k n).
Proof.
  intros w1 w2 (_ & _ & _ & _ & _ & _ & _ & Hmeta).
  exists (get_entity_reference (metadata (self w1)) k n), []. rewrite !add_log_nil.
  unfold m_get_entity_reference. rewrite Hmeta. split; reflexivity.
Qed.

Lemma aq_bind {A B} (m1 m2 : M Catalog A) (f1 f2 : A -> M Catalog B) :
  alike_quiet m1 m2 -> (forall a, alike_quiet (f1 a) (f2 a)) ->
  alike_quiet (bind m1 f1) (bind m2 f2).
Proof.
  intros Hm Hf w1 w2 Hs. destruct (Hm w1 w2 Hs) as (r & l & E1 & E2).
  unfold bind. rewrite E1, E2. destruct r as [a|e].
  - destruct (Hf a (add_log w1 l) (add_log w2 l) Hs) as (r' & l' & E1' & E2').
    exists r', (l ++ l')%list. rewrite E1', E2', !add_log_app. split; reflexivity.
  - exists (Raise e), l. split; reflexivity.
Qed.

Lemma aq_bind_self {B} (f1 f2 : DBTMixin Catalog -> M Catalog B) :
  (forall s1 s2, same_setting s1 s2 -> alike_quiet (f1 s1) (f2 s2)) ->
  alike_quiet (bind get_self f1) (bind get_self f2).
Proof. intros Hf w1 w2 Hs. rewrite !bind_get_self_eq. apply Hf; exact Hs. Qed.

Lemma aq_try_except {A} (m1 m2 : M Catalog A) (h1 h2 : exn -> M Catalog A) :
  alike_quiet m1 m2 -> (forall e, alike_quiet (h1 e) (h2 e)) ->
  alike_quiet (try_except m1 h1) (try_except m2 h2).
Proof.
  intros Hm Hh w1 w2 Hs. destruct (Hm w1 w2 Hs) as (r & l & E1 & E2).
  unfold try_except. rewrite E1, E2. destruct r as [a|e].
  - exists (Ok a), l. split; reflexivity.
  - destruct (Hh e (add_log w1 l) (add_log w2 l) Hs) as (r' & l' & E1' & E2').
    exists r', (l ++ l')%list. rewrite E1', E2', !add_log_app. split; reflexivity.
Qed.

Lemma aq_for_each {X A} (xs : list X) (b1 b2 : A -> X -> M Catalog A) (acc : A) :
  (forall a x, alike_quiet (b1 a x) (b2 a x)) ->
  alike_quiet (for_each xs b1 acc) (for_each xs b2 acc).
Proof.
  intros Hb. revert acc. induction xs as [|x xs IH]; intros acc; simpl.
  - apply aq_ret.
  - apply aq_bind; [apply Hb | intros a; apply IH].
Qed.

Lemma alike_of_quiet {A} (m1 m2 : M Catalog A) : alike_quiet m1 m2 -> alike m1 m2.
Proof.
  intros H w1 w2 Hs. destruct (H w1 w2 Hs) as (r & l & E1 & E2).
  exists r, put_nothing, l. rewrite !apply_put_nothing. split; assumption.
Qed.

Lemma alike_bind_quiet {A B} (m1 m2 : M Catalog A) (f1 f2 : A -> M Catalog B) :
  alike_quiet m1 m2 -> (forall a, alike (f1 a) (f2 a)) ->
  alike (bind m1 f1) (bind m2 f2).
Proof.
  intros Hm Hf w1 w2 Hs. destruct (Hm w1 w2 Hs) as (r & l & E1 & E2).
  unfold bind. rewrite E1, E2. destruct r as [a|e].
  - destruct (Hf a (add_log w1 l) (add_log w2 l) Hs) as (r' & u & l' & E1' & E2').
    exists r', u, (l ++ l')%list. rewrite E1', E2', !add_log_app. split; reflexivity.
  - exists (Raise e), put_nothing, l. rewrite !apply_put_nothing. split; reflexivity.
Qed.

Lemma alike_bind_self {B} (f1 f2 : DBTMixin Catalog -> M Catalog B) :
  (forall s1 s2, same_setting s1 s2 -> alike (f1 s1) (f2 s2)) ->
  alike (bind get_self f1) (bind get_self f2).
Proof. intros Hf w1 w2 Hs. rewrite !bind_get_self_eq. apply Hf; exact Hs. Qed.

Lemma alike_try_except {A} (m1 m2 : M Catalog A) (h1 h2 : exn -> M Catalog A) :
  alike m1 m2 -> (forall e, alike_quiet (h1 e) (h2 e)) ->
  alike (try_except m1 h1) (try_except m2 h2).
Proof.
  intros Hm Hh w1 w2 Hs. destruct (Hm w1 w2 Hs) as (r & u & l & E1 & E2).
  unfold try_except. rewrite E1, E2. destruct r as [a|e].
  - exists (Ok a), u, l. split; reflexivity.
  - destruct (Hh e (apply_put u (add_log w1 l)) (apply_put u (add_log w2 l)) Hs)
      as (r' & l' & E1' & E2').
    exists r', u, (l ++ l')%list. rewrite E1', E2', <- !add_log_app.
    split; reflexivity.
Qed.

Lemma alike_put_test key mnode :
  alike (modify_self (Catalog := Catalog)
           (fun s => set_dbt_tests (dict_set String.eqb (dbt_tests s) key mnode) s))
        (modify_self
           (fun s => set_dbt_tests (dict_set String.eqb (dbt_tests s) key mnode) s)).
Proof.
  intros w1 w2 _. exists (Ok tt), (put_test key mnode), [].
  rewrite !add_log_nil. split; reflexivity.
Qed.

Lemma alike_put_data_model model_fqn model :
  alike (modify_self (Catalog := Catalog)
           (fun s => set_data_models (dict_set fqn_eqb (data_models s) model_fqn model) s))
        (modify_self
           (fun s => set_data_models (dict_set fqn_eqb (data_models s) model_fqn model) s)).
Proof.
  intros w1 w2 _. exists (Ok tt), (put_data_model model_fqn model), [].
  rewrite !add_log_nil. split; reflexivity.
Qed.

End Alike.

Create HintDb alike.

#[local] Hint Resolve aq_ret aq_raise aq_lift aq_log aq_construct aq_fqn_build
  aq_get_entity_reference : alike.

(** The equations of two objects of the same setting, used from left to
    right. *)
Ltac same_setting_rewrite H :=
  let H1 := fresh in let H2 := fresh in let H3 := fresh in let H4 := fresh in
  let H5 := fresh in let H6 := fresh in let H7 := fresh in let H8 := fresh in
  destruct H as (H1 & H2 & H3 & H4 & H5 & H6 & H7 & H8);
  try rewrite H1; try rewrite H2; try rewrite H3; try rewrite H4;
  try rewrite H5; try rewrite H6; try rewrite H7; try rewrite H8.

Ltac aq_tac :=
  repeat first
    [ apply aq_bind_self;
      let s1 := fresh "s" in let s2 := fresh "s" in let Hs := fresh "Hs" in
      intros s1 s2 Hs; same_setting_rewrite Hs
    | apply aq_bind; [|intros ?]
    | apply aq_try_except; [|intros ?]
    | apply aq_for_each; intros ? ?
    | progress auto with alike
    | match goal with
      | |- alike_quiet (if ?b then _ else _) _ => destruct b
      | |- alike_quiet (match ?x with _ => _ end) _ => destruct x
      end ].

Section ParseAlike.
Context {Catalog : Type} {OM : OpenMetadata Catalog}.
Implicit Types (w : World Catalog).

Lemma aq_logger_debug_traceback e :
  alike_quiet (logger_debug_traceback (Catalog := Catalog) e) (logger_debug_traceback e).
Proof. apply aq_log. Qed.

Lemma aq_logger_warning m a e :
  alike_quiet (logger_warning (Catalog := Catalog) m a e) (logger_warning m a e).
Proof. apply aq_log. Qed.

Lemma aq_parse_data_model_columns model_name mnode cnode :
  alike_quiet (_parse_data_model_columns model_name mnode cnode)
    (_parse_data_model_columns model_name mnode cnode).
Proof.
  unfold _parse_data_model_columns, parse_column,
    logger_debug_traceback, logger_warning.
  aq_tac.
Qed.

Lemma aq_parse_data_model_upstream mnode :
  alike_quiet (_parse_data_model_upstream mnode) (_parse_data_model_upstream mnode).
Proof.
  unfold _parse_data_model_upstream, upstream_of,
    logger_debug_traceback, logger_warning.
  aq_tac.
Qed.

Lemma aq_resolve_owner dbt_owner :
  alike_quiet (resolve_owner dbt_owner) (resolve_owner dbt_owner).
Proof. unfold resolve_owner, logger_warning. aq_tac. Qed.

Lemma alike_parse_node key mnode : alike (parse_node key mnode) (parse_node key mnode).
Proof.
  unfold parse_node.
  apply alike_bind_quiet; [apply aq_lift | intros name].
  apply alike_bind_self. intros s1 s2 Hs. same_setting_rewrite Hs. cbv zeta.
  apply alike_bind_quiet.
  { destruct (py_truthy _); [apply aq_parse_data_model_columns | apply aq_ret]. }
  intros cols.
  apply alike_bind_quiet; [apply aq_lift | intros resource_type].
  destruct (py_eq_str resource_type "test"); [apply alike_put_test|].
  apply alike_bind_quiet; [apply aq_parse_data_model_upstream | intros ups].
  apply alike_bind_quiet; [apply aq_lift | intros model_name].
  apply alike_bind_quiet; [apply aq_lift | intros database].
  apply alike_bind_quiet; [apply aq_lift | intros schema].
  apply alike_bind_quiet; [apply aq_lift | intros raw_sql].
  apply alike_bind_quiet; [apply aq_lift | intros descr].
  apply alike_bind_quiet; [apply aq_lift | intros cmetadata].
  apply alike_bind_quiet; [apply aq_lift | intros dbt_owner].
  apply alike_bind_quiet; [apply aq_resolve_owner | intros own].
  apply alike_bind_quiet; [apply aq_lift | intros root_path].
  apply alike_bind_quiet; [apply aq_lift | intros original_file_path].
  apply alike_bind_quiet; [apply aq_lift | intros compiled_sql].
  apply alike_bind_quiet; [apply aq_construct | intros model].
  apply alike_bind_quiet; [apply aq_fqn_build | intros model_fqn].
  apply alike_put_data_model.
Qed.

Lemma alike_parse_entity entry : alike (parse_entity entry) (parse_entity entry).
Proof.
  destruct entry as [key mnode]. unfold parse_entity.
  apply alike_try_except; [apply alike_parse_node|].
  intros e. apply aq_bind; [apply aq_logger_debug_traceback | intros _].
  apply aq_logger_warning.
Qed.

Lemma parse_loop_alike (entities : list (string * json)) : forall w1 w2,
  same_setting (self w1) (self w2) ->
  exists us l,
    for_ entities parse_entity w1 = (Ok tt, apply_puts us (add_log w1 l)) /\
    for_ entities parse_entity w2 = (Ok tt, apply_puts us (add_log w2 l)).
Proof.
  induction entities as [|entry entities IH]; intros w1 w2 Hs.
  - exists [], []. rewrite !add_log_nil. split; reflexivity.
  - destruct (alike_parse_entity entry w1 w2 Hs) as (r & u & l & E1 & E2).
    assert (Hr : r = Ok tt).
    { pose proof (parse_entity_total entry w1) as Ht. rewrite E1 in Ht. exact Ht. }
    subst r.
    destruct (IH (apply_put u (add_log w1 l)) (apply_put u (add_log w2 l)) Hs)
      as (us & l' & E1' & E2').
    exists (u :: us), (l ++ l')%list.
    unfold for_ in *. simpl. unfold bind. rewrite E1, E2, E1', E2'.
    rewrite <- !add_log_app. split; reflexivity.
Qed.

Lemma data_models_apply_puts (us : list Put) : forall w,
  data_models (self (apply_puts us w)) =
  dict_update fqn_eqb (data_models (self w)) (model_puts us).
Proof.
  induction us as [|u us IH]; intros w; [reflexivity|].
  change (apply_puts (u :: us) w) with (apply_puts us (apply_put u w)).
  rewrite IH. destruct u; reflexivity.
Qed.

Lemma dbt_tests_apply_puts (us : list Put) : forall w,
  dbt_tests (self (apply_puts us w)) =
  dict_update String.eqb (dbt_tests (self w)) (test_puts us).
Proof.
  induction us as [|u us IH]; intros w; [reflexivity|].
  change (apply_puts (u :: us) w) with (apply_puts us (apply_put u w)).
  rewrite IH. destruct u; reflexivity.
Qed.

End ParseAlike.

Lemma DBTMixin_ext {Catalog : Type} (s1 s2 : DBTMixin Catalog) :
  same_setting s1 s2 ->
  data_models s1 = data_models s2 ->
  dbt_tests s1 = dbt_tests s2 ->
  s1 = s2.
Proof.
  destruct s1, s2. unfold same_setting. simpl.
  intros (H1 & H2 & H3 & H4 & H5 & H6 & H7 & H8) H9 H10. subst. reflexivity.
Qed.

Section Again.
Context {Catalog : Type} {OM : OpenMetadata Catalog}.
Implicit Types (w : World Catalog).

(** [_parse_data_model] run a second time leaves the object as the first
    run left it: the same data models under the same names in the same
    order, and the same tests.  The nodes are parsed again, against the same
    manifest, catalog and server, and each assigns what it assigned
    before. *)
Theorem parse_data_model_idempotent w (m c : list (string * json)) :
  dbt_configured (self w) = true ->
  nodes_and_sources (dbt_manifest (self w)) = Ok m ->
  nodes_and_sources (dbt_catalog (self w)) = Ok c ->
  NoDup (map fst (data_models (self w))) ->
  NoDup (map fst (dbt_tests (self w))) ->
  fst (_parse_data_model (snd (_parse_data_model w))) = Ok tt /\
  self (snd (_parse_data_model (snd (_parse_data_model w)))) =
  self (snd (_parse_data_model w)).
Proof.
  intros Hgate Hm Hc Hmodels Htests.
  rewrite (parse_data_model_run w m c Hgate Hm Hc).
  set (w0 := merged w m c).
  destruct (static_kept_loop m w0)
    as (K1 & K2 & K3 & K4 & K5 & K6 & K7 & K8 & _ & _).
  set (w1 := snd (for_ m parse_entity w0)) in *.
  assert (Hgate1 : dbt_configured (self w1) = true).
  { unfold dbt_configured. rewrite K1, K3, K4. exact Hgate. }
  assert (Hm1 : nodes_and_sources (dbt_manifest (self w1)) = Ok m)
    by (rewrite K3; exact Hm).
  assert (Hc1 : nodes_and_sources (dbt_catalog (self w1)) = Ok c)
    by (rewrite K4; exact Hc).
  rewrite (parse_data_model_run w1 m c Hgate1 Hm1 Hc1).
  split; [apply for_total, parse_entity_total|].
  assert (Hs : same_setting (self w0) (self (merged w1 m c))).
  { unfold same_setting. simpl. rewrite K1, K2, K3, K4, K5, K8. repeat split. }
  destruct (parse_loop_alike m w0 (merged w1 m c) Hs) as (us & l & E1 & E2).
  assert (Hw1 : w1 = apply_puts us (add_log w0 l)) by (unfold w1; rewrite E1; reflexivity).
  rewrite E2. simpl snd.
  apply DBTMixin_ext.
  - assert (Hkept : forall us' w', same_setting (self (apply_puts us' w')) (self w')).
    { induction us' as [|u us' IH]; intros w'; [repeat split|].
      change (apply_puts (u :: us') w') with (apply_puts us' (apply_put u w')).
      apply (IH (apply_put u w')). }
    destruct (Hkept us (add_log (merged w1 m c) l))
      as (S1 & S2 & S3 & S4 & S5 & S6 & S7 & S8).
    unfold same_setting. rewrite S1, S2, S3, S4, S5, S6, S7, S8. simpl.
    rewrite K6, K7. repeat split.
  - rewrite data_models_apply_puts. simpl.
    rewrite Hw1 at 1 2. rewrite data_models_apply_puts. simpl.
    apply (dict_update_again fqn_eqb fqn_eqb_eq). exact Hmodels.
  - rewrite dbt_tests_apply_puts. simpl.
    rewrite Hw1 at 1 2. rewrite dbt_tests_apply_puts. simpl.
    apply (dict_update_again String.eqb String.eqb_eq). exact Htests.
Qed.

End Again.

Lemma parse_data_model_idempotent_witness :
  fst (_parse_data_model (OM := registering)
         (snd (_parse_data_model (OM := registering) fresh_tested))) = Ok tt /\
  self (snd (_parse_data_model (OM := registering)
               (snd (_parse_data_model (OM := registering) fresh_tested)))) =
  self (snd (_parse_data_model (OM := registering) fresh_tested)).
Proof.
  apply (parse_data_model_idempotent (OM := registering) fresh_tested entities_tested
           centities_two); try reflexivity; constructor.
Defined.

(** ** Where the results are attached *)

Section Attached.
Context {Catalog : Type} {OM : OpenMetadata Catalog}.
Implicit Types (w : World Catalog).

(** The results of a test are attached to its dependencies in their
    order: the calls of [add_test_case_results] made for a run result are
    those for the first [n] dependencies of its test, one each, every one
    with the result built for the run result and under the name built from
    the manifest entity of the dependency; when a dependency is left
    without, an error is logged. *)
Theorem results_attached_in_dependency_order w (dbt_test_result : json)
    (r : TestCaseResult) (uid dbt_test_node depends_on nodes : json) (items : list json) :
  test_case_result_of dbt_test_result w = (Ok r, w) ->
  py_subscript dbt_test_result (JStr "unique_id") = Ok uid ->
  dict_get_json (dbt_tests (self w)) uid = Ok (Some dbt_test_node) ->
  py_truthy dbt_test_node = true ->
  py_subscript dbt_test_node (JStr "depends_on") = Ok depends_on ->
  py_subscript depends_on (JStr "nodes") = Ok nodes ->
  py_iter nodes = Ok items ->
  exists n subs,
    submitted (snd (update_result_of dbt_test_result w)) = (submitted w ++ subs)%list /\
    Forall2 (attached_to (self w) dbt_test_node r) (firstn n items) subs /\
    (n = List.length items \/
     exists err,
       logged (snd (update_result_of dbt_test_result w)) =
       (logged w ++ [mk_LogRecord ERROR "Failed capture tests results {err}" []
                       (Some err)])%list).
Proof.
  intros Hr Huid Htest Htruthy Hdep Hnodes Hitems.
  rewrite (update_result_of_run w _ _ _ _ _ _ _ Hr Huid Htest Htruthy Hdep Hnodes Hitems).
  unfold try_except.
  destruct (for_ items (attach_result dbt_test_result dbt_test_node r) w)
    as [res w'] eqn:E.
  rewrite <- (after_results_nothing w) in E.
  destruct (attach_loop _ _ _ _ w items Huid Htest _ _ _ _ E)
    as (n & subs & c' & -> & Hall & Hn).
  exists n, subs.
  destruct res as [[]|e].
  - simpl. split; [reflexivity|]. split; [exact Hall|]. left. apply Hn. reflexivity.
  - simpl. split; [reflexivity|]. split; [exact Hall|]. right. exists e. reflexivity.
Qed.

(** When every dependency of the test is a dict of the manifest entities,
    the test has a name, and the client builds every name and accepts
    every result, the result of the test is attached once for each
    dependency, in their order, and nothing is logged. *)
Theorem result_attached_to_every_dependency w (dbt_test_result : json)
    (r : TestCaseResult) (uid dbt_test_node depends_on nodes test_case_name : json)
    (items : list json) :
  accepts_results OM ->
  test_case_result_of dbt_test_result w = (Ok r, w) ->
  py_subscript dbt_test_result (JStr "unique_id") = Ok uid ->
  dict_get_json (dbt_tests (self w)) uid = Ok (Some dbt_test_node) ->
  py_truthy dbt_test_node = true ->
  py_subscript dbt_test_node (JStr "depends_on") = Ok depends_on ->
  py_subscript depends_on (JStr "nodes") = Ok nodes ->
  py_iter nodes = Ok items ->
  py_subscript dbt_test_node (JStr "name") = Ok test_case_name ->
  Forall (fun node => exists model,
            dict_get_json (manifest_entities (self w)) node = Ok (Some (JDict model)))
    items ->
  exists subs,
    submitted (snd (update_result_of dbt_test_result w)) = (submitted w ++ subs)%list /\
    Forall2 (attached_to (self w) dbt_test_node r) items subs /\
    logged (snd (update_result_of dbt_test_result w)) = logged w.
Proof.
  intros Hclient Hr Huid Htest Htruthy Hdep Hnodes Hitems Hname Hmodels.
  rewrite (update_result_of_run w _ _ _ _ _ _ _ Hr Huid Htest Htruthy Hdep Hnodes Hitems).
  unfold try_except.
  pose proof (attach_loop_total dbt_test_result dbt_test_node r uid test_case_name w items
                Hclient Huid Htest Hname Hmodels (metadata (self w)) []) as Hok.
  rewrite after_results_nothing in Hok.
  destruct (for_ items (attach_result dbt_test_result dbt_test_node r) w)
    as [res w'] eqn:E.
  simpl in Hok. subst res.
  rewrite <- (after_results_nothing w) in E.
  destruct (attach_loop _ _ _ _ w items Huid Htest _ _ _ _ E)
    as (n & subs & c' & -> & Hall & Hn).
  rewrite (Hn eq_refl), firstn_all in Hall.
  exists subs. simpl. repeat split. exact Hall.
Qed.

End Attached.

Lemma registering_accepts_results : accepts_results registering.
Proof.
  split.
  - intros. eexists. reflexivity.
  - reflexivity.
Qed.

Lemma results_attached_in_dependency_order_witness :
  exists n subs,
    submitted (snd (update_result_of (OM := registering) result_of_gone tested_gone)) =
      (submitted tested_gone ++ subs)%list /\
    Forall2 (attached_to (OM := registering) (self tested_gone) test_on_gone
               (mk_TestCaseResult (Some 1672531200000) Failed
                  [mk_TestResultValue (JStr "test.p.tg") "0"]))
      (firstn n [JStr "source.p.t1"; JStr "source.p.gone"]) subs /\
    (n = List.length [JStr "source.p.t1"; JStr "source.p.gone"] \/
     exists err,
       logged (snd (update_result_of (OM := registering) result_of_gone tested_gone)) =
       (logged tested_gone ++
        [mk_LogRecord ERROR "Failed capture tests results {err}" [] (Some err)])%list).
Proof.
  apply (results_attached_in_dependency_order (OM := registering) tested_gone result_of_gone
           (mk_TestCaseResult (Some 1672531200000) Failed
              [mk_TestResultValue (JStr "test.p.tg") "0"])
           (JStr "test.p.tg") test_on_gone
           (JDict [("nodes", JList [JStr "source.p.t1"; JStr "source.p.gone"])])
           (JList [JStr "source.p.t1"; JStr "source.p.gone"])
           [JStr "source.p.t1"; JStr "source.p.gone"]);
    vm_compute; reflexivity.
Defined.

(** The run of that result: the result is attached for the source, the
    entity the manifest does not hold ends the turn with an error. *)
Example result_attached_up_to_unknown :
  update_result_of (OM := registering) result_of_gone tested_gone =
  (Ok tt,
   mk_World (self tested_gone)
     [mk_LogRecord ERROR "Failed capture tests results {err}" [] (Some AttributeError)]
     []
     [(Some "svc.db.schema.t1.id.tg",
       mk_TestCaseResult (Some 1672531200000) Failed
         [mk_TestResultValue (JStr "test.p.tg") "0"])]).
Proof. vm_compute. reflexivity. Qed.

Lemma result_attached_to_every_dependency_witness :
  exists subs,
    submitted (snd (update_result_of (OM := registering) result_ran tested_two)) =
      (submitted tested_two ++ subs)%list /\
    Forall2 (attached_to (OM := registering) (self tested_two) (generic_test "tb")
               (mk_TestCaseResult (Some 1672531200000) Success
                  [mk_TestResultValue (JStr "test.p.tb") "1"]))
      [JStr "source.p.t1"] subs /\
    logged (snd (update_result_of (OM := registering) result_ran tested_two)) =
      logged tested_two.
Proof.
  apply (result_attached_to_every_dependency (OM := registering) tested_two result_ran
           (mk_TestCaseResult (Some 1672531200000) Success
              [mk_TestResultValue (JStr "test.p.tb") "1"])
           (JStr "test.p.tb") (generic_test "tb")
           (JDict [("nodes", JList [JStr "source.p.t1"])])
           (JList [JStr "source.p.t1"]) (JStr "tb") [JStr "source.p.t1"]).
  - exact registering_accepts_results.
  - vm_compute. reflexivity.
  - reflexivity.
  - reflexivity.
  - reflexivity.
  - reflexivity.
  - reflexivity.
  - reflexivity.
  - reflexivity.
  - constructor; [|constructor]. eexists. vm_compute. reflexivity.
Defined.

(** ** The nodes that get a data model *)

Section WellFormed.
Context {Catalog : Type} {OM : OpenMetadata Catalog}.
Implicit Types (w : World Catalog).







End WellFormed.



(** ** Whole seconds *)

Lemma digits2_pos_bounds (p : positive) :
  2 ^ (Zpos (digits2_pos p) - 1) <= Zpos p < 2 ^ Zpos (digits2_pos p).
Proof.
  induction p as [p IH|p IH|]; simpl digits2_pos.
  - rewrite Pos2Z.inj_succ.
    replace (Z.succ (Zpos (digits2_pos p)) - 1) with (Z.succ (Zpos (digits2_pos p) - 1))
      by lia.
    rewrite !Z.pow_succ_r by lia. rewrite (Pos2Z.inj_xI p).
    generalize dependent (2 ^ (Zpos (digits2_pos p) - 1)).
    generalize dependent (2 ^ Zpos (digits2_pos p)). intros; lia.
  - rewrite Pos2Z.inj_succ.
    replace (Z.succ (Zpos (digits2_pos p)) - 1) with (Z.succ (Zpos (digits2_pos p) - 1))
      by lia.
    rewrite !Z.pow_succ_r by lia. rewrite (Pos2Z.inj_xO p).
    generalize dependent (2 ^ (Zpos (digits2_pos p) - 1)).
    generalize dependent (2 ^ Zpos (digits2_pos p)). intros; lia.
  - simpl. lia.
Qed.

Lemma digits2_pos_unique (p : positive) (d : Z) :
  2 ^ (d - 1) <= Zpos p < 2 ^ d -> Zpos (digits2_pos p) = d.
Proof.
  intros [Hlo Hhi]. pose proof (digits2_pos_bounds p) as [Blo Bhi].
  assert (Hd : 0 < d).
  { destruct (Z.lt_ge_cases 0 d) as [H|H]; [exact H|].
    exfalso. destruct (Z.eq_dec d 0) as [->|Hne].
    - simpl in Hhi. lia.
    - rewrite Z.pow_neg_r in Hhi by lia. lia. }
  destruct (Z.lt_trichotomy (Zpos (digits2_pos p)) d) as [H|[H|H]]; [|exact H|].
  - exfalso.
    assert (2 ^ Zpos (digits2_pos p) <= 2 ^ (d - 1)) by (apply Z.pow_le_mono_r; lia).
    lia.
  - exfalso.
    assert (2 ^ d <= 2 ^ (Zpos (digits2_pos p) - 1)) by (apply Z.pow_le_mono_r; lia).
    lia.
Qed.

Lemma digits2_pos_shifted (n m : positive) (k : Z) :
  0 <= k -> Zpos m = Zpos n * 2 ^ k ->
  Zpos (digits2_pos m) = Zpos (digits2_pos n) + k.
Proof.
  intros Hk Hm. apply digits2_pos_unique.
  pose proof (digits2_pos_bounds n) as [Blo Bhi].
  rewrite Hm.
  replace (Zpos (digits2_pos n) + k - 1) with ((Zpos (digits2_pos n) - 1) + k) by lia.
  rewrite !Z.pow_add_r by lia.
  assert (0 < 2 ^ k) by (apply Z.pow_pos_nonneg; lia).
  split; [apply Z.mul_le_mono_nonneg_r; lia | apply Z.mul_lt_mono_pos_r; lia].
Qed.

Lemma shr_1_even (x : Z) :
  0 < x ->
  shr_1 {| shr_m := x * 2; shr_r := false; shr_s := false |} =
  {| shr_m := x; shr_r := false; shr_s := false |}.
Proof.
  intros Hx. rewrite (Z.mul_comm x 2).
  destruct x as [|p|p]; try lia. reflexivity.
Qed.

Lemma iter_pos_xI {A} (f : A -> A) (t : positive) (x : A) :
  iter_pos f t~1 x = iter_pos f t (iter_pos f t (f x)).
Proof. reflexivity. Qed.

Lemma iter_pos_xO {A} (f : A -> A) (t : positive) (x : A) :
  iter_pos f t~0 x = iter_pos f t (iter_pos f t x).
Proof. reflexivity. Qed.

Lemma iter_shr_1_exact (t : positive) : forall x,
  0 < x ->
  iter_pos shr_1 t {| shr_m := x * 2 ^ Zpos t; shr_r := false; shr_s := false |} =
  {| shr_m := x; shr_r := false; shr_s := false |}.
Proof.
  induction t as [t IH|t IH|]; intros x Hx.
  - assert (E : x * 2 ^ Zpos t~1 = ((x * 2 ^ Zpos t) * 2 ^ Zpos t) * 2).
    { replace (Zpos t~1) with (Zpos t + Zpos t + 1) by lia.
      rewrite !Z.pow_add_r by lia. change (2 ^ 1) with 2. ring. }
    assert (0 < 2 ^ Zpos t) by (apply Z.pow_pos_nonneg; lia).
    rewrite E, iter_pos_xI, shr_1_even by lia.
    rewrite IH by lia. apply IH, Hx.
  - assert (E : x * 2 ^ Zpos t~0 = (x * 2 ^ Zpos t) * 2 ^ Zpos t).
    { replace (Zpos t~0) with (Zpos t + Zpos t) by lia.
      rewrite !Z.pow_add_r by lia. ring. }
    assert (0 < 2 ^ Zpos t) by (apply Z.pow_pos_nonneg; lia).
    rewrite E, iter_pos_xO. rewrite IH by lia. apply IH, Hx.
  - change (2 ^ 1) with 2. apply shr_1_even, Hx.
Qed.

Lemma fexp64 (d : Z) : -1021 <= d -> fexp 53 1024 d = d - 53.
Proof. intros H. unfold fexp, emin. lia. Qed.

Lemma shifted_positive (n : positive) (k : Z) : 0 <= k -> 0 < Zpos n * 2 ^ k.
Proof.
  intros Hk. apply Z.mul_pos_pos; [lia|]. apply Z.pow_pos_nonneg; lia.
Qed.

Lemma shr_fexp_exact (n : positive) (mz k : Z) :
  0 <= k ->
  mz = Zpos n * 2 ^ k ->
  Zpos (digits2_pos n) <= 53 ->
  53 <= Zpos (digits2_pos n) + k ->
  shr_fexp 53 1024 mz (- k) loc_Exact =
  ({| shr_m := Zpos n * 2 ^ (53 - Zpos (digits2_pos n));
      shr_r := false; shr_s := false |},
   Zpos (digits2_pos n) - 53).
Proof.
  intros Hk Hm Hhi Hlo.
  pose proof (shifted_positive n k Hk) as Hpos.
  destruct mz as [|m|m]; try lia.
  pose proof (digits2_pos_shifted n m k Hk Hm) as Hd.
  unfold shr_fexp. cbn [Zdigits2]. rewrite Hd, fexp64 by lia.
  replace (Zpos (digits2_pos n) + k + - k - 53 - - k)
    with (Zpos (digits2_pos n) - 53 + k) by lia.
  unfold shr, shr_record_of_loc.
  destruct (Zpos (digits2_pos n) - 53 + k) as [|t|t] eqn:Et; try lia.
  - replace (53 - Zpos (digits2_pos n)) with k by lia. rewrite <- Hm.
    f_equal. lia.
  - rewrite Hm.
    replace k with ((53 - Zpos (digits2_pos n)) + Zpos t) at 1 by lia.
    rewrite Z.pow_add_r, Z.mul_assoc by lia.
    rewrite iter_shr_1_exact by (apply shifted_positive; lia).
    f_equal. lia.
Qed.

Lemma shr_fexp_stay (x : positive) (e : Z) :
  Zpos (digits2_pos x) = 53 ->
  -1074 <= e ->
  shr_fexp 53 1024 (Zpos x) e loc_Exact =
  ({| shr_m := Zpos x; shr_r := false; shr_s := false |}, e).
Proof.
  intros Hd He. unfold shr_fexp. cbn [Zdigits2]. rewrite Hd.
  assert (Hf : fexp 53 1024 (53 + e) = e) by (unfold fexp, emin; lia).
  rewrite Hf, Z.sub_diag. reflexivity.
Qed.

Lemma binary_round_aux_exact (s : bool) (n : positive) (mz k : Z) :
  0 <= k ->
  mz = Zpos n * 2 ^ k ->
  Zpos (digits2_pos n) <= 53 ->
  53 <= Zpos (digits2_pos n) + k ->
  binary_round_aux 53 1024 s mz (- k) loc_Exact = float_of_positive s n.
Proof.
  intros Hk Hm Hhi Hlo. unfold binary_round_aux.
  rewrite (shr_fexp_exact n mz k Hk Hm Hhi Hlo).
  cbn [shr_m loc_of_shr_record round_nearest_even].
  pose proof (digits2_pos_bounds n) as [_ Hb].
  assert (Hpos : 0 < Zpos n * 2 ^ (53 - Zpos (digits2_pos n)))
    by (apply shifted_positive; lia).
  destruct (Zpos n * 2 ^ (53 - Zpos (digits2_pos n))) as [|x|x] eqn:Ex; try lia.
  assert (Hd : Zpos (digits2_pos x) = 53).
  { rewrite (digits2_pos_shifted n x (53 - Zpos (digits2_pos n))); lia. }
  rewrite (shr_fexp_stay x _ Hd) by lia.
  cbn [shr_m].
  assert (Hle : (Zpos (digits2_pos n) - 53 <=? 1024 - 53) = true)
    by (apply Z.leb_le; lia).
  rewrite Hle. unfold float_of_positive. rewrite Ex. reflexivity.
Qed.

Lemma digits2_pos_le (p : positive) (j : Z) :
  0 <= j -> Zpos p < 2 ^ j -> Zpos (digits2_pos p) <= j.
Proof.
  intros Hj Hp. pose proof (digits2_pos_bounds p) as [Blo _].
  destruct (Z.le_gt_cases (Zpos (digits2_pos p)) j) as [H|H]; [exact H|].
  exfalso.
  assert (2 ^ j <= 2 ^ (Zpos (digits2_pos p) - 1)) by (apply Z.pow_le_mono_r; lia).
  lia.
Qed.

Lemma digits2_pos_gt (p : positive) (j : Z) :
  0 <= j -> 2 ^ j <= Zpos p -> j < Zpos (digits2_pos p).
Proof.
  intros Hj Hp. pose proof (digits2_pos_bounds p) as [_ Bhi].
  destruct (Z.lt_ge_cases j (Zpos (digits2_pos p))) as [H|H]; [exact H|].
  exfalso.
  assert (2 ^ Zpos (digits2_pos p) <= 2 ^ j) by (apply Z.pow_le_mono_r; lia).
  lia.
Qed.

Lemma div_eucl_exact (a b : Z) : Z.div_eucl a b = (a / b, a mod b).
Proof. unfold Z.div, Z.modulo. destruct (Z.div_eucl a b). reflexivity. Qed.

Lemma digits_of_millionfold (p : positive) :
  Zpos p < 2 ^ 38 ->
  20 <= Zpos (digits2_pos (p * 1000000)) <= Zpos (digits2_pos p) + 20 /\
  Zpos (digits2_pos p) <= 38.
Proof.
  intros Hp.
  pose proof (digits2_pos_bounds p) as [_ Bhi].
  assert (Hd : Zpos (digits2_pos p) <= 38) by (apply digits2_pos_le; lia).
  split; [|exact Hd]. split.
  - assert (19 < Zpos (digits2_pos (p * 1000000))); [|lia].
    apply digits2_pos_gt; [lia|]. rewrite Pos2Z.inj_mul.
    change (2 ^ 19) with 524288. lia.
  - apply digits2_pos_le; [lia|]. rewrite Pos2Z.inj_mul, Z.pow_add_r by lia.
    change (2 ^ 20) with 1048576.
    assert (0 < 2 ^ Zpos (digits2_pos p)) by (apply Z.pow_pos_nonneg; lia).
    nia.
Qed.

Lemma SFdiv_core_million (p : positive) :
  Zpos p < 2 ^ 38 ->
  SFdiv_core_binary 53 1024 (Zpos (p * 1000000)) 0 1000000 0 =
  (Zpos p * 2 ^ (73 - Zpos (digits2_pos (p * 1000000))),
   - (73 - Zpos (digits2_pos (p * 1000000))), loc_Exact).
Proof.
  intros Hp. destruct (digits_of_millionfold p Hp) as [[Hlo Hhi] Hd].
  unfold SFdiv_core_binary. cbv zeta. cbn [Zdigits2].
  change (Zpos (digits2_pos 1000000)) with 20.
  set (d1 := Zpos (digits2_pos (p * 1000000))) in *.
  assert (He : Z.min (fexp 53 1024 (d1 + 0 - (20 + 0))) (0 - 0) = - (73 - d1))
    by (unfold fexp, emin; lia).
  rewrite He.
  replace (0 - 0 - - (73 - d1)) with (73 - d1) by lia.
  destruct (73 - d1) as [|t|t] eqn:Et; try lia.
  rewrite Z.shiftl_mul_pow2, div_eucl_exact by lia.
  assert (Hm : Zpos (p * 1000000) * 2 ^ Zpos t = (Zpos p * 2 ^ Zpos t) * 1000000)
    by (rewrite Pos2Z.inj_mul; ring).
  rewrite Hm, Z.div_mul, Z.mod_mul by lia.
  reflexivity.
Qed.

Lemma SFdiv_million (s : bool) (p : positive) :
  Zpos p < 2 ^ 38 ->
  SFdiv 53 1024 (S754_finite s (p * 1000000) 0) (S754_finite false 1000000 0) =
  float_of_positive s p.
Proof.
  intros Hp. destruct (digits_of_millionfold p Hp) as [[Hlo Hhi] Hd].
  unfold SFdiv. rewrite (SFdiv_core_million p Hp), xorb_false_r.
  apply binary_round_aux_exact; lia.
Qed.

Lemma SFmul_thousand (s : bool) (p : positive) :
  Zpos p < 2 ^ 38 ->
  SFmul 53 1024 (float_of_positive s p) (S754_finite false 8796093022208000 (-43)) =
  float_of_positive s (1000 * p).
Proof.
  intros Hp. destruct (digits_of_millionfold p Hp) as [_ Hd].
  unfold float_of_positive at 1. unfold SFmul. rewrite xorb_false_r.
  replace (Zpos (digits2_pos p) - 53 + -43) with (- (96 - Zpos (digits2_pos p))) by lia.
  apply binary_round_aux_exact.
  - lia.
  - rewrite Pos2Z.inj_mul, Z2Pos.id by (apply shifted_positive; lia).
    change (Zpos 8796093022208000) with (1000 * 2 ^ 43).
    replace (96 - Zpos (digits2_pos p)) with ((53 - Zpos (digits2_pos p)) + 43) by lia.
    rewrite Z.pow_add_r, Pos2Z.inj_mul by lia. ring.
  - apply digits2_pos_le; [lia|]. rewrite Pos2Z.inj_mul.
    change (2 ^ 53) with 9007199254740992. change (2 ^ 38) with 274877906944 in Hp. lia.
  - pose proof (digits2_pos_bounds (1000 * p)) as _.
    assert (0 < Zpos (digits2_pos (1000 * p))) by lia. lia.
Qed.

Lemma int_of_float_of_positive (s : bool) (n : positive) :
  Zpos (digits2_pos n) <= 53 ->
  py_int_of_float (float_of_positive s n) = Ok (if s then - Zpos n else Zpos n).
Proof.
  intros Hd. unfold float_of_positive, py_int_of_float.
  assert (Hpos : 0 < Zpos n * 2 ^ (53 - Zpos (digits2_pos n)))
    by (apply shifted_positive; lia).
  rewrite Z2Pos.id by exact Hpos.
  assert (Ha : match Zpos (digits2_pos n) - 53 with
               | Zneg q => Z.shiftr (Zpos n * 2 ^ (53 - Zpos (digits2_pos n))) (Zpos q)
               | _ => Z.shiftl (Zpos n * 2 ^ (53 - Zpos (digits2_pos n)))
                        (Zpos (digits2_pos n) - 53)
               end = Zpos n).
  { destruct (Zpos (digits2_pos n) - 53) as [|q|q] eqn:E; try lia.
    - replace (53 - Zpos (digits2_pos n)) with 0 by lia.
      rewrite Z.shiftl_0_r. change (2 ^ 0) with 1. lia.
    - rewrite Z.shiftr_div_pow2 by lia.
      replace (53 - Zpos (digits2_pos n)) with (Zpos q) by lia.
      apply Z.div_mul. apply Z.pow_nonzero; lia. }
  rewrite Ha. reflexivity.
Qed.

(** The quotient of a count of microseconds that is a whole number [n] of
    seconds, multiplied by 1000 and truncated, is [1000 * n] exactly. *)
Lemma millis_of_whole_seconds (n : Z) :
  - 2 ^ 38 < n < 2 ^ 38 ->
  py_int_of_float (py_mul_float_int (py_truediv_int (n * 1000000) 1000000) 1000)
  = Ok (1000 * n).
Proof.
  intros Hn. unfold py_mul_float_int, py_truediv_int, prec64, emax64.
  assert (Hk : float_of_int 1000 = S754_finite false 8796093022208000 (-43))
    by (vm_compute; reflexivity).
  rewrite Hk.
  destruct n as [|p|p].
  - reflexivity.
  - change (exact_of_int (Zpos p * 1000000)) with (S754_finite false (p * 1000000) 0).
    change (exact_of_int 1000000) with (S754_finite false 1000000 0).
    rewrite SFdiv_million, SFmul_thousand by lia.
    rewrite int_of_float_of_positive; [reflexivity|].
    apply digits2_pos_le; [lia|]. rewrite Pos2Z.inj_mul.
    change (2 ^ 53) with 9007199254740992. change (2 ^ 38) with 274877906944 in Hn. lia.
  - change (exact_of_int (Zneg p * 1000000)) with (S754_finite true (p * 1000000) 0).
    change (exact_of_int 1000000) with (S754_finite false 1000000 0).
    assert (Hp : Zpos p < 2 ^ 38) by lia.
    rewrite SFdiv_million, SFmul_thousand by exact Hp.
    rewrite int_of_float_of_positive; [reflexivity|].
    apply digits2_pos_le; [lia|]. rewrite Pos2Z.inj_mul.
    change (2 ^ 53) with 9007199254740992. change (2 ^ 38) with 274877906944 in Hp. lia.
Qed.

Lemma days_in_month_bounds (y m : Z) : 28 <= days_in_month y m <= 31.
Proof.
  unfold days_in_month.
  destruct (m =? 2); [destruct (is_leap y); lia|].
  destruct ((m =? 4) || (m =? 6) || (m =? 9) || (m =? 11))%bool; lia.
Qed.

Lemma days_before_month_from_bounds (y : Z) (m : nat) :
  0 <= days_before_month_from y m <= 31 * Z.of_nat m.
Proof.
  induction m as [|m IH]; [simpl; lia|].
  change (days_before_month_from y (S m))
    with (days_before_month_from y m + days_in_month y (Z.of_nat (S m))).
  pose proof (days_in_month_bounds y (Z.of_nat (S m))). lia.
Qed.

Lemma posix_seconds_bounds (dt : datetime) :
  datetime_ok dt = true -> - 2 ^ 38 < posix_seconds dt < 2 ^ 38.
Proof.
  unfold datetime_ok. intros H.
  repeat match goal with
         | H : (_ && _)%bool = true |- _ => apply andb_prop in H; destruct H
         end.
  repeat match goal with
         | H : (_ <=? _) = true |- _ => apply Z.leb_le in H
         end.
  unfold posix_seconds, toordinal.
  change (days_before_year (year epoch) + days_before_month (year epoch) (month epoch)
          + day epoch) with 719163.
  pose proof (days_in_month_bounds (year dt) (month dt)).
  pose proof (days_before_month_from_bounds (year dt) (Z.to_nat (month dt - 1))) as Hm.
  fold (days_before_month (year dt) (month dt)) in Hm.
  unfold days_before_year.
  change (2 ^ 38) with 274877906944.
  assert (0 <= (year dt - 1) / 4 <= 2500) by (split; [apply Z.div_pos | apply Z.div_le_upper_bound]; lia).
  assert (0 <= (year dt - 1) / 100 <= 100) by (split; [apply Z.div_pos | apply Z.div_le_upper_bound]; lia).
  assert (0 <= (year dt - 1) / 400 <= 25) by (split; [apply Z.div_pos | apply Z.div_le_upper_bound]; lia).
  assert ((year dt - 1) / 100 <= (year dt - 1) / 4).
  { apply Z.div_le_compat_l; lia. }
  rewrite Z2Nat.id in Hm by lia.
  lia.
Qed.

(** [unix_time_millis] is exact on the whole second: for a date and time
    the [datetime] constructor accepts and that has no microseconds, the
    division by [10 ** 6] in [total_seconds], the multiplication by 1000
    and the truncation give the seconds since the epoch times 1000, with
    no rounding in between; and so does the timestamp of a completion time
    that reads as such a date and time. *)
Theorem whole_second_timestamps_exact {Catalog : Type} {OM : OpenMetadata Catalog}
    (dt : datetime) :
  datetime_ok dt = true ->
  microsecond dt = 0 ->
  unix_time_millis dt = Ok (1000 * posix_seconds dt) /\
  forall c, strptime c = Ok dt ->
            dbt_timestamp_of c = Ok (Some (1000 * posix_seconds dt)).
Proof.
  intros Hok Hus.
  assert (Hmillis : unix_time_millis dt = Ok (1000 * posix_seconds dt)).
  { pose proof (posix_seconds_bounds dt Hok) as Hb.
    unfold unix_time_millis, unix_time, total_seconds, datetime_sub, normal_timedelta.
    cbn [days seconds microseconds]. rewrite Hus.
    change (microsecond epoch) with 0.
    change (second epoch + minute epoch * 60 + hour epoch * 3600) with 0.
    replace ((toordinal dt - toordinal epoch +
              (second dt + minute dt * 60 + hour dt * 3600 - 0 + (0 - 0) / 1000000) / 86400)
             * 86400 +
             (second dt + minute dt * 60 + hour dt * 3600 - 0 + (0 - 0) / 1000000)
               mod 86400)
      with (posix_seconds dt).
    2:{ unfold posix_seconds. change ((0 - 0) / 1000000) with 0.
        pose proof (Z.div_mod (second dt + minute dt * 60 + hour dt * 3600 - 0 + 0) 86400).
        lia. }
    change ((0 - 0) mod 1000000) with 0. rewrite Z.add_0_r.
    apply millis_of_whole_seconds, Hb. }
  split; [exact Hmillis|].
  intros c Hc. unfold dbt_timestamp_of.
  assert (Htruthy : py_truthy c = true).
  { destruct c; try discriminate Hc. simpl.
    destruct s; [discriminate Hc | reflexivity]. }
  rewrite Htruthy, Hc. simpl. rewrite Hmillis. reflexivity.
Qed.

Lemma whole_second_timestamps_exact_witness :
  unix_time_millis (mk_datetime 2023 1 1 0 0 0 0) =
    Ok (1000 * posix_seconds (mk_datetime 2023 1 1 0 0 0 0)) /\
  forall c, strptime (U := ascii_runtime) c = Ok (mk_datetime 2023 1 1 0 0 0 0) ->
            dbt_timestamp_of (OM := registering) c =
            Ok (Some (1000 * posix_seconds (mk_datetime 2023 1 1 0 0 0 0))).
Proof.
  apply (whole_second_timestamps_exact (OM := registering)
           (mk_datetime 2023 1 1 0 0 0 0)); reflexivity.
Defined.

(** The seconds of the witness. *)
Example posix_seconds_2023 :
  posix_seconds (mk_datetime 2023 1 1 0 0 0 0) = 1672531200.
Proof. reflexivity. Qed.

(** ** Fractions of a second *)

Lemma shr_1_nonneg (m : Z) (r s : bool) :
  0 <= m ->
  shr_1 {| shr_m := m; shr_r := r; shr_s := s |} =
  {| shr_m := m / 2; shr_r := Z.odd m; shr_s := r || s |}.
Proof.
  intros Hm. destruct m as [|[p|p|]|]; try lia; cbn [shr_1 Z.odd].
  - reflexivity.
  - f_equal. rewrite (Pos2Z.inj_xI p). apply Z.div_unique with (r := 1); lia.
  - f_equal. rewrite (Pos2Z.inj_xO p). apply Z.div_unique with (r := 0); lia.
  - reflexivity.
Qed.

Lemma shr_1_shifted_out (V j : Z) (mrs : shr_record) :
  0 <= j -> shifted_out V j mrs -> shifted_out V (j + 1) (shr_1 mrs).
Proof.
  intros Hj. destruct mrs as [m r s]. unfold shifted_out. cbn [shr_m shr_r shr_s].
  intros (Hm & Hrho & Hloc). rewrite shr_1_nonneg by exact Hm. cbn [shr_m shr_r shr_s].
  rewrite Z.pow_add_r by lia. change (2 ^ 1) with 2.
  assert (HA : 0 < 2 ^ j) by (apply Z.pow_pos_nonneg; lia).
  set (A := 2 ^ j) in *. clearbody A.
  pose proof (Zdiv.Zmod_odd m) as Hodd.
  pose proof (Z.div_mod m 2 ltac:(lia)) as Hdiv.
  set (h := m / 2) in *. clearbody h.
  assert (Hh : 0 <= h) by (destruct (Z.odd m); lia).
  destruct (Z.odd m); rewrite Hodd in Hdiv; subst m.
  - replace (V - h * (A * 2)) with (V - (2 * h + 1) * A + A) by ring.
    set (rho := V - (2 * h + 1) * A) in *. clearbody rho.
    destruct r, s; cbn [orb]; lia.
  - replace (V - h * (A * 2)) with (V - (2 * h + 0) * A) by ring.
    set (rho := V - (2 * h + 0) * A) in *. clearbody rho.
    destruct r, s; cbn [orb]; lia.
Qed.

Lemma iter_shr_1_shifted_out (t : positive) : forall (V j : Z) (mrs : shr_record),
  0 <= j -> shifted_out V j mrs -> shifted_out V (j + Zpos t) (iter_pos shr_1 t mrs).
Proof.
  induction t as [t IH|t IH|]; intros V j mrs Hj H.
  - rewrite iter_pos_xI.
    replace (j + Zpos t~1) with (j + 1 + Zpos t + Zpos t) by lia.
    apply IH; [lia|]. apply IH; [lia|]. apply shr_1_shifted_out; assumption.
  - rewrite iter_pos_xO.
    replace (j + Zpos t~0) with (j + Zpos t + Zpos t) by lia.
    apply IH; [lia|]. apply IH; assumption.
  - apply shr_1_shifted_out; assumption.
Qed.

(** Rounding to nearest what a shift left: the result is within half a
    unit of the last place. *)
Lemma round_shifted_out (V j : Z) (mrs : shr_record) :
  0 <= j -> shifted_out V j mrs ->
  shr_m mrs <= round_nearest_even (shr_m mrs) (loc_of_shr_record mrs) <= shr_m mrs + 1 /\
  - 2 ^ j <=
    2 * (round_nearest_even (shr_m mrs) (loc_of_shr_record mrs) * 2 ^ j - V) <= 2 ^ j.
Proof.
  intros Hj. destruct mrs as [m r s]. unfold shifted_out. cbn [shr_m shr_r shr_s].
  intros (Hm & Hrho & Hloc).
  assert (HA : 0 < 2 ^ j) by (apply Z.pow_pos_nonneg; lia).
  set (A := 2 ^ j) in *. clearbody A.
  destruct r, s; cbn [loc_of_shr_record round_nearest_even];
    try destruct (Z.even m); split; try lia; nia.
Qed.

Lemma digits2_pos_53 (x : positive) :
  2 ^ 52 <= Zpos x < 2 ^ 53 -> Zpos (digits2_pos x) = 53.
Proof. intros H. apply digits2_pos_unique. exact H. Qed.

(** Rounding a quotient by [10 ** 6]: the mantissa chosen is within half
    of the divisor of the dividend. *)
Lemma round_quotient_million (a : Z) :
  0 <= a ->
  a / 1000000 <= round_nearest_even (a / 1000000) (new_location 1000000 (a mod 1000000))
    <= a / 1000000 + 1 /\
  - 500000 <=
    round_nearest_even (a / 1000000) (new_location 1000000 (a mod 1000000)) * 1000000 - a
    <= 500000.
Proof.
  intros Ha. unfold new_location. change (Z.even 1000000) with true. cbv iota.
  unfold new_location_even.
  pose proof (Z.div_mod a 1000000 ltac:(lia)) as Hdiv.
  pose proof (Z.mod_pos_bound a 1000000 ltac:(lia)) as Hmod.
  set (q := a / 1000000) in *. set (r := a mod 1000000) in *. clearbody q r.
  destruct (r =? 0) eqn:Er.
  - apply Z.eqb_eq in Er. cbn [round_nearest_even]. lia.
  - apply Z.eqb_neq in Er.
    destruct (Z.compare_spec (2 * r) 1000000) as [H|H|H]; cbn [round_nearest_even];
      try destruct (Z.even q); lia.
Qed.

(** A mantissa of 53 bits with its location is rounded in place. *)
Lemma binary_round_aux_in_place (q : positive) (e : Z) (l : location) (R : positive) :
  Zpos (digits2_pos q) = 53 ->
  -1074 <= e <= 971 ->
  round_nearest_even (Zpos q) l = Zpos R ->
  Zpos (digits2_pos R) = 53 ->
  binary_round_aux 53 1024 false (Zpos q) e l = S754_finite false R e.
Proof.
  intros Hq He HR HdR. unfold binary_round_aux.
  assert (Hf : fexp 53 1024 (53 + e) = e) by (unfold fexp, emin; lia).
  unfold shr_fexp at 1. cbn [Zdigits2]. rewrite Hq, Hf, Z.sub_diag. cbn [shr].
  assert (Hl : loc_of_shr_record (shr_record_of_loc (Zpos q) l) = l)
    by (destruct l as [|[]]; reflexivity).
  assert (Hm : shr_m (shr_record_of_loc (Zpos q) l) = Zpos q)
    by (destruct l as [|[]]; reflexivity).
  rewrite Hl, Hm, HR.
  rewrite (shr_fexp_stay R e HdR) by lia. cbn [shr_m].
  assert (Hle : (e <=? 1024 - 53) = true) by (apply Z.leb_le; lia).
  rewrite Hle. reflexivity.
Qed.

(** A mantissa of more than 53 bits is shifted to 53 bits and rounded. *)
Lemma binary_round_aux_shifted (P : positive) (e : Z) (t : positive) :
  Zpos (digits2_pos P) = 53 + Zpos t ->
  -1074 <= e -> e + Zpos t <= 971 ->
  2 ^ 52 * 2 ^ Zpos t <= Zpos P ->
  2 * Zpos P < (2 * 2 ^ 53 - 3) * 2 ^ Zpos t ->
  exists R : positive,
    binary_round_aux 53 1024 false (Zpos P) e loc_Exact = S754_finite false R (e + Zpos t) /\
    - 2 ^ Zpos t <= 2 * (Zpos R * 2 ^ Zpos t - Zpos P) <= 2 ^ Zpos t.
Proof.
  intros Hd He Het Hlo Hhi. unfold binary_round_aux.
  assert (Hf : fexp 53 1024 (53 + Zpos t + e) - e = Zpos t) by (unfold fexp, emin; lia).
  unfold shr_fexp at 1. cbn [Zdigits2]. rewrite Hd, Hf. cbn [shr shr_record_of_loc].
  assert (H0 : shifted_out (Zpos P) 0 {| shr_m := Zpos P; shr_r := false; shr_s := false |}).
  { unfold shifted_out. cbn [shr_m shr_r shr_s]. change (2 ^ 0) with 1. lia. }
  pose proof (iter_shr_1_shifted_out t (Zpos P) 0 _ ltac:(lia) H0) as Hs.
  rewrite Z.add_0_l in Hs.
  set (mrs := iter_pos shr_1 t {| shr_m := Zpos P; shr_r := false; shr_s := false |}) in *.
  destruct (round_shifted_out (Zpos P) (Zpos t) mrs ltac:(lia) Hs) as [HR Hbound].
  destruct Hs as (Hm & Hrho & _).
  set (R := round_nearest_even (shr_m mrs) (loc_of_shr_record mrs)) in *. clearbody R.
  assert (HA : 0 < 2 ^ Zpos t) by (apply Z.pow_pos_nonneg; lia).
  set (A := 2 ^ Zpos t) in *. clearbody A.
  change (2 ^ 52) with 4503599627370496 in Hlo.
  change (2 ^ 53) with 9007199254740992 in Hhi.
  assert (HRb : 2 ^ 52 <= R < 2 ^ 53).
  { change (2 ^ 52) with 4503599627370496. change (2 ^ 53) with 9007199254740992.
    split; nia. }
  destruct R as [|R|R]; try (change (2 ^ 52) with 4503599627370496 in HRb; lia).
  exists R. split; [|exact Hbound].
  rewrite (shr_fexp_stay R (e + Zpos t) (digits2_pos_53 R HRb)) by lia. cbn [shr_m].
  assert (Hle : (e + Zpos t <=? 1024 - 53) = true) by (apply Z.leb_le; lia).
  rewrite Hle. reflexivity.
Qed.

(** The division of a count [n] of microseconds of 51 bits by [10 ** 6]. *)
Lemma SFdiv_million_rounded (n : positive) :
  2 ^ 50 <= Zpos n < 2 ^ 31 * 1000000 ->
  exists mq : positive,
    SFdiv 53 1024 (S754_finite false n 0) (S754_finite false 1000000 0) =
      S754_finite false mq (-22) /\
    - 500000 <= Zpos mq * 1000000 - Zpos n * 2 ^ 22 <= 500000.
Proof.
  intros Hn.
  assert (Hd : Zpos (digits2_pos n) = 51).
  { apply digits2_pos_unique. change (51 - 1) with 50.
    change (2 ^ 51) with 2251799813685248. change (2 ^ 31) with 2147483648 in Hn. lia. }
  unfold SFdiv, SFdiv_core_binary. cbv zeta. cbn [Zdigits2]. rewrite Hd.
  change (Zpos (digits2_pos 1000000)) with 20.
  change (Z.min (fexp 53 1024 (51 + 0 - (20 + 0))) (0 - 0)) with (-22).
  change (0 - 0 - -22) with 22. cbv iota.
  rewrite Z.shiftl_mul_pow2, div_eucl_exact by lia.
  change (2 ^ 22) with 4194304 in *. change (2 ^ 50) with 1125899906842624 in Hn.
  change (2 ^ 31) with 2147483648 in Hn. cbn [xorb].
  set (a := Zpos n * 4194304).
  destruct (round_quotient_million a ltac:(lia)) as [HR Hbound].
  pose proof (Z.div_mod a 1000000 ltac:(lia)) as Hdiv.
  pose proof (Z.mod_pos_bound a 1000000 ltac:(lia)) as Hmod.
  set (R := round_nearest_even (a / 1000000) (new_location 1000000 (a mod 1000000))) in *.
  assert (Hq : 2 ^ 52 <= a / 1000000 < 2 ^ 53 - 1).
  { change (2 ^ 52) with 4503599627370496. change (2 ^ 53) with 9007199254740992.
    unfold a in *. lia. }
  destruct (a / 1000000) as [|q|q] eqn:Eq;
    try (change (2 ^ 52) with 4503599627370496 in Hq; lia).
  assert (HRb : 2 ^ 52 <= R < 2 ^ 53) by lia.
  destruct R as [|mq|mq] eqn:ER; try (change (2 ^ 52) with 4503599627370496 in HRb; lia).
  exists mq. split.
  - apply binary_round_aux_in_place.
    + apply digits2_pos_53. lia.
    + lia.
    + exact ER.
    + apply digits2_pos_53. exact HRb.
  - unfold a in Hbound. exact Hbound.
Qed.

(** The multiplication by the float 1000 of a float of 53 bits and
    exponent [-22] whose thousandfold has 63 bits. *)
Lemma SFmul_thousand_rounded (mq : positive) :
  2 ^ 62 <= 1000 * Zpos mq -> Zpos mq < 2 ^ 53 ->
  exists mr : positive,
    SFmul 53 1024 (S754_finite false mq (-22))
      (S754_finite false 8796093022208000 (-43)) = S754_finite false mr (-12) /\
    - 512 <= Zpos mr * 1024 - 1000 * Zpos mq <= 512.
Proof.
  intros Hlo Hhi. unfold SFmul. cbn [xorb]. change (-22 + -43) with (-65).
  change (2 ^ 62) with 4611686018427387904 in Hlo.
  change (2 ^ 53) with 9007199254740992 in Hhi.
  assert (HP : Zpos (mq * 8796093022208000) = 1000 * Zpos mq * 2 ^ 43).
  { rewrite Pos2Z.inj_mul. change (Zpos 8796093022208000) with (1000 * 2 ^ 43). ring. }
  change (2 ^ 43) with 8796093022208 in HP.
  destruct (binary_round_aux_shifted (mq * 8796093022208000) (-65) 53) as (mr & Hmr & Hb).
  - apply digits2_pos_unique. rewrite HP.
    change (53 + 53 - 1) with 105. change (53 + 53) with 106.
    change (2 ^ 105) with 40564819207303340847894502572032.
    change (2 ^ 106) with 81129638414606681695789005144064. lia.
  - lia.
  - lia.
  - rewrite HP. change (2 ^ 52) with 4503599627370496.
    change (2 ^ 53) with 9007199254740992. lia.
  - rewrite HP. change (2 ^ 53) with 9007199254740992. lia.
  - exists mr. split; [exact Hmr|].
    rewrite HP in Hb. change (2 ^ 53) with 9007199254740992 in Hb. lia.
Qed.

(** The float that [total_seconds] gives for a count of microseconds of
    51 bits, multiplied by 1000 and truncated, is the count of whole
    milliseconds. *)
Lemma millis_of_microseconds (n : Z) :
  2 ^ 50 <= n < 2 ^ 31 * 1000000 ->
  py_int_of_float (py_mul_float_int (py_truediv_int n 1000000) 1000) = Ok (n / 1000).
Proof.
  intros Hn. unfold py_mul_float_int, py_truediv_int, prec64, emax64.
  assert (Hk : float_of_int 1000 = S754_finite false 8796093022208000 (-43))
    by (vm_compute; reflexivity).
  rewrite Hk.
  destruct n as [|p|p]; try (change (2 ^ 50) with 1125899906842624 in Hn; lia).
  change (exact_of_int (Zpos p)) with (S754_finite false p 0).
  change (exact_of_int 1000000) with (S754_finite false 1000000 0).
  destruct (SFdiv_million_rounded p Hn) as (mq & -> & Hq).
  change (2 ^ 50) with 1125899906842624 in Hn. change (2 ^ 31) with 2147483648 in Hn.
  change (2 ^ 22) with 4194304 in Hq.
  destruct (SFmul_thousand_rounded mq) as (mr & -> & Hr).
  - change (2 ^ 62) with 4611686018427387904. lia.
  - change (2 ^ 53) with 9007199254740992. lia.
  - unfold py_int_of_float. rewrite Z.shiftr_div_pow2 by lia.
    change (2 ^ 12) with 4096. f_equal.
    pose proof (Z.div_mod (Zpos p) 1000 ltac:(lia)) as Hdiv.
    pose proof (Z.mod_pos_bound (Zpos p) 1000 ltac:(lia)) as Hmod.
    set (K := Zpos p / 1000) in *. set (rho := Zpos p mod 1000) in *. clearbody K rho.
    symmetry. apply Z.div_unique with (r := Zpos mr - 4096 * K); lia.
Qed.

Lemma posix_seconds_of_the_years (dt : datetime) :
  datetime_ok dt = true -> 2006 <= year dt <= 2037 ->
  1136073600 <= posix_seconds dt < 2 ^ 31 /\ 0 <= microsecond dt <= 999999.
Proof.
  unfold datetime_ok. intros H Hy.
  repeat match goal with
         | H : (_ && _)%bool = true |- _ => apply andb_prop in H; destruct H
         end.
  repeat match goal with
         | H : (_ <=? _) = true |- _ => apply Z.leb_le in H
         end.
  split; [|lia].
  unfold posix_seconds, toordinal.
  change (days_before_year (year epoch) + days_before_month (year epoch) (month epoch)
          + day epoch) with 719163.
  pose proof (days_before_month_from_bounds (year dt) (Z.to_nat (month dt - 1))) as Hm.
  fold (days_before_month (year dt) (month dt)) in Hm.
  rewrite Z2Nat.id in Hm by lia.
  unfold days_before_year. change (2 ^ 31) with 2147483648.
  pose proof (days_in_month_bounds (year dt) (month dt)).
  set (b := days_before_month (year dt) (month dt)) in *. clearbody b.
  Z.div_mod_to_equations. lia.
Qed.

(** The microseconds from the epoch to [dt], as [datetime] subtraction
    and [total_seconds] count them. *)
Lemma microseconds_since_epoch (dt : datetime) :
  0 <= microsecond dt <= 999999 ->
  unix_time dt =
  py_truediv_int (posix_seconds dt * 1000000 + microsecond dt) 1000000.
Proof.
  intros Hus. unfold unix_time, total_seconds, datetime_sub, normal_timedelta.
  cbn [days seconds microseconds].
  change (microsecond epoch) with 0.
  change (second epoch + minute epoch * 60 + hour epoch * 3600) with 0.
  rewrite !Z.sub_0_r.
  rewrite (Z.div_small (microsecond dt) 1000000), (Z.mod_small (microsecond dt) 1000000)
    by lia.
  rewrite Z.add_0_r. f_equal. f_equal. unfold posix_seconds.
  pose proof (Z.div_mod (second dt + minute dt * 60 + hour dt * 3600) 86400 ltac:(lia)).
  lia.
Qed.

(** [unix_time_millis] is exact to the millisecond in the years 2006 to
    2037: for a date and time of those years the rounding of the division
    in [total_seconds] and the rounding of the multiplication by 1000
    cancel under the truncation, which gives the whole milliseconds since
    the epoch; and so does the timestamp of a completion time that reads
    as such a date and time. *)
Theorem timestamps_exact_to_the_millisecond {Catalog : Type} {OM : OpenMetadata Catalog}
    (dt : datetime) :
  datetime_ok dt = true ->
  2006 <= year dt <= 2037 ->
  unix_time_millis dt = Ok (1000 * posix_seconds dt + microsecond dt / 1000) /\
  forall c, strptime c = Ok dt ->
            dbt_timestamp_of c =
            Ok (Some (1000 * posix_seconds dt + microsecond dt / 1000)).
Proof.
  intros Hok Hy.
  destruct (posix_seconds_of_the_years dt Hok Hy) as [Hs Hus].
  assert (Hmillis : unix_time_millis dt
                    = Ok (1000 * posix_seconds dt + microsecond dt / 1000)).
  { unfold unix_time_millis. rewrite (microseconds_since_epoch dt Hus).
    change (2 ^ 31) with 2147483648 in Hs.
    rewrite millis_of_microseconds.
    - f_equal.
      replace (posix_seconds dt * 1000000 + microsecond dt)
        with (microsecond dt + (1000 * posix_seconds dt) * 1000) by ring.
      rewrite Z.div_add by lia. ring.
    - change (2 ^ 50) with 1125899906842624. change (2 ^ 31) with 2147483648. lia. }
  split; [exact Hmillis|].
  intros c Hc. unfold dbt_timestamp_of.
  assert (Htruthy : py_truthy c = true).
  { destruct c; try discriminate Hc. simpl.
    destruct s; [discriminate Hc | reflexivity]. }
  rewrite Htruthy, Hc. simpl. rewrite Hmillis. reflexivity.
Qed.

Lemma timestamps_exact_to_the_millisecond_witness :
  unix_time_millis (mk_datetime 2023 1 1 12 30 15 123456) =
    Ok (1000 * posix_seconds (mk_datetime 2023 1 1 12 30 15 123456) + 123456 / 1000) /\
  forall c, strptime (U := ascii_runtime) c = Ok (mk_datetime 2023 1 1 12 30 15 123456) ->
            dbt_timestamp_of (OM := registering) c =
            Ok (Some (1000 * posix_seconds (mk_datetime 2023 1 1 12 30 15 123456)
                      + 123456 / 1000)).
Proof.
  apply (timestamps_exact_to_the_millisecond (OM := registering)
           (mk_datetime 2023 1 1 12 30 15 123456));
    [reflexivity | simpl; lia].
Defined.

(** The timestamp of the witness, and one of the year 2004, where the
    truncation loses a millisecond: 2004-11-02T04:30:47.064 is
    1099369847064 milliseconds after the epoch. *)
Example timestamp_in_2023 {Catalog : Type} {OM : OpenMetadata Catalog} :
  dbt_timestamp_of (JStr "2023-01-01T12:30:15.123456Z") = Ok (Some 1672576215123).
Proof. vm_compute. reflexivity. Qed.

Example timestamp_in_2004 {Catalog : Type} {OM : OpenMetadata Catalog} :
  dbt_timestamp_of (JStr "2004-11-02T04:30:47.064000Z") = Ok (Some 1099369847063).
Proof. vm_compute. reflexivity. Qed.
